(* ===== verification/_CoqProject ===== *)
-Q . S2P
Prelude.v
Remote.v
Schema.v
Friends.v
Reviews.v
Tmdb.v
Watchlist.v
Collections.v
Discover.v
Profile.v
Prefs.v
Auth.v
Typing.v
ReviewDialog.v
Cache.v
