(* ===== verification/Prelude.v ===== *)
(** * PopStack: a verification development of its data-access layer

    PopStack (src/src) is a React/TypeScript front end for tracking movies,
    series and games.  Every persistent operation goes through one Supabase
    (PostgREST) client; the logic that can be verified lives in the hooks of
    [src/src/hooks], which build PostgREST requests, check their responses
    and invalidate the react-query cache, and in the handlers of the
    components and pages that call them.

    ** Parts of the program and how they interact

    - The remote store (the Supabase client, [src/src/lib/supabase], not in
      the repository) answers select / insert / update / delete requests on
      tables addressed by name.  Its schema is the one declared in
      [src/src/types/database.ts].
    - The hooks (useFriends.ts, useReviews.ts, useWatchlist.ts,
      useCollections.ts, useProfile.ts, useProfileUpdate.ts, ...) are the
      entity access functions: each [queryFn] is a read, each [mutationFn]
      a sequence of reads and writes that throws on the first error.
    - The react-query cache holds one entry per query key; every mutation's
      [onSuccess] invalidates the keys it names, by prefix.
    - The components (FriendsSidebar.tsx) and pages (Discover, Collection,
      Watchlist, Profile, FriendProfile, Settings) call the hooks and turn
      thrown errors into toasts; their React state is a record and their
      handlers and effects are functions or steps on it.
    - The contexts give the signed-in user (AuthContext.tsx, which every
      hook reads as [user]), the language and the theme, both kept in
      [localStorage].

    ** Files, and which part each models

    - [Prelude] (this file): the JavaScript error object, the result of a
      request ([Ok] / [Err]), the state-and-error monad in which every hook
      is written (stdpp's [x ← m; k] notation) with [preserves], the
      combinators that carry a store invariant through a hook, JavaScript
      string helpers ([includes], ASCII [toLowerCase]), list lemmas, the
      stable sort behind [Array.prototype.sort] and [.order()], the
      [popstack] hint databases and the development's tactics.
    - [Remote]: the PostgREST store, modelled from the spec (section 6)
      because the client library is not in the repository.  Rows are
      [gmap string jvalue] (a JSON object), a table is the list of its rows
      in insertion order, a request is a list of filters ([eq], [neq], [in],
      [ilike], [or], [and]) read as a conjunction.  [insert_row] checks the
      columns against the schema, fills generated columns and enforces the
      unique constraints, a parameter of the model because they are
      declared in the database; [upsert_row] updates the rows matching the
      conflict columns or inserts; [delete_rows] cascades to the child
      tables.  [maybe_single] and [single] give the response shapes of
      [.maybeSingle()] and [.single()], including error PGRST116.
      [store_typed] says every row carries only its table's columns.
    - [Schema]: the tables of src/src/types/database.ts, their columns, the
      columns an insert must give, and the cascade of collection_items.
    - [Friends]: useFriends.ts and the decision logic of FriendsSidebar.tsx.
    - [Reviews]: useReviews.ts, useMovieReviews.ts and useGameReviews.ts.
    - [Tmdb]: the endpoint and query strings of src/src/services/tmdb.ts.
    - [Watchlist]: useWatchlist.ts, the bookmark of Discover.tsx and the
      Watchlist page.
    - [Collections]: useCollections.ts and pages/Collection.tsx, whose
      handlers map a page state and a store to a toast, a state and a store.
    - [Discover]: pages/Discover.tsx as a state machine ([step] on
      [DiscoverState]) and the request builders of hooks/useMedia.ts.
    - [Profile]: useProfile.ts, useProfileUpdate.ts, Profile.tsx and
      FriendProfile.tsx.
    - [Prefs]: useTheme.ts, LanguageContext.tsx, Settings.tsx,
      useUserStats.ts and src/scripts/toggle-demo.js.
    - [Auth]: contexts/AuthContext.tsx as the step relation [auth_step],
      the Supabase auth server modelled from the spec.
    - [Typing]: the list [hook_call] of every mutation hook, [hook_run]
      (the hook and whether it returned), the lemma that they keep
      [store_typed], and the check of every payload the hooks build
      against the columns of database.ts ([table_unknown]).
    - [ReviewDialog]: components/ReviewDialog.tsx: its form state, the
      effect that loads the existing review, the input events, and
      [handleSubmit] / [handleDelete] with their toasts.
    - [Cache]: the react-query cache: the keys of the read hooks the
      pages mount ([query_req], [qr_key]) and their query functions
      ([qr_fn]), the prefixes each mutation's [onSuccess] invalidates
      ([onSuccess_keys]), react-query's prefix matching and refetch
      ([invalidate]) and [mutateAsync] ([mutate]); the tables each query
      reads and each mutation may change, with the frame lemma
      [hook_frame] proved from the store operations; the queries and
      mutations of the Discover page, the friends sidebar and the Profile
      page, with row-level frame lemmas for the friendship hooks.

    ** What the theorems show

    Listed in PROJECT.json, in order of importance; each is the theorem
    named there with a doc comment naming its claim.  In short: the
    friendship state machine refuses a second request for a pair in either
    direction, keeps at most one row per unordered pair when calls are
    sequential, and loses that invariant under the interleaving the code
    allows; search never returns the searching user nor more than 10 rows;
    every payload the hooks build names only declared columns, except
    the game review's two; the review
    upsert is a round trip, game reviews are always refused (watched_date),
    and concurrent saves duplicate rows; the search text cannot inject
    TMDB parameters; the watchlist duplicates items without a unique
    key, its two filtering paths agree, and with duplicates the bookmark
    (which keeps the check's last answer, as react-query does) either
    only adds rows or deletes them all;
    the collection hooks refine list append and filter, deletion cascades,
    and item lookups leak other users' collections; the Discover page drops
    the year filter for series, sends empty metacritic ranges for the
    movie ratings 6-9, keeps
    stale results, duplicates refetched pages, opens series through the
    movie endpoint, and its Load More loop ends; sign-in outside demo mode
    always reaches the account, and sign-out leaves the demo user signed
    in; the user's own statistics always throw, the friend's statistics
    count their rows, and the profile update is a round trip; the review
    dialog reopens on what it saved and refuses a review without a
    rating; and the [onSuccess] invalidations keep the cache coherent
    with the store on the Discover page, in the friends sidebar (where a
    mutation invalidates only some of the three lists and the proof
    follows the rows each one changes) and on the Profile page.

    ** Bounds and fuel

    One definition takes fuel: [Discover.load_all], the user clicking Load
    More, which [load_more_terminates] shows needs no more than
    [T - page] rounds for [T] pages.  Every other function is structural
    on a list or a string.  Identifiers (uuids) are [nat]s drawn from a
    counter of the store, timestamps are the store's insertion clock,
    page numbers and counts are [Z] (JavaScript numbers are integers here).

    ** Not modelled

    Of the react-query cache: [staleTime], refetch on window focus, the
    catalogue (TMDB, RAWG) queries, the sidebar's user search, and
    page-level coherence for the Watchlist, Collection and Settings
    pages (the Settings save invalidates no query); DemoContext.tsx, which only exposes the
    [DEMO_MODE] constant; ReviewViewDialog.tsx, which only renders; UI rendering and styling, routing and the static pages;
    the translation tables of src/src/lib/i18n.ts and the mock data;
    the catalog HTTP APIs (TMDB, RAWG) beyond the URL and parameter
    builders, and the RAWG client, which is not in the repository; row-
    level security of the hosted backend; and real time: the debounce
    timer is modelled as explicit events. *)

From stdpp Require Export base gmap strings list.
From Stdlib Require Export ZArith Ascii.
From Stdlib Require String.
From Stdlib Require Export Sorted.

Declare Scope ps_scope.
Create HintDb popstack discriminated.
Delimit Scope ps_scope with ps.

(** ** JavaScript errors

    A thrown value of the code is an [Error] (from [new Error(msg)]) or a
    PostgREST error object; both carry a message and the latter a code. *)
Record js_error := JsError { err_code : option string; err_message : string }.

Definition new_Error (msg : string) : js_error := JsError None msg.

(** The outcome of an async function: a value, or the error it threw. *)
Inductive result (A : Type) : Type :=
  | Ok (a : A)
  | Err (e : js_error).
Arguments Ok {A} a.
Arguments Err {A} e.

Lemma Ok_inj {A} (a b : A) : Ok a = Ok b -> a = b.
Proof. intros H. by injection H. Qed.

Definition is_ok {A} (r : result A) : bool :=
  match r with Ok _ => true | Err _ => false end.

(** ** The state and error monad of the hooks

    An async hook over a store of type [S] runs to a result and a new
    store.  [throw] is JavaScript's [throw]: the rest of the function is
    skipped and the store keeps the writes already made. *)
Definition M (S A : Type) : Type := S -> result A * S.

#[export] Instance M_ret S : MRet (M S) := fun A a s => (Ok a, s).
#[export] Instance M_bind S : MBind (M S) := fun A B k m s =>
  match m s with
  | (Ok a, s') => k a s'
  | (Err e, s') => (Err e, s')
  end.

Definition throw {S A} (e : js_error) : M S A := fun s => (Err e, s).
Definition get_state {S} : M S S := fun s => (Ok s, s).

(** [lift_read f]: a request that reads the store. *)
Definition lift_read {S A} (f : S -> A) : M S A := fun s => (Ok (f s), s).

(** [lift_write f]: a request that may change the store. *)
Definition lift_write {S A} (f : S -> A * S) : M S A :=
  fun s => let '(a, s') := f s in (Ok a, s').

Section monad_laws.
Context {S A B : Type}.

Lemma bind_ok_run (m : M S A) (k : A -> M S B) s a s' :
  m s = (Ok a, s') -> (x ← m; k x) s = k a s'.
Proof. intros H. cbn. unfold mbind, M_bind. by rewrite H. Qed.

Lemma bind_err_run (m : M S A) (k : A -> M S B) s e s' :
  m s = (Err e, s') -> (x ← m; k x) s = (Err e, s').
Proof. intros H. cbn. unfold mbind, M_bind. by rewrite H. Qed.

Lemma ret_run (a : A) s : (mret a : M S A) s = (Ok a, s).
Proof. reflexivity. Qed.

Lemma lift_read_bind (f : S -> A) (k : A -> M S B) s :
  (x ← lift_read f; k x) s = k (f s) s.
Proof. reflexivity. Qed.

Lemma lift_write_bind (f : S -> A * S) (k : A -> M S B) s :
  (x ← lift_write f; k x) s = k (f s).1 (f s).2.
Proof. cbn. unfold mbind, M_bind, lift_write. by destruct (f s). Qed.

Lemma get_state_bind (k : S -> M S B) s : (x ← get_state; k x) s = k s s.
Proof. reflexivity. Qed.

Lemma throw_bind e (k : A -> M S B) s : (x ← throw e; k x) s = (Err e, s).
Proof. reflexivity. Qed.
End monad_laws.

(** ** Store invariants of monadic code

    [preserves P m]: every run of [m] from a store satisfying [P] ends,
    whether it returns or throws, in a store satisfying [P].  The
    combinators below prove it for a hook from the requests it makes. *)
Definition preserves {S A} (P : S -> Prop) (m : M S A) : Prop :=
  forall s, P s -> P (snd (m s)).

Section preserves.
Context {S A B : Type} (P : S -> Prop).

Lemma preserves_ret (a : A) : preserves P (mret a : M S A).
Proof. by intros s Hs. Qed.

Lemma preserves_throw e : preserves P (throw e : M S A).
Proof. by intros s Hs. Qed.

Lemma preserves_read (f : S -> A) : preserves P (lift_read f).
Proof. by intros s Hs. Qed.

Lemma preserves_write (f : S -> A * S) :
  (forall s, P s -> P (snd (f s))) -> preserves P (lift_write f).
Proof. intros Hf s Hs. unfold lift_write. specialize (Hf s Hs). by destruct (f s). Qed.

Lemma preserves_bind (m : M S A) (k : A -> M S B) :
  preserves P m -> (forall a, preserves P (k a)) -> preserves P (x ← m; k x).
Proof.
  intros Hm Hk s Hs. cbn. unfold mbind, M_bind. specialize (Hm s Hs).
  destruct (m s) as [[a|e] s'] eqn:E; cbn in Hm |- *; [by apply Hk|exact Hm].
Qed.
End preserves.

#[export] Hint Resolve preserves_ret preserves_throw preserves_read : popstack.

(** Splits a hook into its requests: binds, and the matches on their
    responses. *)
Ltac preserves_solve :=
  repeat first
    [ apply preserves_ret | apply preserves_throw | apply preserves_read
    | apply preserves_bind; [|intros ?]
    | progress case_match ].

(** ** JavaScript string helpers *)

(** [hay.includes(needle)]. *)
Fixpoint includes (hay needle : string) : bool :=
  String.prefix needle hay ||
  match hay with
  | EmptyString => false
  | String _ t => includes t needle
  end.

(** ASCII case folding, the part of [toLowerCase] the model needs. *)
Definition ascii_lower (c : ascii) : ascii :=
  let n := nat_of_ascii c in
  if (65 <=? n) && (n <=? 90) then ascii_of_nat (n + 32) else c.

Fixpoint string_lower (s : string) : string :=
  match s with
  | EmptyString => EmptyString
  | String c t => String (ascii_lower c) (string_lower t)
  end.

Lemma prefix_app (p t : string) : String.prefix p (p ++ t) = true.
Proof.
  induction p as [|c p IH]; [by destruct t|]. simpl.
  destruct (ascii_dec c c); [exact IH|congruence].
Qed.

Lemma includes_eq (hay needle : string) :
  includes hay needle =
  String.prefix needle hay ||
  match hay with EmptyString => false | String _ t => includes t needle end.
Proof. by destruct hay. Qed.

Lemma includes_app_l (p t : string) : includes (p ++ t) p = true.
Proof. by rewrite includes_eq, prefix_app. Qed.

Lemma includes_cons (c : ascii) (t n : string) :
  includes t n = true -> includes (String c t) n = true.
Proof. intros H. rewrite includes_eq, H. by rewrite orb_true_r. Qed.

(** [includes] finds a needle anywhere in the haystack. *)
Lemma includes_middle (a p t : string) : includes (a ++ p ++ t) p = true.
Proof.
  induction a as [|c a IH]; [exact (includes_app_l p t)|].
  simpl. apply includes_cons, IH.
Qed.

Lemma string_length_app (s t : string) : String.length (s ++ t) = String.length s + String.length t.
Proof. induction s as [|c s IH]; [reflexivity|]. change (S (String.length (s ++ t)) = S (String.length s + String.length t)). by rewrite IH. Qed.

(** ** Lists *)

(** [Array.prototype.find]. *)
Definition find_first {A} (P : A -> bool) (l : list A) : option A := List.find P l.

Lemma find_first_some {A} (P : A -> bool) (l : list A) x :
  find_first P l = Some x -> In x l /\ P x = true.
Proof. apply List.find_some. Qed.

Lemma find_first_none {A} (P : A -> bool) (l : list A) :
  find_first P l = None -> forall x, In x l -> P x = false.
Proof. apply List.find_none. Qed.

Lemma find_first_in {A} (P : A -> bool) (l : list A) x :
  In x l -> P x = true -> exists y, find_first P l = Some y.
Proof.
  intros Hin Hp. unfold find_first.
  destruct (List.find P l) eqn:E; [eauto|].
  rewrite (List.find_none _ _ E x Hin) in Hp. discriminate.
Qed.

Lemma filter_length_le {A} (P : A -> bool) (l : list A) :
  length (List.filter P l) <= length l.
Proof.
  induction l as [|x l IH]; cbn; [lia|]. destruct (P x); cbn; lia.
Qed.

Lemma Forall_list_filter {A} (Q : A -> Prop) (P : A -> bool) (l : list A) :
  Forall Q l -> Forall Q (List.filter P l).
Proof.
  induction 1 as [|x l Hx _ IH]; cbn; [constructor|].
  destruct (P x); [constructor|]; assumption.
Qed.

Lemma Forall_map_impl {A} (P : A -> Prop) (f : A -> A) (l : list A) :
  (forall x, P x -> P (f x)) -> Forall P l -> Forall P (map f l).
Proof. intros Hf. induction 1; constructor; auto. Qed.

Lemma In_firstn {A} n (l : list A) x : In x (List.firstn n l) -> In x l.
Proof.
  revert l. induction n as [|n IH]; intros [|y l]; cbn; try tauto.
  intros [->|H]; [by left|right; by apply IH].
Qed.

(** Two members of a list of length at most one are equal. *)
Lemma In_le1_eq {A} (l : list A) x y : length l <= 1 -> In x l -> In y l -> x = y.
Proof. destruct l as [|z [|w k]]; cbn; intros Hl; [tauto| |lia]. intros [<-|[]] [<-|[]]; done. Qed.

Lemma length_firstn_le {A} n (l : list A) : length (List.firstn n l) <= n.
Proof. rewrite List.length_firstn. lia. Qed.


(** A map that keeps the test of a filter commutes with it. *)
Lemma filter_map_comm {A} (P : A -> bool) (f : A -> A) (l : list A) :
  (forall x, In x l -> P (f x) = P x) -> List.filter P (map f l) = map f (List.filter P l).
Proof.
  induction l as [|x l IH]; intros H; cbn; [done|].
  rewrite (H x (or_introl eq_refl)), IH by (intros y Hy; apply H; by right).
  by destruct (P x).
Qed.

(** Elements of a list with distinct keys are determined by their key. *)
Lemma NoDup_map_eq {A B} (f : A -> B) (l : list A) x y :
  NoDup (map f l) -> In x l -> In y l -> f x = f y -> x = y.
Proof.
  induction l as [|z l IH]; cbn; [tauto|]. rewrite NoDup_cons. intros [Hz Hl] Hx Hy Hf.
  destruct Hx as [<-|Hx], Hy as [<-|Hy]; [done| | |by apply IH].
  - exfalso. apply Hz. rewrite Hf, list_elem_of_In. by apply in_map.
  - exfalso. apply Hz. rewrite <-Hf, list_elem_of_In. by apply in_map.
Qed.

Lemma filter_map_length {A} (P : A -> bool) (f : A -> A) (l : list A) :
  (forall x, P (f x) = P x) -> length (List.filter P (map f l)) = length (List.filter P l).
Proof. intros H. induction l as [|x l IH]; [done|]. cbn. rewrite H. destruct (P x); cbn; lia. Qed.

Lemma filter_app_length {A} (P : A -> bool) l x :
  length (List.filter P (l ++ [x])) = length (List.filter P l) + (if P x then 1 else 0).
Proof. rewrite List.filter_app, length_app. cbn. by destruct (P x). Qed.

Lemma filter_filter_length {A} (P Q : A -> bool) l :
  length (List.filter P (List.filter Q l)) <= length (List.filter P l).
Proof.
  induction l as [|x l IH]; cbn; [lia|].
  destruct (Q x), (P x) eqn:E; cbn; rewrite ?E; cbn; lia.
Qed.

Lemma NoDup_map_filter {A B} (f : A -> B) (P : A -> bool) (l : list A) :
  NoDup (map f l) -> NoDup (map f (List.filter P l)).
Proof.
  induction l as [|x l IH]; cbn; [done|]. rewrite NoDup_cons. intros [Hx Hl].
  destruct (P x); cbn; [|by apply IH]. rewrite NoDup_cons. split; [|by apply IH].
  rewrite !list_elem_of_In, in_map_iff in *. intros [y [Hy Hin]]. apply Hx.
  exists y. split; [exact Hy|]. apply List.filter_In in Hin. tauto.
Qed.

Lemma filter_negb_nil {A} (P : A -> bool) (l : list A) :
  List.filter P (List.filter (fun x => negb (P x)) l) = [].
Proof. induction l as [|x l IH]; cbn; [done|]. destruct (P x) eqn:E; cbn; rewrite ?E; done. Qed.

Lemma filter_idem {A} (P : A -> bool) (l : list A) : List.filter P (List.filter P l) = List.filter P l.
Proof. induction l as [|x l IH]; cbn; [done|]. destruct (P x) eqn:E; cbn; rewrite ?E, ?IH; done. Qed.

(** A filter does not see a change of the elements it rejects before
    and after, nor the removal or the addition of elements it rejects. *)
Lemma filter_map_if {A} (P Q : A -> bool) (f : A -> A) (l : list A) :
  (forall x, In x l -> Q x = true -> P (f x) = false /\ P x = false) ->
  List.filter P (map (fun x => if Q x then f x else x) l) = List.filter P l.
Proof.
  induction l as [|x l IH]; intros H; [done|]. cbn [map List.filter].
  assert (IH' : List.filter P (map (fun x => if Q x then f x else x) l) = List.filter P l)
    by (apply IH; intros y Hy; apply H; by right).
  destruct (Q x) eqn:Hq; [|by rewrite IH'].
  destruct (H x (or_introl eq_refl) Hq) as [-> ->]. exact IH'.
Qed.

Lemma filter_remove_disjoint {A} (P Q : A -> bool) (l : list A) :
  (forall x, In x l -> Q x = true -> P x = false) ->
  List.filter P (List.filter (fun x => negb (Q x)) l) = List.filter P l.
Proof.
  induction l as [|x l IH]; intros H; [done|].
  assert (IH' : List.filter P (List.filter (fun x => negb (Q x)) l) = List.filter P l)
    by (apply IH; intros y Hy; apply H; by right).
  cbn [List.filter]. destruct (Q x) eqn:Hq; cbn [negb].
  - by rewrite (H x (or_introl eq_refl) Hq).
  - cbn [List.filter]. by rewrite IH'.
Qed.

Lemma filter_snoc_false {A} (P : A -> bool) (l : list A) x :
  P x = false -> List.filter P (l ++ [x]) = List.filter P l.
Proof. intros Hx. rewrite List.filter_app. cbn [List.filter]. rewrite Hx. apply app_nil_r. Qed.

(** ** Stable sorting

    [Array.prototype.sort] is stable (ES2019) and PostgREST's [.order()]
    is modelled as stable on the table's insertion order: both are
    [stable_sort le], an insertion sort in which [le a b] says that [a]
    may stay before [b].  For a total [le] its result is sorted and a
    permutation of its input, and a stable sort of a list is unique, so
    any stable algorithm gives the same list. *)
Section sort.
Context {A : Type} (le : A -> A -> bool).

Fixpoint insert_sorted (x : A) (l : list A) : list A :=
  match l with
  | [] => [x]
  | y :: l' => if le y x then y :: insert_sorted x l' else x :: l
  end.

Definition stable_sort (l : list A) : list A :=
  fold_left (fun acc x => insert_sorted x acc) l [].

Lemma insert_sorted_perm x l : insert_sorted x l ≡ₚ x :: l.
Proof.
  induction l as [|y l IH]; cbn; [done|].
  destruct (le y x); [|done]. rewrite IH. by constructor.
Qed.

Lemma stable_sort_perm l : stable_sort l ≡ₚ l.
Proof.
  unfold stable_sort.
  enough (forall acc, fold_left (fun acc x => insert_sorted x acc) l acc ≡ₚ l ++ acc)
    by (rewrite H; by rewrite app_nil_r).
  induction l as [|x l IH]; intros acc; cbn; [done|].
  rewrite IH, insert_sorted_perm. by rewrite Permutation_middle.
Qed.

Lemma stable_sort_in l x : In x (stable_sort l) <-> In x l.
Proof. split; apply Permutation_in; [|symmetry]; apply stable_sort_perm. Qed.

Lemma stable_sort_length l : length (stable_sort l) = length l.
Proof. apply Permutation_length, stable_sort_perm. Qed.

Context (le_total : forall a b, le a b = true \/ le b a = true).

Lemma insert_sorted_sorted x l :
  Sorted (fun a b => le a b = true) l -> Sorted (fun a b => le a b = true) (insert_sorted x l).
Proof.
  induction 1 as [|y l Hs IH Hhd]; cbn; [by repeat constructor|].
  destruct (le y x) eqn:E.
  - constructor; [exact IH|]. destruct l as [|z l]; cbn; [by constructor|].
    inversion Hhd; subst. destruct (le z x); by constructor.
  - constructor; [by constructor|]. constructor.
    destruct (le_total x y) as [H|H]; [exact H|congruence].
Qed.

Lemma stable_sort_sorted l : Sorted (fun a b => le a b = true) (stable_sort l).
Proof.
  unfold stable_sort.
  enough (forall acc, Sorted (fun a b => le a b = true) acc ->
            Sorted (fun a b => le a b = true) (fold_left (fun acc x => insert_sorted x acc) l acc))
    by (apply H; constructor).
  induction l as [|x l IH]; intros acc Hacc; cbn; [exact Hacc|].
  apply IH, insert_sorted_sorted, Hacc.
Qed.
Context (le_trans : forall a b c, le a b = true -> le b c = true -> le a c = true).

Lemma insert_sorted_front x l : (forall z, In z l -> le z x = false) -> insert_sorted x l = x :: l.
Proof. destruct l as [|y l]; intros H; cbn; [done|]. by rewrite (H y (or_introl eq_refl)). Qed.

(** Filtering commutes with inserting into a sorted list. *)
Lemma filter_insert_sorted (P : A -> bool) x l :
  Sorted (fun a b => le a b = true) l ->
  List.filter P (insert_sorted x l) = if P x then insert_sorted x (List.filter P l) else List.filter P l.
Proof.
  induction 1 as [|y l Hs IH Hhd]; cbn; [by destruct (P x)|].
  destruct (le y x) eqn:Hyx; cbn.
  - rewrite IH. destruct (P y) eqn:Py, (P x); cbn; rewrite ?Hyx; done.
  - assert (Hall : forall z, In z (y :: l) -> le z x = false).
    { intros z [<-|Hz]; [done|]. destruct (le z x) eqn:Hzx; [|done].
      pose proof (Sorted_extends (R := fun a b => le a b = true) (fun a b c => le_trans a b c)
                    (Sorted_cons Hs Hhd)) as Hf.
      rewrite Forall_forall in Hf. by rewrite (le_trans _ _ _ (Hf z (proj2 (list_elem_of_In _ _) Hz)) Hzx) in Hyx. }
    destruct (P x); [|done]. symmetry. apply insert_sorted_front.
    intros z Hz. apply Hall. change (In z (List.filter P (y :: l))) in Hz. by apply filter_In in Hz as [Hz _].
Qed.

(** A stable sort commutes with a filter. *)
Lemma filter_stable_sort (P : A -> bool) l : List.filter P (stable_sort l) = stable_sort (List.filter P l).
Proof.
  unfold stable_sort.
  enough (forall acc, Sorted (fun a b => le a b = true) acc ->
            List.filter P (fold_left (fun acc x => insert_sorted x acc) l acc) =
            fold_left (fun acc x => insert_sorted x acc) (List.filter P l) (List.filter P acc))
    by (apply H; constructor).
  induction l as [|x l IH]; intros acc Hacc; cbn; [done|].
  rewrite IH by (apply insert_sorted_sorted, Hacc).
  rewrite filter_insert_sorted by exact Hacc. by destruct (P x).
Qed.
End sort.

Lemma Sorted_impl' {A} (R S : A -> A -> Prop) (l : list A) :
  (forall a b, R a b -> S a b) -> Sorted R l -> Sorted S l.
Proof.
  intros HRS. induction 1 as [|x l Hs IH Hhd]; constructor; [exact IH|].
  destruct Hhd; constructor. by apply HRS.
Qed.

(** [arr.sort(cmp)] with a comparator returning a number; [None] stands
    for NaN, which the sort reads as [+0]. *)
Definition js_sort {A} (cmp : A -> A -> option Z) (l : list A) : list A :=
  stable_sort (fun a b => Z.leb (default 0%Z (cmp a b)) 0) l.

(** A comparator whose results are opposite numbers, or NaN both ways,
    orders any two elements. *)
Lemma js_cmp_total {A} (cmp : A -> A -> option Z) :
  (forall a b, cmp b a = option_map Z.opp (cmp a b)) ->
  forall a b, Z.leb (default 0%Z (cmp a b)) 0 = true \/ Z.leb (default 0%Z (cmp b a)) 0 = true.
Proof.
  intros Hanti a b. rewrite (Hanti a b). destruct (cmp a b) as [z|]; cbn; [|left; reflexivity].
  destruct (Z.leb_spec z 0); [left; reflexivity|right; apply Z.leb_le; lia].
Qed.

(** ** Automation

    [popstack] collects the lemmas that run the monad and the store;
    [ps_run] unfolds one bind at a time. *)
Create Rewrite HintDb popstack_rw.

#[export] Hint Resolve includes_app_l includes_middle prefix_app : popstack.
#[export] Hint Rewrite @lift_read_bind @lift_write_bind @throw_bind @ret_run : popstack_rw.

Ltac ps_run := repeat (autorewrite with popstack_rw; cbn [fst snd]).
