(* ===== verification/Remote.v ===== *)
(** * The remote store: a model of the Supabase / PostgREST client

    The hooks of src/src/hooks call one client, [supabase] from
    [@/lib/supabase], which is not in the repository; this file models it
    from the spec (section 6: tables addressed by name, filters as
    equality / inclusion / pattern predicates, every call answering a row
    set or a single row together with an error or null, "no rows" as a
    recognised code).

    A row is a JSON object, [gmap string jvalue]; a table is the list of
    its rows in insertion order; the store maps table names to tables and
    carries the counter that generates row ids and the insertion clock.
    Which tables exist, their columns and the columns an insert must give
    come from a [store_config]; so do the unique constraints, which are
    declared in the database and not in the repository, so that theorems
    can say which constraints they need. *)

From S2P Require Import Prelude.

(** ** Values and rows *)

(** A JSON value of a column.  Identifiers (uuid columns: user and row
    ids) are [JUuid n]; timestamps are numbers. *)
Inductive jvalue : Type :=
  | JNull
  | JStr (s : string)
  | JNum (z : Z)
  | JBool (b : bool)
  | JUuid (n : nat).

#[export] Instance jvalue_eq_dec : EqDecision jvalue.
Proof. solve_decision. Defined.

Abbreviation row := (gmap string jvalue).

(** An object of the code read as a column value: [undefined] and [null]
    both become [JNull]. *)
Definition col (r : row) (c : string) : jvalue := default JNull (r !! c).

(** An object literal [{ k1: v1, ..., kn: vn }]: a later key overrides
    an earlier one. *)
Definition js_object (kvs : list (string * jvalue)) : row :=
  foldl (fun m kv => <[kv.1 := kv.2]> m) ∅ kvs.

(** ** Filters

    [.eq], [.neq], [.in], [.ilike], [.or('...')] and [and(...)] inside an
    [or]: SQL comparisons, so a NULL or missing column never matches. *)
#[warnings="-register-all"]
Inductive pfilter : Type :=
  | FEq (c : string) (v : jvalue)
  | FNeq (c : string) (v : jvalue)
  | FIn (c : string) (vs : list jvalue)
  | FIlike (c : string) (pat : string)
  | FAnd (fs : list pfilter)
  | FOr (fs : list pfilter).

(** SQL [LIKE]: [%] (and PostgREST's alias [*]) matches any string, [_]
    any one character.  [ilike] compares case-insensitively. *)
Fixpoint like_match (p s : string) : bool :=
  match p with
  | EmptyString => match s with EmptyString => true | _ => false end
  | String c p' =>
      if Ascii.eqb c "%" || Ascii.eqb c "*" then
        (fix star (s : string) : bool :=
           like_match p' s || match s with EmptyString => false | String _ s' => star s' end) s
      else if Ascii.eqb c "_" then
        match s with EmptyString => false | String _ s' => like_match p' s' end
      else
        match s with EmptyString => false | String d s' => Ascii.eqb c d && like_match p' s' end
  end.

Definition non_null (o : option jvalue) : option jvalue :=
  match o with Some JNull => None | _ => o end.

Fixpoint filter_matches (f : pfilter) (r : row) : bool :=
  match f with
  | FEq c v => bool_decide (non_null (r !! c) = Some v)
  | FNeq c v => match non_null (r !! c) with Some w => bool_decide (w <> v) | None => false end
  | FIn c vs => match non_null (r !! c) with Some w => bool_decide (w ∈ vs) | None => false end
  | FIlike c pat =>
      match r !! c with
      | Some (JStr s) => like_match (string_lower pat) (string_lower s)
      | _ => false
      end
  | FAnd fs => (fix all fs := match fs with [] => true | g :: gs => filter_matches g r && all gs end) fs
  | FOr fs => (fix any fs := match fs with [] => false | g :: gs => filter_matches g r || any gs end) fs
  end.

(** A chain of filters on one request is their conjunction. *)
Definition matches_all (fs : list pfilter) (r : row) : bool :=
  forallb (fun f => filter_matches f r) fs.

(** ** Schema and configuration *)

Record table_schema : Type := TableSchema {
  ts_columns : list string;   (** the columns of the Row type *)
  ts_required : list string   (** the non-optional fields of the Insert type *)
}.

Record store_config : Type := StoreConfig {
  cfg_schema : string -> option table_schema;
  cfg_unique : string -> list (list string);
  cfg_cascade : string -> list (string * string)
    (** [ON DELETE CASCADE]: the tables whose rows reference a row of this
        table by its [id], with the referencing column. *)
}.

(** ** The store *)

Record db : Type := mkDb {
  db_tables : gmap string (list row);
  db_next_id : nat;
  db_clock : nat
}.

Definition table (d : db) (t : string) : list row := default [] (db_tables d !! t).

Definition set_table (d : db) (t : string) (rows : list row) : db :=
  mkDb (<[t := rows]> (db_tables d)) (db_next_id d) (db_clock d).

(** ** Responses and errors *)

Record response (A : Type) : Type := Resp { data : option A; error : option js_error }.
Arguments Resp {A} data error.
Arguments data {A} r.
Arguments error {A} r.

Definition resp_ok {A} (a : A) : response A := Resp (Some a) None.
Definition resp_err {A} (e : js_error) : response A := Resp None (Some e).

Definition err_no_table (t : string) : js_error :=
  JsError (Some "PGRST205") ("Could not find the table 'public." ++ t ++ "' in the schema cache").
Definition err_no_column (c t : string) : js_error :=
  JsError (Some "PGRST204") ("Could not find the '" ++ c ++ "' column of '" ++ t ++ "' in the schema cache").
Definition err_not_null (c : string) : js_error :=
  JsError (Some "23502") ("null value in column " ++ c ++ " violates not-null constraint").
Definition err_duplicate : js_error :=
  JsError (Some "23505") "duplicate key value violates unique constraint".
Definition err_pgrst116 : js_error :=
  JsError (Some "PGRST116") "JSON object requested, multiple (or no) rows returned".

Section store.
Context (cfg : store_config).

(** [.from(t).select(cols).<filters>]: [None] for ['*']. *)
Definition project (cols : option (list string)) (r : row) : row :=
  match cols with
  | None => r
  | Some cs => filter (fun kv => kv.1 ∈ cs) r
  end.

Definition select_rows (d : db) (t : string) (cols : option (list string))
    (fs : list pfilter) : response (list row) :=
  match cfg_schema cfg t with
  | None => resp_err (err_no_table t)
  | Some _ => resp_ok (map (project cols) (List.filter (matches_all fs) (table d t)))
  end.

(** [.maybeSingle()]: null for no row, the row for one, PGRST116 for
    more than one. *)
Definition maybe_single (r : response (list row)) : response row :=
  match error r, data r with
  | Some e, _ => resp_err e
  | None, Some [] | None, None => Resp None None
  | None, Some [x] => resp_ok x
  | None, Some _ => resp_err err_pgrst116
  end.

(** [.single()]: PGRST116 unless exactly one row. *)
Definition single (r : response (list row)) : response row :=
  match error r, data r with
  | Some e, _ => resp_err e
  | None, Some [x] => resp_ok x
  | None, _ => resp_err err_pgrst116
  end.

(** Values the database fills in for a column the insert leaves out. *)
Definition column_default (d : db) (c : string) : jvalue :=
  if String.eqb c "id" then JUuid (db_next_id d)
  else if String.eqb c "created_at" || String.eqb c "updated_at" || String.eqb c "added_at"
  then JNum (Z.of_nat (db_clock d))
  else JNull.

Definition complete_row (sc : table_schema) (d : db) (payload : row) : row :=
  payload ∪ list_to_map ((fun c => (c, column_default d c)) <$> ts_columns sc).

Definition unknown_column (sc : table_schema) (payload : row) : option string :=
  List.find (fun c => negb (bool_decide (c ∈ ts_columns sc))) (map fst (map_to_list payload)).

Definition missing_required (sc : table_schema) (payload : row) : option string :=
  List.find (fun c => negb (bool_decide (non_null (payload !! c) <> None))) (ts_required sc).

(** Two rows collide on a unique key when every column of the key is
    non-null and equal in both (SQL lets NULLs repeat). *)
Definition collides (key : list string) (r r' : row) : bool :=
  forallb (fun c => match non_null (r !! c) with
                    | Some v => bool_decide (r' !! c = Some v)
                    | None => false
                    end) key.

Definition violates_unique (t : string) (r : row) (rows : list row) : bool :=
  existsb (fun key => existsb (collides key r) rows) (cfg_unique cfg t).

(** [.from(t).insert(payload)]; the response carries the inserted row
    as [.select().single()] would return it. *)
Definition insert_row (t : string) (payload : row) (d : db) : response row * db :=
  match cfg_schema cfg t with
  | None => (resp_err (err_no_table t), d)
  | Some sc =>
      match unknown_column sc payload with
      | Some c => (resp_err (err_no_column c t), d)
      | None =>
          match missing_required sc payload with
          | Some c => (resp_err (err_not_null c), d)
          | None =>
              let r := complete_row sc d payload in
              if violates_unique t r (table d t) then (resp_err err_duplicate, d)
              else (resp_ok r,
                    mkDb (<[t := table d t ++ [r]]> (db_tables d)) (S (db_next_id d)) (S (db_clock d)))
          end
      end
  end.

(** [.from(t).update(payload).<filters>]: the updated rows. *)
Definition update_rows (t : string) (payload : row) (fs : list pfilter) (d : db)
    : response (list row) * db :=
  match cfg_schema cfg t with
  | None => (resp_err (err_no_table t), d)
  | Some sc =>
      match unknown_column sc payload with
      | Some c => (resp_err (err_no_column c t), d)
      | None =>
          let upd r := if matches_all fs r then payload ∪ r else r in
          (resp_ok (map (union payload) (List.filter (matches_all fs) (table d t))),
           set_table d t (map upd (table d t)))
      end
  end.

(** [.from(t).upsert(payload, { onConflict })]: the rows whose
    conflict columns equal the payload's are updated; when there is none
    (or the payload lacks a conflict column) the payload is inserted.
    Without [onConflict] the conflict column is the primary key [id]. *)
Definition conflicts (conflict : list string) (payload r : row) : bool :=
  forallb (fun c => match payload !! c, r !! c with Some v, Some w => bool_decide (v = w) | _, _ => false end) conflict.

Definition upsert_row (t : string) (conflict : list string) (payload : row) (d : db) : response row * db :=
  match cfg_schema cfg t with
  | None => (resp_err (err_no_table t), d)
  | Some sc =>
      match unknown_column sc payload with
      | Some c => (resp_err (err_no_column c t), d)
      | None =>
          match List.find (conflicts conflict payload) (table d t) with
          | Some r =>
              (resp_ok (payload ∪ r),
               set_table d t (map (fun x => if conflicts conflict payload x then payload ∪ x else x) (table d t)))
          | None => insert_row t payload d
          end
      end
  end.

(** [r] references, through column [c], one of the ids in [gone]. *)
Definition references (c : string) (gone : list (option jvalue)) (r : row) : bool :=
  match non_null (r !! c) with Some v => bool_decide (Some v ∈ gone) | None => false end.

(** The cascade of a delete: one level of foreign keys, which is all the
    schema has (collection_items.collection_id). *)
Fixpoint cascade_delete (children : list (string * string)) (gone : list (option jvalue)) (d : db) : db :=
  match children with
  | [] => d
  | (child, c) :: rest =>
      cascade_delete rest gone
        (set_table d child (List.filter (fun r => negb (references c gone r)) (table d child)))
  end.

(** [.from(t).delete().<filters>]: a delete that matches nothing
    succeeds; the rows that reference a deleted row go with it. *)
Definition delete_rows (t : string) (fs : list pfilter) (d : db) : response unit * db :=
  match cfg_schema cfg t with
  | None => (resp_err (err_no_table t), d)
  | Some _ =>
      let gone := map (fun r => r !! "id") (List.filter (matches_all fs) (table d t)) in
      (Resp None None,
       cascade_delete (cfg_cascade cfg t) gone
         (set_table d t (List.filter (fun r => negb (matches_all fs r)) (table d t))))
  end.
End store.

(** [.limit(n)]. *)
Definition limit {A} (n : nat) (l : list A) : list A := List.firstn n l.

(** [.order(c, { ascending })].  The ordered columns of the code
    (created_at, added_at, rating) hold numbers; PostgreSQL sorts NULL
    (and here any non-number) above every number, so it comes last in
    ascending and first in descending order.  Ties keep insertion order. *)
Definition order_key (c : string) (r : row) : option Z :=
  match r !! c with Some (JNum z) => Some z | _ => None end.

Definition key_le (a b : option Z) : bool :=
  match a, b with
  | _, None => true
  | None, Some _ => false
  | Some x, Some y => Z.leb x y
  end.

Definition order_rows (c : string) (ascending : bool) (rs : list row) : list row :=
  stable_sort (fun a b => if ascending then key_le (order_key c a) (order_key c b)
                          else key_le (order_key c b) (order_key c a)) rs.

Definition order_resp (c : string) (ascending : bool) (r : response (list row)) : response (list row) :=
  Resp (order_rows c ascending <$> data r) (error r).

(** [.insert(p).select()]: the inserted row as a one-element array. *)
Definition as_list (r : response row) : response (list row) :=
  Resp ((fun x => [x]) <$> data r) (error r).

(** ** Facts about the store *)

(** ** Typing of the store

    A row is typed by its table's schema when its columns are columns of
    the table's [Row] type; a list of rows is typed for a table when the
    table has a schema and every row is typed by it, or it is empty; the
    store is typed when every table is. *)
Definition row_typed (sc : table_schema) (r : row) : Prop :=
  forall c v, r !! c = Some v -> c ∈ ts_columns sc.

Definition table_typed (cfg : store_config) (t : string) (rows : list row) : Prop :=
  match cfg_schema cfg t with Some sc => Forall (row_typed sc) rows | None => rows = [] end.

Definition store_typed (cfg : store_config) (d : db) : Prop := forall t, table_typed cfg t (table d t).

Lemma non_null_some (o : option jvalue) v :
  non_null o = Some v <-> o = Some v /\ v <> JNull.
Proof. destruct o as [[]|]; cbn; split; intros H; (intuition congruence) || (destruct H; congruence). Qed.

Lemma feq_spec c v (r : row) :
  filter_matches (FEq c v) r = true <-> r !! c = Some v /\ v <> JNull.
Proof. cbn. rewrite bool_decide_eq_true. apply non_null_some. Qed.

Lemma matches_all_one f (r : row) : matches_all [f] r = filter_matches f r.
Proof. unfold matches_all. cbn. by rewrite andb_true_r. Qed.

(** A chain that requires [c = v] rejects a row without that value. *)
Lemma matches_all_feq_false fs c v (r : row) : In (FEq c v) fs -> r !! c <> Some v -> matches_all fs r = false.
Proof.
  intros Hin Hr. unfold matches_all. apply not_true_is_false. rewrite forallb_forall. intros H.
  specialize (H _ Hin). apply feq_spec in H as [Hc _]. exact (Hr Hc).
Qed.

Lemma table_insert_same (d : db) t rows n c :
  table (mkDb (<[t := rows]> (db_tables d)) n c) t = rows.
Proof. unfold table. cbn. by rewrite lookup_insert_eq. Qed.

Lemma table_insert_other (d : db) t t' rows n c :
  t <> t' -> table (mkDb (<[t := rows]> (db_tables d)) n c) t' = table d t'.
Proof. intros H. unfold table. cbn. by rewrite lookup_insert_ne. Qed.

Lemma table_set_table_same (d : db) t rows : table (set_table d t rows) t = rows.
Proof. apply table_insert_same. Qed.

Lemma table_set_table_other (d : db) t t' rows :
  t <> t' -> table (set_table d t rows) t' = table d t'.
Proof. apply table_insert_other. Qed.

Lemma set_table_set_table (d : db) t rows rows' :
  set_table (set_table d t rows) t rows' = set_table d t rows'.
Proof. unfold set_table. cbn. by rewrite insert_insert_eq. Qed.

Lemma project_lookup cols (r : row) c :
  (match cols with None => True | Some cs => c ∈ cs end) -> project cols r !! c = r !! c.
Proof.
  destruct cols as [cs|]; cbn; [|done]. intros Hc.
  rewrite map_lookup_filter. destruct (r !! c) eqn:E; cbn; [|done].
  rewrite option_guard_True; done.
Qed.

Lemma map_project_none (l : list row) : map (project None) l = l.
Proof. induction l as [|x l IH]; cbn; [done|by rewrite IH]. Qed.

Lemma complete_row_payload sc (d : db) (p : row) c v :
  p !! c = Some v -> complete_row sc d p !! c = Some v.
Proof. intros H. unfold complete_row. by apply lookup_union_Some_l. Qed.

Section store_facts.
Context (cfg : store_config).

Lemma select_rows_known (d : db) t sc cols fs :
  cfg_schema cfg t = Some sc ->
  select_rows cfg d t cols fs = resp_ok (map (project cols) (List.filter (matches_all fs) (table d t))).
Proof. intros H. unfold select_rows. by rewrite H. Qed.

Lemma insert_row_ok t sc (p : row) (d : db) :
  cfg_schema cfg t = Some sc ->
  unknown_column sc p = None ->
  missing_required sc p = None ->
  violates_unique cfg t (complete_row sc d p) (table d t) = false ->
  insert_row cfg t p d =
    (resp_ok (complete_row sc d p),
     mkDb (<[t := table d t ++ [complete_row sc d p]]> (db_tables d)) (S (db_next_id d)) (S (db_clock d))).
Proof. intros H1 H2 H3 H4. unfold insert_row. by rewrite H1, H2, H3, H4. Qed.

(** An insert either fails and leaves the store as it was, or appends
    the row it returns to its table and to no other. *)
Lemma insert_row_cases t (p : row) (d : db) r d' :
  insert_row cfg t p d = (r, d') ->
  (d' = d /\ data r = None /\ error r <> None) \/
  (exists sc x, cfg_schema cfg t = Some sc /\ x = complete_row sc d p /\
     r = resp_ok x /\ table d' t = table d t ++ [x] /\
     forall t', t <> t' -> table d' t' = table d t').
Proof.
  unfold insert_row. intros H.
  destruct (cfg_schema cfg t) as [sc|]; [|left; inversion H; subst; done].
  destruct (unknown_column sc p); [left; inversion H; subst; done|].
  destruct (missing_required sc p); [left; inversion H; subst; done|].
  destruct (violates_unique cfg t _ _); [left; inversion H; subst; done|].
  right. inversion H; subst. do 2 eexists; split; [done|]. split; [done|]. split; [done|]. split.
  - apply table_insert_same.
  - intros t' Ht'. by apply table_insert_other.
Qed.

Lemma update_rows_cases t (p : row) fs (d : db) r d' :
  update_rows cfg t p fs d = (r, d') ->
  (d' = d /\ error r <> None) \/
  (error r = None /\
   table d' t = map (fun x => if matches_all fs x then p ∪ x else x) (table d t) /\
   forall t', t <> t' -> table d' t' = table d t').
Proof.
  unfold update_rows. intros H.
  destruct (cfg_schema cfg t) as [sc|]; [|left; inversion H; subst; done].
  destruct (unknown_column sc p); [left; inversion H; subst; done|].
  right. inversion H; subst. split; [done|]. split.
  - apply table_set_table_same.
  - intros t' Ht'. by apply table_set_table_other.
Qed.

Lemma delete_rows_cases t fs (d : db) r d' :
  cfg_cascade cfg t = [] ->
  delete_rows cfg t fs d = (r, d') ->
  (d' = d /\ error r <> None) \/
  (error r = None /\
   table d' t = List.filter (fun x => negb (matches_all fs x)) (table d t) /\
   forall t', t <> t' -> table d' t' = table d t').
Proof.
  unfold delete_rows. intros Hc H. rewrite Hc in H.
  destruct (cfg_schema cfg t) as [sc|]; [|left; inversion H; subst; done].
  right. inversion H; subst. split; [done|]. split.
  - apply table_set_table_same.
  - intros t' Ht'. by apply table_set_table_other.
Qed.
(** A delete on a parent table with one child table: the child loses
    exactly the rows that reference a deleted parent. *)
Lemma delete_rows_cascade_cases t child c fs (d : db) r d' :
  cfg_cascade cfg t = [(child, c)] -> child <> t ->
  delete_rows cfg t fs d = (r, d') ->
  (d' = d /\ error r <> None) \/
  (error r = None /\
   table d' t = List.filter (fun x => negb (matches_all fs x)) (table d t) /\
   table d' child = List.filter (fun x => negb (references c (map (fun r => r !! "id")
                                   (List.filter (matches_all fs) (table d t))) x)) (table d child) /\
   forall t', t <> t' -> child <> t' -> table d' t' = table d t').
Proof.
  unfold delete_rows. intros Hc Hne H. rewrite Hc in H. cbn [cascade_delete] in H.
  destruct (cfg_schema cfg t) as [sc|]; [|left; inversion H; subst; done].
  right. inversion H; subst. split; [done|]. split; [|split].
  - rewrite table_set_table_other by congruence. apply table_set_table_same.
  - rewrite table_set_table_same, table_set_table_other by congruence. reflexivity.
  - intros t' Ht' Hc'. rewrite !table_set_table_other by done. reflexivity.
Qed.

(** The ids a delete filtered on [id] removes are that id. *)
Lemma gone_ids_eq v fs (rows : list row) x :
  In x (map (fun r => r !! "id") (List.filter (matches_all (FEq "id" v :: fs)) rows)) -> x = Some v.
Proof.
  rewrite in_map_iff. intros (r & <- & Hr). apply filter_In in Hr as [_ Hr].
  unfold matches_all in Hr. cbn [forallb] in Hr. apply andb_prop in Hr as [Hr _].
  by apply feq_spec in Hr as [-> _].
Qed.

Lemma references_some c gone (r : row) v :
  r !! c = Some v -> v <> JNull -> references c gone r = bool_decide (Some v ∈ gone).
Proof. intros Hr Hv. unfold references. rewrite Hr. by destruct v. Qed.

(** ** The typing invariant *)

Lemma unknown_column_typed sc (p : row) : unknown_column sc p = None -> row_typed sc p.
Proof.
  unfold unknown_column. intros H c v Hc.
  assert (Hin : In c (map fst (map_to_list p))).
  { apply in_map_iff. exists (c, v). split; [done|]. by apply list_elem_of_In, elem_of_map_to_list. }
  pose proof (List.find_none _ _ H c Hin) as Hn. cbn in Hn.
  by destruct (bool_decide_reflect (c ∈ ts_columns sc)).
Qed.

Lemma union_typed sc (p r : row) : row_typed sc p -> row_typed sc r -> row_typed sc (p ∪ r).
Proof. intros Hp Hr c v [Hc|[_ Hc]]%lookup_union_Some_raw; [exact (Hp c v Hc)|exact (Hr c v Hc)]. Qed.

Lemma complete_row_typed sc (d : db) (p : row) : unknown_column sc p = None -> row_typed sc (complete_row sc d p).
Proof.
  intros Hu. apply union_typed; [by apply unknown_column_typed|].
  intros c v Hl%elem_of_list_to_map_2. apply list_elem_of_fmap in Hl as (c' & [= <- _] & Hc'). exact Hc'.
Qed.

Lemma table_typed_filter t (P : row -> bool) rows : table_typed cfg t rows -> table_typed cfg t (List.filter P rows).
Proof. unfold table_typed. destruct (cfg_schema cfg t); [apply Forall_list_filter|by intros ->]. Qed.

Lemma store_typed_at (d : db) t sc : store_typed cfg d -> cfg_schema cfg t = Some sc -> Forall (row_typed sc) (table d t).
Proof. intros Hd Hs. specialize (Hd t). unfold table_typed in Hd. by rewrite Hs in Hd. Qed.

Lemma store_typed_insert (d : db) t rows n c :
  store_typed cfg d -> table_typed cfg t rows -> store_typed cfg (mkDb (<[t := rows]> (db_tables d)) n c).
Proof.
  intros Hd Ht t'. destruct (decide (t = t')) as [<-|Hne]; [by rewrite table_insert_same|].
  rewrite table_insert_other by done. apply Hd.
Qed.

Lemma store_typed_set_table (d : db) t rows :
  store_typed cfg d -> table_typed cfg t rows -> store_typed cfg (set_table d t rows).
Proof. apply store_typed_insert. Qed.

Lemma insert_row_typed t p (d : db) : store_typed cfg d -> store_typed cfg (snd (insert_row cfg t p d)).
Proof.
  intros Hd. unfold insert_row. destruct (cfg_schema cfg t) as [sc|] eqn:Hs; [|done].
  destruct (unknown_column sc p) eqn:Hu; [done|]. destruct (missing_required sc p); [done|].
  destruct (violates_unique _ _ _ _); [done|]. apply store_typed_insert; [done|].
  unfold table_typed. rewrite Hs. apply Forall_app. split; [exact (store_typed_at d t sc Hd Hs)|].
  repeat constructor. by apply complete_row_typed.
Qed.

Lemma update_rows_typed t p fs (d : db) : store_typed cfg d -> store_typed cfg (snd (update_rows cfg t p fs d)).
Proof.
  intros Hd. unfold update_rows. destruct (cfg_schema cfg t) as [sc|] eqn:Hs; [|done].
  destruct (unknown_column sc p) eqn:Hu; [done|]. apply store_typed_set_table; [done|].
  unfold table_typed. rewrite Hs. apply Forall_map_impl; [|exact (store_typed_at d t sc Hd Hs)].
  intros x Hx. destruct (matches_all fs x); [|done]. by apply union_typed; [apply unknown_column_typed|].
Qed.

Lemma upsert_row_typed t conflict p (d : db) : store_typed cfg d -> store_typed cfg (snd (upsert_row cfg t conflict p d)).
Proof.
  intros Hd. unfold upsert_row. destruct (cfg_schema cfg t) as [sc|] eqn:Hs; [|done].
  destruct (unknown_column sc p) eqn:Hu; [done|]. destruct (List.find _ _); [|by apply insert_row_typed].
  apply store_typed_set_table; [done|]. unfold table_typed. rewrite Hs.
  apply Forall_map_impl; [|exact (store_typed_at d t sc Hd Hs)].
  intros x Hx. destruct (conflicts conflict p x); [|done]. by apply union_typed; [apply unknown_column_typed|].
Qed.

Lemma cascade_delete_typed children gone (d : db) : store_typed cfg d -> store_typed cfg (cascade_delete children gone d).
Proof.
  revert d. induction children as [|[child c] rest IH]; intros d Hd; [done|]. cbn.
  apply IH, store_typed_set_table; [done|]. apply table_typed_filter, Hd.
Qed.

Lemma delete_rows_typed t fs (d : db) : store_typed cfg d -> store_typed cfg (snd (delete_rows cfg t fs d)).
Proof.
  intros Hd. unfold delete_rows. destruct (cfg_schema cfg t); [|done].
  apply cascade_delete_typed, store_typed_set_table; [done|]. apply table_typed_filter, Hd.
Qed.

End store_facts.

Lemma store_typed_empty cfg n c : store_typed cfg (mkDb ∅ n c).
Proof. intros t. unfold table_typed, table. cbn. rewrite lookup_empty. cbn. by destruct (cfg_schema cfg t). Qed.

Section typed_eq.
Context (cfg : store_config).

Lemma insert_row_typed_eq t p (d : db) r d' : insert_row cfg t p d = (r, d') -> store_typed cfg d -> store_typed cfg d'.
Proof. intros E Hd. pose proof (insert_row_typed cfg t p d Hd) as H. by rewrite E in H. Qed.

Lemma update_rows_typed_eq t p fs (d : db) r d' : update_rows cfg t p fs d = (r, d') -> store_typed cfg d -> store_typed cfg d'.
Proof. intros E Hd. pose proof (update_rows_typed cfg t p fs d Hd) as H. by rewrite E in H. Qed.
Lemma upsert_row_typed_eq t conflict p (d : db) r d' :
  upsert_row cfg t conflict p d = (r, d') -> store_typed cfg d -> store_typed cfg d'.
Proof. intros E Hd. pose proof (upsert_row_typed cfg t conflict p d Hd) as H. by rewrite E in H. Qed.

Lemma delete_rows_typed_eq t fs (d : db) r d' : delete_rows cfg t fs d = (r, d') -> store_typed cfg d -> store_typed cfg d'.
Proof. intros E Hd. pose proof (delete_rows_typed cfg t fs d Hd) as H. by rewrite E in H. Qed.
End typed_eq.

#[export] Hint Resolve insert_row_typed update_rows_typed upsert_row_typed delete_rows_typed
  insert_row_typed_eq update_rows_typed_eq upsert_row_typed_eq delete_rows_typed_eq : popstack.

(** A hook keeps the store typed: its requests, one after another. *)
Ltac typed_solve :=
  preserves_solve;
  try (apply preserves_write; intros ? ?; cbn beta; repeat case_match; simplify_eq/=; eauto with popstack).

(** ** Frames: the tables a request leaves alone *)

(** Every table outside [W] is as in [d0]. *)
Definition unchanged (W : list string) (d0 d : db) : Prop := forall t, t ∉ W -> table d t = table d0 t.

Section frame.
Context (cfg : store_config) (W : list string) (d0 : db).

Lemma set_table_unchanged (d : db) t rows : t ∈ W -> unchanged W d0 d -> unchanged W d0 (set_table d t rows).
Proof. intros Ht Hd t' Ht'. rewrite table_set_table_other by (intros ->; contradiction). apply Hd, Ht'. Qed.

Lemma insert_row_unchanged_eq t p (d : db) r d' :
  insert_row cfg t p d = (r, d') -> t ∈ W -> unchanged W d0 d -> unchanged W d0 d'.
Proof.
  intros E Ht Hd t' Ht'. destruct (insert_row_cases cfg t p d r d' E) as [[-> _]|(sc & x & _ & _ & _ & _ & Ho)]; [by apply Hd|].
  rewrite Ho by (intros ->; contradiction). by apply Hd.
Qed.

Lemma update_rows_unchanged_eq t p fs (d : db) r d' :
  update_rows cfg t p fs d = (r, d') -> t ∈ W -> unchanged W d0 d -> unchanged W d0 d'.
Proof.
  intros E Ht Hd t' Ht'. destruct (update_rows_cases cfg t p fs d r d' E) as [[-> _]|(_ & _ & Ho)]; [by apply Hd|].
  rewrite Ho by (intros ->; contradiction). by apply Hd.
Qed.

Lemma upsert_row_unchanged_eq t conflict p (d : db) r d' :
  upsert_row cfg t conflict p d = (r, d') -> t ∈ W -> unchanged W d0 d -> unchanged W d0 d'.
Proof.
  unfold upsert_row. intros E Ht Hd. repeat case_match; simplify_eq; try done.
  - by apply set_table_unchanged.
  - by eapply insert_row_unchanged_eq.
Qed.

Lemma cascade_delete_unchanged children gone (d : db) :
  Forall (fun c => c.1 ∈ W) children -> unchanged W d0 d -> unchanged W d0 (cascade_delete children gone d).
Proof.
  revert d. induction children as [|[child c] rest IH]; intros d Hc Hd; [done|]. cbn.
  apply Forall_cons in Hc as [Hc Hr]. apply IH; [exact Hr|]. by apply set_table_unchanged.
Qed.

Lemma delete_rows_unchanged_eq t fs (d : db) r d' :
  delete_rows cfg t fs d = (r, d') -> t ∈ W -> Forall (fun c => c.1 ∈ W) (cfg_cascade cfg t) ->
  unchanged W d0 d -> unchanged W d0 d'.
Proof.
  unfold delete_rows. intros E Ht Hc Hd. case_match; simplify_eq; [|done].
  apply cascade_delete_unchanged; [exact Hc|]. by apply set_table_unchanged.
Qed.
End frame.

Lemma maybe_single_nil : maybe_single (resp_ok []) = Resp None None.
Proof. reflexivity. Qed.

Lemma maybe_single_one x : maybe_single (resp_ok [x]) = resp_ok x.
Proof. reflexivity. Qed.

Lemma maybe_single_many x y l : maybe_single (resp_ok (x :: y :: l)) = resp_err err_pgrst116.
Proof. reflexivity. Qed.

#[export] Hint Rewrite table_insert_same table_set_table_same matches_all_one
  maybe_single_nil maybe_single_one maybe_single_many : popstack_rw.

Lemma key_le_total a b : key_le a b = true \/ key_le b a = true.
Proof. destruct a as [x|], b as [y|]; cbn; auto. destruct (Z.leb_spec x y); [left|right]; lia. Qed.

Lemma key_le_trans a b c : key_le a b = true -> key_le b c = true -> key_le a c = true.
Proof. destruct a as [x|], b as [y|], c as [z|]; cbn; rewrite ?Z.leb_le; intros; try done; lia. Qed.

(** [.order()] commutes with a filter of the rows: sorting then
    filtering is filtering then sorting. *)
Lemma order_rows_filter c ascending (P : row -> bool) rs :
  List.filter P (order_rows c ascending rs) = order_rows c ascending (List.filter P rs).
Proof.
  apply filter_stable_sort; destruct ascending; intros; [apply key_le_total|apply key_le_total| |];
    eapply key_le_trans; eassumption.
Qed.

Lemma order_rows_sorted_desc c rs :
  Sorted (fun a b => key_le (order_key c b) (order_key c a) = true) (order_rows c false rs).
Proof. apply stable_sort_sorted. intros a b. apply key_le_total. Qed.

Lemma js_object_lookup_keys kvs c v :
  js_object kvs !! c = Some v -> c ∈ kvs.*1.
Proof.
  unfold js_object.
  enough (forall m : row, foldl (fun m kv => <[kv.1 := kv.2]> m) m kvs !! c = Some v ->
            m !! c = Some v \/ c ∈ kvs.*1) as H
    by (intros Hl; destruct (H ∅ Hl) as [He|]; [by rewrite lookup_empty in He|done]).
  induction kvs as [|[k w] l IH]; intros m; cbn; [by left|].
  intros Hl. destruct (IH _ Hl) as [Hm|Hm]; [|right; by right].
  destruct (decide (k = c)) as [->|Hne]; [right; by left|].
  rewrite lookup_insert_ne in Hm by done. by left.
Qed.
