(* ===== verification/Schema.v ===== *)
(** * The database schema declared in src/src/types/database.ts

    One [table_schema] per table of [Database['public']['Tables']] (and the
    [friend_activities] view): its columns are the fields of the [Row]
    type, its required columns the non-optional fields of the [Insert]
    type.  [popstack_schema] resolves a table name as [supabase.from(name)]
    does; [popstack_cfg] pairs it with the unique constraints, which the
    repository does not declare. *)

From S2P Require Import Prelude Remote.

Definition profiles_schema : table_schema :=
  TableSchema ["id"; "username"; "avatar_url"; "bio"; "created_at"; "updated_at"] ["id"].

Definition movie_reviews_schema : table_schema :=
  TableSchema ["id"; "user_id"; "movie_id"; "movie_title"; "movie_poster"; "rating";
               "review_text"; "watched_date"; "created_at"; "updated_at"]
              ["user_id"; "movie_id"; "movie_title"; "rating"].

Definition game_reviews_schema : table_schema :=
  TableSchema ["id"; "user_id"; "game_id"; "game_title"; "game_cover"; "rating";
               "review_text"; "played_date"; "hours_played"; "platform"; "created_at"; "updated_at"]
              ["user_id"; "game_id"; "game_title"; "rating"].

Definition series_reviews_schema : table_schema :=
  TableSchema ["id"; "user_id"; "series_id"; "series_title"; "series_poster"; "rating";
               "review_text"; "watched_date"; "created_at"; "updated_at"]
              ["user_id"; "series_id"; "series_title"; "rating"].

Definition collections_schema : table_schema :=
  TableSchema ["id"; "user_id"; "name"; "description"; "is_public"; "created_at"; "updated_at"]
              ["user_id"; "name"].

Definition collection_items_schema : table_schema :=
  TableSchema ["id"; "collection_id"; "item_type"; "item_id"; "item_title"; "item_poster"; "added_at"]
              ["collection_id"; "item_type"; "item_id"; "item_title"].

Definition user_stats_schema : table_schema :=
  TableSchema ["id"; "user_id"; "total_movies_watched"; "total_games_played";
               "total_hours_gaming"; "favorite_genre"; "updated_at"]
              ["user_id"].

Definition activities_schema : table_schema :=
  TableSchema ["id"; "user_id"; "activity_type"; "item_type"; "item_id"; "item_title";
               "content"; "created_at"]
              ["user_id"; "activity_type"; "item_type"; "item_id"; "item_title"].

Definition watchlist_schema : table_schema :=
  TableSchema ["id"; "user_id"; "item_type"; "item_id"; "item_title"; "item_poster";
               "item_rating"; "added_at"]
              ["user_id"; "item_type"; "item_id"; "item_title"].

Definition friendships_schema : table_schema :=
  TableSchema ["id"; "user_id"; "friend_id"; "status"; "created_at"; "updated_at"]
              ["user_id"; "friend_id"].

(** The view [friend_activities] can be read but has no [Insert] type. *)
Definition friend_activities_schema : table_schema :=
  TableSchema ["id"; "user_id"; "activity_type"; "item_type"; "item_id"; "item_title";
               "content"; "created_at"; "username"; "avatar_url"]
              [].

Definition popstack_schema (t : string) : option table_schema :=
  if String.eqb t "profiles" then Some profiles_schema
  else if String.eqb t "movie_reviews" then Some movie_reviews_schema
  else if String.eqb t "game_reviews" then Some game_reviews_schema
  else if String.eqb t "series_reviews" then Some series_reviews_schema
  else if String.eqb t "collections" then Some collections_schema
  else if String.eqb t "collection_items" then Some collection_items_schema
  else if String.eqb t "user_stats" then Some user_stats_schema
  else if String.eqb t "activities" then Some activities_schema
  else if String.eqb t "watchlist" then Some watchlist_schema
  else if String.eqb t "friendships" then Some friendships_schema
  else if String.eqb t "friend_activities" then Some friend_activities_schema
  else None.

(** [collection_items.collection_id] references [collections.id] with
    [ON DELETE CASCADE] (spec, section 3). *)
Definition popstack_cascade (t : string) : list (string * string) :=
  if String.eqb t "collections" then [("collection_items", "collection_id")] else [].

Definition popstack_cfg (uniq : string -> list (list string)) : store_config :=
  StoreConfig popstack_schema uniq popstack_cascade.

(** No unique constraint beyond the primary key. *)
Definition no_unique : string -> list (list string) := fun _ => [].
