(* ===== verification/Friends.v ===== *)
(** * Friendships: src/src/hooks/useFriends.ts and FriendsSidebar.tsx

    The friendship state machine of the spec (section 4.3) as the hooks
    implement it: a row of [friendships] is created [pending] by the
    requester ([useSendFriendRequest], after a lookup of the unordered
    pair), becomes [accepted] by an update of its id
    ([useAcceptFriendRequest]) and disappears by a delete of its id
    ([useRejectFriendRequest], [useRemoveFriend]).  The three lists (friends,
    incoming, outgoing) are two reads joined on the client with a
    placeholder profile for a missing one.  Each hook is a function of
    the monad [M db] of [Prelude]; the hooks are generic in the store
    configuration, the theorems use the schema of database.ts. *)

From S2P Require Import Prelude Remote Schema.

(** [{ ...friendship, friendProfile }] (or [user], [friend]): a row of
    [friendships] with the profile joined to it. *)
Record joined : Type := Joined { j_row : row; j_profile : row }.

Section hooks.
Context (cfg : store_config).

(** [{ id: friendId, username: 'Unknown', avatar_url: null }] *)
Definition placeholder_profile (id : jvalue) : row :=
  <["id" := id]> (<["username" := JStr "Unknown"]> (<["avatar_url" := JNull]> ∅)).

(** [profiles?.find(p => p.id === id) || placeholder] *)
Definition profile_of (profiles : list row) (id : jvalue) : row :=
  default (placeholder_profile id)
    (find_first (fun p => bool_decide (p !! "id" = Some id)) profiles).

Definition profile_cols : option (list string) := Some ["id"; "username"; "avatar_url"].

(** The pattern shared by the three list hooks: read the friendships
    matching [fs], return [] when there are none, read the profiles of
    [key f] for each of them, join. *)
Definition load_with_profiles (fs : list pfilter) (key : row -> jvalue) : M db (list joined) :=
  fr ← lift_read (fun d => select_rows cfg d "friendships" None fs);
  match error fr with
  | Some e => throw e
  | None =>
      match default [] (data fr) with
      | [] => mret []
      | friendships =>
          pr ← lift_read (fun d => select_rows cfg d "profiles" profile_cols [FIn "id" (key <$> friendships)]);
          match error pr with
          | Some e => throw e
          | None => mret ((fun f => Joined f (profile_of (default [] (data pr)) (key f))) <$> friendships)
          end
      end
  end.

(** [f.user_id === user.id ? f.friend_id : f.user_id] *)
Definition other_party (uid : nat) (f : row) : jvalue :=
  if bool_decide (f !! "user_id" = Some (JUuid uid)) then col f "friend_id" else col f "user_id".

(** [useFriends] *)
Definition useFriends_queryFn (user : option nat) : M db (list joined) :=
  match user with
  | None => mret []
  | Some uid =>
      load_with_profiles
        [FOr [FEq "user_id" (JUuid uid); FEq "friend_id" (JUuid uid)]; FEq "status" (JStr "accepted")]
        (other_party uid)
  end.

(** [usePendingFriendRequests]: requests received. *)
Definition usePendingFriendRequests_queryFn (user : option nat) : M db (list joined) :=
  match user with
  | None => mret []
  | Some uid =>
      load_with_profiles [FEq "friend_id" (JUuid uid); FEq "status" (JStr "pending")]
        (fun f => col f "user_id")
  end.

(** [useSentFriendRequests]: requests sent. *)
Definition useSentFriendRequests_queryFn (user : option nat) : M db (list joined) :=
  match user with
  | None => mret []
  | Some uid =>
      load_with_profiles [FEq "user_id" (JUuid uid); FEq "status" (JStr "pending")]
        (fun f => col f "friend_id")
  end.

(** [and(user_id.eq.A,friend_id.eq.B),and(user_id.eq.B,friend_id.eq.A)] *)
Definition pair_filter (a b : nat) : pfilter :=
  FOr [FAnd [FEq "user_id" (JUuid a); FEq "friend_id" (JUuid b)];
       FAnd [FEq "user_id" (JUuid b); FEq "friend_id" (JUuid a)]].

(** The first round trip of [useSendFriendRequest]: the lookup.  Only
    [data] is read: an error of [.maybeSingle()] is dropped. *)
Definition send_check (uid friendId : nat) : M db unit :=
  existing ← lift_read (fun d =>
    maybe_single (select_rows cfg d "friendships" (Some ["id"; "status"]) [pair_filter uid friendId]));
  match data existing with
  | Some ex =>
      if bool_decide (ex !! "status" = Some (JStr "pending")) then throw (new_Error "Request already sent")
      else if bool_decide (ex !! "status" = Some (JStr "accepted")) then throw (new_Error "Already friends")
      else mret ()
  | None => mret ()
  end.

Definition friendship_payload (uid friendId : nat) : row :=
  <["user_id" := JUuid uid]> (<["friend_id" := JUuid friendId]> (<["status" := JStr "pending"]> ∅)).

(** The second round trip: the insert, without [.select()], so [data]
    is null. *)
Definition send_insert (uid friendId : nat) : M db (option row) :=
  resp ← lift_write (insert_row cfg "friendships" (friendship_payload uid friendId));
  match error resp with
  | Some e => throw e
  | None => mret None
  end.

(** [useSendFriendRequest] *)
Definition useSendFriendRequest_mutationFn (user : option nat) (friendId : nat) : M db (option row) :=
  match user with
  | None => throw (new_Error "Not authenticated")
  | Some uid => send_check uid friendId ;; send_insert uid friendId
  end.

(** [{ status: 'accepted' }] *)
Definition accepted_patch : row := <["status" := JStr "accepted"]> ∅.

(** [useAcceptFriendRequest] *)
Definition useAcceptFriendRequest_mutationFn (friendshipId : nat) : M db (option (list row)) :=
  resp ← lift_write (update_rows cfg "friendships" accepted_patch [FEq "id" (JUuid friendshipId)]);
  match error resp with
  | Some e => throw e
  | None => mret None
  end.

(** [useRejectFriendRequest] and [useRemoveFriend]: the same delete. *)
Definition delete_friendship (friendshipId : nat) : M db (option unit) :=
  resp ← lift_write (delete_rows cfg "friendships" [FEq "id" (JUuid friendshipId)]);
  match error resp with
  | Some e => throw e
  | None => mret (data resp)
  end.

Definition useRejectFriendRequest_mutationFn := delete_friendship.
Definition useRemoveFriend_mutationFn := delete_friendship.

(** [useSearchUsers]: [ilike '%q%'], the current user excluded,
    at most 10 rows. *)
Definition useSearchUsers_queryFn (user : option nat) (searchQuery : string) : M db (option (list row)) :=
  if String.eqb searchQuery "" || (String.length searchQuery <? 2) then mret (Some [])
  else
    r ← lift_read (fun d => select_rows cfg d "profiles" profile_cols
                    [FIlike "username" ("%" ++ searchQuery ++ "%");
                     FNeq "id" (match user with Some u => JUuid u | None => JStr "" end)]);
    match error r with
    | Some e => throw e
    | None => mret (limit 10 <$> data r)
    end.

(** [useFriendActivities] *)
Definition useFriendActivities_queryFn (user : option nat) : M db (option (list row)) :=
  match user with
  | None => mret (Some [])
  | Some _ =>
      r ← lift_read (fun d => select_rows cfg d "friend_activities" None []);
      match error r with
      | Some e => throw e
      | None => mret (limit 20 <$> data r)
      end
  end.
End hooks.

(** ** FriendsSidebar.tsx *)

(** [isAlreadyFriend]: [friends?.some(f => f.friendProfile.id === userId)] *)
Definition isAlreadyFriend (friends : option (list joined)) (userId : jvalue) : bool :=
  match friends with
  | None => false
  | Some fs => existsb (fun f => bool_decide (j_profile f !! "id" = Some userId)) fs
  end.

(** [hasPendingRequest]: [sentRequests?.some(r => r.friend_id === userId)] *)
Definition hasPendingRequest (sent : option (list joined)) (userId : jvalue) : bool :=
  match sent with
  | None => false
  | Some rs => existsb (fun r => bool_decide (j_row r !! "friend_id" = Some userId)) rs
  end.

(** What a search result shows: a "Friend" badge, a "Sent" badge, or the
    button that sends a request. *)
Inductive search_action : Type := BadgeFriend | BadgeSent | AddButton.

Definition search_result_action (friends sent : option (list joined)) (userId : jvalue) : search_action :=
  if isAlreadyFriend friends userId then BadgeFriend
  else if hasPendingRequest sent userId then BadgeSent
  else AddButton.

(** The toasts of [handleSendRequest]. *)
Inductive send_toast : Type := ToastSent | ToastAlreadySent | ToastAlreadyFriends | ToastFailed.

(** The error branch: the kind of failure is read from the message text. *)
Definition send_error_toast (errorMessage : string) : send_toast :=
  if includes errorMessage "already sent" || includes errorMessage "duplicate" then ToastAlreadySent
  else if includes errorMessage "Already friends" then ToastAlreadyFriends
  else ToastFailed.

Definition handleSendRequest (cfg : store_config) (user : option nat) (friendId : nat) : M db send_toast :=
  fun d =>
    match useSendFriendRequest_mutationFn cfg user friendId d with
    | (Ok _, d') => (Ok ToastSent, d')
    | (Err e, d') => (Ok (send_error_toast (err_message e)), d')
    end.

(** ** The friendship invariant *)

Abbreviation F := "friendships"%string.

(** [r] is a row of the unordered pair {a, b}. *)
Definition is_pair (a b : nat) (r : row) : bool := filter_matches (pair_filter a b) r.

Definition pair_count (d : db) (a b : nat) : nat := length (List.filter (is_pair a b) (table d F)).

Definition status_ok (r : row) : Prop :=
  r !! "status" = Some (JStr "pending") \/ r !! "status" = Some (JStr "accepted").

(** At most one row per unordered pair, and every row pending or
    accepted (the code never writes ['rejected']). *)
Definition friendship_inv (d : db) : Prop :=
  (forall a b, pair_count d a b <= 1) /\ Forall status_ok (table d F).

Definition links (r : row) (a b : nat) : Prop :=
  r !! "user_id" = Some (JUuid a) /\ r !! "friend_id" = Some (JUuid b).

Lemma is_pair_spec a b r :
  is_pair a b r = true <-> links r a b \/ links r b a.
Proof.
  unfold is_pair, links. cbn [filter_matches pair_filter].
  rewrite !orb_false_r, !andb_true_r, orb_true_iff, !andb_true_iff, !bool_decide_eq_true,
    !non_null_some.
  naive_solver.
Qed.

Lemma is_pair_sym a b r : is_pair a b r = is_pair b a r.
Proof. apply Bool.eq_true_iff_eq. rewrite !is_pair_spec. tauto. Qed.

(** A row of the pair {a, b} and of the pair {u, f}: the same pair. *)
Lemma is_pair_same a b u f r :
  is_pair a b r = true -> links r u f -> forall x, is_pair a b x = is_pair u f x.
Proof.
  rewrite is_pair_spec. unfold links. intros [[Ha Hb]|[Ha Hb]] [Hu Hf] x;
    rewrite Ha in Hu; rewrite Hb in Hf; simplify_eq; [done|apply is_pair_sym].
Qed.

Lemma links_is_pair r a b : links r a b -> is_pair a b r = true.
Proof. rewrite is_pair_spec. tauto. Qed.

Lemma pair_filter_select a b (l : list row) :
  List.filter (matches_all [pair_filter a b]) l = List.filter (is_pair a b) l.
Proof. apply List.filter_ext. intros r. by rewrite matches_all_one. Qed.

Lemma filter_length_le1 {A} (P : A -> bool) l :
  length (List.filter P l) <= 1 ->
  List.filter P l = [] \/ exists x, List.filter P l = [x].
Proof. destruct (List.filter P l) as [|x [|y k]]; cbn; [auto|eauto|lia]. Qed.

Section friend_facts.
Context (uniq : string -> list (list string)).
Let cfg := popstack_cfg uniq.

Lemma friendships_known : cfg_schema cfg F = Some friendships_schema.
Proof. reflexivity. Qed.

Lemma payload_columns_ok uid fid :
  unknown_column friendships_schema (friendship_payload uid fid) = None.
Proof. reflexivity. Qed.

Lemma payload_required_ok uid fid :
  missing_required friendships_schema (friendship_payload uid fid) = None.
Proof. reflexivity. Qed.

(** The lookup of [useSendFriendRequest] under the invariant: it passes
    when the pair has no row, and otherwise throws the error that
    matches the status of the pair's row. *)
Lemma send_check_cases (d : db) uid fid :
  friendship_inv d ->
  (List.filter (is_pair uid fid) (table d F) = [] /\ send_check cfg uid fid d = (Ok (), d)) \/
  (exists r, List.filter (is_pair uid fid) (table d F) = [r] /\
     send_check cfg uid fid d =
       (Err (new_Error (if bool_decide (r !! "status" = Some (JStr "pending"))
                        then "Request already sent" else "Already friends")), d)).
Proof.
  intros [Hcount Hst].
  unfold send_check. rewrite lift_read_bind.
  rewrite (select_rows_known cfg d F friendships_schema _ _ friendships_known), pair_filter_select.
  destruct (filter_length_le1 _ _ (Hcount uid fid)) as [E|[r E]]; rewrite E; [left; done|right].
  exists r. split; [done|]. cbn [map]. rewrite maybe_single_one. cbn [data].
  assert (Hr : status_ok r).
  { eapply List.Forall_forall; [exact Hst|]. apply (List.filter_In (is_pair uid fid) r).
    rewrite E. by left. }
  unfold resp_ok; cbn [data]. rewrite !project_lookup by set_solver.
  destruct Hr as [Hr|Hr]; rewrite Hr.
  - by rewrite bool_decide_eq_true_2.
  - rewrite bool_decide_eq_false_2 by congruence. by rewrite bool_decide_eq_true_2.
Qed.

(** The insert of [useSendFriendRequest]: on success the new row of the
    pair is appended to [friendships], pending. *)
Lemma send_insert_cases (d : db) uid fid x d' :
  send_insert cfg uid fid d = (x, d') ->
  (d' = d /\ exists e, x = Err e) \/
  (x = Ok None /\ exists r, table d' F = table d F ++ [r] /\ links r uid fid /\
     r !! "status" = Some (JStr "pending") /\ forall t, F <> t -> table d' t = table d t).
Proof.
  unfold send_insert. rewrite lift_write_bind.
  destruct (insert_row cfg F (friendship_payload uid fid) d) as [resp d1] eqn:E. cbn [fst snd].
  destruct (insert_row_cases cfg _ _ _ _ _ E)
    as [[-> [_ Herr]]|[sc [r [Hsc [-> [-> [Ht Hoth]]]]]]].
  - destruct (error resp) eqn:Er; [|exfalso; by apply Herr].
    intros H. inversion H; subst. left; eauto.
  - intros H. inversion H; subst. right. split; [done|].
    rewrite friendships_known in Hsc. inversion Hsc; subst.
    eexists. split; [exact Ht|]. split; [|split; [|exact Hoth]].
    + split; apply complete_row_payload; reflexivity.
    + apply complete_row_payload; reflexivity.
Qed.

(** [useSendFriendRequest] succeeds only when the pair had no row, and
    then appends one pending row of the pair. *)
Lemma send_ok (d : db) uid fid x d1 :
  friendship_inv d ->
  useSendFriendRequest_mutationFn cfg (Some uid) fid d = (Ok x, d1) ->
  List.filter (is_pair uid fid) (table d F) = [] /\
  exists r, table d1 F = table d F ++ [r] /\ links r uid fid /\
    r !! "status" = Some (JStr "pending") /\ forall t, F <> t -> table d1 t = table d t.
Proof.
  intros Hinv. cbn [useSendFriendRequest_mutationFn].
  destruct (send_check_cases d uid fid Hinv) as [[Hnil Hc]|[r [_ Hc]]].
  - rewrite (bind_ok_run _ _ _ _ _ Hc). intros H.
    destruct (send_insert_cases d uid fid _ _ H) as [[_ [e He]]|[_ Hr]]; [done|]. by split.
  - by rewrite (bind_err_run _ _ _ _ _ Hc).
Qed.

(** Every run of [useSendFriendRequest] either leaves the store as it
    was or succeeds as [send_ok] says. *)
Lemma send_unchanged_or_ok (d : db) user fid x d1 :
  friendship_inv d ->
  useSendFriendRequest_mutationFn cfg user fid d = (x, d1) ->
  d1 = d \/ exists uid y, user = Some uid /\ x = Ok y /\
    useSendFriendRequest_mutationFn cfg (Some uid) fid d = (Ok y, d1).
Proof.
  intros Hinv H. destruct user as [uid|]; [|inversion H; by left].
  destruct x as [y|e]; [right; eauto|left].
  revert H. cbn [useSendFriendRequest_mutationFn].
  destruct (send_check_cases d uid fid Hinv) as [[_ Hc]|[r [_ Hc]]].
  - rewrite (bind_ok_run _ _ _ _ _ Hc). intros H.
    by destruct (send_insert_cases d uid fid _ _ H) as [[-> _]|[? _]].
  - rewrite (bind_err_run _ _ _ _ _ Hc). by intros [= _ ->].
Qed.

Lemma append_pair_inv (d d1 : db) uid fid r :
  friendship_inv d ->
  List.filter (is_pair uid fid) (table d F) = [] ->
  table d1 F = table d F ++ [r] -> links r uid fid -> r !! "status" = Some (JStr "pending") ->
  friendship_inv d1.
Proof.
  intros [Hc Hs] Hnil Ht Hl Hst. split.
  - intros a b. unfold pair_count. rewrite Ht, filter_app_length.
    destruct (is_pair a b r) eqn:E; [|specialize (Hc a b); unfold pair_count in Hc; lia].
    rewrite (List.filter_ext _ _ (is_pair_same a b uid fid r E Hl)), Hnil. cbn. lia.
  - rewrite Ht. apply Forall_app. split; [done|]. constructor; [by left|constructor].
Qed.

Lemma send_preserves_inv (d : db) user fid x d1 :
  friendship_inv d ->
  useSendFriendRequest_mutationFn cfg user fid d = (x, d1) -> friendship_inv d1.
Proof.
  intros Hinv H.
  destruct (send_unchanged_or_ok d user fid x d1 Hinv H) as [->|[uid [y [_ [_ Hok]]]]]; [done|].
  destruct (send_ok d uid fid y d1 Hinv Hok) as [Hnil [r [Ht [Hl [Hst _]]]]].
  by apply (append_pair_inv d d1 uid fid r).
Qed.

Lemma is_pair_ext a b (r r' : row) :
  r !! "user_id" = r' !! "user_id" -> r !! "friend_id" = r' !! "friend_id" ->
  is_pair a b r = is_pair a b r'.
Proof.
  intros Hu Hf. apply Bool.eq_true_iff_eq. rewrite !is_pair_spec. unfold links.
  by rewrite Hu, Hf.
Qed.

(** [useAcceptFriendRequest] only changes statuses, to accepted. *)
Lemma accept_preserves_inv (d : db) k x d1 :
  friendship_inv d ->
  useAcceptFriendRequest_mutationFn cfg k d = (x, d1) -> friendship_inv d1.
Proof.
  intros [Hc Hs]. unfold useAcceptFriendRequest_mutationFn. rewrite lift_write_bind.
  destruct (update_rows cfg F accepted_patch [FEq "id" (JUuid k)] d) as [resp d2] eqn:E.
  cbn [fst snd]. intros H.
  assert (d1 = d2) as ->.
  { destruct (error resp); injection H; congruence. }
  destruct (update_rows_cases cfg _ _ _ _ _ _ E) as [[-> _]|[_ [Ht _]]].
  - exact (conj Hc Hs).
  - split.
    + intros a b. unfold pair_count. rewrite Ht, filter_map_length; [apply Hc|].
      intros r. destruct (matches_all _ r); [|done].
      apply is_pair_ext; by apply lookup_union_r.
    + rewrite Ht. apply Forall_map.
      eapply Forall_impl; [exact Hs|]. intros r Hr.
      destruct (matches_all _ r); [|done]. right. by apply lookup_union_Some_l.
Qed.

(** [useRejectFriendRequest] / [useRemoveFriend] only remove rows. *)
Lemma delete_preserves_inv (d : db) k x d1 :
  friendship_inv d ->
  delete_friendship cfg k d = (x, d1) -> friendship_inv d1.
Proof.
  intros [Hc Hs]. unfold delete_friendship. rewrite lift_write_bind.
  destruct (delete_rows cfg F [FEq "id" (JUuid k)] d) as [resp d2] eqn:E.
  cbn [fst snd]. intros H.
  assert (d1 = d2) as ->.
  { destruct (error resp); injection H; congruence. }
  destruct (delete_rows_cases cfg F _ _ _ _ eq_refl E) as [[-> _]|[_ [Ht _]]]; [exact (conj Hc Hs)|].
  split.
  - intros a b. unfold pair_count. rewrite Ht.
    etrans; [apply filter_filter_length|apply Hc].
  - rewrite Ht. by apply Forall_list_filter.
Qed.

Abbreviation new_row d u f := (complete_row friendships_schema d (friendship_payload u f)).

Lemma new_row_links (d : db) u f : links (new_row d u f) u f.
Proof. split; apply complete_row_payload; reflexivity. Qed.

(** The insert of a request succeeds when the unique constraints do not
    object, and appends the completed payload. *)
Lemma send_insert_appends (d : db) u f :
  violates_unique cfg F (new_row d u f) (table d F) = false ->
  exists d', send_insert cfg u f d = (Ok None, d') /\ table d' F = table d F ++ [new_row d u f].
Proof.
  intros Hu. unfold send_insert. rewrite lift_write_bind.
  rewrite (insert_row_ok cfg F friendships_schema _ _ friendships_known
             (payload_columns_ok u f) (payload_required_ok u f) Hu).
  cbn [fst snd]. unfold resp_ok. cbn [error]. eexists. split; [reflexivity|].
  apply table_insert_same.
Qed.

(** A unique key on (user_id, friend_id), if there is one, objects only
    to a second row of the same ordered pair. *)
Lemma pair_key_no_collision (d : db) u f :
  Forall (fun k => k = ["user_id"; "friend_id"]) (uniq F) ->
  (forall x, In x (table d F) -> ~ links x u f) ->
  violates_unique cfg F (new_row d u f) (table d F) = false.
Proof.
  intros Hk Hno. unfold violates_unique.
  destruct (existsb _ _) eqn:E; [exfalso|reflexivity].
  apply existsb_exists in E as [k [Hin E]].
  rewrite List.Forall_forall in Hk. cbn [cfg popstack_cfg cfg_unique] in Hin.
  rewrite (Hk k Hin) in E.
  apply existsb_exists in E as [x [Hx E]]. apply (Hno x Hx).
  unfold collides in E. cbn [forallb] in E.
  destruct (new_row_links d u f) as [Hu Hf]. rewrite Hu, Hf in E. cbn [non_null] in E.
  rewrite andb_true_r, andb_true_iff, !bool_decide_eq_true in E. exact E.
Qed.

(** Under the invariant, a pair whose only row is pending makes
    [useSendFriendRequest] throw "Request already sent", in either
    direction, and change nothing. *)
Lemma send_rejected_by_pending (d : db) uid fid r :
  friendship_inv d ->
  List.filter (is_pair uid fid) (table d F) = [r] ->
  r !! "status" = Some (JStr "pending") ->
  useSendFriendRequest_mutationFn cfg (Some uid) fid d = (Err (new_Error "Request already sent"), d).
Proof.
  intros Hinv Hr Hst. cbn [useSendFriendRequest_mutationFn].
  destruct (send_check_cases d uid fid Hinv) as [[Hnil _]|[r' [Hr' Hc]]];
    [rewrite Hr in Hnil; discriminate|].
  rewrite Hr in Hr'. injection Hr' as <-.
  rewrite (bind_err_run _ _ _ _ _ Hc), Hst, bool_decide_eq_true_2 by reflexivity. reflexivity.
Qed.

Lemma filter_pair_sym a b (l : list row) :
  List.filter (is_pair a b) l = List.filter (is_pair b a) l.
Proof. apply List.filter_ext. intros x. apply is_pair_sym. Qed.

(** C1. After a successful friend request from [uid] to [fid], a second
    request for the same pair fails with "Request already sent" in both
    directions, and leaves the store unchanged: the code rejects the
    mutual request instead of accepting it. *)
Theorem send_request_twice_rejected (d : db) uid fid x d1 :
  friendship_inv d ->
  useSendFriendRequest_mutationFn cfg (Some uid) fid d = (Ok x, d1) ->
  useSendFriendRequest_mutationFn cfg (Some uid) fid d1 = (Err (new_Error "Request already sent"), d1) /\
  useSendFriendRequest_mutationFn cfg (Some fid) uid d1 = (Err (new_Error "Request already sent"), d1).
Proof.
  intros Hinv Hok.
  pose proof (send_preserves_inv d _ fid _ d1 Hinv Hok) as Hinv1.
  destruct (send_ok d uid fid x d1 Hinv Hok) as [Hnil [r [Ht [Hl [Hst _]]]]].
  assert (Hf : List.filter (is_pair uid fid) (table d1 F) = [r]).
  { rewrite Ht, List.filter_app, Hnil. cbn [app List.filter]. by rewrite (links_is_pair r uid fid Hl). }
  split; apply (send_rejected_by_pending d1 _ _ r Hinv1); try exact Hst; [exact Hf|].
  by rewrite filter_pair_sym.
Qed.
End friend_facts.

Lemma friendship_inv_empty (d : db) : table d F = [] -> friendship_inv d.
Proof.
  intros Hd. split; [intros a b; unfold pair_count; rewrite Hd; cbn; lia|rewrite Hd; constructor].
Qed.

(** ** Sequential runs of the friendship hooks *)

(** One call of a friendship mutation, as the sidebar issues them. *)
Inductive friend_op : Type :=
  | OpSend (user : option nat) (friendId : nat)
  | OpAccept (friendshipId : nat)
  | OpReject (friendshipId : nat)
  | OpRemove (friendshipId : nat).

Definition apply_op (cfg : store_config) (op : friend_op) (d : db) : db :=
  match op with
  | OpSend user fid => snd (useSendFriendRequest_mutationFn cfg user fid d)
  | OpAccept k => snd (useAcceptFriendRequest_mutationFn cfg k d)
  | OpReject k => snd (useRejectFriendRequest_mutationFn cfg k d)
  | OpRemove k => snd (useRemoveFriend_mutationFn cfg k d)
  end.

(** The stores reachable from one without friendships by mutations that
    run one after the other (each awaited before the next starts). *)
Inductive reachable (cfg : store_config) : db -> Prop :=
  | reach_init d : table d F = [] -> reachable cfg d
  | reach_step d op : reachable cfg d -> reachable cfg (apply_op cfg op d).

Section reachability.
Context (uniq : string -> list (list string)).
Let cfg := popstack_cfg uniq.

Lemma apply_op_preserves_inv (d : db) op :
  friendship_inv d -> friendship_inv (apply_op cfg op d).
Proof.
  intros Hinv. destruct op as [user fid|k|k|k]; cbn [apply_op].
  - destruct (useSendFriendRequest_mutationFn cfg user fid d) as [x d1] eqn:E.
    exact (send_preserves_inv uniq d user fid x d1 Hinv E).
  - destruct (useAcceptFriendRequest_mutationFn cfg k d) as [x d1] eqn:E.
    exact (accept_preserves_inv uniq d k x d1 Hinv E).
  - destruct (useRejectFriendRequest_mutationFn cfg k d) as [x d1] eqn:E.
    exact (delete_preserves_inv uniq d k x d1 Hinv E).
  - destruct (useRemoveFriend_mutationFn cfg k d) as [x d1] eqn:E.
    exact (delete_preserves_inv uniq d k x d1 Hinv E).
Qed.

(** C2. When the friendship mutations run one at a time, every
    reachable store has at most one row per unordered pair of users and
    only pending or accepted rows. *)
Theorem reachable_friendship_inv (d : db) :
  reachable cfg d -> friendship_inv d.
Proof.
  induction 1 as [d Hd|d op _ IH].
  - by apply friendship_inv_empty.
  - by apply apply_op_preserves_inv.
Qed.
End reachability.

(** ** Interleaved requests

    Each request of a client is a list of round trips; the event loop may
    run round trips of different clients in any order.  A schedule lists
    the client that makes each next round trip; a client that has thrown
    makes none. *)
Fixpoint run_schedule (clients : list (list (M db unit))) (sched : list nat) (d : db) : db :=
  match sched with
  | [] => d
  | i :: rest =>
      match clients !! i with
      | Some (step :: steps) =>
          let '(r, d') := step d in
          run_schedule (<[i := if is_ok r then steps else []]> clients) rest d'
      | _ => run_schedule clients rest d
      end
  end.

(** [useSendFriendRequest] as its two round trips. *)
Definition send_round_trips (cfg : store_config) (uid fid : nat) : list (M db unit) :=
  [send_check cfg uid fid; (send_insert cfg uid fid ;; mret ())].

Lemma run_schedule_step clients i rest (d : db) step steps r d' :
  clients !! i = Some (step :: steps) -> step d = (r, d') ->
  run_schedule clients (i :: rest) d =
  run_schedule (<[i := if is_ok r then steps else []]> clients) rest d'.
Proof. intros H1 H2. cbn [run_schedule]. by rewrite H1, H2. Qed.

(** Run the next round trip of a schedule, given its result. *)
Ltac sched_step H := erewrite run_schedule_step; [|reflexivity|exact H].

Section races.
Context (uniq : string -> list (list string)).
Let cfg := popstack_cfg uniq.

Lemma filter_nil_no_links (d : db) a b x :
  List.filter (is_pair a b) (table d F) = [] -> In x (table d F) -> ~ links x a b /\ ~ links x b a.
Proof.
  intros Hnil Hx. split; intros Hl;
    assert (In x (List.filter (is_pair a b) (table d F)))
      by (apply List.filter_In; split; [exact Hx|apply is_pair_spec; tauto]);
    rewrite Hnil in *; contradiction.
Qed.

Lemma send_insert_unit (d : db) u f d' :
  send_insert cfg u f d = (Ok None, d') -> (send_insert cfg u f ;; mret ()) d = (Ok (), d').
Proof. intros H. by rewrite (bind_ok_run _ _ _ _ _ H). Qed.

(** C3. Two users who send each other a request at the same time, with
    both lookups answered before either insert, both succeed: the pair
    ends with two rows, so the invariant of C2 does not hold for
    concurrent calls (a unique key on (user_id, friend_id) does not
    prevent it). *)
Theorem concurrent_mutual_requests_duplicate (d : db) a b :
  a <> b ->
  Forall (fun k => k = ["user_id"; "friend_id"]) (uniq F) ->
  friendship_inv d -> pair_count d a b = 0 ->
  pair_count (run_schedule [send_round_trips cfg a b; send_round_trips cfg b a] [0; 1; 0; 1] d) a b = 2.
Proof.
  intros Hab Hk Hinv H0.
  assert (Hnil : List.filter (is_pair a b) (table d F) = []) by (by apply length_zero_iff_nil).
  assert (Hc1 : send_check cfg a b d = (Ok (), d)).
  { destruct (send_check_cases uniq d a b Hinv) as [[_ H]|[r [Hr _]]]; [exact H|].
    rewrite Hnil in Hr; discriminate. }
  assert (Hc2 : send_check cfg b a d = (Ok (), d)).
  { destruct (send_check_cases uniq d b a Hinv) as [[_ H]|[r [Hr _]]]; [exact H|].
    rewrite filter_pair_sym, Hnil in Hr; discriminate. }
  destruct (send_insert_appends uniq d a b) as [d2 [Hi1 Ht2]].
  { apply pair_key_no_collision; [exact Hk|]. intros x Hx. by apply (filter_nil_no_links d a b x). }
  destruct (send_insert_appends uniq d2 b a) as [d3 [Hi2 Ht3]].
  { apply pair_key_no_collision; [exact Hk|]. intros x Hx Hl. rewrite Ht2 in Hx.
    apply List.in_app_or in Hx as [Hx|[<-|[]]].
    - by apply (filter_nil_no_links d a b x).
    - destruct Hl as [Hu _]. destruct (new_row_links d a b) as [Hu' _].
      rewrite Hu in Hu'. injection Hu' as ->. contradiction. }
  sched_step Hc1. sched_step Hc2.
  sched_step (send_insert_unit d a b d2 Hi1). sched_step (send_insert_unit d2 b a d3 Hi2).
  cbn [run_schedule]. unfold pair_count. rewrite Ht3, Ht2, !filter_app_length, Hnil.
  rewrite (links_is_pair _ _ _ (new_row_links d a b)), is_pair_sym,
    (links_is_pair _ _ _ (new_row_links d2 b a)). reflexivity.
Qed.

(** C4. Once a pair has two or more rows, [.maybeSingle()] answers an
    error that the code drops, so without a unique key a further request
    is inserted: the duplicates keep growing. *)
Theorem send_ignores_lookup_error (d : db) uid fid :
  uniq F = [] -> 2 <= pair_count d uid fid ->
  exists d', useSendFriendRequest_mutationFn cfg (Some uid) fid d = (Ok None, d') /\
             pair_count d' uid fid = S (pair_count d uid fid).
Proof.
  intros Hu H2.
  assert (Hc : send_check cfg uid fid d = (Ok (), d)).
  { unfold send_check. rewrite lift_read_bind.
    rewrite (select_rows_known cfg d F friendships_schema _ _ (friendships_known uniq)), pair_filter_select.
    unfold pair_count in H2.
    destruct (List.filter (is_pair uid fid) (table d F)) as [|x [|y l]]; cbn in H2; [lia|lia|].
    cbn [map]. rewrite maybe_single_many. reflexivity. }
  destruct (send_insert_appends uniq d uid fid) as [d' [Hi Ht]].
  { unfold violates_unique. cbn [cfg popstack_cfg cfg_unique]. by rewrite Hu. }
  exists d'. cbn [useSendFriendRequest_mutationFn]. rewrite (bind_ok_run _ _ _ _ _ Hc). cbv beta. unfold cfg. rewrite Hi.
  split; [reflexivity|]. unfold pair_count. rewrite Ht, filter_app_length.
  rewrite (links_is_pair _ _ _ (new_row_links d uid fid)). lia.
Qed.
End races.

(** ** The derived lists and the search *)

Lemma placeholder_id (id : jvalue) : placeholder_profile id !! "id" = Some id.
Proof. unfold placeholder_profile. by rewrite lookup_insert_eq. Qed.

(** The joined profile always carries the id it was looked up by, found
    or not. *)
Lemma profile_of_id (ps : list row) (id : jvalue) : profile_of ps id !! "id" = Some id.
Proof.
  unfold profile_of, find_first. destruct (List.find _ ps) as [p|] eqn:E; cbn [default].
  - apply List.find_some in E as [_ E]. by apply bool_decide_eq_true in E.
  - apply placeholder_id.
Qed.

Lemma for_either_spec c1 c2 v (r : row) :
  filter_matches (FOr [FEq c1 v; FEq c2 v]) r = true <->
  (r !! c1 = Some v \/ r !! c2 = Some v) /\ v <> JNull.
Proof.
  cbn [filter_matches]. rewrite orb_false_r, orb_true_iff, !bool_decide_eq_true, !non_null_some.
  tauto.
Qed.


Section views.
Context (uniq : string -> list (list string)).
Let cfg := popstack_cfg uniq.

(** The three list hooks read without failing: one joined entry per
    matching friendship, in table order, with the profile of its key. *)
Lemma load_with_profiles_run (d : db) fs key :
  exists ps, load_with_profiles cfg fs key d =
    (Ok ((fun f => Joined f (profile_of ps (key f))) <$> List.filter (matches_all fs) (table d F)), d).
Proof.
  unfold load_with_profiles. rewrite lift_read_bind.
  rewrite (select_rows_known cfg d F friendships_schema _ _ (friendships_known uniq)).
  unfold resp_ok. cbn [error data default id]. rewrite map_project_none.
  destruct (List.filter (matches_all fs) (table d F)) as [|f0 fs'].
  - exists []. reflexivity.
  - cbv beta iota. rewrite lift_read_bind.
    rewrite (select_rows_known cfg d "profiles" profiles_schema) by reflexivity.
    cbn [error data default]. eexists. reflexivity.
Qed.

Lemma friends_entry (d : db) r a b uid other :
  In r (table d F) -> links r a b -> r !! "status" = Some (JStr "accepted") ->
  (uid = a /\ other = b \/ uid = b /\ other = a) ->
  exists l, useFriends_queryFn cfg (Some uid) d = (Ok l, d) /\
    exists j, j ∈ l /\ j_row j = r /\ j_profile j !! "id" = Some (JUuid other).
Proof.
  intros Hin [Hu Hf] Hst Hcase. cbn [useFriends_queryFn].
  destruct (load_with_profiles_run d
    [FOr [FEq "user_id" (JUuid uid); FEq "friend_id" (JUuid uid)]; FEq "status" (JStr "accepted")]
    (other_party uid)) as [ps Hrun].
  rewrite Hrun. eexists. split; [reflexivity|].
  exists (Joined r (profile_of ps (other_party uid r))). split; [|split; [reflexivity|]].
  - eapply (list_elem_of_fmap_2' _ _ r); [|reflexivity].
    apply list_elem_of_In, List.filter_In. split; [exact Hin|].
    unfold matches_all. cbn [forallb]. rewrite andb_true_r, andb_true_iff, for_either_spec, feq_spec.
    split; [split; [|discriminate]|split; [exact Hst|discriminate]].
    destruct Hcase as [[-> _]|[-> _]]; [left; exact Hu|right; exact Hf].
  - cbn [j_profile]. rewrite profile_of_id. f_equal. unfold other_party, col.
    destruct Hcase as [[-> ->]|[-> ->]].
    + rewrite Hu, bool_decide_eq_true_2 by reflexivity. by rewrite Hf.
    + case_bool_decide as Hb.
      * rewrite Hu in Hb. injection Hb as ->. by rewrite Hf.
      * by rewrite Hu.
Qed.

(** C5. The friend list is symmetric although rows are stored with a
    direction: an accepted row from [a] to [b] puts [b] in the friend
    list of [a] and [a] in the friend list of [b], with that row. *)
Theorem friends_list_symmetric (d : db) r a b :
  In r (table d F) -> links r a b -> r !! "status" = Some (JStr "accepted") ->
  (exists l, useFriends_queryFn cfg (Some a) d = (Ok l, d) /\
     exists j, j ∈ l /\ j_row j = r /\ j_profile j !! "id" = Some (JUuid b)) /\
  (exists l, useFriends_queryFn cfg (Some b) d = (Ok l, d) /\
     exists j, j ∈ l /\ j_row j = r /\ j_profile j !! "id" = Some (JUuid a)).
Proof.
  intros Hin Hl Hst. split; eapply friends_entry; eauto.
Qed.

(** A search for fewer than two characters makes no request and
    returns no user. *)
Theorem search_short_query_empty (d : db) user q :
  String.length q < 2 -> useSearchUsers_queryFn cfg user q d = (Ok (Some []), d).
Proof.
  intros Hq. unfold useSearchUsers_queryFn.
  rewrite (proj2 (Nat.ltb_lt _ _) Hq), orb_true_r. reflexivity.
Qed.

Lemma fneq_lookup c v (r : row) : filter_matches (FNeq c v) r = true -> r !! c <> Some v.
Proof.
  cbn. destruct (r !! c) as [[]|] eqn:E; cbn; try discriminate;
    rewrite bool_decide_eq_true; intros Hne Heq; injection Heq as <-; by apply Hne.
Qed.

(** C7. A search returns at most 10 users, never the user who searches,
    each one a stored profile reduced to id, username and avatar. *)
Theorem search_results_exclude_self (d : db) uid q l d' :
  useSearchUsers_queryFn cfg (Some uid) q d = (Ok (Some l), d') ->
  d' = d /\ length l <= 10 /\
  Forall (fun p => p !! "id" <> Some (JUuid uid) /\
                   exists p0, In p0 (table d "profiles") /\ p = project profile_cols p0) l.
Proof.
  unfold useSearchUsers_queryFn.
  destruct (String.eqb q "" || _); [intros [= <- <-]; split; [done|split; [cbn; lia|constructor]]|].
  rewrite lift_read_bind, (select_rows_known cfg d "profiles" profiles_schema) by reflexivity.
  remember (map (project profile_cols) (List.filter _ (table d "profiles"))) as X eqn:HX.
  unfold resp_ok. cbn [error data]. intros H. apply pair_equal_spec in H as [H1 <-].
  apply Ok_inj in H1. change (limit 10 <$> Some X) with (Some (limit 10 X)) in H1.
  assert (l = limit 10 X) as -> by (symmetry; exact (Some_inj _ _ H1)).
  split; [done|]. split; [apply length_firstn_le|].
  apply List.Forall_forall. intros p Hp. apply In_firstn in Hp. rewrite HX in Hp.
  apply List.in_map_iff in Hp as [p0 [<- Hp0]].
  apply List.filter_In in Hp0 as [Hin Hm].
  unfold matches_all in Hm. cbn [forallb] in Hm. rewrite andb_true_r, andb_true_iff in Hm.
  split; [|eauto].
  rewrite project_lookup by (cbn; set_solver). exact (fneq_lookup _ _ _ (proj2 Hm)).
Qed.
End views.

Lemma col_uuid (f : row) c n : col f c = JUuid n -> f !! c = Some (JUuid n).
Proof. unfold col. destruct (f !! c); cbn; congruence. Qed.

Lemma existsb_fmap_false {A B} (P : B -> bool) (g : A -> B) (l : list A) :
  (forall x, In x l -> P (g x) = false) -> existsb P (g <$> l) = false.
Proof.
  intros H. destruct (existsb P (g <$> l)) eqn:E; [exfalso|reflexivity].
  apply existsb_exists in E as [y [Hy E]]. apply list_elem_of_In, list_elem_of_fmap in Hy as [x [-> Hx]].
  rewrite (H x (proj1 (list_elem_of_In _ _) Hx)) in E. discriminate.
Qed.

Section sidebar.
Context (uniq : string -> list (list string)).
Let cfg := popstack_cfg uniq.

(** Under the invariant a row of a pair is the pair's only row. *)
Lemma only_row (d : db) a b r f :
  friendship_inv d -> In r (table d F) -> is_pair a b r = true ->
  In f (table d F) -> is_pair a b f = true -> f = r.
Proof.
  intros [Hc _] Hr Hpr Hf Hpf. apply (In_le1_eq (List.filter (is_pair a b) (table d F))).
  - apply Hc.
  - by apply List.filter_In.
  - by apply List.filter_In.
Qed.

Lemma only_row_filter (d : db) a b r :
  friendship_inv d -> In r (table d F) -> is_pair a b r = true ->
  List.filter (is_pair a b) (table d F) = [r].
Proof.
  intros Hinv Hr Hp. destruct (filter_length_le1 _ _ (proj1 Hinv a b)) as [E|[x E]].
  - assert (In r (List.filter (is_pair a b) (table d F))) by (by apply List.filter_In).
    rewrite E in *. contradiction.
  - assert (Hx : In x (List.filter (is_pair a b) (table d F))) by (rewrite E; by left).
    apply List.filter_In in Hx as [Hx Hpx]. rewrite (only_row d a b r x Hinv Hr Hp Hx Hpx) in E.
    exact E.
Qed.

(** When [b] has a pending request to [a], the search result for
    [b] shows [a] the button that sends a request (neither the friend
    nor the sent badge), and pressing it shows the "already sent"
    toast, because the lookup finds [b]'s row: the request is neither
    accepted nor shown as incoming there. *)
Theorem incoming_request_offers_add_button (d : db) a b r :
  friendship_inv d -> a <> b -> In r (table d F) -> links r b a ->
  r !! "status" = Some (JStr "pending") ->
  (exists fl sl, useFriends_queryFn cfg (Some a) d = (Ok fl, d) /\
     useSentFriendRequests_queryFn cfg (Some a) d = (Ok sl, d) /\
     search_result_action (Some fl) (Some sl) (JUuid b) = AddButton) /\
  handleSendRequest cfg (Some a) b d = (Ok ToastAlreadySent, d).
Proof.
  intros Hinv Hab Hr Hl Hst.
  assert (Hp : is_pair a b r = true) by (apply is_pair_spec; tauto).
  assert (Honly : forall f, In f (table d F) -> links f a b \/ links f b a -> f = r).
  { intros f Hf Hlf. apply (only_row d a b r f Hinv Hr Hp Hf). by apply is_pair_spec. }
  split.
  - cbn [useFriends_queryFn useSentFriendRequests_queryFn].
    destruct (load_with_profiles_run uniq d
      [FOr [FEq "user_id" (JUuid a); FEq "friend_id" (JUuid a)]; FEq "status" (JStr "accepted")]
      (other_party a)) as [ps1 H1].
    destruct (load_with_profiles_run uniq d
      [FEq "user_id" (JUuid a); FEq "status" (JStr "pending")] (fun f => col f "friend_id"))
      as [ps2 H2].
    unfold cfg. rewrite H1, H2. do 2 eexists. split; [reflexivity|]. split; [reflexivity|].
    unfold search_result_action, isAlreadyFriend, hasPendingRequest.
    rewrite !existsb_fmap_false; [reflexivity| |].
    + intros f Hf. apply List.filter_In in Hf as [Hf Hm].
      unfold matches_all in Hm. cbn [forallb] in Hm.
      rewrite andb_true_r, andb_true_iff, feq_spec in Hm. destruct Hm as [[Hsf _] _].
      apply bool_decide_eq_false_2. cbn [j_row]. intros Hfb.
      assert (f = r) as -> by (apply Honly; [exact Hf|left; split; [exact Hsf|exact Hfb]]).
      (* the sent row would be r, whose requester is b *)
      rewrite (proj1 Hl) in Hsf. injection Hsf as ->. contradiction.
    + intros f Hf. apply List.filter_In in Hf as [Hf Hm].
      unfold matches_all in Hm. cbn [forallb] in Hm.
      rewrite andb_true_r, andb_true_iff, for_either_spec, feq_spec in Hm.
      destruct Hm as [[Huf _] [Hacc _]].
      apply bool_decide_eq_false_2. cbn [j_profile]. rewrite profile_of_id. intros Hid.
      injection Hid as Hid. unfold other_party in Hid.
      assert (f = r) as ->.
      { apply Honly; [exact Hf|]. case_bool_decide as Hu.
        - left. split; [exact Hu|by apply col_uuid].
        - right. apply col_uuid in Hid. split; [exact Hid|].
          destruct Huf as [Hu'|Hf']; [contradiction|exact Hf']. }
      rewrite Hst in Hacc. discriminate.
  - unfold handleSendRequest, cfg.
    rewrite (send_rejected_by_pending uniq d a b r Hinv (only_row_filter d a b r Hinv Hr Hp) Hst).
    reflexivity.
Qed.
End sidebar.

(** ** Witnesses on concrete stores *)

Definition w_cfg : store_config := popstack_cfg no_unique.
Definition w_d0 : db := mkDb ∅ 10 0.
(** After user 1 asked user 2. *)
Definition w_d1 : db := snd (useSendFriendRequest_mutationFn w_cfg (Some 1) 2 w_d0).
(** After user 2 asked user 1. *)
Definition w_d1' : db := snd (useSendFriendRequest_mutationFn w_cfg (Some 2) 1 w_d0).
(** After user 2 accepted the request of user 1 (row id 10). *)
Definition w_d2 : db := snd (useAcceptFriendRequest_mutationFn w_cfg 10 w_d1).
(** After the race of C3. *)
Definition w_race : db :=
  run_schedule [send_round_trips w_cfg 1 2; send_round_trips w_cfg 2 1] [0; 1; 0; 1] w_d0.
(** Three profiles. *)
Definition w_profile (n : nat) (name : string) : row :=
  <["id" := JUuid n]> (<["username" := JStr name]> (<["avatar_url" := JNull]> ∅)).
Definition w_dp : db :=
  set_table w_d0 "profiles" [w_profile 1 "alice"; w_profile 2 "Alan"; w_profile 3 "bob"].

Lemma w_d0_inv : friendship_inv w_d0.
Proof. by apply friendship_inv_empty. Qed.

Lemma send_request_twice_rejected_witness :
  friendship_inv w_d0 /\
  useSendFriendRequest_mutationFn w_cfg (Some 1) 2 w_d0 = (Ok None, w_d1) /\
  useSendFriendRequest_mutationFn w_cfg (Some 1) 2 w_d1 = (Err (new_Error "Request already sent"), w_d1) /\
  useSendFriendRequest_mutationFn w_cfg (Some 2) 1 w_d1 = (Err (new_Error "Request already sent"), w_d1).
Proof.
  assert (H : useSendFriendRequest_mutationFn w_cfg (Some 1) 2 w_d0 = (Ok None, w_d1)) by reflexivity.
  split; [exact w_d0_inv|split; [exact H|]].
  exact (send_request_twice_rejected no_unique w_d0 1 2 None w_d1 w_d0_inv H).
Defined.

Lemma reachable_friendship_inv_witness :
  reachable w_cfg (apply_op w_cfg (OpAccept 10) (apply_op w_cfg (OpSend (Some 1) 2) w_d0)) /\
  friendship_inv (apply_op w_cfg (OpAccept 10) (apply_op w_cfg (OpSend (Some 1) 2) w_d0)).
Proof.
  assert (H : reachable w_cfg (apply_op w_cfg (OpAccept 10) (apply_op w_cfg (OpSend (Some 1) 2) w_d0)))
    by (apply reach_step, reach_step, reach_init; reflexivity).
  split; [exact H|exact (reachable_friendship_inv no_unique _ H)].
Defined.

Lemma concurrent_mutual_requests_duplicate_witness :
  pair_count w_race 1 2 = 2.
Proof.
  apply (concurrent_mutual_requests_duplicate no_unique w_d0 1 2); [lia|constructor|exact w_d0_inv|reflexivity].
Defined.

Lemma send_ignores_lookup_error_witness :
  exists d', useSendFriendRequest_mutationFn w_cfg (Some 1) 2 w_race = (Ok None, d') /\
             pair_count d' 1 2 = 3.
Proof.
  destruct (send_ignores_lookup_error no_unique w_race 1 2) as [d' [H1 H2]];
    [reflexivity|vm_compute; lia|].
  exists d'. split; [exact H1|]. rewrite H2. vm_compute. reflexivity.
Defined.

Definition w_r : row := List.hd ∅ (table w_d2 F).

Lemma friends_list_symmetric_witness :
  In w_r (table w_d2 F) /\ links w_r 1 2 /\ w_r !! "status" = Some (JStr "accepted") /\
  (exists l, useFriends_queryFn w_cfg (Some 2) w_d2 = (Ok l, w_d2) /\
     exists j, j ∈ l /\ j_row j = w_r /\ j_profile j !! "id" = Some (JUuid 1)).
Proof.
  assert (Hin : In w_r (table w_d2 F)) by (vm_compute; left; reflexivity).
  assert (Hl : links w_r 1 2) by (split; vm_compute; reflexivity).
  assert (Hs : w_r !! "status" = Some (JStr "accepted")) by (vm_compute; reflexivity).
  split; [exact Hin|split; [exact Hl|split; [exact Hs|]]].
  exact (proj2 (friends_list_symmetric no_unique w_d2 w_r 1 2 Hin Hl Hs)).
Defined.

Lemma search_short_query_empty_witness :
  String.length "a" < 2 /\ useSearchUsers_queryFn w_cfg (Some 1) "a" w_dp = (Ok (Some []), w_dp).
Proof.
  assert (H : String.length "a" < 2) by (cbn; lia).
  split; [exact H|exact (search_short_query_empty no_unique w_dp (Some 1) "a" H)].
Defined.

Definition w_search : list row :=
  match fst (useSearchUsers_queryFn w_cfg (Some 1) "al" w_dp) with Ok (Some l) => l | _ => [] end.

Lemma search_results_exclude_self_witness :
  w_search <> [] /\
  useSearchUsers_queryFn w_cfg (Some 1) "al" w_dp = (Ok (Some w_search), w_dp) /\
  length w_search <= 10.
Proof.
  assert (H : useSearchUsers_queryFn w_cfg (Some 1) "al" w_dp = (Ok (Some w_search), w_dp))
    by (vm_compute; reflexivity).
  split; [vm_compute; discriminate|split; [exact H|]].
  exact (proj1 (proj2 (search_results_exclude_self no_unique w_dp 1 "al" w_search w_dp H))).
Defined.

Definition w_r' : row := List.hd ∅ (table w_d1' F).

Lemma incoming_request_offers_add_button_witness :
  handleSendRequest w_cfg (Some 1) 2 w_d1' = (Ok ToastAlreadySent, w_d1').
Proof.
  assert (Hinv : friendship_inv w_d1').
  { assert (H : useSendFriendRequest_mutationFn w_cfg (Some 2) 1 w_d0 = (Ok None, w_d1'))
      by reflexivity.
    exact (send_preserves_inv no_unique w_d0 (Some 2) 1 _ _ w_d0_inv H). }
  refine (proj2 (incoming_request_offers_add_button no_unique w_d1' 1 2 w_r' Hinv _ _ _ _)).
  - lia.
  - vm_compute. left. reflexivity.
  - split; vm_compute; reflexivity.
  - vm_compute. reflexivity.
Defined.
