(* ===== verification/Reviews.v ===== *)
(** * Reviews: src/src/hooks/useReviews.ts, useMovieReviews.ts, useGameReviews.ts

    One review table per media kind ([movie_reviews], [series_reviews],
    [game_reviews]); the table and its columns are computed from the kind
    as the code computes them ([`${itemType}_reviews`], [`${itemType}_id`]).
    useReviews.ts reads one review by its natural key (owner, media id),
    writes one by the two-step create-or-update protocol of the spec
    (lookup, then update by id or insert), deletes by the natural key and
    merges the three tables into one list sorted by date.
    useMovieReviews.ts and useGameReviews.ts are the same per-table hooks
    on one table each: a read ordered by date, an insert, an update and a
    delete by row id. *)

From S2P Require Import Prelude Remote Schema.

(** [type MediaType = 'movie' | 'series' | 'game'] *)
Inductive MediaType : Type := Movie | Series | Game.

#[export] Instance MediaType_eq_dec : EqDecision MediaType.
Proof. solve_decision. Defined.

Definition media_name (t : MediaType) : string :=
  match t with Movie => "movie" | Series => "series" | Game => "game" end.

(** [interface ReviewData]: optional fields are [option]s. *)
Record ReviewData : Type := MkReviewData {
  itemType : MediaType;
  itemId : Z;
  itemTitle : string;
  itemPoster : option string;
  rating : Z;
  reviewText : option string;
  watchedDate : option string;
  hoursPlayed : option Z;
  platform : option string
}.

(** [x || null] on an optional string: [undefined] and [''] are falsy. *)
Definition or_null_str (o : option string) : jvalue :=
  match o with Some s => if String.eqb s "" then JNull else JStr s | None => JNull end.

(** [x || null] on an optional number: [0] is falsy (NaN is not modelled). *)
Definition or_null_num (o : option Z) : jvalue :=
  match o with Some z => if Z.eqb z 0 then JNull else JNum z | None => JNull end.

(** [string | null] *)
Definition str_or_null (o : option string) : jvalue :=
  match o with Some s => JStr s | None => JNull end.

Definition tableName (t : MediaType) : string := media_name t ++ "_reviews".
Definition idColumn (t : MediaType) : string := media_name t ++ "_id".
Definition titleColumn (t : MediaType) : string := media_name t ++ "_title".
Definition posterColumn (t : MediaType) : string := media_name t ++ "_poster".

(** [.eq('user_id', user.id).eq(idColumn, itemId)] *)
Definition natural_key (uid : nat) (t : MediaType) (itemId : Z) : list pfilter :=
  [FEq "user_id" (JUuid uid); FEq (idColumn t) (JNum itemId)].

(** [reviewPayload], with the game-only fields added after the literal. *)
Definition reviewPayload (uid : nat) (rd : ReviewData) : row :=
  let base := js_object
    [("user_id", JUuid uid);
     (idColumn (itemType rd), JNum (itemId rd));
     (titleColumn (itemType rd), JStr (itemTitle rd));
     (posterColumn (itemType rd), str_or_null (itemPoster rd));
     ("rating", JNum (rating rd));
     ("review_text", or_null_str (reviewText rd));
     ("watched_date", or_null_str (watchedDate rd))] in
  match itemType rd with
  | Game => <["platform" := or_null_str (platform rd)]>
              (<["hours_played" := or_null_num (hoursPlayed rd)]> base)
  | _ => base
  end.

(** The [{ ...r, type }] tag of [useUserReviews]. *)
Definition tag_type (t : MediaType) (r : row) : row := <["type" := JStr (media_name t)]> r.

(** [new Date(v).getTime()] on the values a [created_at] column holds in
    the model; [None] is NaN. *)
Definition date_getTime (v : option jvalue) : option Z :=
  match v with
  | Some (JNum z) => Some z
  | Some JNull => Some 0%Z
  | _ => None
  end.

(** [(a, b) => new Date(b.created_at).getTime() - new Date(a.created_at).getTime()] *)
Definition by_created_desc (a b : row) : option Z :=
  match date_getTime (b !! "created_at"), date_getTime (a !! "created_at") with
  | Some x, Some y => Some (x - y)%Z
  | _, _ => None
  end.

(** [a] comes before [b] in a list newest first (or one of the dates
    is not a number, which the comparator treats as a tie). *)
Definition newer_first (a b : row) : Prop :=
  match date_getTime (a !! "created_at"), date_getTime (b !! "created_at") with
  | Some ta, Some tb => (tb <= ta)%Z
  | _, _ => True
  end.

Section review_hooks.
Context (cfg : store_config).

(** [useUserReview]: [enabled: !!user?.id && !!itemId]. *)
Definition useUserReview_enabled (user : option nat) (itemId : Z) : bool :=
  match user with Some _ => negb (Z.eqb itemId 0) | None => false end.

Definition useUserReview_queryFn (user : option nat) (it : MediaType) (itemId : Z)
    : M db (option row) :=
  match user with
  | None => mret None
  | Some uid =>
      r ← lift_read (fun d => maybe_single (select_rows cfg d (tableName it) None (natural_key uid it itemId)));
      match error r with
      | Some e => if bool_decide (err_code e = Some "PGRST116") then mret (data r) else throw e
      | None => mret (data r)
      end
  end.

(** The first round trip of [useAddOrUpdateReview]: the lookup of the
    natural key. *)
Definition add_or_update_lookup (uid : nat) (rd : ReviewData) (d : db) : response row :=
  maybe_single (select_rows cfg d (tableName (itemType rd)) (Some ["id"])
                 (natural_key uid (itemType rd) (itemId rd))).

(** The second round trip: only [data] of the lookup is read, its error
    is dropped (as in [useSendFriendRequest]). *)
Definition add_or_update_write (uid : nat) (rd : ReviewData) (existing : response row)
    : M db (option (list row)) :=
  let t := tableName (itemType rd) in
  match data existing with
  | Some ex =>
      resp ← lift_write (update_rows cfg t (reviewPayload uid rd) [FEq "id" (col ex "id")]);
      match error resp with Some e => throw e | None => mret (data resp) end
  | None =>
      resp ← lift_write (fun d => let '(r, d') := insert_row cfg t (reviewPayload uid rd) d in (as_list r, d'));
      match error resp with Some e => throw e | None => mret (data resp) end
  end.

(** [useAddOrUpdateReview] *)
Definition useAddOrUpdateReview_mutationFn (user : option nat) (rd : ReviewData)
    : M db (option (list row)) :=
  match user with
  | None => throw (new_Error "Not authenticated")
  | Some uid => existing ← lift_read (add_or_update_lookup uid rd); add_or_update_write uid rd existing
  end.

(** [useDeleteReview] *)
Definition useDeleteReview_mutationFn (user : option nat) (it : MediaType) (itemId : Z) : M db unit :=
  match user with
  | None => throw (new_Error "Not authenticated")
  | Some uid =>
      resp ← lift_write (delete_rows cfg (tableName it) (natural_key uid it itemId));
      match error resp with Some e => throw e | None => mret () end
  end.

(** One of the three reads of [useUserReviews]. *)
Definition reviews_of (uid : nat) (t : MediaType) (d : db) : response (list row) :=
  order_resp "created_at" false (select_rows cfg d (tableName t) None [FEq "user_id" (JUuid uid)]).

(** [useUserReviews]: the three reads run together ([Promise.all]) on
    the same store; an error of any of them is dropped ([data?.map(...) || []]). *)
Definition useUserReviews_queryFn (user : option nat) : M db (list row) :=
  match user with
  | None => mret []
  | Some uid =>
      movies ← lift_read (reviews_of uid Movie);
      series ← lift_read (reviews_of uid Series);
      games ← lift_read (reviews_of uid Game);
      let allReviews :=
        default [] (map (tag_type Movie) <$> data movies) ++
        default [] (map (tag_type Series) <$> data series) ++
        default [] (map (tag_type Game) <$> data games) in
      mret (js_sort by_created_desc allReviews)
  end.

(** ** useMovieReviews.ts and useGameReviews.ts

    The two files are the same hooks on [movie_reviews] and
    [game_reviews]. *)

(** [reviews]: the owner's rows, newest first. *)
Definition table_reviews_queryFn (t : string) (user : option nat) : M db (list row) :=
  match user with
  | None => mret []
  | Some uid =>
      r ← lift_read (fun d => order_resp "created_at" false (select_rows cfg d t None [FEq "user_id" (JUuid uid)]));
      match error r with Some e => throw e | None => mret (default [] (data r)) end
  end.

(** [addReview]: [insert({ ...review, user_id: user.id }).select().single()]. *)
Definition table_addReview (t : string) (user : option nat) (review : row) : M db row :=
  match user with
  | None => throw (new_Error "User not authenticated")
  | Some uid =>
      resp ← lift_write (insert_row cfg t (<["user_id" := JUuid uid]> review));
      match error resp, data resp with
      | Some e, _ => throw e
      | None, Some x => mret x
      | None, None => throw err_pgrst116
      end
  end.

(** [updateReview]: [update(updates).eq('id', id).select().single()],
    [id] taken out of the updates. *)
Definition table_updateReview (t : string) (id : jvalue) (updates : row) : M db row :=
  resp ← lift_write (update_rows cfg t (delete "id" updates) [FEq "id" id]);
  let s := single resp in
  match error s, data s with
  | Some e, _ => throw e
  | None, Some x => mret x
  | None, None => throw err_pgrst116
  end.

(** [deleteReview]: [delete().eq('id', id)]. *)
Definition table_deleteReview (t : string) (id : jvalue) : M db unit :=
  resp ← lift_write (delete_rows cfg t [FEq "id" id]);
  match error resp with Some e => throw e | None => mret () end.

Definition useMovieReviews_queryFn := table_reviews_queryFn "movie_reviews".
Definition useMovieReviews_addReview := table_addReview "movie_reviews".
Definition useMovieReviews_updateReview := table_updateReview "movie_reviews".
Definition useMovieReviews_deleteReview := table_deleteReview "movie_reviews".
Definition useGameReviews_queryFn := table_reviews_queryFn "game_reviews".
Definition useGameReviews_addReview := table_addReview "game_reviews".
Definition useGameReviews_updateReview := table_updateReview "game_reviews".
Definition useGameReviews_deleteReview := table_deleteReview "game_reviews".
End review_hooks.

(** ** The review table invariant *)

Definition review_schema (it : MediaType) : table_schema :=
  match it with Movie => movie_reviews_schema | Series => series_reviews_schema | Game => game_reviews_schema end.

(** The rows of one natural key. *)
Definition key_rows (d : db) (uid : nat) (it : MediaType) (i : Z) : list row :=
  List.filter (matches_all (natural_key uid it i)) (table d (tableName it)).

Definition row_id (r : row) : option jvalue := r !! "id".

(** A row id the store generated: below the store's counter. *)
Definition id_fresh (d : db) (r : row) : Prop :=
  exists n, r !! "id" = Some (JUuid n) /\ n < db_next_id d.

(** At most one review per (owner, media id), and distinct generated ids. *)
Definition review_inv (d : db) (it : MediaType) : Prop :=
  (forall uid i, length (key_rows d uid it i) <= 1) /\
  NoDup (map row_id (table d (tableName it))) /\
  Forall (id_fresh d) (table d (tableName it)).

Lemma tableName_inj a b : tableName a = tableName b -> a = b.
Proof. by destruct a, b. Qed.

Lemma key_match_iff uid it i (r : row) :
  matches_all (natural_key uid it i) r = true <->
  r !! "user_id" = Some (JUuid uid) /\ r !! idColumn it = Some (JNum i).
Proof.
  unfold matches_all, natural_key. cbn [forallb filter_matches].
  rewrite andb_true_r, andb_true_iff, !bool_decide_eq_true, !non_null_some.
  split; intros [H1 H2]; split; try tauto; split; congruence.
Qed.

Lemma key_match_ext uid it i (r r' : row) :
  r !! "user_id" = r' !! "user_id" -> r !! idColumn it = r' !! idColumn it ->
  matches_all (natural_key uid it i) r = matches_all (natural_key uid it i) r'.
Proof. intros H1 H2. unfold matches_all, natural_key. cbn [forallb filter_matches]. by rewrite H1, H2. Qed.

Lemma payload_key uid rd :
  reviewPayload uid rd !! "user_id" = Some (JUuid uid) /\
  reviewPayload uid rd !! idColumn (itemType rd) = Some (JNum (itemId rd)).
Proof. unfold reviewPayload. destruct (itemType rd); vm_compute; split; reflexivity. Qed.

Lemma payload_no_id uid rd : reviewPayload uid rd !! "id" = None.
Proof. unfold reviewPayload. destruct (itemType rd); vm_compute; reflexivity. Qed.

(** A row that carries the payload has the payload's natural key. *)
Lemma payload_matches uid rd (r : row) :
  reviewPayload uid rd ⊆ r -> matches_all (natural_key uid (itemType rd) (itemId rd)) r = true.
Proof.
  intros Hs. apply key_match_iff. destruct (payload_key uid rd) as [H1 H2].
  split; eapply lookup_weaken; eassumption.
Qed.

(** Movie and series payloads fit their table. *)
Lemma payload_fits uid rd :
  itemType rd <> Game ->
  unknown_column (review_schema (itemType rd)) (reviewPayload uid rd) = None /\
  missing_required (review_schema (itemType rd)) (reviewPayload uid rd) = None.
Proof. unfold reviewPayload. destruct (itemType rd); intros H; [| |done]; vm_compute; split; reflexivity. Qed.

(** The game payload names two columns [game_reviews] does not have
    ([watched_date], [game_poster]); the store reports the first. *)
Lemma game_payload_unknown uid rd :
  itemType rd = Game -> unknown_column game_reviews_schema (reviewPayload uid rd) = Some "watched_date".
Proof. intros H. unfold reviewPayload. rewrite H. vm_compute. reflexivity. Qed.

Section review_facts.
Context (uniq : string -> list (list string)).
Let cfg := popstack_cfg uniq.

Lemma review_table_known it : cfg_schema cfg (tableName it) = Some (review_schema it).
Proof. by destruct it. Qed.

Lemma add_or_update_game_run (d : db) uid rd :
  itemType rd = Game ->
  useAddOrUpdateReview_mutationFn cfg (Some uid) rd d = (Err (err_no_column "watched_date" "game_reviews"), d).
Proof.
  intros H. unfold useAddOrUpdateReview_mutationFn, add_or_update_lookup, add_or_update_write. rewrite lift_read_bind.
  destruct (data _); rewrite lift_write_bind; [unfold update_rows|unfold insert_row];
    rewrite (review_table_known (itemType rd)), H; cbn [review_schema];
    rewrite (game_payload_unknown uid rd H); reflexivity.
Qed.

Lemma key_rows_le1 (d : db) it uid i :
  review_inv d it -> key_rows d uid it i = [] \/ exists r0, key_rows d uid it i = [r0].
Proof.
  intros [Hk _]. specialize (Hk uid i).
  destruct (key_rows d uid it i) as [|r0 [|r1 l]]; cbn in Hk; [left|right; eauto|lia]; done.
Qed.

Lemma key_rows_in (d : db) uid it i r : In r (key_rows d uid it i) -> In r (table d (tableName it)).
Proof. unfold key_rows. rewrite List.filter_In. tauto. Qed.

Lemma lookup_run (d : db) uid it i cols :
  maybe_single (select_rows cfg d (tableName it) cols (natural_key uid it i)) =
  maybe_single (resp_ok (map (project cols) (key_rows d uid it i))).
Proof. by rewrite (select_rows_known _ _ _ _ _ _ (review_table_known it)). Qed.

Lemma complete_row_id it (d : db) (p : row) :
  p !! "id" = None -> complete_row (review_schema it) d p !! "id" = Some (JUuid (db_next_id d)).
Proof. intros H. unfold complete_row. rewrite lookup_union_r by exact H. by destruct it; vm_compute. Qed.

(** The update of [useAddOrUpdateReview] on one row. *)
Definition upd_by_id (p : row) (v : jvalue) (r : row) : row :=
  if matches_all [FEq "id" v] r then p ∪ r else r.

(** A successful create-or-update either inserted the completed payload
    (no review had the key) or rewrote the one review with the key, found
    by its id. *)
Lemma add_or_update_cases (d : db) uid rd r d' :
  review_inv d (itemType rd) -> itemType rd <> Game ->
  useAddOrUpdateReview_mutationFn cfg (Some uid) rd d = (Ok r, d') ->
  (key_rows d uid (itemType rd) (itemId rd) = [] /\
   d' = mkDb (<[tableName (itemType rd) := table d (tableName (itemType rd)) ++
                 [complete_row (review_schema (itemType rd)) d (reviewPayload uid rd)] ]> (db_tables d))
             (S (db_next_id d)) (S (db_clock d))) \/
  (exists r0 n, key_rows d uid (itemType rd) (itemId rd) = [r0] /\ r0 !! "id" = Some (JUuid n) /\
   d' = set_table d (tableName (itemType rd))
          (map (upd_by_id (reviewPayload uid rd) (JUuid n)) (table d (tableName (itemType rd))))).
Proof.
  intros Hinv Hng H. destruct (payload_fits uid rd Hng) as [Hu Hm].
  unfold useAddOrUpdateReview_mutationFn, add_or_update_lookup, add_or_update_write in H.
  rewrite lift_read_bind, lookup_run in H.
  destruct (key_rows_le1 d _ uid (itemId rd) Hinv) as [E|[r0 E]]; rewrite E in H; cbn [map] in H.
  - left. split; [exact E|]. rewrite maybe_single_nil in H. cbn [data] in H. rewrite lift_write_bind in H.
    unfold insert_row in H. rewrite review_table_known, Hu, Hm in H.
    destruct (violates_unique _ _ _ _); cbn in H; [discriminate|].
    cbv [mret M_ret] in H. apply pair_equal_spec in H as [_ H]. symmetry. exact H.
  - right. destruct Hinv as [_ [_ Hf]].
    assert (Hin : In r0 (table d (tableName (itemType rd)))) by (apply (key_rows_in d uid _ (itemId rd)); rewrite E; by left).
    rewrite List.Forall_forall in Hf. destruct (Hf r0 Hin) as [n [Hn _]].
    exists r0, n. split; [exact E|]. split; [exact Hn|].
    rewrite maybe_single_one in H. cbn [data resp_ok] in H. rewrite lift_write_bind in H.
    unfold col in H. rewrite (project_lookup (Some ["id"]) r0 "id"), Hn in H by (cbn; set_solver). cbn [default] in H.
    unfold update_rows in H. rewrite review_table_known, Hu in H. cbn in H.
    cbv [mret M_ret] in H. apply pair_equal_spec in H as [_ H]. symmetry. exact H.
Qed.

Lemma id_filter_iff n (r : row) : matches_all [FEq "id" (JUuid n)] r = true <-> r !! "id" = Some (JUuid n).
Proof. rewrite matches_all_one, feq_spec. split; [tauto|done]. Qed.

(** With distinct ids, the update by the id of [r0] changes [r0] only,
    and leaves every column [c] the payload does not change. *)
Lemma upd_by_id_lookup (l : list row) (p r0 : row) n c :
  NoDup (map row_id l) -> In r0 l -> r0 !! "id" = Some (JUuid n) ->
  (p !! c = None \/ p !! c = r0 !! c) ->
  forall r, In r l -> upd_by_id p (JUuid n) r !! c = r !! c.
Proof.
  intros Hnd Hin Hn Hc r Hr. unfold upd_by_id.
  destruct (matches_all _ r) eqn:E; [|done]. apply id_filter_iff in E.
  assert (r = r0) as -> by (apply (NoDup_map_eq row_id l); try done; unfold row_id; congruence).
  rewrite lookup_union. destruct Hc as [-> | ->]; [by destruct (r0 !! c)|]. by destruct (r0 !! c).
Qed.

Lemma fresh_mono (d d' : db) r : db_next_id d <= db_next_id d' -> id_fresh d r -> id_fresh d' r.
Proof. intros Hle [n [Hn Hlt]]. exists n. split; [exact Hn|lia]. Qed.

Lemma key_rows_app (d d' : db) uid it i x :
  table d' (tableName it) = table d (tableName it) ++ [x] ->
  length (key_rows d' uid it i) =
  length (key_rows d uid it i) + (if matches_all (natural_key uid it i) x then 1 else 0).
Proof. intros Ht. unfold key_rows. by rewrite Ht, filter_app_length. Qed.

(** The row inserted by create-or-update keeps the invariant. *)
Lemma insert_review_inv (d : db) uid rd :
  review_inv d (itemType rd) -> key_rows d uid (itemType rd) (itemId rd) = [] ->
  review_inv (mkDb (<[tableName (itemType rd) := table d (tableName (itemType rd)) ++
                 [complete_row (review_schema (itemType rd)) d (reviewPayload uid rd)] ]> (db_tables d))
             (S (db_next_id d)) (S (db_clock d))) (itemType rd).
Proof.
  set (x := complete_row _ d _). intros [Hk [Hnd Hf]] Hnil.
  assert (Hx : reviewPayload uid rd ⊆ x) by apply map_union_subseteq_l.
  assert (Hid : x !! "id" = Some (JUuid (db_next_id d))) by apply complete_row_id, payload_no_id.
  split; [|split]; rewrite ?table_insert_same.
  - intros u i. rewrite (key_rows_app d _ u _ i x) by apply table_insert_same.
    destruct (matches_all _ x) eqn:E; [|specialize (Hk u i); lia].
    apply key_match_iff in E as [E1 E2]. destruct (payload_key uid rd) as [P1 P2].
    rewrite (lookup_weaken _ _ _ _ P1 Hx) in E1. rewrite (lookup_weaken _ _ _ _ P2 Hx) in E2.
    assert (u = uid) as -> by congruence. assert (i = itemId rd) as -> by congruence.
    rewrite Hnil. cbn. lia.
  - rewrite map_app, NoDup_app. split; [exact Hnd|]. split; [|cbn; apply NoDup_singleton].
    intros v Hv. cbn. rewrite list_elem_of_singleton. intros ->. unfold row_id in Hv. rewrite Hid in Hv.
    apply list_elem_of_In, in_map_iff in Hv as [r [Hr Hin]].
    rewrite List.Forall_forall in Hf. destruct (Hf r Hin) as [m [Hm Hlt]]. unfold row_id in Hr. rewrite Hm in Hr. injection Hr. lia.
  - apply Forall_app. split.
    + eapply Forall_impl; [exact Hf|]. intros r. apply fresh_mono. cbn. lia.
    + constructor; [|constructor]. exists (db_next_id d). split; [exact Hid|cbn; lia].
Qed.

Section update_case.
Variables (d : db) (uid : nat) (rd : ReviewData) (r0 : row) (n : nat).
Hypothesis Hinv : review_inv d (itemType rd).
Hypothesis Hr0 : key_rows d uid (itemType rd) (itemId rd) = [r0].
Hypothesis Hn : r0 !! "id" = Some (JUuid n).

Let t := tableName (itemType rd).
Let upd := upd_by_id (reviewPayload uid rd) (JUuid n).

Lemma r0_in : In r0 (table d t).
Proof. apply (key_rows_in d uid _ (itemId rd)). rewrite Hr0. by left. Qed.

Lemma r0_key : r0 !! "user_id" = Some (JUuid uid) /\ r0 !! idColumn (itemType rd) = Some (JNum (itemId rd)).
Proof.
  apply key_match_iff. assert (Hin : In r0 (key_rows d uid (itemType rd) (itemId rd))) by (rewrite Hr0; by left).
  unfold key_rows in Hin. apply List.filter_In in Hin. tauto.
Qed.

Lemma upd_keeps c :
  reviewPayload uid rd !! c = None \/ reviewPayload uid rd !! c = r0 !! c ->
  forall r, In r (table d t) -> upd r !! c = r !! c.
Proof. intros Hc. apply (upd_by_id_lookup _ _ r0); [apply Hinv|apply r0_in|exact Hn|exact Hc]. Qed.

Lemma upd_keeps_id r : In r (table d t) -> upd r !! "id" = r !! "id".
Proof. apply upd_keeps. left. apply payload_no_id. Qed.

Lemma update_key_rows u i :
  key_rows (set_table d t (map upd (table d t))) u (itemType rd) i = map upd (key_rows d u (itemType rd) i).
Proof.
  unfold key_rows. fold t. rewrite table_set_table_same. apply filter_map_comm.
  intros r Hr. destruct (payload_key uid rd) as [P1 P2]. destruct r0_key as [K1 K2].
  apply key_match_ext; apply upd_keeps; try exact Hr; right; congruence.
Qed.

Lemma update_review_inv : review_inv (set_table d t (map upd (table d t))) (itemType rd).
Proof.
  destruct Hinv as [Hk [Hnd Hf]]. fold t in Hnd, Hf. split; [|split].
  - intros u i. rewrite update_key_rows, length_map. apply Hk.
  - unfold t at 2. rewrite table_set_table_same, map_map.
    erewrite map_ext_in; [exact Hnd|]. intros r Hr. apply upd_keeps_id, Hr.
  - unfold t at 2. rewrite table_set_table_same. rewrite List.Forall_forall in Hf |- *.
    intros r' Hr'. apply in_map_iff in Hr' as [r [<- Hr]].
    destruct (Hf r Hr) as [m [Hm Hlt]]. exists m. rewrite upd_keeps_id by exact Hr. split; [exact Hm|exact Hlt].
Qed.
End update_case.

Lemma user_review_one (d : db) uid it i x :
  key_rows d uid it i = [x] -> useUserReview_queryFn cfg (Some uid) it i d = (Ok (Some x), d).
Proof. intros H. unfold useUserReview_queryFn. rewrite lift_read_bind, lookup_run, H. reflexivity. Qed.

Lemma add_or_update_not_game (d : db) uid rd r d' :
  useAddOrUpdateReview_mutationFn cfg (Some uid) rd d = (Ok r, d') -> itemType rd <> Game.
Proof. intros H Hg. rewrite add_or_update_game_run in H by exact Hg. discriminate. Qed.

(** After a successful create-or-update, the key has exactly the one row
    [x], which carries the payload, and the invariant holds. *)
Lemma add_or_update_post (d : db) uid rd r d' :
  review_inv d (itemType rd) ->
  useAddOrUpdateReview_mutationFn cfg (Some uid) rd d = (Ok r, d') ->
  review_inv d' (itemType rd) /\
  exists x, key_rows d' uid (itemType rd) (itemId rd) = [x] /\ reviewPayload uid rd ⊆ x.
Proof.
  intros Hinv H. pose proof (add_or_update_not_game d uid rd r d' H) as Hng.
  destruct (add_or_update_cases d uid rd r d' Hinv Hng H) as [[Hnil ->]|[r0 [n [Hr0 [Hn ->]]]]].
  - split; [by apply insert_review_inv|].
    eexists. split; [|apply map_union_subseteq_l].
    unfold key_rows at 1. rewrite table_insert_same, List.filter_app. fold (key_rows d uid (itemType rd) (itemId rd)).
    rewrite Hnil. cbn [List.filter app]. rewrite payload_matches by apply map_union_subseteq_l. reflexivity.
  - split; [exact (update_review_inv d uid rd r0 n Hinv Hr0 Hn)|].
    exists (reviewPayload uid rd ∪ r0). rewrite (update_key_rows d uid rd r0 n Hinv Hr0 Hn), Hr0. split; [|apply map_union_subseteq_l].
    cbn. unfold upd_by_id. by rewrite (proj2 (id_filter_iff n r0) Hn).
Qed.

(** C10 Create-or-update is a round trip: when every (owner, media id)
    has at most one review and ids are distinct, a successful
    [useAddOrUpdateReview] is followed by a [useUserReview] of the same
    key that returns a review carrying every field of the payload, and
    the invariant still holds. *)
Theorem add_or_update_round_trip (d : db) uid rd r d' :
  review_inv d (itemType rd) ->
  useAddOrUpdateReview_mutationFn cfg (Some uid) rd d = (Ok r, d') ->
  review_inv d' (itemType rd) /\
  exists x, useUserReview_queryFn cfg (Some uid) (itemType rd) (itemId rd) d' = (Ok (Some x), d') /\
            reviewPayload uid rd ⊆ x.
Proof.
  intros Hinv H. destruct (add_or_update_post d uid rd r d' Hinv H) as [Hinv' [x [Hx Hs]]].
  split; [exact Hinv'|]. exists x. split; [by apply user_review_one|exact Hs].
Qed.

(** The table left by [useDeleteReview]. *)
Definition without_key (d : db) uid it i : db :=
  set_table d (tableName it)
    (List.filter (fun r => negb (matches_all (natural_key uid it i) r)) (table d (tableName it))).

Lemma delete_review_run (d : db) uid it i :
  useDeleteReview_mutationFn cfg (Some uid) it i d = (Ok (), without_key d uid it i).
Proof.
  unfold useDeleteReview_mutationFn. rewrite lift_write_bind.
  unfold delete_rows. rewrite review_table_known. by destruct it.
Qed.

Lemma without_key_rows (d : db) uid it i : key_rows (without_key d uid it i) uid it i = [].
Proof. unfold key_rows, without_key. rewrite table_set_table_same. apply filter_negb_nil. Qed.

Lemma without_key_idem (d : db) uid it i : without_key (without_key d uid it i) uid it i = without_key d uid it i.
Proof.
  unfold without_key. rewrite table_set_table_same, filter_idem. apply set_table_set_table.
Qed.

Lemma user_review_none (d : db) uid it i :
  key_rows d uid it i = [] -> useUserReview_queryFn cfg (Some uid) it i d = (Ok None, d).
Proof. intros H. unfold useUserReview_queryFn. rewrite lift_read_bind, lookup_run, H. reflexivity. Qed.

Lemma delete_review_inv (d : db) uid it i : review_inv d it -> review_inv (without_key d uid it i) it.
Proof.
  intros [Hk [Hnd Hf]]. unfold without_key. split; [|split]; unfold key_rows; rewrite ?table_set_table_same.
  - intros u j. etrans; [apply filter_filter_length|apply Hk].
  - by apply NoDup_map_filter.
  - by apply Forall_list_filter.
Qed.

(** The store after create-or-update inserted its payload. *)
Definition inserted (d : db) uid rd : db :=
  mkDb (<[tableName (itemType rd) := table d (tableName (itemType rd)) ++
           [complete_row (review_schema (itemType rd)) d (reviewPayload uid rd)] ]> (db_tables d))
       (S (db_next_id d)) (S (db_clock d)).

(** Without a unique constraint on the review table, the write step
    inserts whenever the lookup gave no row. *)
Lemma write_insert_run (d : db) uid rd e :
  data e = None -> itemType rd <> Game -> uniq (tableName (itemType rd)) = [] ->
  add_or_update_write cfg uid rd e d =
    (Ok (Some [complete_row (review_schema (itemType rd)) d (reviewPayload uid rd)]), inserted d uid rd).
Proof.
  intros He Hng Hq. destruct (payload_fits uid rd Hng) as [Hu Hm].
  unfold add_or_update_write. rewrite He, lift_write_bind.
  unfold insert_row. rewrite review_table_known, Hu, Hm.
  assert (Hc : cfg_unique cfg (tableName (itemType rd)) = []) by exact Hq.
  unfold violates_unique. rewrite Hc. reflexivity.
Qed.

Lemma inserted_key_rows (d : db) uid rd :
  key_rows (inserted d uid rd) uid (itemType rd) (itemId rd) =
  key_rows d uid (itemType rd) (itemId rd) ++ [complete_row (review_schema (itemType rd)) d (reviewPayload uid rd)].
Proof.
  unfold key_rows at 1, inserted. rewrite table_insert_same, List.filter_app. cbn [List.filter].
  rewrite payload_matches by apply map_union_subseteq_l. reflexivity.
Qed.

Lemma lookup_data_nil (d : db) uid rd :
  key_rows d uid (itemType rd) (itemId rd) = [] -> add_or_update_lookup cfg uid rd d = Resp None None.
Proof. intros H. unfold add_or_update_lookup. by rewrite lookup_run, H. Qed.

Lemma lookup_data_many (d : db) uid rd x y l :
  key_rows d uid (itemType rd) (itemId rd) = x :: y :: l ->
  add_or_update_lookup cfg uid rd d = resp_err err_pgrst116.
Proof. intros H. unfold add_or_update_lookup. by rewrite lookup_run, H. Qed.

Lemma user_review_many (d : db) uid it i x y l :
  key_rows d uid it i = x :: y :: l -> useUserReview_queryFn cfg (Some uid) it i d = (Ok None, d).
Proof. intros H. unfold useUserReview_queryFn. rewrite lift_read_bind, lookup_run, H. reflexivity. Qed.

Lemma review_inv_ext (d d' : db) it :
  table d' (tableName it) = table d (tableName it) -> db_next_id d <= db_next_id d' ->
  review_inv d it -> review_inv d' it.
Proof.
  intros Ht Hle [Hk [Hnd Hf]]. unfold review_inv, key_rows. rewrite Ht. split; [exact Hk|]. split; [exact Hnd|].
  eapply Forall_impl; [exact Hf|]. intros r. by apply fresh_mono.
Qed.

(** A failed create-or-update leaves the store as it was. *)
Lemma add_or_update_err (d : db) uid rd e d' :
  useAddOrUpdateReview_mutationFn cfg (Some uid) rd d = (Err e, d') -> d' = d.
Proof.
  unfold useAddOrUpdateReview_mutationFn, add_or_update_write. rewrite lift_read_bind.
  destruct (data _); rewrite lift_write_bind.
  - destruct (update_rows _ _ _ _ _) as [resp d1] eqn:E. cbn [fst snd].
    destruct (update_rows_cases _ _ _ _ _ _ _ E) as [[-> _]|[-> _]];
      [destruct (error resp)|]; cbv [mret M_ret throw]; congruence.
  - destruct (insert_row _ _ _ _) as [resp d1] eqn:E. cbn [fst snd].
    destruct (insert_row_cases _ _ _ _ _ _ E) as [[-> _]|[sc [x [_ [_ [-> _]]]]]];
      [destruct (error (as_list resp))|]; cbv [mret M_ret throw]; cbn; congruence.
Qed.

(** Create-or-update keeps the invariant of every review table, when all
    of them hold it. *)
Lemma add_or_update_inv (d : db) uid rd it :
  (forall it', review_inv d it') ->
  review_inv (snd (useAddOrUpdateReview_mutationFn cfg (Some uid) rd d)) it.
Proof.
  intros Hall. destruct (useAddOrUpdateReview_mutationFn cfg (Some uid) rd d) as [[r|e] d'] eqn:H; cbn [snd].
  - destruct (decide (itemType rd = it)) as [<-|Hne]; [exact (proj1 (add_or_update_post d uid rd r d' (Hall _) H))|].
    pose proof (add_or_update_not_game d uid rd r d' H) as Hng.
    assert (Htn : tableName (itemType rd) <> tableName it) by (intros E; by apply tableName_inj in E).
    destruct (add_or_update_cases d uid rd r d' (Hall _) Hng H) as [[_ ->]|[r0 [n [_ [_ ->]]]]].
    + apply (review_inv_ext d); [by apply table_insert_other|cbn; lia|apply Hall].
    + apply (review_inv_ext d); [by apply table_set_table_other|cbn; lia|apply Hall].
  - rewrite (add_or_update_err d uid rd e d' H). apply Hall.
Qed.

Lemma delete_inv (d : db) uid it' i it :
  review_inv d it -> review_inv (without_key d uid it' i) it.
Proof.
  intros Hinv. destruct (decide (it' = it)) as [<-|Hne]; [by apply delete_review_inv|].
  apply (review_inv_ext d); [|cbn; lia|exact Hinv].
  apply table_set_table_other. intros E. by apply tableName_inj in E.
Qed.

(** C9 A game review can never be saved through [useAddOrUpdateReview]:
    whether the lookup finds a review or not, the request names a column
    of a movie review, and the store refuses it with PGRST204 and is left
    unchanged. *)
Theorem add_or_update_game_rejected (d : db) uid rd :
  itemType rd = Game ->
  useAddOrUpdateReview_mutationFn cfg (Some uid) rd d = (Err (err_no_column "watched_date" "game_reviews"), d).
Proof. apply add_or_update_game_run. Qed.
End review_facts.

(** [useDeleteReview] always succeeds on a review table; afterwards
    [useUserReview] of the key finds nothing, and a second delete
    succeeds and changes nothing. *)
Theorem delete_review_absent_idempotent uniq (d : db) uid it i :
  let cfg := popstack_cfg uniq in
  let d1 := snd (useDeleteReview_mutationFn cfg (Some uid) it i d) in
  fst (useDeleteReview_mutationFn cfg (Some uid) it i d) = Ok () /\
  useUserReview_queryFn cfg (Some uid) it i d1 = (Ok None, d1) /\
  useDeleteReview_mutationFn cfg (Some uid) it i d1 = (Ok (), d1).
Proof.
  cbv zeta. rewrite !delete_review_run. cbn [fst snd]. split; [reflexivity|]. split.
  - apply user_review_none, without_key_rows.
  - by rewrite without_key_idem.
Qed.

Lemma by_created_desc_anti a b : by_created_desc b a = option_map Z.opp (by_created_desc a b).
Proof.
  unfold by_created_desc.
  destruct (date_getTime (a !! "created_at")), (date_getTime (b !! "created_at")); cbn; f_equal; lia.
Qed.

(** Every row of the user in the three review tables, tagged with its kind. *)
Definition user_review_rows (d : db) (uid : nat) : list row :=
  flat_map (fun it => map (tag_type it) (List.filter (matches_all [FEq "user_id" (JUuid uid)]) (table d (tableName it))))
    [Movie; Series; Game].

Lemma reviews_of_run uniq (d : db) uid it :
  reviews_of (popstack_cfg uniq) uid it d =
  resp_ok (order_rows "created_at" false (List.filter (matches_all [FEq "user_id" (JUuid uid)]) (table d (tableName it)))).
Proof.
  unfold reviews_of. rewrite (select_rows_known _ _ _ _ _ _ (review_table_known uniq it)).
  cbn. by rewrite map_project_none.
Qed.

(** C13 [useUserReviews] answers, without touching the store, every
    review of the user in the three tables, each tagged with its kind,
    newest first. *)
Theorem user_reviews_sorted_complete uniq (d : db) uid :
  exists l, useUserReviews_queryFn (popstack_cfg uniq) (Some uid) d = (Ok l, d) /\
            l ≡ₚ user_review_rows d uid /\ Sorted newer_first l.
Proof.
  unfold useUserReviews_queryFn, js_sort. rewrite !lift_read_bind, !reviews_of_run. eexists. split; [reflexivity|]. split.
  - rewrite stable_sort_perm. cbn [default fmap option_fmap option_map data resp_ok user_review_rows flat_map].
    rewrite app_nil_r. unfold order_rows. by rewrite !stable_sort_perm.
  - eapply Sorted_impl'; [|apply stable_sort_sorted, js_cmp_total, by_created_desc_anti].
    intros a b. unfold newer_first, by_created_desc.
    destruct (date_getTime (a !! "created_at")), (date_getTime (b !! "created_at")); cbn; [lia|done..].
Qed.

(** ** Sequential use: the invariant of every review table *)

(** A call of [useAddOrUpdateReview] or [useDeleteReview] by a signed-in user. *)
Inductive review_op : Type :=
  | OpSave (uid : nat) (rd : ReviewData)
  | OpDelete (uid : nat) (it : MediaType) (i : Z).

Definition apply_review_op (cfg : store_config) (op : review_op) (d : db) : db :=
  match op with
  | OpSave uid rd => snd (useAddOrUpdateReview_mutationFn cfg (Some uid) rd d)
  | OpDelete uid it i => snd (useDeleteReview_mutationFn cfg (Some uid) it i d)
  end.

(** The stores reached from empty review tables by calls made one after
    another. *)
Inductive reviews_reachable (cfg : store_config) : db -> Prop :=
  | rr_init d : (forall it, table d (tableName it) = []) -> reviews_reachable cfg d
  | rr_step d op : reviews_reachable cfg d -> reviews_reachable cfg (apply_review_op cfg op d).

Lemma review_inv_empty (d : db) it : table d (tableName it) = [] -> review_inv d it.
Proof. intros H. unfold review_inv, key_rows. rewrite H. split; [|split]; [intros; cbn; lia|constructor|constructor]. Qed.

(** C14 When the review hooks are called one after another, every
    reachable store has at most one review per (owner, media id) in each
    table, with distinct store-generated ids. *)
Theorem reachable_review_inv uniq (d : db) it :
  reviews_reachable (popstack_cfg uniq) d -> review_inv d it.
Proof.
  intros Hr. revert it. induction Hr as [d Hd|d op _ IH]; intros it; [by apply review_inv_empty|].
  destruct op as [uid rd|uid it' i]; cbn [apply_review_op].
  - by apply add_or_update_inv.
  - rewrite delete_review_run. by apply delete_inv.
Qed.

Section review_races.
Context (uniq : string -> list (list string)).
Let cfg := popstack_cfg uniq.

(** C12 Create-or-update is not atomic: when two saves of the same
    (owner, media id) both run their lookup before either writes, and
    the review table has no unique constraint on the key, both insert,
    leaving two reviews for the key.  [useUserReview] then tolerates the
    PGRST116 error of [.maybeSingle()] and reports no review at all, and
    every later save inserts yet another row. *)
Theorem concurrent_upserts_duplicate (d : db) uid rd1 rd2 :
  itemType rd1 = itemType rd2 -> itemId rd1 = itemId rd2 -> itemType rd1 <> Game ->
  uniq (tableName (itemType rd1)) = [] -> key_rows d uid (itemType rd1) (itemId rd1) = [] ->
  let e1 := add_or_update_lookup cfg uid rd1 d in
  let e2 := add_or_update_lookup cfg uid rd2 d in
  let d1 := snd (add_or_update_write cfg uid rd1 e1 d) in
  let d2 := snd (add_or_update_write cfg uid rd2 e2 d1) in
  length (key_rows d2 uid (itemType rd1) (itemId rd1)) = 2 /\
  useUserReview_queryFn cfg (Some uid) (itemType rd1) (itemId rd1) d2 = (Ok None, d2) /\
  length (key_rows (snd (useAddOrUpdateReview_mutationFn cfg (Some uid) rd1 d2)) uid (itemType rd1) (itemId rd1)) = 3.
Proof.
  intros Ht Hi Hng Hq Hnil. cbv zeta. unfold cfg.
  assert (Hnil2 : key_rows d uid (itemType rd2) (itemId rd2) = []) by (rewrite <-Ht, <-Hi; exact Hnil).
  rewrite (lookup_data_nil uniq d uid rd1 Hnil), (lookup_data_nil uniq d uid rd2 Hnil2).
  rewrite write_insert_run by (done || congruence). cbn [snd].
  rewrite write_insert_run by (done || congruence). cbn [snd].
  set (d2 := inserted (inserted d uid rd1) uid rd2).
  assert (H2 : key_rows d2 uid (itemType rd1) (itemId rd1) =
               [complete_row (review_schema (itemType rd1)) d (reviewPayload uid rd1);
                complete_row (review_schema (itemType rd2)) (inserted d uid rd1) (reviewPayload uid rd2)]).
  { unfold d2. rewrite Ht, Hi, inserted_key_rows, <-Ht, <-Hi, inserted_key_rows, Hnil. reflexivity. }
  split; [by rewrite H2|]. split; [by apply (user_review_many uniq _ _ _ _ _ _ _ H2)|].
  unfold useAddOrUpdateReview_mutationFn. rewrite lift_read_bind, (lookup_data_many uniq d2 uid rd1 _ _ _ H2).
  rewrite write_insert_run by done. cbn [snd]. rewrite inserted_key_rows, H2. reflexivity.
Qed.
End review_races.

(** ** Witnesses: the hypotheses of the theorems hold on concrete stores *)

Definition rw_cfg : store_config := popstack_cfg no_unique.
Definition rw_d0 : db := mkDb ∅ 1 0.
Definition rd_movie : ReviewData := MkReviewData Movie 550 "Fight Club" None 9 (Some "great") None None None.
Definition rd_movie' : ReviewData := MkReviewData Movie 550 "Fight Club" None 7 None None None None.
Definition rd_game : ReviewData := MkReviewData Game 3498 "GTA V" None 8 None None (Some 40%Z) (Some "PC").

Lemma rw_d0_inv : review_inv rw_d0 Movie.
Proof. apply review_inv_empty. reflexivity. Qed.

Lemma add_or_update_game_rejected_witness :
  itemType rd_game = Game /\
  useAddOrUpdateReview_mutationFn rw_cfg (Some 1) rd_game rw_d0 =
    (Err (err_no_column "watched_date" "game_reviews"), rw_d0).
Proof. split; [reflexivity|]. apply (add_or_update_game_rejected no_unique). reflexivity. Defined.

Lemma add_or_update_round_trip_witness :
  exists r d', useAddOrUpdateReview_mutationFn rw_cfg (Some 1) rd_movie rw_d0 = (Ok r, d') /\
    review_inv d' Movie /\
    exists x, useUserReview_queryFn rw_cfg (Some 1) Movie 550 d' = (Ok (Some x), d') /\
              reviewPayload 1 rd_movie ⊆ x.
Proof.
  exists (Some [complete_row movie_reviews_schema rw_d0 (reviewPayload 1 rd_movie)]), (inserted rw_d0 1 rd_movie).
  assert (E : useAddOrUpdateReview_mutationFn rw_cfg (Some 1) rd_movie rw_d0 =
              (Ok (Some [complete_row movie_reviews_schema rw_d0 (reviewPayload 1 rd_movie)]), inserted rw_d0 1 rd_movie))
    by (vm_compute; reflexivity).
  split; [exact E|]. apply (add_or_update_round_trip no_unique rw_d0 1 rd_movie _ _ rw_d0_inv E).
Defined.

Lemma concurrent_upserts_duplicate_witness :
  let d1 := snd (add_or_update_write rw_cfg 1 rd_movie (add_or_update_lookup rw_cfg 1 rd_movie rw_d0) rw_d0) in
  let d2 := snd (add_or_update_write rw_cfg 1 rd_movie' (add_or_update_lookup rw_cfg 1 rd_movie' rw_d0) d1) in
  length (key_rows d2 1 Movie 550) = 2 /\
  useUserReview_queryFn rw_cfg (Some 1) Movie 550 d2 = (Ok None, d2) /\
  length (key_rows (snd (useAddOrUpdateReview_mutationFn rw_cfg (Some 1) rd_movie d2)) 1 Movie 550) = 3.
Proof.
  apply (concurrent_upserts_duplicate no_unique rw_d0 1 rd_movie rd_movie');
    [reflexivity|reflexivity|discriminate|reflexivity|reflexivity].
Defined.

Lemma reachable_review_inv_witness :
  let d1 := apply_review_op rw_cfg (OpSave 1 rd_movie) rw_d0 in
  reviews_reachable rw_cfg d1 /\ review_inv d1 Movie.
Proof.
  assert (H : reviews_reachable rw_cfg (apply_review_op rw_cfg (OpSave 1 rd_movie) rw_d0))
    by (apply rr_step, rr_init; intros []; reflexivity).
  split; [exact H|]. apply (reachable_review_inv no_unique _ Movie H).
Defined.
