(* ===== verification/Tmdb.v ===== *)
(** * The TMDB client: src/src/services/tmdb.ts

    Every function of tmdb.ts builds an endpoint string and passes it to
    [tmdbFetch], which prefixes the base URL and performs the HTTP call.
    The model keeps the strings: the endpoint of each call, the image URL
    helper, the query string of the discover calls as [URLSearchParams]
    serialises it, and [encodeURIComponent] of the search calls.  The
    HTTP exchange itself is I/O; [tmdbFetch] is modelled on the response
    it receives.  Strings are ASCII (one byte per character), so the
    UTF-8 step of the encoders is the identity. *)

From S2P Require Import Prelude.
From stdpp Require Import pretty.

Definition TMDB_BASE_URL : string := "https://api.themoviedb.org/3".
Definition TMDB_IMAGE_BASE : string := "https://image.tmdb.org/t/p".
Definition no_image : string := "https://via.placeholder.com/500x750?text=No+Image".

(** [getTMDBImageUrl(path, size)]: an empty or null path gives the
    placeholder. *)
Definition getTMDBImageUrl (path : option string) (size : string) : string :=
  match path with
  | Some p => if String.eqb p "" then no_image else TMDB_IMAGE_BASE ++ "/" ++ size ++ p
  | None => no_image
  end.

(** [String(n)] and [`${n}`] on an integer. *)
Definition js_number_string (n : Z) : string := pretty n.

(** ** Percent-encoding *)

Definition hex_digit (n : nat) : ascii :=
  if n <? 10 then ascii_of_nat (48 + n) else ascii_of_nat (55 + n).

Definition hex_val (c : ascii) : option nat :=
  let n := nat_of_ascii c in
  if (48 <=? n) && (n <=? 57) then Some (n - 48)
  else if (65 <=? n) && (n <=? 70) then Some (n - 55)
  else if (97 <=? n) && (n <=? 102) then Some (n - 87)
  else None.

(** [%XX], upper-case hex. *)
Definition percent (c : ascii) : string :=
  let n := nat_of_ascii c in
  String "%" (String (hex_digit (n / 16)) (String (hex_digit (n mod 16)) EmptyString)).

Definition in_range (lo hi n : nat) : bool := (lo <=? n) && (n <=? hi).

(** The bytes the [application/x-www-form-urlencoded] serializer leaves
    as they are: [*-._], digits and letters. *)
Definition form_safe (c : ascii) : bool :=
  let n := nat_of_ascii c in
  (n =? 42) || (n =? 45) || (n =? 46) || in_range 48 57 n || in_range 65 90 n || (n =? 95) || in_range 97 122 n.

(** The characters [encodeURIComponent] leaves as they are. *)
Definition uri_unreserved (c : ascii) : bool :=
  let n := nat_of_ascii c in
  (n =? 33) || in_range 39 42 n || (n =? 45) || (n =? 46) || in_range 48 57 n ||
  in_range 65 90 n || (n =? 95) || in_range 97 122 n || (n =? 126).

Definition form_encode_char (c : ascii) : string :=
  if form_safe c then String c EmptyString
  else if Ascii.eqb c " " then "+"
  else percent c.

Fixpoint form_encode (s : string) : string :=
  match s with
  | EmptyString => EmptyString
  | String c s' => form_encode_char c ++ form_encode s'
  end.

Definition uri_encode_char (c : ascii) : string :=
  if uri_unreserved c then String c EmptyString else percent c.

(** [encodeURIComponent(s)]. *)
Fixpoint encodeURIComponent (s : string) : string :=
  match s with
  | EmptyString => EmptyString
  | String c s' => uri_encode_char c ++ encodeURIComponent s'
  end.

(** Form decoding: [+] is a space, [%XX] a byte, any other [%] stays. *)
Fixpoint form_decode (s : string) : string :=
  match s with
  | EmptyString => EmptyString
  | String c rest =>
      if Ascii.eqb c "+" then String " " (form_decode rest)
      else if Ascii.eqb c "%" then
        match rest with
        | String h (String l s') =>
            match hex_val h, hex_val l with
            | Some a, Some b => String (ascii_of_nat (16 * a + b)) (form_decode s')
            | _, _ => String c (form_decode rest)
            end
        | _ => String c (form_decode rest)
        end
      else String c (form_decode rest)
  end.

(** ** URLSearchParams *)

(** [new URLSearchParams(obj).toString()]: pairs in insertion order. *)
Definition form_serialize (ps : list (string * string)) : string :=
  String.concat "&" (map (fun '(k, v) => (form_encode k ++ "=" ++ form_encode v)%string) ps).

Fixpoint split_on (sep : ascii) (s : string) : list string :=
  match s with
  | EmptyString => [EmptyString]
  | String c s' =>
      if Ascii.eqb c sep then EmptyString :: split_on sep s'
      else match split_on sep s' with
           | [] => [String c EmptyString]
           | x :: xs => String c x :: xs
           end
  end.

Fixpoint split_first (sep : ascii) (s : string) : option (string * string) :=
  match s with
  | EmptyString => None
  | String c s' =>
      if Ascii.eqb c sep then Some (EmptyString, s')
      else match split_first sep s' with
           | Some (a, b) => Some (String c a, b)
           | None => None
           end
  end.

Definition parse_pair (seg : string) : string * string :=
  match split_first "=" seg with
  | Some (n, v) => (form_decode n, form_decode v)
  | None => (form_decode seg, EmptyString)
  end.

(** [new URLSearchParams(query)]: empty sequences are skipped. *)
Definition form_parse (s : string) : list (string * string) :=
  map parse_pair (List.filter (fun seg => negb (String.eqb seg "")) (split_on "&" s)).

(** ** Endpoints *)

(** [tmdbFetch]: the URL it requests, and what it does with the response:
    a status outside 200-299 becomes [TMDB API Error: status]. *)
Definition tmdb_url (endpoint : string) : string := TMDB_BASE_URL ++ endpoint.

Definition tmdbFetch {A} (status : Z) (body : A) : result A :=
  if (200 <=? status)%Z && (status <=? 299)%Z then Ok body
  else Err (new_Error ("TMDB API Error: " ++ js_number_string status)).

Definition getTrending_endpoint (timeWindow : string) : string :=
  "/trending/all/" ++ timeWindow ++ "?language=pl-PL".
Definition getPopularMovies_endpoint (page : Z) : string :=
  "/movie/popular?language=pl-PL&page=" ++ js_number_string page.
Definition getPopularTVShows_endpoint (page : Z) : string :=
  "/tv/popular?language=pl-PL&page=" ++ js_number_string page.
Definition searchMovies_endpoint (query : string) (page : Z) : string :=
  "/search/movie?language=pl-PL&query=" ++ encodeURIComponent query ++ "&page=" ++ js_number_string page.
Definition searchTVShows_endpoint (query : string) (page : Z) : string :=
  "/search/tv?language=pl-PL&query=" ++ encodeURIComponent query ++ "&page=" ++ js_number_string page.
Definition getMovieDetails_endpoint (movieId : Z) : string :=
  "/movie/" ++ js_number_string movieId ++ "?language=pl-PL".
Definition getTVShowDetails_endpoint (tvId : Z) : string :=
  "/tv/" ++ js_number_string tvId ++ "?language=pl-PL".
Definition getTopRatedMovies_endpoint (page : Z) : string :=
  "/movie/top_rated?language=pl-PL&page=" ++ js_number_string page.
Definition getUpcomingMovies_endpoint (page : Z) : string :=
  "/movie/upcoming?language=pl-PL&page=" ++ js_number_string page.
Definition getMovieCredits_endpoint (movieId : Z) : string :=
  "/movie/" ++ js_number_string movieId ++ "/credits?language=pl-PL".
Definition getMovieGenres_endpoint : string := "/genre/movie/list?language=pl-PL".
Definition getTVGenres_endpoint : string := "/genre/tv/list?language=pl-PL".

(** The [params] object of [discoverMovies] / [discoverTVShows]: its
    fields are numbers or strings, [None] for [undefined]. *)
Record DiscoverParams : Type := MkDiscoverParams {
  dp_page : option Z;
  dp_sort_by : option string;
  dp_with_genres : option string;
  dp_date_gte : option string;
  dp_date_lte : option string;
  dp_vote_average_gte : option string;
  dp_vote_count_gte : option string
}.

(** A truthy string: defined and not empty. *)
Definition truthy_str (o : option string) : option string :=
  match o with Some s => if String.eqb s "" then None else Some s | None => None end.

(** [queryParams], with the date columns named after the kind
    ([primary_release_date] for movies, [first_air_date] for series). *)
Definition discover_queryParams (date_col : string) (p : DiscoverParams) : list (string * string) :=
  [("language", "pl-PL");
   ("page", js_number_string (match dp_page p with Some n => if Z.eqb n 0 then 1%Z else n | None => 1%Z end));
   ("sort_by", default "popularity.desc" (truthy_str (dp_sort_by p)))] ++
  option_list ((fun s => ("with_genres", s)) <$> truthy_str (dp_with_genres p)) ++
  option_list ((fun s => ((date_col ++ ".gte")%string, s)) <$> truthy_str (dp_date_gte p)) ++
  option_list ((fun s => ((date_col ++ ".lte")%string, s)) <$> truthy_str (dp_date_lte p)) ++
  option_list ((fun s => ("vote_average.gte", s)) <$> truthy_str (dp_vote_average_gte p)) ++
  option_list ((fun s => ("vote_count.gte", s)) <$> truthy_str (dp_vote_count_gte p)).

Definition discoverMovies_endpoint (p : DiscoverParams) : string :=
  "/discover/movie?" ++ form_serialize (discover_queryParams "primary_release_date" p).
Definition discoverTVShows_endpoint (p : DiscoverParams) : string :=
  "/discover/tv?" ++ form_serialize (discover_queryParams "first_air_date" p).

(** The query string of a URL: what follows the first [?]. *)
Definition query_string (url : string) : string :=
  match split_first "?" url with Some (_, q) => q | None => EmptyString end.

(** ** Character-level facts *)

Fixpoint all_chars (P : ascii -> bool) (s : string) : bool :=
  match s with EmptyString => true | String c s' => P c && all_chars P s' end.

Definition not_sep (c : ascii) : bool := negb (Ascii.eqb c "&") && negb (Ascii.eqb c "=").
Definition plain (c : ascii) : bool := negb (Ascii.eqb c "+") && negb (Ascii.eqb c "%").

Lemma all_chars_app P s t : all_chars P (s ++ t) = all_chars P s && all_chars P t.
Proof.
  induction s as [|c s IH]; [reflexivity|].
  change (all_chars P (String c (s ++ t)) = (P c && all_chars P s) && all_chars P t).
  cbn [all_chars]. rewrite IH. by destruct (P c).
Qed.

(** Each of the 256 bytes decodes back from its encodings. *)
Lemma form_decode_encode_char c t : form_decode (form_encode_char c ++ t) = String c (form_decode t).
Proof. destruct c as [[] [] [] [] [] [] [] []]; reflexivity. Qed.

Lemma form_decode_uri_char c t : form_decode (uri_encode_char c ++ t) = String c (form_decode t).
Proof. destruct c as [[] [] [] [] [] [] [] []]; reflexivity. Qed.

Lemma form_encode_char_not_sep c : all_chars not_sep (form_encode_char c) = true.
Proof. destruct c as [[] [] [] [] [] [] [] []]; reflexivity. Qed.

Lemma uri_encode_char_not_sep c : all_chars not_sep (uri_encode_char c) = true.
Proof. destruct c as [[] [] [] [] [] [] [] []]; reflexivity. Qed.

Lemma form_decode_encode s : form_decode (form_encode s) = s.
Proof. induction s as [|c s IH]; cbn; [done|]. by rewrite form_decode_encode_char, IH. Qed.

Lemma form_decode_uri s : form_decode (encodeURIComponent s) = s.
Proof. induction s as [|c s IH]; cbn; [done|]. by rewrite form_decode_uri_char, IH. Qed.

Lemma form_encode_not_sep s : all_chars not_sep (form_encode s) = true.
Proof. induction s as [|c s IH]; cbn; [done|]. by rewrite all_chars_app, form_encode_char_not_sep, IH. Qed.

Lemma uri_encode_not_sep s : all_chars not_sep (encodeURIComponent s) = true.
Proof. induction s as [|c s IH]; cbn; [done|]. by rewrite all_chars_app, uri_encode_char_not_sep, IH. Qed.

Lemma form_decode_plain s : all_chars plain s = true -> form_decode s = s.
Proof.
  induction s as [|c s IH]; cbn; [done|]. unfold plain.
  destruct (Ascii.eqb c "+"), (Ascii.eqb c "%"); cbn; try discriminate. intros H. by rewrite IH.
Qed.

(** The decimal digits and the sign of [String(n)] have any property the
    ten digits and [-] have. *)
Lemma all_chars_pretty_N_go P x s :
  (forall d, P (pretty_N_char d) = true) -> all_chars P s = true -> all_chars P (pretty_N_go x s) = true.
Proof.
  intros Hd. revert s. induction (N.lt_wf_0 x) as [x _ IH]; intros s Hs.
  destruct (decide (x = 0%N)) as [->|Hx]; [by rewrite pretty_N_go_0|].
  rewrite pretty_N_go_step by lia. apply IH; [apply N.div_lt; lia|]. cbn. by rewrite Hd, Hs.
Qed.

Lemma all_chars_pretty_N P (x : N) :
  (forall d, P (pretty_N_char d) = true) -> all_chars P (pretty x) = true.
Proof.
  intros Hd. unfold pretty, pretty_N. destruct (decide _).
  - change (P (pretty_N_char 0) && true = true). by rewrite Hd.
  - by apply all_chars_pretty_N_go.
Qed.

Lemma all_chars_number P n :
  (forall d, P (pretty_N_char d) = true) -> P "-"%char = true -> all_chars P (js_number_string n) = true.
Proof.
  intros Hd Hm. unfold js_number_string, pretty at 1, pretty_Z. destruct n as [|p|p].
  - change (P (pretty_N_char 0) && true = true). by rewrite Hd.
  - by apply all_chars_pretty_N.
  - change (P "-"%char && all_chars P (pretty (Npos p)) = true). rewrite Hm. by apply all_chars_pretty_N.
Qed.

Lemma digits_not_sep d : not_sep (pretty_N_char d) = true.
Proof. unfold pretty_N_char. repeat case_match; reflexivity. Qed.

Lemma digits_plain d : plain (pretty_N_char d) = true.
Proof. unfold pretty_N_char. repeat case_match; reflexivity. Qed.

Lemma all_chars_impl (P Q : ascii -> bool) s :
  (forall c, P c = true -> Q c = true) -> all_chars P s = true -> all_chars Q s = true.
Proof.
  intros HPQ. induction s as [|c s IH]; cbn; [done|].
  rewrite !andb_true_iff. intros [Hc Hs]. split; [by apply HPQ|by apply IH].
Qed.

Definition no_char (sep : ascii) (c : ascii) : bool := negb (Ascii.eqb c sep).

Lemma not_sep_amp c : not_sep c = true -> no_char "&" c = true.
Proof. unfold not_sep, no_char. rewrite andb_true_iff. tauto. Qed.

Lemma not_sep_eq c : not_sep c = true -> no_char "=" c = true.
Proof. unfold not_sep, no_char. rewrite andb_true_iff. tauto. Qed.

(** ** Splitting *)

Lemma split_on_no_sep sep s : all_chars (no_char sep) s = true -> split_on sep s = [s].
Proof.
  induction s as [|c s IH]; cbn; [done|]. unfold no_char at 1.
  destruct (Ascii.eqb c sep); cbn; [discriminate|]. intros H. by rewrite IH.
Qed.

Lemma split_on_app sep a b :
  all_chars (no_char sep) a = true -> split_on sep (a ++ String sep b) = a :: split_on sep b.
Proof.
  induction a as [|c a IH]; intros H.
  - change (split_on sep (String sep b) = EmptyString :: split_on sep b). cbn [split_on].
    by rewrite Ascii.eqb_refl.
  - change (split_on sep (String c (a ++ String sep b)) = String c a :: split_on sep b).
    cbn [all_chars split_on] in H |- *. unfold no_char at 1 in H.
    destruct (Ascii.eqb c sep); cbn in H; [discriminate|]. by rewrite IH.
Qed.

Lemma split_first_app sep a b :
  all_chars (no_char sep) a = true -> split_first sep (a ++ String sep b) = Some (a, b).
Proof.
  induction a as [|c a IH]; intros H.
  - change (split_first sep (String sep b) = Some (EmptyString, b)). cbn [split_first].
    by rewrite Ascii.eqb_refl.
  - change (split_first sep (String c (a ++ String sep b)) = Some (String c a, b)).
    cbn [all_chars split_first] in H |- *. unfold no_char at 1 in H.
    destruct (Ascii.eqb c sep); cbn in H; [discriminate|]. by rewrite IH.
Qed.

Lemma split_on_concat (segs : list string) :
  segs <> [] -> Forall (fun s => all_chars (no_char "&") s = true) segs ->
  split_on "&" (String.concat "&" segs) = segs.
Proof.
  induction segs as [|x [|y rest] IH]; intros Hne Hall; [done| |].
  - inversion Hall. cbn. by apply split_on_no_sep.
  - inversion Hall as [|? ? Hx Hrest]. change (String.concat "&" (x :: y :: rest)) with (x ++ String "&" (String.concat "&" (y :: rest)))%string.
    rewrite split_on_app by exact Hx. by rewrite IH.
Qed.

Lemma filter_nonempty_id (segs : list string) :
  Forall (fun s => s <> EmptyString) segs -> List.filter (fun seg => negb (String.eqb seg "")) segs = segs.
Proof.
  induction 1 as [|x l Hx _ IH]; [done|]. cbn.
  destruct (String.eqb_spec x ""); [done|]. cbn. by rewrite IH.
Qed.

(** The [name=value] sequence of one pair. *)
Definition form_segment (kv : string * string) : string :=
  (form_encode kv.1 ++ String "=" (form_encode kv.2))%string.

Lemma parse_form_segment kv : parse_pair (form_segment kv) = kv.
Proof.
  destruct kv as [k v]. unfold parse_pair, form_segment. cbn [fst snd].
  rewrite split_first_app by (eapply all_chars_impl; [apply not_sep_eq|apply form_encode_not_sep]).
  by rewrite !form_decode_encode.
Qed.

Lemma form_segment_ok kv :
  all_chars (no_char "&") (form_segment kv) = true /\ form_segment kv <> EmptyString.
Proof.
  unfold form_segment. split.
  - rewrite all_chars_app. cbn [all_chars]. rewrite andb_true_iff, andb_true_iff.
    split; [|split; [reflexivity|]]; (eapply all_chars_impl; [apply not_sep_amp|apply form_encode_not_sep]).
  - by destruct (form_encode kv.1).
Qed.

Lemma form_serialize_segments ps : form_serialize ps = String.concat "&" (map form_segment ps).
Proof. unfold form_serialize. f_equal. apply map_ext. by intros [k v]. Qed.

(** [URLSearchParams] round trip: parsing the string that
    [new URLSearchParams(pairs).toString()] produces gives back the
    pairs, in order, whatever bytes the names and values hold ([&], [=],
    [+], [%] and spaces included). *)
Theorem form_roundtrip (ps : list (string * string)) : form_parse (form_serialize ps) = ps.
Proof.
  destruct ps as [|kv ps]; [reflexivity|]. rewrite form_serialize_segments. unfold form_parse.
  rewrite split_on_concat by (done || (apply Forall_forall; intros s Hs; apply list_elem_of_fmap in Hs as [x [-> _]]; apply form_segment_ok)).
  rewrite filter_nonempty_id by (apply Forall_forall; intros s Hs; apply list_elem_of_fmap in Hs as [x [-> _]]; apply form_segment_ok).
  rewrite map_map. erewrite map_ext; [apply map_id|]. apply parse_form_segment.
Qed.

Lemma app_cons_assoc (k x y : string) c : ((k ++ String c x) ++ y)%string = (k ++ String c (x ++ y))%string.
Proof.
  induction k as [|d k IH]; [reflexivity|].
  change (String d ((k ++ String c x) ++ y) = String d (k ++ String c (x ++ y)))%string. by rewrite IH.
Qed.

Lemma number_no_amp n : all_chars (no_char "&") (js_number_string n) = true.
Proof.
  eapply all_chars_impl; [apply not_sep_amp|]. apply all_chars_number; [apply digits_not_sep|reflexivity].
Qed.

Lemma number_decodes n : form_decode (js_number_string n) = js_number_string n.
Proof. apply form_decode_plain, all_chars_number; [apply digits_plain|reflexivity]. Qed.

Lemma uri_no_amp q : all_chars (no_char "&") (encodeURIComponent q) = true.
Proof. eapply all_chars_impl; [apply not_sep_amp|apply uri_encode_not_sep]. Qed.

(** [k=v] with a literal key: the pair it parses to. *)
Lemma parse_literal_pair k v :
  all_chars (no_char "=") k = true -> all_chars plain k = true ->
  parse_pair (k ++ String "=" v) = (k, form_decode v).
Proof. intros Hk Hp. unfold parse_pair. rewrite split_first_app by exact Hk. by rewrite form_decode_plain. Qed.

(** C16 The search text cannot add or change request parameters: the
    query string of [searchMovies] (and [searchTVShows]) parses to
    exactly [language], [query] with the text the user typed, and [page],
    even when the text contains [&], [=], [+] or [%]. *)
Theorem search_query_exact (q : string) (page : Z) :
  form_parse (query_string (searchMovies_endpoint q page)) =
    [("language", "pl-PL"); ("query", q); ("page", js_number_string page)] /\
  form_parse (query_string (searchTVShows_endpoint q page)) =
    [("language", "pl-PL"); ("query", q); ("page", js_number_string page)].
Proof.
  assert (Hq : forall path, all_chars (no_char "?") path = true ->
    form_parse (query_string (path ++ String "?" ("language=pl-PL" ++ String "&" ("query" ++ String "=" (encodeURIComponent q ++
      String "&" ("page" ++ String "=" (js_number_string page)))))))%string =
    [("language", "pl-PL"); ("query", q); ("page", js_number_string page)]).
  { intros path Hp. unfold query_string. rewrite split_first_app by exact Hp. unfold form_parse.
    rewrite (split_on_app "&" "language=pl-PL") by reflexivity.
    rewrite <-(app_cons_assoc "query" (encodeURIComponent q)).
    rewrite split_on_app by (rewrite all_chars_app; cbn [all_chars]; rewrite uri_no_amp; reflexivity).
    rewrite split_on_no_sep by (change (all_chars (no_char "&") (js_number_string page) = true); apply number_no_amp).
    rewrite filter_nonempty_id by (repeat constructor; discriminate).
    cbn [map]. rewrite !parse_literal_pair by reflexivity.
    by rewrite form_decode_uri, number_decodes. }
  split; [apply (Hq "/search/movie")|apply (Hq "/search/tv")]; reflexivity.
Qed.

Lemma discover_query_string path qs :
  all_chars (no_char "?") path = true -> query_string (path ++ String "?" qs) = qs.
Proof. intros Hp. unfold query_string. by rewrite split_first_app. Qed.

(** The discover requests carry exactly the parameters the code
    builds: the server reads [language], [page] (1 when the page is
    missing or 0), [sort_by] (popularity.desc when missing or empty) and
    then only the filters that are set and non-empty, in that order. *)
Theorem discover_request_params (p : DiscoverParams) :
  form_parse (query_string (discoverMovies_endpoint p)) = discover_queryParams "primary_release_date" p /\
  form_parse (query_string (discoverTVShows_endpoint p)) = discover_queryParams "first_air_date" p.
Proof.
  unfold discoverMovies_endpoint, discoverTVShows_endpoint.
  split; [change ("/discover/movie?" ++ ?x)%string with ("/discover/movie" ++ String "?" x)%string
         |change ("/discover/tv?" ++ ?x)%string with ("/discover/tv" ++ String "?" x)%string];
    rewrite discover_query_string by reflexivity; apply form_roundtrip.
Qed.
