(* ===== verification/Watchlist.v ===== *)
(** * Watchlist: src/src/hooks/useWatchlist.ts, pages/Watchlist.tsx and
    the bookmark toggle of pages/Discover.tsx

    The watchlist is one table keyed, in the spec, by (owner, kind, media
    id).  The hooks read the list (newest first, optionally one kind),
    check one key with [.maybeSingle()], insert without any lookup and
    delete by the key.  The Discover page shows a bookmark that removes
    the item when the check said it is in the list and adds it otherwise;
    the Watchlist page filters by kind and removes.  [DEMO_MODE] and the
    demo fixture come from [@/lib/demoMode], which is not in the
    repository: they are parameters of the read hook. *)

From S2P Require Import Prelude Remote Schema Reviews Tmdb.

(** [.eq('user_id', ..).eq('item_type', ..).eq('item_id', ..)] *)
Definition watchlist_key (uid : nat) (itemType : string) (itemId : Z) : list pfilter :=
  [FEq "user_id" (JUuid uid); FEq "item_type" (JStr itemType); FEq "item_id" (JNum itemId)].

(** The arguments of [useAddToWatchlist]. *)
Record WatchlistAdd : Type := MkWatchlistAdd {
  wa_itemType : MediaType;
  wa_itemId : Z;
  wa_itemTitle : string;
  wa_itemPoster : option string;
  wa_itemRating : option Z
}.

(** The inserted object: [itemPoster || null], [itemRating || null]. *)
Definition watchlist_payload (uid : nat) (a : WatchlistAdd) : row :=
  js_object
    [("user_id", JUuid uid);
     ("item_type", JStr (media_name (wa_itemType a)));
     ("item_id", JNum (wa_itemId a));
     ("item_title", JStr (wa_itemTitle a));
     ("item_poster", or_null_str (wa_itemPoster a));
     ("item_rating", or_null_num (wa_itemRating a))].

(** [item => item.item_type === itemType], the demo path's filter. *)
Definition kind_filter (t : MediaType) (item : row) : bool :=
  bool_decide (item !! "item_type" = Some (JStr (media_name t))).

Section watchlist_hooks.
Context (cfg : store_config).

(** [useWatchlist(itemType)]: the user check comes before demo mode. *)
Definition useWatchlist_queryFn (DEMO_MODE : bool) (DEMO_WATCHLIST : list row)
    (user : option nat) (itemType : option MediaType) : M db (option (list row)) :=
  match user with
  | None => throw (new_Error "User not authenticated")
  | Some uid =>
      if DEMO_MODE then
        mret (Some (match itemType with
                    | Some t => List.filter (kind_filter t) DEMO_WATCHLIST
                    | None => DEMO_WATCHLIST
                    end))
      else
        r ← lift_read (fun d =>
          order_resp "added_at" false
            (select_rows cfg d "watchlist" None
               (FEq "user_id" (JUuid uid) ::
                match itemType with Some t => [FEq "item_type" (JStr (media_name t))] | None => [] end)));
        match error r with Some e => throw e | None => mret (data r) end
  end.

(** [useIsInWatchlist]: an error of [.maybeSingle()] is thrown. *)
Definition useIsInWatchlist_queryFn (user : option nat) (itemType : string) (itemId : Z) : M db bool :=
  match user with
  | None => mret false
  | Some uid =>
      r ← lift_read (fun d => maybe_single (select_rows cfg d "watchlist" (Some ["id"]) (watchlist_key uid itemType itemId)));
      match error r with
      | Some e => throw e
      | None => mret (bool_decide (is_Some (data r)))
      end
  end.

(** [useAddToWatchlist]: a plain insert, [.select().single()]. *)
Definition useAddToWatchlist_mutationFn (user : option nat) (a : WatchlistAdd) : M db row :=
  match user with
  | None => throw (new_Error "User not authenticated")
  | Some uid =>
      resp ← lift_write (insert_row cfg "watchlist" (watchlist_payload uid a));
      match error resp, data resp with
      | Some e, _ => throw e
      | None, Some x => mret x
      | None, None => throw err_pgrst116
      end
  end.

(** [useRemoveFromWatchlist] *)
Definition useRemoveFromWatchlist_mutationFn (user : option nat) (itemType : string) (itemId : Z) : M db unit :=
  match user with
  | None => throw (new_Error "User not authenticated")
  | Some uid =>
      resp ← lift_write (delete_rows cfg "watchlist" (watchlist_key uid itemType itemId));
      match error resp with Some e => throw e | None => mret () end
  end.

(** ** Discover.tsx: the bookmark of a media card *)

(** The toast the handler shows. *)
Inductive watch_toast : Type := ToastRemovedFromWatchlist | ToastAddedToWatchlist | ToastWatchlistError.

(** [handleAddToWatchlist(e, itemType, itemId, title, poster, rating,
    isInWatchlist)]: [isInWatchlist] is the cached answer of
    [useIsInWatchlist], [undefined] ([None]) while loading or after an
    error. *)
Definition handleAddToWatchlist (user : option nat) (a : WatchlistAdd) (isInWatchlist : option bool)
    : M db watch_toast :=
  fun d =>
    let act : M db watch_toast :=
      if default false isInWatchlist
      then useRemoveFromWatchlist_mutationFn user (media_name (wa_itemType a)) (wa_itemId a) ;; mret ToastRemovedFromWatchlist
      else useAddToWatchlist_mutationFn user a ;; mret ToastAddedToWatchlist in
    match act d with
    | (Ok t, d') => (Ok t, d')
    | (Err _, d') => (Ok ToastWatchlistError, d')
    end.

(** The card's [isInWatchlist]: the [data] of its [useIsInWatchlist]
    query.  react-query keeps the last value a fetch returned when a
    later fetch throws; [None] is [undefined], before any fetch returned. *)
Definition check_fetch (user : option nat) (a : WatchlistAdd) (data : option bool) (d : db) : option bool :=
  match fst (useIsInWatchlist_queryFn user (media_name (wa_itemType a)) (wa_itemId a) d) with
  | Ok b => Some b
  | Err _ => data
  end.

(** A click on the bookmark: the handler with the card's cached answer;
    when the mutation returned, its [onSuccess] invalidates
    ['watchlist-check'] and the card's query is fetched again on the new
    store; when it threw, nothing is invalidated. *)
Definition bookmark_click (user : option nat) (a : WatchlistAdd) (st : option bool * db) : option bool * db :=
  let '(data, d) := st in
  match handleAddToWatchlist user a data d with
  | (Ok ToastWatchlistError, d') => (data, d')
  | (_, d') => (check_fetch user a data d', d')
  end.
End watchlist_hooks.

(** The card's [image]: a game's [background_image], otherwise
    [getTMDBImageUrl(item.poster_path, 'w500')], a full URL. *)
Definition discover_card_image (isGame : bool) (poster_path background_image : option string) : option string :=
  if isGame then background_image else Some (getTMDBImageUrl poster_path "w500").

(** The arguments the card passes to [handleAddToWatchlist]: the
    [image] becomes [itemPoster]. *)
Definition card_watchlist_add (t : MediaType) (id : Z) (title : string) (image : option string) (rating : Z) : WatchlistAdd :=
  MkWatchlistAdd t id title image (Some rating).

(** ** Watchlist.tsx *)

(** [type FilterType = 'all' | 'movie' | 'series' | 'game'] and
    [filter === 'all' ? undefined : filter]. *)
Inductive FilterType : Type := FilterAll | FilterKind (t : MediaType).

Definition filterType (f : FilterType) : option MediaType :=
  match f with FilterAll => None | FilterKind t => Some t end.

(** The image of a card: a game's poster is a full URL, a movie's or
    series' a TMDB path ([item_poster || '']); then [image || placeholder]. *)
Definition watchlist_image (item : row) : string :=
  let isGame := bool_decide (item !! "item_type" = Some (JStr "game")) in
  let poster := match item !! "item_poster" with Some (JStr s) => Some s | _ => None end in
  let image := if isGame then default "" poster else getTMDBImageUrl (Some (default "" poster)) "w500" in
  if String.eqb image "" then "https://via.placeholder.com/500x750" else image.

(** [handleRemove]: the toast says which outcome, in the page's language. *)
Inductive remove_toast : Type := ToastRemoved (title : string) | ToastRemoveFailed.

Definition handleRemove (cfg : store_config) (user : option nat) (itemType : string) (itemId : Z) (title : string)
    : M db remove_toast :=
  fun d =>
    match useRemoveFromWatchlist_mutationFn cfg user itemType itemId d with
    | (Ok _, d') => (Ok (ToastRemoved title), d')
    | (Err _, d') => (Ok ToastRemoveFailed, d')
    end.

(** ** Facts *)

(** The rows of one watchlist key. *)
Definition wl_rows (d : db) (uid : nat) (a : WatchlistAdd) : list row :=
  List.filter (matches_all (watchlist_key uid (media_name (wa_itemType a)) (wa_itemId a))) (table d "watchlist").

Definition wl_count (d : db) (uid : nat) (a : WatchlistAdd) : nat := length (wl_rows d uid a).

(** The store after a successful insert of [x] into the watchlist. *)
Definition wl_inserted (d : db) (x : row) : db :=
  mkDb (<["watchlist" := table d "watchlist" ++ [x] ]> (db_tables d)) (S (db_next_id d)) (S (db_clock d)).

Lemma watchlist_payload_fits uid a :
  unknown_column watchlist_schema (watchlist_payload uid a) = None /\
  missing_required watchlist_schema (watchlist_payload uid a) = None.
Proof. unfold watchlist_payload. destruct (wa_itemType a); vm_compute; split; reflexivity. Qed.

Lemma watchlist_payload_key uid a :
  watchlist_payload uid a !! "user_id" = Some (JUuid uid) /\
  watchlist_payload uid a !! "item_type" = Some (JStr (media_name (wa_itemType a))) /\
  watchlist_payload uid a !! "item_id" = Some (JNum (wa_itemId a)).
Proof. unfold watchlist_payload. destruct (wa_itemType a); vm_compute; repeat split. Qed.

Lemma watchlist_key_iff uid t i (r : row) :
  matches_all (watchlist_key uid t i) r = true <->
  r !! "user_id" = Some (JUuid uid) /\ r !! "item_type" = Some (JStr t) /\ r !! "item_id" = Some (JNum i).
Proof.
  unfold matches_all, watchlist_key. cbn [forallb filter_matches].
  rewrite andb_true_r, !andb_true_iff, !bool_decide_eq_true, !non_null_some.
  split; intros (H1 & H2 & H3); repeat split; try tauto; congruence.
Qed.

(** A row that carries the payload has its key. *)
Lemma payload_row_key uid a (x : row) :
  watchlist_payload uid a ⊆ x -> matches_all (watchlist_key uid (media_name (wa_itemType a)) (wa_itemId a)) x = true.
Proof.
  intros Hs. apply watchlist_key_iff. destruct (watchlist_payload_key uid a) as (H1 & H2 & H3).
  repeat split; eapply lookup_weaken; eassumption.
Qed.

(** Under the unique key (user_id, item_type, item_id), the payload
    collides exactly with the rows of its key. *)
Lemma collides_key uid a (x r : row) :
  watchlist_payload uid a ⊆ x ->
  collides ["user_id"; "item_type"; "item_id"] x r = true ->
  matches_all (watchlist_key uid (media_name (wa_itemType a)) (wa_itemId a)) r = true.
Proof.
  intros Hs. destruct (watchlist_payload_key uid a) as (H1 & H2 & H3).
  unfold collides. cbn [forallb]. rewrite (lookup_weaken _ _ _ _ H1 Hs), (lookup_weaken _ _ _ _ H2 Hs), (lookup_weaken _ _ _ _ H3 Hs).
  cbn [non_null]. rewrite andb_true_r, !andb_true_iff, !bool_decide_eq_true. intros (E1 & E2 & E3).
  by apply watchlist_key_iff.
Qed.

Lemma wl_rows_inserted (d : db) uid a x :
  watchlist_payload uid a ⊆ x -> wl_rows (wl_inserted d x) uid a = wl_rows d uid a ++ [x].
Proof.
  intros Hs. unfold wl_rows at 1, wl_inserted. rewrite table_insert_same, List.filter_app.
  cbn [List.filter]. by rewrite payload_row_key.
Qed.

Section watch_facts.
Context (uniq : string -> list (list string)).
Let cfg := popstack_cfg uniq.

(** The insert of [useAddToWatchlist], when no unique key refuses it. *)
Lemma add_run (d : db) uid a :
  violates_unique cfg "watchlist" (complete_row watchlist_schema d (watchlist_payload uid a)) (table d "watchlist") = false ->
  useAddToWatchlist_mutationFn cfg (Some uid) a d =
    (Ok (complete_row watchlist_schema d (watchlist_payload uid a)),
     wl_inserted d (complete_row watchlist_schema d (watchlist_payload uid a))).
Proof.
  intros Hv. destruct (watchlist_payload_fits uid a) as [Hu Hm].
  unfold useAddToWatchlist_mutationFn. rewrite lift_write_bind.
  rewrite (insert_row_ok cfg "watchlist" watchlist_schema _ d eq_refl Hu Hm Hv). reflexivity.
Qed.

Lemma add_run_nouniq (d : db) uid a :
  uniq "watchlist" = [] ->
  useAddToWatchlist_mutationFn cfg (Some uid) a d =
    (Ok (complete_row watchlist_schema d (watchlist_payload uid a)),
     wl_inserted d (complete_row watchlist_schema d (watchlist_payload uid a))).
Proof.
  intros Hq. apply add_run. unfold violates_unique.
  change (cfg_unique cfg "watchlist") with (uniq "watchlist"). by rewrite Hq.
Qed.

Lemma check_run (d : db) uid a :
  useIsInWatchlist_queryFn cfg (Some uid) (media_name (wa_itemType a)) (wa_itemId a) d =
    (match wl_rows d uid a with
     | [] => Ok false
     | [_] => Ok true
     | _ => Err err_pgrst116
     end, d).
Proof.
  unfold useIsInWatchlist_queryFn. rewrite lift_read_bind.
  rewrite (select_rows_known cfg d "watchlist" watchlist_schema) by reflexivity. fold (wl_rows d uid a).
  by destruct (wl_rows d uid a) as [|r [|r' l]].
Qed.

Lemma add_dup_run (d : db) uid a :
  violates_unique cfg "watchlist" (complete_row watchlist_schema d (watchlist_payload uid a)) (table d "watchlist") = true ->
  useAddToWatchlist_mutationFn cfg (Some uid) a d = (Err err_duplicate, d).
Proof.
  intros Hv. destruct (watchlist_payload_fits uid a) as [Hu Hm].
  unfold useAddToWatchlist_mutationFn. rewrite lift_write_bind. unfold insert_row.
  change (cfg_schema cfg "watchlist") with (Some watchlist_schema). cbv beta iota. rewrite Hu, Hm, Hv. reflexivity.
Qed.

Lemma remove_run (d : db) uid a :
  useRemoveFromWatchlist_mutationFn cfg (Some uid) (media_name (wa_itemType a)) (wa_itemId a) d =
    (Ok (), set_table d "watchlist"
              (List.filter (fun r => negb (matches_all (watchlist_key uid (media_name (wa_itemType a)) (wa_itemId a)) r))
                 (table d "watchlist"))).
Proof. unfold useRemoveFromWatchlist_mutationFn. rewrite lift_write_bind. reflexivity. Qed.

Lemma wl_rows_removed (d : db) uid a :
  wl_rows (set_table d "watchlist"
             (List.filter (fun r => negb (matches_all (watchlist_key uid (media_name (wa_itemType a)) (wa_itemId a)) r))
                (table d "watchlist"))) uid a = [].
Proof. unfold wl_rows. rewrite table_set_table_same. apply filter_negb_nil. Qed.

(** The card's answer after a fetch on a store with at most one row of
    the item: whether there is one. *)
Lemma check_fetch_le1 (d : db) uid a data :
  wl_count d uid a <= 1 -> check_fetch cfg (Some uid) a data d = Some (wl_count d uid a =? 1).
Proof.
  unfold check_fetch, wl_count. rewrite check_run.
  destruct (wl_rows d uid a) as [|r [|r' l]]; cbn [length]; intros H; [reflexivity|reflexivity|lia].
Qed.

(** Without a unique key, a click while the card shows "add" inserts
    the payload and fetches the check again. *)
Lemma bookmark_click_add (d : db) uid a data :
  uniq "watchlist" = [] -> default false data = false ->
  bookmark_click cfg (Some uid) a (data, d) =
    (check_fetch cfg (Some uid) a data (wl_inserted d (complete_row watchlist_schema d (watchlist_payload uid a))),
     wl_inserted d (complete_row watchlist_schema d (watchlist_payload uid a))).
Proof.
  intros Hq Hd. unfold bookmark_click, handleAddToWatchlist. rewrite Hd.
  by rewrite (bind_ok_run _ _ d _ _ (add_run_nouniq d uid a Hq)).
Qed.

(** A click while the card shows "in watchlist" deletes every row of
    the key, and the check then answers [false]. *)
Lemma bookmark_click_remove (d : db) uid a data :
  default false data = true ->
  let d' := set_table d "watchlist"
              (List.filter (fun r => negb (matches_all (watchlist_key uid (media_name (wa_itemType a)) (wa_itemId a)) r))
                 (table d "watchlist")) in
  bookmark_click cfg (Some uid) a (data, d) = (Some false, d') /\ wl_rows d' uid a = [].
Proof.
  intros Hd d'. split; [|apply wl_rows_removed].
  unfold bookmark_click, handleAddToWatchlist. rewrite Hd.
  rewrite (bind_ok_run _ _ d _ _ (remove_run d uid a)). cbv [mret M_ret]. cbn [fst snd].
  rewrite check_fetch_le1; unfold d', wl_count; rewrite wl_rows_removed; [reflexivity|cbn; lia].
Qed.

(** Without a unique key, the rows of the key after a click: none when
    the card showed "in watchlist", one more otherwise. *)
Lemma bookmark_click_count (d : db) uid a data :
  uniq "watchlist" = [] ->
  wl_count (snd (bookmark_click cfg (Some uid) a (data, d))) uid a =
    if default false data then 0 else S (wl_count d uid a).
Proof.
  intros Hq. unfold wl_count. destruct (default false data) eqn:Hd.
  - destruct (bookmark_click_remove d uid a data Hd) as [E1 E2]. rewrite E1. cbn [snd]. by rewrite E2.
  - rewrite bookmark_click_add by done. cbn [snd].
    rewrite wl_rows_inserted, length_app by apply map_union_subseteq_l. cbn [length]. lia.
Qed.

(** ... and the card then shows "in watchlist" when the item had no row. *)
Lemma bookmark_click_data_add (d : db) uid a data :
  uniq "watchlist" = [] -> default false data = false -> wl_count d uid a = 0 ->
  fst (bookmark_click cfg (Some uid) a (data, d)) = Some true.
Proof.
  intros Hq Hd H0. rewrite bookmark_click_add by done. cbn [fst].
  rewrite check_fetch_le1; unfold wl_count in *; rewrite wl_rows_inserted by apply map_union_subseteq_l;
    rewrite length_app, H0; reflexivity.
Qed.
End watch_facts.



Lemma watchlist_payload_poster uid a :
  watchlist_payload uid a !! "item_poster" = Some (or_null_str (wa_itemPoster a)).
Proof. unfold watchlist_payload. destruct (wa_itemType a); vm_compute; reflexivity. Qed.

Lemma tmdb_url_nonempty p size : p <> EmptyString -> getTMDBImageUrl (Some p) size = (TMDB_IMAGE_BASE ++ "/" ++ size ++ p)%string.
Proof. intros Hp. cbn [getTMDBImageUrl]. destruct (String.eqb_spec p ""); [done|reflexivity]. Qed.

Definition wl_unique_key : list string := ["user_id"; "item_type"; "item_id"].

Lemma no_collision (d : db) uid a (x : row) :
  wl_rows d uid a = [] -> watchlist_payload uid a ⊆ x ->
  existsb (collides wl_unique_key x) (table d "watchlist") = false.
Proof.
  intros H0 Hs. destruct (existsb _ _) eqn:E; [|done]. exfalso.
  apply existsb_exists in E as [r [Hin Hc]]. apply (collides_key uid a) in Hc; [|exact Hs].
  assert (Hr : In r (wl_rows d uid a)) by (apply List.filter_In; split; assumption).
  by rewrite H0 in Hr.
Qed.

Lemma payload_rows_collide uid a (x y : row) :
  watchlist_payload uid a ⊆ x -> watchlist_payload uid a ⊆ y -> collides wl_unique_key x y = true.
Proof.
  intros Hx Hy. destruct (watchlist_payload_key uid a) as (H1 & H2 & H3).
  unfold collides, wl_unique_key. cbn [forallb].
  rewrite (lookup_weaken _ _ _ _ H1 Hx), (lookup_weaken _ _ _ _ H2 Hx), (lookup_weaken _ _ _ _ H3 Hx),
    (lookup_weaken _ _ _ _ H1 Hy), (lookup_weaken _ _ _ _ H2 Hy), (lookup_weaken _ _ _ _ H3 Hy).
  cbn [non_null]. rewrite !bool_decide_eq_true_2 by reflexivity. reflexivity.
Qed.

Section watch_claims.
Context (uniq : string -> list (list string)).
Let cfg := popstack_cfg uniq.

(** C18 The spec's scenario "adding movie 550 to the watchlist twice
    leaves one row" does not hold of the code unless the database has a
    unique key: with none, two adds insert two rows, after which
    [useIsInWatchlist] fails with PGRST116 for that item. *)
Theorem add_twice_duplicates (d : db) uid a :
  uniq "watchlist" = [] -> wl_count d uid a = 0 ->
  let d2 := snd (useAddToWatchlist_mutationFn cfg (Some uid) a (snd (useAddToWatchlist_mutationFn cfg (Some uid) a d))) in
  wl_count d2 uid a = 2 /\
  fst (useIsInWatchlist_queryFn cfg (Some uid) (media_name (wa_itemType a)) (wa_itemId a) d2) = Err err_pgrst116.
Proof.
  intros Hq H0. cbv zeta. unfold cfg. rewrite !add_run_nouniq by exact Hq. cbn [snd].
  assert (E : wl_rows (wl_inserted (wl_inserted d (complete_row watchlist_schema d (watchlist_payload uid a)))
              (complete_row watchlist_schema (wl_inserted d (complete_row watchlist_schema d (watchlist_payload uid a)))
                 (watchlist_payload uid a))) uid a =
              wl_rows d uid a ++ [complete_row watchlist_schema d (watchlist_payload uid a);
                                  complete_row watchlist_schema (wl_inserted d (complete_row watchlist_schema d (watchlist_payload uid a)))
                                    (watchlist_payload uid a)]).
  { rewrite !wl_rows_inserted by apply map_union_subseteq_l. by rewrite <-app_assoc. }
  unfold wl_count in H0. apply nil_length_inv in H0.
  split; [unfold wl_count; by rewrite E, H0|]. rewrite check_run, E, H0. reflexivity.
Qed.
(** C19 With the unique key (user_id, item_type, item_id) declared in the
    database, the second add of the same item is refused with 23505 and
    leaves the one row, which the check then reports. *)
Theorem add_twice_unique_key (d : db) uid a :
  uniq "watchlist" = [wl_unique_key] -> wl_count d uid a = 0 ->
  let r1 := useAddToWatchlist_mutationFn cfg (Some uid) a d in
  let r2 := useAddToWatchlist_mutationFn cfg (Some uid) a (snd r1) in
  is_ok (fst r1) = true /\ fst r2 = Err err_duplicate /\ wl_count (snd r2) uid a = 1 /\
  fst (useIsInWatchlist_queryFn cfg (Some uid) (media_name (wa_itemType a)) (wa_itemId a) (snd r2)) = Ok true.
Proof.
  intros Hq H0. unfold wl_count in H0. apply nil_length_inv in H0. cbv zeta. unfold cfg.
  set (x1 := complete_row watchlist_schema d (watchlist_payload uid a)).
  assert (Hx1 : watchlist_payload uid a ⊆ x1) by apply map_union_subseteq_l.
  rewrite add_run.
  2:{ unfold violates_unique. change (cfg_unique (popstack_cfg uniq) "watchlist") with (uniq "watchlist").
      rewrite Hq. cbn [existsb]. fold x1. by rewrite (no_collision d uid a x1 H0 Hx1). }
  cbn [fst snd]. fold x1.
  rewrite add_dup_run.
  2:{ unfold violates_unique. change (cfg_unique (popstack_cfg uniq) "watchlist") with (uniq "watchlist").
      rewrite Hq. cbn [existsb]. unfold wl_inserted. rewrite table_insert_same, existsb_app. cbn [existsb].
      rewrite (payload_rows_collide uid a) by (done || apply map_union_subseteq_l).
      by rewrite !orb_true_r. }
  cbn [fst snd]. split; [reflexivity|]. split; [reflexivity|].
  assert (E : wl_rows (wl_inserted d x1) uid a = [x1]) by (rewrite wl_rows_inserted, H0 by exact Hx1; reflexivity).
  unfold wl_count. rewrite check_run, E. split; reflexivity.
Qed.

(** C20 With duplicate rows the bookmark can only grow the rows or
    clear them all: the check throws PGRST116, so the card keeps the
    answer it last fetched.  If that answer is "add" ([false] or
    [undefined]), every click inserts one more row and the answer stays;
    if it is "in watchlist", one click deletes every row of the key and
    the card then shows "add". *)
Theorem bookmark_on_duplicates (d : db) (data : option bool) uid a n :
  uniq "watchlist" = [] -> 2 <= wl_count d uid a ->
  (default false data = false ->
     fst (Nat.iter n (bookmark_click cfg (Some uid) a) (data, d)) = data /\
     wl_count (snd (Nat.iter n (bookmark_click cfg (Some uid) a) (data, d))) uid a = wl_count d uid a + n) /\
  (default false data = true ->
     fst (bookmark_click cfg (Some uid) a (data, d)) = Some false /\
     wl_count (snd (bookmark_click cfg (Some uid) a (data, d))) uid a = 0).
Proof.
  intros Hq H2. split.
  - intros Hd. induction n as [|n IH]; [split; [reflexivity|simpl; lia]|]. rewrite Nat.iter_succ.
    destruct (Nat.iter n _ (data, d)) as [data' d'] eqn:E. cbn [fst snd] in IH |- *. destruct IH as [-> IH].
    unfold cfg. split; [|rewrite bookmark_click_count, Hd, IH by done; cbv iota; lia].
    rewrite bookmark_click_add by done. cbn [fst]. unfold check_fetch. rewrite check_run.
    rewrite wl_rows_inserted by apply map_union_subseteq_l. unfold wl_count in IH, H2.
    destruct (wl_rows d' uid a) as [|r [|r' l]]; cbn [length app] in IH |- *; [lia|lia|reflexivity].
  - intros Hd. unfold cfg. rewrite bookmark_click_count, Hd by done.
    by destruct (bookmark_click_remove uniq d uid a data Hd) as [-> _].
Qed.

(** While the card's answer is right and the item has at most one row,
    the bookmark toggles: a click adds the item when it is absent and
    removes it when it is present, and the card's answer is right again. *)
Theorem bookmark_toggles (d : db) uid a :
  uniq "watchlist" = [] -> wl_count d uid a <= 1 ->
  let st := bookmark_click cfg (Some uid) a (Some (wl_count d uid a =? 1), d) in
  wl_count (snd st) uid a = 1 - wl_count d uid a /\ fst st = Some (wl_count (snd st) uid a =? 1).
Proof.
  intros Hq H1 st. unfold st, cfg. rewrite bookmark_click_count by done.
  destruct (wl_count d uid a) as [|[|k]] eqn:Ec; cbn [default Nat.eqb]; try lia.
  - rewrite bookmark_click_data_add by done. split; reflexivity.
  - destruct (bookmark_click_remove uniq d uid a (Some true) eq_refl) as [-> _]. split; reflexivity.
Qed.

(** C22 A movie bookmarked on the Discover page shows a broken image on
    the Watchlist page: the card passes its [image], already a full TMDB
    URL, as [itemPoster], and the page prefixes it with the TMDB base
    again, giving [.../w500https://image.tmdb.org/t/p/w500/...]; this
    for a click while the card shows "add" on an item with no row. *)
Theorem watchlist_poster_prefixed_twice (d : db) (data : option bool) uid id title p rating :
  uniq "watchlist" = [] -> p <> EmptyString -> default false data = false ->
  let a := card_watchlist_add Movie id title (discover_card_image false (Some p) None) rating in
  wl_count d uid a = 0 ->
  exists x, wl_rows (snd (bookmark_click cfg (Some uid) a (data, d))) uid a = [x] /\
    watchlist_image x = getTMDBImageUrl (Some (getTMDBImageUrl (Some p) "w500")) "w500" /\
    watchlist_image x <> getTMDBImageUrl (Some p) "w500".
Proof.
  intros Hq Hp Hd a H0. unfold wl_count in H0. apply nil_length_inv in H0. unfold cfg.
  rewrite bookmark_click_add by done. cbn [snd].
  set (x := complete_row watchlist_schema d (watchlist_payload uid a)).
  assert (Hx : watchlist_payload uid a ⊆ x) by apply map_union_subseteq_l.
  exists x. rewrite wl_rows_inserted, H0 by exact Hx. split; [reflexivity|].
  set (img := getTMDBImageUrl (Some p) "w500").
  assert (Himg : img = (TMDB_IMAGE_BASE ++ "/" ++ "w500" ++ p)%string) by (apply tmdb_url_nonempty, Hp).
  assert (Hne : img <> EmptyString) by (rewrite Himg; discriminate).
  assert (Ht : x !! "item_type" = Some (JStr "movie"))
    by (apply (lookup_weaken _ _ _ _ (proj1 (proj2 (watchlist_payload_key uid a))) Hx)).
  assert (Hpo : x !! "item_poster" = Some (JStr img)).
  { rewrite (lookup_weaken _ _ _ _ (watchlist_payload_poster uid a) Hx). cbn [a card_watchlist_add wa_itemPoster discover_card_image or_null_str].
    fold img. by destruct (String.eqb_spec img ""). }
  assert (E : watchlist_image x = getTMDBImageUrl (Some img) "w500").
  { unfold watchlist_image. rewrite Ht, Hpo. rewrite bool_decide_eq_false_2 by discriminate. cbv [default Datatypes.id].
    rewrite (tmdb_url_nonempty img) by exact Hne.
    destruct (String.eqb_spec (TMDB_IMAGE_BASE ++ "/" ++ "w500" ++ img) ""); [|reflexivity].
    unfold TMDB_IMAGE_BASE in *. discriminate. }
  split; [exact E|]. rewrite E, tmdb_url_nonempty by exact Hne. fold img. intros E'.
  apply (f_equal String.length) in E'. rewrite !string_length_app in E'. cbn [String.length] in E'. lia.
Qed.
End watch_claims.

Lemma watchlist_kind_matches uid t (r : row) :
  matches_all (FEq "user_id" (JUuid uid) :: [FEq "item_type" (JStr (media_name t))]) r =
  matches_all [FEq "user_id" (JUuid uid)] r && kind_filter t r.
Proof.
  unfold matches_all, kind_filter. cbn [forallb filter_matches]. rewrite !andb_true_r. f_equal.
  apply bool_decide_ext. rewrite non_null_some. naive_solver.
Qed.

(** C11 The two paths of [useWatchlist(itemType)] agree: whether the
    kind is filtered by the server (production, before [.order()]) or on
    the client (demo mode), the list for one kind is the list of all
    kinds filtered by [item_type], in the same order, and a failing read
    fails the same way. *)
Theorem useWatchlist_kind_equiv (cfg : store_config) (DEMO_MODE : bool) (DEMO_WATCHLIST : list row)
    (user : option nat) (t : MediaType) (d : db) :
  useWatchlist_queryFn cfg DEMO_MODE DEMO_WATCHLIST user (Some t) d =
  match useWatchlist_queryFn cfg DEMO_MODE DEMO_WATCHLIST user None d with
  | (Ok rs, d') => (Ok (List.filter (kind_filter t) <$> rs), d')
  | (Err e, d') => (Err e, d')
  end.
Proof.
  destruct user as [uid|]; [|reflexivity]. destruct DEMO_MODE; [reflexivity|].
  unfold useWatchlist_queryFn. rewrite !lift_read_bind. unfold select_rows, order_resp.
  destruct (cfg_schema cfg "watchlist"); [|reflexivity]. cbn -[order_rows matches_all].
  assert (Hf : forall rs : list row,
    List.filter (matches_all (FEq "user_id" (JUuid uid) :: [FEq "item_type" (JStr (media_name t))])) rs =
    List.filter (kind_filter t) (List.filter (matches_all [FEq "user_id" (JUuid uid)]) rs)).
  { induction rs as [|r rs IH]; [done|]. cbn [List.filter]. rewrite watchlist_kind_matches.
    destruct (matches_all _ r); cbn [List.filter andb]; repeat case_match; simplify_eq; by rewrite IH. }
  rewrite !map_project_none, Hf, order_rows_filter. reflexivity.
Qed.


(** ** Witnesses *)

Definition ww_d0 : db := mkDb ∅ 1 0.
Definition ww_item : WatchlistAdd := MkWatchlistAdd Movie 550 "Fight Club" None (Some 8%Z).
Definition ww_unique (t : string) : list (list string) := if String.eqb t "watchlist" then [wl_unique_key] else [].
Definition ww_dup : db :=
  snd (useAddToWatchlist_mutationFn (popstack_cfg no_unique) (Some 1) ww_item
         (snd (useAddToWatchlist_mutationFn (popstack_cfg no_unique) (Some 1) ww_item ww_d0))).

Lemma add_twice_duplicates_witness :
  let d2 := snd (useAddToWatchlist_mutationFn (popstack_cfg no_unique) (Some 1) ww_item
                   (snd (useAddToWatchlist_mutationFn (popstack_cfg no_unique) (Some 1) ww_item ww_d0))) in
  wl_count d2 1 ww_item = 2 /\
  fst (useIsInWatchlist_queryFn (popstack_cfg no_unique) (Some 1) "movie" 550 d2) = Err err_pgrst116.
Proof. apply (add_twice_duplicates no_unique ww_d0 1 ww_item); reflexivity. Defined.

Lemma add_twice_unique_key_witness :
  let r1 := useAddToWatchlist_mutationFn (popstack_cfg ww_unique) (Some 1) ww_item ww_d0 in
  let r2 := useAddToWatchlist_mutationFn (popstack_cfg ww_unique) (Some 1) ww_item (snd r1) in
  is_ok (fst r1) = true /\ fst r2 = Err err_duplicate /\ wl_count (snd r2) 1 ww_item = 1 /\
  fst (useIsInWatchlist_queryFn (popstack_cfg ww_unique) (Some 1) "movie" 550 (snd r2)) = Ok true.
Proof. apply (add_twice_unique_key ww_unique ww_d0 1 ww_item); reflexivity. Defined.

Lemma bookmark_on_duplicates_witness :
  (2 <= wl_count ww_dup 1 ww_item) /\
  wl_count (snd (Nat.iter 3 (bookmark_click (popstack_cfg no_unique) (Some 1) ww_item) (None, ww_dup))) 1 ww_item = 5 /\
  fst (bookmark_click (popstack_cfg no_unique) (Some 1) ww_item (Some true, ww_dup)) = Some false.
Proof.
  assert (H2 : 2 <= wl_count ww_dup 1 ww_item) by (vm_compute; lia).
  split; [exact H2|]. split.
  - rewrite (proj2 (proj1 (bookmark_on_duplicates no_unique ww_dup None 1 ww_item 3 eq_refl H2) eq_refl)).
    vm_compute. reflexivity.
  - exact (proj1 (proj2 (bookmark_on_duplicates no_unique ww_dup (Some true) 1 ww_item 0 eq_refl H2) eq_refl)).
Defined.

Lemma bookmark_toggles_witness :
  wl_count (snd (bookmark_click (popstack_cfg no_unique) (Some 1) ww_item (Some false, ww_d0))) 1 ww_item = 1.
Proof. exact (proj1 (bookmark_toggles no_unique ww_d0 1 ww_item eq_refl ltac:(vm_compute; lia))). Defined.

Lemma watchlist_poster_prefixed_twice_witness :
  let a := card_watchlist_add Movie 550 "Fight Club" (discover_card_image false (Some "/fc.jpg") None) 8 in
  exists x, wl_rows (snd (bookmark_click (popstack_cfg no_unique) (Some 1) a (None, ww_d0))) 1 a = [x] /\
    watchlist_image x = getTMDBImageUrl (Some (getTMDBImageUrl (Some "/fc.jpg") "w500")) "w500" /\
    watchlist_image x <> getTMDBImageUrl (Some "/fc.jpg") "w500".
Proof. apply (watchlist_poster_prefixed_twice no_unique ww_d0 None 1 550 "Fight Club" "/fc.jpg" 8); [reflexivity|discriminate|reflexivity|reflexivity]. Defined.
