(* ===== verification/Collections.v ===== *)
(** * Collections: src/src/hooks/useCollections.ts and pages/Collection.tsx

    A collection is a row of [collections] owned by a user; its items are
    the rows of [collection_items] whose [collection_id] is the
    collection's id, in insertion order.  The hooks list the user's
    collections with their item counts (an embedded [count] of
    PostgREST), read one collection with its items, create and delete a
    collection (the database deletes its items with it) and add and
    remove items.  The Collection page is a state machine: its React
    state is the record [CollectionPage], and each handler maps a page
    state and a store to a toast, a page state and a store. *)

From S2P Require Import Prelude Remote Schema Reviews Tmdb.

(** ** Hooks *)

(** The items of collection [c]: [collection_items] rows whose
    [collection_id] is [c], in insertion order (the embedded
    [collection_items(...)] of a select). *)
Definition items_of (d : db) (c : jvalue) : list row :=
  List.filter (fun r => bool_decide (r !! "collection_id" = Some c)) (table d "collection_items").

(** [{ ...col, items_count: col.collection_items?.[0]?.count || 0 }] *)
Definition with_items_count (d : db) (c : row) : row :=
  <["items_count" := JNum (Z.of_nat (length (items_of d (Remote.col c "id"))))]> c.

(** The arguments of [useAddToCollection]. *)
Record CollectionAdd : Type := MkCollectionAdd {
  ca_collectionId : jvalue;
  ca_itemType : string;
  ca_itemId : Z;
  ca_itemTitle : string;
  ca_itemPoster : option string
}.

Definition collection_item_payload (a : CollectionAdd) : row :=
  js_object
    [("collection_id", ca_collectionId a);
     ("item_type", JStr (ca_itemType a));
     ("item_id", JNum (ca_itemId a));
     ("item_title", JStr (ca_itemTitle a));
     ("item_poster", or_null_str (ca_itemPoster a))].

(** [{ user_id, name, description: description || null, is_public: isPublic || false }] *)
Definition collection_payload (uid : nat) (name : string) (description : option string) (isPublic : option bool) : row :=
  js_object
    [("user_id", JUuid uid);
     ("name", JStr name);
     ("description", or_null_str description);
     ("is_public", JBool (default false isPublic))].

Section collection_hooks.
Context (cfg : store_config).

(** [useCollections] *)
Definition useCollections_queryFn (DEMO_MODE : bool) (DEMO_COLLECTIONS : list row) (user : option nat)
    : M db (list row) :=
  match user with
  | None => throw (new_Error "User not authenticated")
  | Some uid =>
      if DEMO_MODE then mret DEMO_COLLECTIONS
      else
        r ← lift_read (fun d => order_resp "created_at" false
                                 (select_rows cfg d "collections" None [FEq "user_id" (JUuid uid)]));
        d ← get_state;
        match error r with
        | Some e => throw e
        | None => mret (map (with_items_count d) (default [] (data r)))
        end
  end.

(** [useCollection(collectionId)]: the collection and its embedded
    items, or the error of [.single()]. *)
Definition useCollection_queryFn (DEMO_MODE : bool) (DEMO_COLLECTIONS : list row) (user : option nat)
    (collectionId : jvalue) : M db (option (row * list row)) :=
  match user with
  | None => throw (new_Error "User not authenticated")
  | Some uid =>
      if DEMO_MODE then
        mret ((fun c => (c, [])) <$> find_first (fun c => bool_decide (c !! "id" = Some collectionId)) DEMO_COLLECTIONS)
      else
        r ← lift_read (fun d => single (select_rows cfg d "collections" None
                                          [FEq "id" collectionId; FEq "user_id" (JUuid uid)]));
        d ← get_state;
        match error r with
        | Some e => throw e
        | None => mret ((fun c => (c, items_of d collectionId)) <$> data r)
        end
  end.

(** [useCreateCollection] *)
Definition useCreateCollection_mutationFn (user : option nat) (name : string) (description : option string)
    (isPublic : option bool) : M db row :=
  match user with
  | None => throw (new_Error "User not authenticated")
  | Some uid =>
      resp ← lift_write (insert_row cfg "collections" (collection_payload uid name description isPublic));
      match error resp, data resp with
      | Some e, _ => throw e
      | None, Some x => mret x
      | None, None => throw err_pgrst116
      end
  end.

(** [useDeleteCollection]: [.eq('id', collectionId).eq('user_id', user.id)]. *)
Definition useDeleteCollection_mutationFn (user : option nat) (collectionId : jvalue) : M db unit :=
  match user with
  | None => throw (new_Error "User not authenticated")
  | Some uid =>
      resp ← lift_write (delete_rows cfg "collections" [FEq "id" collectionId; FEq "user_id" (JUuid uid)]);
      match error resp with Some e => throw e | None => mret () end
  end.

(** [useAddToCollection]: a plain insert into [collection_items]. *)
Definition useAddToCollection_mutationFn (user : option nat) (a : CollectionAdd) : M db row :=
  match user with
  | None => throw (new_Error "User not authenticated")
  | Some _ =>
      resp ← lift_write (insert_row cfg "collection_items" (collection_item_payload a));
      match error resp, data resp with
      | Some e, _ => throw e
      | None, Some x => mret x
      | None, None => throw err_pgrst116
      end
  end.

(** [useRemoveFromCollection]: [.eq('id', itemId).eq('collection_id', collectionId)]. *)
Definition useRemoveFromCollection_mutationFn (user : option nat) (collectionId itemId : jvalue) : M db unit :=
  match user with
  | None => throw (new_Error "User not authenticated")
  | Some _ =>
      resp ← lift_write (delete_rows cfg "collection_items" [FEq "id" itemId; FEq "collection_id" collectionId]);
      match error resp with Some e => throw e | None => mret () end
  end.

(** [useItemCollections(itemType, itemId)]:
    [select('collection_id, collections(name)')] filtered by the item
    only; the embedded [collections(name)] is the name of the referenced
    collection. *)
Definition useItemCollections_queryFn (user : option nat) (itemType : string) (itemId : Z)
    : M db (list (jvalue * option jvalue)) :=
  match user with
  | None => mret []
  | Some _ =>
      r ← lift_read (fun d => select_rows cfg d "collection_items" (Some ["collection_id"])
                               [FEq "item_type" (JStr itemType); FEq "item_id" (JNum itemId)]);
      d ← get_state;
      match error r with
      | Some e => throw e
      | None =>
          mret ((fun it =>
                   let c := col it "collection_id" in
                   (c, find_first (fun r => bool_decide (r !! "id" = Some c)) (table d "collections") ≫= (fun r => r !! "name")))
                <$> default [] (data r))
      end
  end.
End collection_hooks.

(** ** Collection.tsx *)

(** ASCII white space as [String.prototype.trim] removes it. *)
Definition js_ws (c : ascii) : bool := let n := nat_of_ascii c in in_range 9 13 n || (n =? 32).

Fixpoint trim_left (s : string) : string :=
  match s with
  | EmptyString => EmptyString
  | String c s' => if js_ws c then trim_left s' else s
  end.

Fixpoint string_rev (s : string) : string :=
  match s with EmptyString => EmptyString | String c s' => (string_rev s' ++ String c EmptyString)%string end.

(** [s.trim()] *)
Definition js_trim (s : string) : string := string_rev (trim_left (string_rev (trim_left s))).

(** The React state of the page. *)
Record CollectionPage : Type := MkCollectionPage {
  isCreateDialogOpen : bool;
  isSearchDialogOpen : bool;
  selectedCollectionId : option jvalue;
  newCollectionName : string;
  newCollectionDescription : string;
  searchQuery : string;
  searchType : MediaType;
  itemToDelete : option (jvalue * string);
  collectionToDelete : option (jvalue * string)
}.

(** The toasts of the page's handlers. *)
Inductive collection_toast : Type :=
  | ToastItemRemoved (title : string) | ToastRemoveFailed
  | ToastNameRequired | ToastCreated | ToastCreateFailed
  | ToastCollectionDeleted | ToastDeleteFailed
  | ToastItemAdded (title : string) | ToastAddFailed.

(** A handler: from the page state and the store to an optional toast,
    the next page state and the next store. *)
Definition handler := CollectionPage -> db -> option collection_toast * CollectionPage * db.

Section page.
Context (cfg : store_config) (user : option nat).

Definition set_itemToDelete (p : CollectionPage) (v : option (jvalue * string)) : CollectionPage :=
  MkCollectionPage (isCreateDialogOpen p) (isSearchDialogOpen p) (selectedCollectionId p) (newCollectionName p)
    (newCollectionDescription p) (searchQuery p) (searchType p) v (collectionToDelete p).

(** [handleRemoveItem] *)
Definition handleRemoveItem : handler := fun p d =>
  match selectedCollectionId p, itemToDelete p with
  | Some cid, Some (iid, title) =>
      match useRemoveFromCollection_mutationFn cfg user cid iid d with
      | (Ok _, d') => (Some (ToastItemRemoved title), set_itemToDelete p None, d')
      | (Err _, d') => (Some ToastRemoveFailed, p, d')
      end
  | _, _ => (None, p, d)
  end.

(** [setIsCreateDialogOpen(false); setNewCollectionName(''); setNewCollectionDescription('')] *)
Definition after_create (p : CollectionPage) : CollectionPage :=
  MkCollectionPage false (isSearchDialogOpen p) (selectedCollectionId p) EmptyString EmptyString (searchQuery p)
    (searchType p) (itemToDelete p) (collectionToDelete p).

(** [handleCreateCollection]: the name is checked after [trim()], the
    description is sent as typed ([''] becomes null in the hook). *)
Definition handleCreateCollection : handler := fun p d =>
  if String.eqb (js_trim (newCollectionName p)) "" then (Some ToastNameRequired, p, d)
  else
    match useCreateCollection_mutationFn cfg user (newCollectionName p) (Some (newCollectionDescription p)) None d with
    | (Ok _, d') => (Some ToastCreated, after_create p, d')
    | (Err _, d') => (Some ToastCreateFailed, p, d')
    end.

(** [handleDeleteCollection]: the open collection is closed when it is
    the deleted one. *)
Definition handleDeleteCollection : handler := fun p d =>
  match collectionToDelete p with
  | None => (None, p, d)
  | Some (cid, _) =>
      match useDeleteCollection_mutationFn cfg user cid d with
      | (Ok _, d') =>
          (Some ToastCollectionDeleted,
           MkCollectionPage (isCreateDialogOpen p) (isSearchDialogOpen p)
             (if bool_decide (selectedCollectionId p = Some cid) then None else selectedCollectionId p)
             (newCollectionName p) (newCollectionDescription p) (searchQuery p) (searchType p)
             (itemToDelete p) None, d')
      | (Err _, d') => (Some ToastDeleteFailed, p, d')
      end
  end.

(** A search result: [item.title || item.name], and its [image]: a
    game's [background_image], otherwise [getTMDBImageUrl(poster_path, 'w200')]. *)
Definition search_result_image (t : MediaType) (poster_path background_image : option string) : option string :=
  match t with Game => background_image | _ => Some (getTMDBImageUrl poster_path "w200") end.

(** The [onClick] of a search result: add it to the open collection. *)
Definition handleAddSearchResult (itemId : Z) (title : string) (image : option string) : handler := fun p d =>
  match selectedCollectionId p with
  | None => (None, p, d)
  | Some cid =>
      match useAddToCollection_mutationFn cfg user (MkCollectionAdd cid (media_name (searchType p)) itemId title image) d with
      | (Ok _, d') =>
          (Some (ToastItemAdded title),
           MkCollectionPage (isCreateDialogOpen p) false (selectedCollectionId p) (newCollectionName p)
             (newCollectionDescription p) "" (searchType p) (itemToDelete p) (collectionToDelete p), d')
      | (Err _, d') => (Some ToastAddFailed, p, d')
      end
  end.
End page.

(** The image of an item of the open collection: as on the Watchlist
    page, [isGame ? item_poster : getTMDBImageUrl(item_poster || '', 'w500')]. *)
Definition collection_item_image (item : row) : option string :=
  let poster := match item !! "item_poster" with Some (JStr s) => Some s | _ => None end in
  if bool_decide (item !! "item_type" = Some (JStr "game")) then poster
  else Some (getTMDBImageUrl (Some (default "" poster)) "w500").

(** ** Facts *)

Lemma trim_left_nil s : trim_left s = EmptyString <-> all_chars js_ws s = true.
Proof.
  induction s as [|c s IH]; cbn; [done|].
  destruct (js_ws c); cbn; [exact IH|]. split; discriminate.
Qed.

Lemma trim_left_ws s : all_chars js_ws (trim_left s) = true -> trim_left s = EmptyString.
Proof.
  induction s as [|c s IH]; cbn; [done|].
  destruct (js_ws c) eqn:E; [exact IH|]. cbn. by rewrite E.
Qed.

Lemma string_rev_nil s : string_rev s = EmptyString <-> s = EmptyString.
Proof.
  split; [|by intros ->]. destruct s as [|c s]; [done|]. cbn.
  intros H. apply (f_equal String.length) in H. rewrite string_length_app in H. cbn in H. lia.
Qed.

Lemma all_chars_rev P s : all_chars P (string_rev s) = all_chars P s.
Proof.
  induction s as [|c s IH]; [done|]. cbn [string_rev all_chars].
  rewrite all_chars_app, IH. cbn [all_chars]. by destruct (P c), (all_chars P s).
Qed.

(** [s.trim() === ''] exactly when [s] is white space only. *)
Lemma js_trim_empty s : js_trim s = EmptyString <-> all_chars js_ws s = true.
Proof.
  unfold js_trim. rewrite string_rev_nil, trim_left_nil, all_chars_rev, <-trim_left_nil.
  split; [intros H; apply trim_left_nil, trim_left_ws, trim_left_nil, H|].
  intros H. apply trim_left_nil in H. by rewrite H.
Qed.

Lemma filter_filter_comm {A} (P Q R : A -> bool) (l : list A) :
  (forall x, P x = true -> Q x = R x) ->
  List.filter P (List.filter Q l) = List.filter R (List.filter P l).
Proof.
  intros H. induction l as [|x l IH]; [done|]. cbn.
  destruct (P x) eqn:Ep, (Q x) eqn:Eq, (R x) eqn:Er; cbn; rewrite ?Ep, ?Eq, ?Er, ?IH; try reflexivity;
    specialize (H x Ep); congruence.
Qed.

Lemma filter_filter_keep {A} (P Q : A -> bool) (l : list A) :
  (forall x, P x = true -> Q x = true) ->
  List.filter P (List.filter Q l) = List.filter P l.
Proof.
  intros H. induction l as [|x l IH]; [done|]. cbn.
  destruct (P x) eqn:Ep; [rewrite (H x Ep); cbn; rewrite Ep, IH; reflexivity|].
  destruct (Q x); cbn; rewrite ?Ep; exact IH.
Qed.

Lemma remove_filter_match r iid cid :
  r !! "collection_id" = Some cid -> cid <> JNull ->
  matches_all [FEq "id" iid; FEq "collection_id" cid] r = filter_matches (FEq "id" iid) r.
Proof.
  intros Hr Hn. unfold matches_all. cbn [forallb]. cbn [filter_matches]. rewrite Hr.
  assert (non_null (Some cid) = Some cid) as -> by (destruct cid; done).
  rewrite (bool_decide_eq_true_2 (Some cid = Some cid)) by done. destruct (bool_decide _); reflexivity.
Qed.

Lemma remove_filter_other r iid cid c :
  r !! "collection_id" = Some c -> c <> cid ->
  matches_all [FEq "id" iid; FEq "collection_id" cid] r = false.
Proof.
  intros Hr Hn. unfold matches_all. cbn [forallb]. cbn [filter_matches]. rewrite Hr.
  rewrite (bool_decide_eq_false_2 (non_null (Some c) = Some cid)); [by rewrite !andb_false_r|].
  destruct c; cbn; congruence.
Qed.

Lemma collection_item_payload_fits a :
  ca_collectionId a <> JNull ->
  unknown_column collection_items_schema (collection_item_payload a) = None /\
  missing_required collection_items_schema (collection_item_payload a) = None.
Proof. unfold collection_item_payload. destruct (ca_collectionId a); [done| | | |]; intros _; vm_compute; split; reflexivity. Qed.

Lemma collection_item_payload_cid a : collection_item_payload a !! "collection_id" = Some (ca_collectionId a).
Proof. reflexivity. Qed.

Lemma items_of_app (d d' : db) x c :
  table d' "collection_items" = table d "collection_items" ++ [x] ->
  items_of d' c = items_of d c ++ (if bool_decide (x !! "collection_id" = Some c) then [x] else []).
Proof. intros Ht. unfold items_of. rewrite Ht, List.filter_app. reflexivity. Qed.

Lemma filter_filter_drop {A} (P Q : A -> bool) (l : list A) :
  (forall x, P x = true -> Q x = false) ->
  List.filter P (List.filter Q l) = [].
Proof.
  intros H. induction l as [|x l IH]; [done|]. cbn.
  destruct (Q x) eqn:Eq; cbn; [|exact IH].
  destruct (P x) eqn:Ep; [specialize (H x Ep); congruence|exact IH].
Qed.

Lemma collection_payload_fits uid name desc pub :
  unknown_column collections_schema (collection_payload uid name desc pub) = None /\
  missing_required collections_schema (collection_payload uid name desc pub) = None.
Proof. unfold collection_payload. vm_compute. split; reflexivity. Qed.

(** The rows a delete of collection [cid] cascades to are those whose
    [collection_id] is [cid]. *)
Lemma cascade_keeps_other c cid fs (rows : list row) (x : row) :
  x !! "collection_id" = Some c -> c <> cid ->
  negb (references "collection_id" (map (fun r => r !! "id") (List.filter (matches_all (FEq "id" cid :: fs)) rows)) x) = true.
Proof.
  intros Hx Hne. unfold references. rewrite Hx.
  destruct (non_null (Some c)) as [v|] eqn:En; [|done]. apply non_null_some in En as [[= <-] _].
  apply negb_true_iff, bool_decide_eq_false_2. intros Hin%list_elem_of_In%gone_ids_eq. congruence.
Qed.

Lemma cascade_drops_own cid fs (rows : list row) (r x : row) :
  In r rows -> matches_all (FEq "id" cid :: fs) r = true -> cid <> JNull ->
  x !! "collection_id" = Some cid ->
  negb (references "collection_id" (map (fun r => r !! "id") (List.filter (matches_all (FEq "id" cid :: fs)) rows)) x) = false.
Proof.
  intros Hr Hm Hn Hx. rewrite (references_some _ _ _ _ Hx Hn).
  rewrite bool_decide_eq_true_2; [done|]. apply list_elem_of_In, in_map_iff. exists r. split; [|by apply filter_In].
  unfold matches_all in Hm. cbn [forallb] in Hm. apply andb_prop in Hm as [Hm _]. by apply feq_spec in Hm as [-> _].
Qed.

Section coll_facts.
Context (uniq : string -> list (list string)).
Let cfg := popstack_cfg uniq.

(** With no unique key on [collection_items], an add with a non-null
    collection id always succeeds and appends the completed payload. *)
Lemma add_item_run (d : db) uid a :
  uniq "collection_items" = [] -> ca_collectionId a <> JNull ->
  useAddToCollection_mutationFn cfg (Some uid) a d =
    (Ok (complete_row collection_items_schema d (collection_item_payload a)),
     mkDb (<["collection_items" := table d "collection_items" ++ [complete_row collection_items_schema d (collection_item_payload a)]]>
             (db_tables d)) (S (db_next_id d)) (S (db_clock d))).
Proof.
  intros Hq Hn. destruct (collection_item_payload_fits a Hn) as [Hu Hm].
  unfold useAddToCollection_mutationFn. rewrite lift_write_bind.
  rewrite (insert_row_ok cfg "collection_items" collection_items_schema _ d eq_refl Hu Hm)
    by (unfold violates_unique; change (cfg_unique cfg "collection_items") with (uniq "collection_items"); by rewrite Hq).
  reflexivity.
Qed.

(** C23 Adding to a collection refines appending to its list of items:
    after a successful [useAddToCollection], the items of the target
    collection are the old ones followed by one row carrying the payload,
    and every other collection keeps its items.  Nothing stops the same
    media item from being added twice. *)
Theorem add_item_refines (d : db) uid a x d' :
  useAddToCollection_mutationFn cfg (Some uid) a d = (Ok x, d') ->
  collection_item_payload a ⊆ x /\
  forall c, items_of d' c = if bool_decide (c = ca_collectionId a) then items_of d c ++ [x] else items_of d c.
Proof.
  unfold useAddToCollection_mutationFn. rewrite lift_write_bind.
  destruct (insert_row cfg "collection_items" (collection_item_payload a) d) as [resp d1] eqn:E. cbn [fst snd].
  destruct (insert_row_cases cfg _ _ _ _ _ E) as [[-> [Hd He]]|(sc & y & Hsc & -> & -> & Ht & _)].
  - destruct (error resp); [|by rewrite Hd]. cbv [throw]. discriminate.
  - cbv [mret M_ret resp_ok error data]. intros H. apply pair_equal_spec in H as [Hx Hd].
    apply Ok_inj in Hx. subst x d'.
    assert (Hs : collection_item_payload a ⊆ complete_row sc d (collection_item_payload a)) by apply map_union_subseteq_l.
    split; [exact Hs|]. intros c. rewrite (items_of_app d d1 _ c Ht).
    rewrite (lookup_weaken _ _ _ _ (collection_item_payload_cid a) Hs).
    destruct (decide (c = ca_collectionId a)) as [->|Hne].
    + rewrite !bool_decide_eq_true_2 by reflexivity. reflexivity.
    + rewrite !bool_decide_eq_false_2 by congruence. apply app_nil_r.
Qed.

(** C24 Removing an item refines filtering the collection's list by the
    item id: [useRemoveFromCollection] always succeeds, removes the rows
    of that id from that collection only, and leaves other collections
    alone (an item id of another collection is not touched). A null
    collection id matches no row ([eq.null] is never true). *)
Theorem remove_item_refines (d : db) uid cid iid :
  cid <> JNull ->
  let d' := snd (useRemoveFromCollection_mutationFn cfg (Some uid) cid iid d) in
  fst (useRemoveFromCollection_mutationFn cfg (Some uid) cid iid d) = Ok () /\
  forall c, items_of d' c =
    if bool_decide (c = cid) then List.filter (fun r => negb (filter_matches (FEq "id" iid) r)) (items_of d c)
    else items_of d c.
Proof.
  intros Hnn. cbv zeta. unfold useRemoveFromCollection_mutationFn. rewrite lift_write_bind.
  destruct (delete_rows cfg "collection_items" _ d) as [resp d1] eqn:E. cbn [fst snd].
  destruct (delete_rows_cases cfg "collection_items" _ _ _ _ eq_refl E) as [[_ He]|[He [Ht _]]].
  { exfalso. revert E He. unfold delete_rows. cbn. intros [= <- _]. done. }
  rewrite He. cbv [mret M_ret]. cbn [fst snd]. split; [reflexivity|]. intros c. unfold items_of. rewrite Ht.
  destruct (decide (c = cid)) as [->|Hne].
  - rewrite bool_decide_eq_true_2 by done. apply filter_filter_comm. intros r Hr.
    apply bool_decide_eq_true in Hr. by rewrite (remove_filter_match r iid cid Hr Hnn).
  - rewrite bool_decide_eq_false_2 by done. apply filter_filter_keep. intros r Hr.
    apply bool_decide_eq_true in Hr. by rewrite (remove_filter_other r iid cid c Hr Hne).
Qed.

(** C25 The "name required" toast of [handleCreateCollection] appears
    exactly for names that are white space only ([!name.trim()]); then
    no request is made and the page is unchanged. *)
Theorem create_name_guard (p : CollectionPage) (d : db) user :
  (all_chars js_ws (newCollectionName p) = true ->
   handleCreateCollection cfg user p d = (Some ToastNameRequired, p, d)) /\
  (all_chars js_ws (newCollectionName p) = false ->
   (handleCreateCollection cfg user p d).1.1 <> Some ToastNameRequired).
Proof.
  unfold handleCreateCollection. split; intros H.
  - by rewrite (proj2 (js_trim_empty _) H).
  - destruct (String.eqb_spec (js_trim (newCollectionName p)) "") as [He|_].
    { apply js_trim_empty in He. congruence. }
    by destruct (useCreateCollection_mutationFn _ _ _ _ _ _) as [[] ?].
Qed.

(** C26 Creating a collection with a name that is not blank, when
    [collections] has no unique key: one private row owned by the user is
    appended to [collections] and to no other table, the empty description
    becomes null, and the dialog closes with its fields cleared. *)
Theorem create_collection_inserts (p : CollectionPage) (d : db) uid :
  uniq "collections" = [] ->
  all_chars js_ws (newCollectionName p) = false ->
  exists x d',
    handleCreateCollection cfg (Some uid) p d = (Some ToastCreated, after_create p, d') /\
    table d' "collections" = table d "collections" ++ [x] /\
    (forall t, t <> "collections" -> table d' t = table d t) /\
    x !! "user_id" = Some (JUuid uid) /\ x !! "name" = Some (JStr (newCollectionName p)) /\
    x !! "is_public" = Some (JBool false) /\
    x !! "description" = Some (or_null_str (Some (newCollectionDescription p))).
Proof.
  intros Hq Hn. unfold handleCreateCollection.
  destruct (String.eqb_spec (js_trim (newCollectionName p)) "") as [He|_].
  { apply js_trim_empty in He. congruence. }
  unfold useCreateCollection_mutationFn. rewrite lift_write_bind.
  set (pl := collection_payload uid (newCollectionName p) (Some (newCollectionDescription p)) None).
  destruct (collection_payload_fits uid (newCollectionName p) (Some (newCollectionDescription p)) None) as [Hu Hm].
  rewrite (insert_row_ok cfg "collections" collections_schema pl d eq_refl Hu Hm)
    by (unfold violates_unique; change (cfg_unique cfg "collections") with (uniq "collections"); by rewrite Hq).
  set (x := complete_row collections_schema d pl).
  assert (Hx : pl ⊆ x) by apply map_union_subseteq_l.
  eexists x, _. split; [reflexivity|]. split; [apply table_insert_same|]. split.
  { intros t Ht. apply table_insert_other. congruence. }
  by repeat split; apply (lookup_weaken _ _ _ _ _ Hx).
Qed.

(** C27 Deleting an owned collection from the page deletes its items
    with it (the [ON DELETE CASCADE] of [collection_items]), leaves the
    items of every other collection as they were, removes the collection
    row, and closes the collection when it was the open one. *)
Theorem delete_collection_cascades (p : CollectionPage) (d : db) uid cid nm (r : row) :
  collectionToDelete p = Some (cid, nm) -> cid <> JNull ->
  In r (table d "collections") -> r !! "id" = Some cid -> r !! "user_id" = Some (JUuid uid) ->
  let '(t, p', d') := handleDeleteCollection cfg (Some uid) p d in
  t = Some ToastCollectionDeleted /\ collectionToDelete p' = None /\
  selectedCollectionId p' = (if bool_decide (selectedCollectionId p = Some cid) then None else selectedCollectionId p) /\
  items_of d' cid = [] /\
  (forall c, c <> cid -> items_of d' c = items_of d c) /\
  ~ In r (table d' "collections").
Proof.
  intros Hp Hn Hr Hid Hu. unfold handleDeleteCollection. rewrite Hp.
  unfold useDeleteCollection_mutationFn. rewrite lift_write_bind.
  destruct (delete_rows cfg "collections" _ d) as [resp d1] eqn:E. cbn [fst snd].
  destruct (delete_rows_cascade_cases cfg "collections" "collection_items" "collection_id" _ _ _ _ eq_refl
              ltac:(discriminate) E) as [[_ He]|[He [Hc [Hi _]]]].
  { exfalso. revert E He. unfold delete_rows. cbn. intros [= <- _]. done. }
  assert (Hm : matches_all [FEq "id" cid; FEq "user_id" (JUuid uid)] r = true).
  { unfold matches_all. cbn [forallb]. rewrite !(proj2 (feq_spec _ _ _)) by done. reflexivity. }
  rewrite He. cbv [mret M_ret]. cbn [fst snd]. repeat split.
  - unfold items_of. rewrite Hi. apply filter_filter_drop. intros x Hx%bool_decide_eq_true.
    exact (cascade_drops_own cid _ _ r x Hr Hm Hn Hx).
  - intros c Hne. unfold items_of. rewrite Hi. apply filter_filter_keep. intros x Hx%bool_decide_eq_true.
    exact (cascade_keeps_other c cid _ _ x Hx Hne).
  - rewrite Hc. intros Hin%filter_In. rewrite Hm in Hin. by destruct Hin.
Qed.

(** C28 [useItemCollections] filters [collection_items] by the item only
    and not by the user: an item that another user put into one of their
    collections is reported, with that collection's name, to every signed
    in user (only row level security, which the repository does not
    declare, could hide it). *)
Theorem item_collections_foreign (d : db) uid owner t i cid (it c : row) :
  In it (table d "collection_items") -> it !! "item_type" = Some (JStr t) -> it !! "item_id" = Some (JNum i) ->
  it !! "collection_id" = Some cid ->
  find_first (fun r => bool_decide (r !! "id" = Some cid)) (table d "collections") = Some c ->
  c !! "user_id" = Some (JUuid owner) -> owner <> uid ->
  exists l, useItemCollections_queryFn cfg (Some uid) t i d = (Ok l, d) /\ In (cid, c !! "name") l.
Proof.
  intros Hin Ht Hi Hc Hf _ _. unfold useItemCollections_queryFn. rewrite lift_read_bind, get_state_bind.
  rewrite (select_rows_known cfg d "collection_items" collection_items_schema) by reflexivity.
  cbn [error resp_ok data default]. eexists. split; [reflexivity|].
  apply in_map_iff. exists (project (Some ["collection_id"]) it). split.
  - cbv beta zeta. unfold Remote.col. rewrite project_lookup, Hc by set_solver. cbn [default Datatypes.id]. by rewrite Hf.
  - apply in_map, filter_In. split; [exact Hin|]. unfold matches_all. cbn [forallb].
    rewrite !(proj2 (feq_spec _ _ _)) by done. reflexivity.
Qed.

(** Collection items are not a set: adding the same item twice to
    a collection (with no unique key declared on [collection_items])
    succeeds both times and leaves two rows for the same item, though
    the spec calls the items of a collection a set of memberships. *)
Theorem add_item_twice_duplicates (d : db) uid a :
  uniq "collection_items" = [] -> ca_collectionId a <> JNull ->
  let '(r1, d1) := useAddToCollection_mutationFn cfg (Some uid) a d in
  let '(r2, d2) := useAddToCollection_mutationFn cfg (Some uid) a d1 in
  is_ok r1 = true /\ is_ok r2 = true /\
  exists x1 x2, items_of d2 (ca_collectionId a) = items_of d (ca_collectionId a) ++ [x1; x2] /\
    x1 !! "item_id" = Some (JNum (ca_itemId a)) /\ x2 !! "item_id" = Some (JNum (ca_itemId a)) /\
    x1 !! "item_type" = x2 !! "item_type".
Proof.
  intros Hq Hn. rewrite !add_item_run by done.
  set (x1 := complete_row collection_items_schema d (collection_item_payload a)).
  match goal with |- context [complete_row collection_items_schema ?d1 (collection_item_payload a)] =>
    set (x2 := complete_row collection_items_schema d1 (collection_item_payload a)) end.
  assert (H1 : collection_item_payload a ⊆ x1) by apply map_union_subseteq_l.
  assert (H2 : collection_item_payload a ⊆ x2) by apply map_union_subseteq_l.
  split; [done|]. split; [done|]. exists x1, x2.
  rewrite (items_of_app _ _ x2 _ (table_insert_same _ _ _ _ _)), (items_of_app d _ x1 _ (table_insert_same _ _ _ _ _)).
  rewrite !(lookup_weaken _ _ _ _ (collection_item_payload_cid a)) by done.
  rewrite !bool_decide_eq_true_2 by done. rewrite <-app_assoc. split; [reflexivity|].
  assert (Hi : collection_item_payload a !! "item_id" = Some (JNum (ca_itemId a))) by reflexivity.
  assert (Ht : collection_item_payload a !! "item_type" = Some (JStr (ca_itemType a))) by reflexivity.
  rewrite !(lookup_weaken _ _ _ _ Hi), !(lookup_weaken _ _ _ _ Ht) by done. done.
Qed.
End coll_facts.

(** ** Witnesses *)

Definition cw_d1 : db := snd (useCreateCollection_mutationFn rw_cfg (Some 1) "Favourites" None None rw_d0).
Definition cw_add : CollectionAdd := MkCollectionAdd (JUuid 1) "movie" 550 "Fight Club" None.
Definition cw_d2 : db := snd (useAddToCollection_mutationFn rw_cfg (Some 1) cw_add cw_d1).
Definition cw_page (name : string) : CollectionPage :=
  MkCollectionPage true false (Some (JUuid 1)) name EmptyString EmptyString Movie None (Some (JUuid 1, "Favourites")).

Lemma add_item_refines_witness :
  exists x d', useAddToCollection_mutationFn rw_cfg (Some 1) cw_add cw_d2 = (Ok x, d') /\
    collection_item_payload cw_add ⊆ x /\
    forall c, items_of d' c = if bool_decide (c = ca_collectionId cw_add) then items_of cw_d2 c ++ [x] else items_of cw_d2 c.
Proof.
  destruct (useAddToCollection_mutationFn rw_cfg (Some 1) cw_add cw_d2) as [[x|e] d'] eqn:E;
    [|vm_compute in E; discriminate].
  exists x, d'. split; [reflexivity|]. exact (add_item_refines no_unique cw_d2 1 cw_add x d' E).
Defined.

Lemma remove_item_refines_witness :
  JUuid 1 <> JNull /\
  let d' := snd (useRemoveFromCollection_mutationFn rw_cfg (Some 1) (JUuid 1) (JUuid 2) cw_d2) in
  fst (useRemoveFromCollection_mutationFn rw_cfg (Some 1) (JUuid 1) (JUuid 2) cw_d2) = Ok () /\
  forall c, items_of d' c =
    if bool_decide (c = JUuid 1) then List.filter (fun r => negb (filter_matches (FEq "id" (JUuid 2)) r)) (items_of cw_d2 c)
    else items_of cw_d2 c.
Proof. split; [discriminate|]. apply (remove_item_refines no_unique cw_d2 1 (JUuid 1) (JUuid 2)). discriminate. Defined.

Lemma create_collection_inserts_witness :
  no_unique "collections" = [] /\ all_chars js_ws (newCollectionName (cw_page " Favs ")) = false /\
  exists x d',
    handleCreateCollection rw_cfg (Some 1) (cw_page " Favs ") rw_d0 = (Some ToastCreated, after_create (cw_page " Favs "), d') /\
    table d' "collections" = table rw_d0 "collections" ++ [x] /\
    (forall t, t <> "collections" -> table d' t = table rw_d0 t) /\
    x !! "user_id" = Some (JUuid 1) /\ x !! "name" = Some (JStr (newCollectionName (cw_page " Favs "))) /\
    x !! "is_public" = Some (JBool false) /\
    x !! "description" = Some (or_null_str (Some (newCollectionDescription (cw_page " Favs ")))).
Proof.
  split; [reflexivity|]. split; [reflexivity|].
  apply (create_collection_inserts no_unique (cw_page " Favs ") rw_d0 1); reflexivity.
Defined.

Lemma delete_collection_cascades_witness :
  let r := hd ∅ (table cw_d2 "collections") in
  In r (table cw_d2 "collections") /\ r !! "id" = Some (JUuid 1) /\ r !! "user_id" = Some (JUuid 1) /\
  let '(t, p', d') := handleDeleteCollection rw_cfg (Some 1) (cw_page "") cw_d2 in
  t = Some ToastCollectionDeleted /\ collectionToDelete p' = None /\
  selectedCollectionId p' = (if bool_decide (selectedCollectionId (cw_page "") = Some (JUuid 1)) then None
                             else selectedCollectionId (cw_page "")) /\
  items_of d' (JUuid 1) = [] /\
  (forall c, c <> JUuid 1 -> items_of d' c = items_of cw_d2 c) /\
  ~ In r (table d' "collections").
Proof.
  intros r. assert (Hr : In r (table cw_d2 "collections")) by (vm_compute; left; reflexivity).
  assert (Hi : r !! "id" = Some (JUuid 1)) by (vm_compute; reflexivity).
  assert (Hu : r !! "user_id" = Some (JUuid 1)) by (vm_compute; reflexivity).
  split; [exact Hr|]. split; [exact Hi|]. split; [exact Hu|].
  apply (delete_collection_cascades no_unique (cw_page "") cw_d2 1 (JUuid 1) "Favourites" r); done.
Defined.


Lemma item_collections_foreign_witness :
  let it := hd ∅ (table cw_d2 "collection_items") in
  let c := hd ∅ (table cw_d2 "collections") in
  In it (table cw_d2 "collection_items") /\ it !! "item_type" = Some (JStr "movie") /\
  it !! "item_id" = Some (JNum 550) /\ it !! "collection_id" = Some (JUuid 1) /\
  find_first (fun r => bool_decide (r !! "id" = Some (JUuid 1))) (table cw_d2 "collections") = Some c /\
  c !! "user_id" = Some (JUuid 1) /\ 1 <> 2 /\
  exists l, useItemCollections_queryFn rw_cfg (Some 2) "movie" 550 cw_d2 = (Ok l, cw_d2) /\ In (JUuid 1, c !! "name") l.
Proof.
  intros it c.
  assert (H1 : In it (table cw_d2 "collection_items")) by (vm_compute; left; reflexivity).
  assert (H2 : it !! "item_type" = Some (JStr "movie")) by (vm_compute; reflexivity).
  assert (H3 : it !! "item_id" = Some (JNum 550)) by (vm_compute; reflexivity).
  assert (H4 : it !! "collection_id" = Some (JUuid 1)) by (vm_compute; reflexivity).
  assert (H5 : find_first (fun r => bool_decide (r !! "id" = Some (JUuid 1))) (table cw_d2 "collections") = Some c)
    by (vm_compute; reflexivity).
  assert (H6 : c !! "user_id" = Some (JUuid 1)) by (vm_compute; reflexivity).
  do 6 (split; [assumption|]). split; [lia|].
  exact (item_collections_foreign no_unique cw_d2 2 1 "movie" 550 (JUuid 1) it c H1 H2 H3 H4 H5 H6 ltac:(lia)).
Defined.

Lemma add_item_twice_duplicates_witness :
  no_unique "collection_items" = [] /\ ca_collectionId cw_add <> JNull /\
  let '(r1, d1) := useAddToCollection_mutationFn rw_cfg (Some 1) cw_add cw_d1 in
  let '(r2, d2) := useAddToCollection_mutationFn rw_cfg (Some 1) cw_add d1 in
  is_ok r1 = true /\ is_ok r2 = true /\
  exists x1 x2, items_of d2 (ca_collectionId cw_add) = items_of cw_d1 (ca_collectionId cw_add) ++ [x1; x2] /\
    x1 !! "item_id" = Some (JNum (ca_itemId cw_add)) /\ x2 !! "item_id" = Some (JNum (ca_itemId cw_add)) /\
    x1 !! "item_type" = x2 !! "item_type".
Proof.
  split; [reflexivity|]. split; [discriminate|].
  apply (add_item_twice_duplicates no_unique cw_d1 1 cw_add); [reflexivity|discriminate].
Defined.
