(* ===== verification/Discover.v ===== *)
(** * Discover: src/src/pages/Discover.tsx and the query hooks of src/src/hooks/useMedia.ts

    The Discover page keeps its filters, its page number and the
    accumulated results in React state ([DiscoverState]).  Each render
    turns the state into catalog requests: TMDB discover or search for
    movies and series ([apiParams], read by [discoverMovies] and
    [discoverTVShows] of tmdb.ts), RAWG discover or search for games
    ([gameApiParams]).  The user's actions and the page's two reset
    effects and its accumulation effect are the events of [step]; the
    card buttons and the add-to-collection dialog call the watchlist and
    collection hooks.  The RAWG client ([@/services/rawg]) is not in the
    repository: a RAWG request is kept as the parameters the page passes. *)

From S2P Require Import Prelude Remote Schema Reviews Tmdb Watchlist Collections.
From stdpp Require Import pretty.

(** ** Requests of useMedia.ts *)

(** A request a query hook sends when it is enabled. *)
Inductive request : Type :=
  | ReqTmdb (endpoint : string)
  | ReqRawgSearch (query : string) (page : Z)
  | ReqRawgDiscover (params : list (string * string))
  | ReqRawgDetails (id : Z).

(** [useSearchMovies(query, page)]: [enabled: query.length > 0]. *)
Definition useSearchMovies (query : string) (page : Z) : option request :=
  if (0 <? String.length query)%nat then Some (ReqTmdb (searchMovies_endpoint query page)) else None.

(** [useSearchTVShows(query, page)] *)
Definition useSearchTVShows (query : string) (page : Z) : option request :=
  if (0 <? String.length query)%nat then Some (ReqTmdb (searchTVShows_endpoint query page)) else None.

(** [useMovieDetails(movieId)]: [enabled: movieId > 0]. *)
Definition useMovieDetails (movieId : Z) : option request :=
  if (0 <? movieId)%Z then Some (ReqTmdb (getMovieDetails_endpoint movieId)) else None.

(** [useMovieCredits(movieId)] *)
Definition useMovieCredits (movieId : Z) : option request :=
  if (0 <? movieId)%Z then Some (ReqTmdb (getMovieCredits_endpoint movieId)) else None.

(** ** tmdb.ts: what [discoverMovies] / [discoverTVShows] read of [params] *)

(** A JavaScript object with string or [undefined] fields, read by key;
    a key that is absent reads as [undefined]. *)
Definition js_get (o : list (string * option string)) (k : string) : option string :=
  match List.find (fun kv => String.eqb kv.1 k) o with Some kv => kv.2 | None => None end.

(** [params.page], [params.sort_by], [params.with_genres],
    [params[date_col + '.gte']], [params[date_col + '.lte']],
    [params['vote_average.gte']], [params['vote_count.gte']]. *)
Definition discover_read (date_col : string) (page : Z) (o : list (string * option string)) : DiscoverParams :=
  MkDiscoverParams (Some page) (js_get o "sort_by") (js_get o "with_genres")
    (js_get o (date_col ++ ".gte")%string) (js_get o (date_col ++ ".lte")%string)
    (js_get o "vote_average.gte") (js_get o "vote_count.gte").

(** ** Discover.tsx: state *)

(** [type MediaType = 'movies' | 'series' | 'games'] *)
Inductive DMediaType : Type := DMovies | DSeries | DGames.

#[export] Instance DMediaType_eq_dec : EqDecision DMediaType.
Proof. solve_decision. Defined.

Definition dmedia_of_string (s : string) : option DMediaType :=
  if String.eqb s "movies" then Some DMovies
  else if String.eqb s "series" then Some DSeries
  else if String.eqb s "games" then Some DGames else None.

(** [typeFromUrl && [...].includes(typeFromUrl) ? typeFromUrl : 'movies'] *)
Definition typeFromUrl (q : option string) : DMediaType :=
  default DMovies (q ≫= dmedia_of_string).

(** A result of TMDB or RAWG as the page reads it: absent strings are
    [''] (the page only tests them with [||]), absent numbers [None]. *)
Record Card : Type := MkCard {
  card_id : Z;
  card_title : string;
  card_name : string;
  card_vote_average : option Z;
  card_rating : option Z;
  card_poster_path : option string;
  card_background_image : option string
}.

(** The item the add-to-collection dialog is opened for. *)
Record CollectionSel : Type := MkCollectionSel {
  sel_type : string;
  sel_id : Z;
  sel_title : string;
  sel_poster : option string
}.

(** The item of the review dialog. *)
Record ReviewItem : Type := MkReviewItem {
  ri_type : MediaType;
  ri_id : Z;
  ri_title : string;
  ri_poster : option string
}.

Record DiscoverState : Type := MkDiscoverState {
  mediaType : DMediaType;
  searchQuery : string;
  selectedGenres : list Z;
  sortBy : string;
  yearFrom : string;
  yearTo : string;
  minRating : string;
  selectedMovie : option Z;
  selectedGame : option Z;
  page : Z;
  allResults : list Card;
  reviewDialogOpen : bool;
  reviewItem : option ReviewItem;
  isCollectionDialogOpen : bool;
  selectedItemForCollection : option CollectionSel
}.

(** The state of the first render. *)
Definition initial_state (q : option string) : DiscoverState :=
  MkDiscoverState (typeFromUrl q) "" [] "popularity.desc" "" "" "0" None None 1 [] false None false None.

(** ** Request parameters *)

(** [selectedGenres.join(',')] *)
Definition join_ids (l : list Z) : string := String.concat "," (map js_number_string l).

(** [apiParams] without [page], which [discover_read] takes apart. *)
Definition apiParams (st : DiscoverState) : list (string * option string) :=
  [("sort_by", Some (sortBy st));
   ("with_genres", match selectedGenres st with [] => None | l => Some (join_ids l) end);
   ("primary_release_date.gte",
      if negb (String.eqb (yearFrom st) "") then Some (yearFrom st ++ "-01-01")%string
      else if negb (String.eqb (yearTo st) "") then Some "1900-01-01" else None);
   ("primary_release_date.lte",
      if negb (String.eqb (yearTo st) "") then Some (yearTo st ++ "-12-31")%string else None);
   ("vote_average.gte", if String.eqb (minRating st) "0" then None else Some (minRating st));
   ("vote_count.gte", if String.eqb (minRating st) "0" then None else Some "100")].

(** [s.replace(pat, rep)] with a string pattern: the first occurrence. *)
Fixpoint js_replace (pat rep s : string) : string :=
  if String.prefix pat s then (rep ++ String.substring (String.length pat) (String.length s) s)%string
  else match s with
       | EmptyString => s
       | String c s' => String c (js_replace pat rep s')
       end.

(** [gameOrdering] *)
Definition gameOrdering (sortBy : string) : string :=
  if String.eqb sortBy "popularity.desc" then "-added"
  else
    let o := js_replace ".asc" "" (js_replace ".desc" "" (js_replace "vote_average" "rating"
               (js_replace "popularity" "rating" sortBy))) in
    if includes sortBy ".asc" then js_replace "-" "" o
    else if String.prefix "-" o then o else ("-" ++ o)%string.

(** [parseInt(s)] on the strings a select or a number input gives (no
    leading white space): the leading digits after an optional minus
    sign, [NaN] ([None]) when there is none. *)
Fixpoint digits_value (acc : option Z) (s : string) : option Z :=
  match s with
  | String c s' =>
      let n := nat_of_ascii c in
      if in_range 48 57 n then digits_value (Some (10 * default 0 acc + Z.of_nat (n - 48))%Z) s' else acc
  | EmptyString => acc
  end.

Definition parseInt (s : string) : option Z :=
  match digits_value None s, s with
  | Some z, _ => Some z
  | None, String c s' => if Ascii.eqb c "-" then Z.opp <$> digits_value None s' else None
  | None, EmptyString => None
  end.

(** [`${x}`] of a number that may be [NaN]. *)
Definition js_num_or_nan (o : option Z) : string :=
  match o with Some z => js_number_string z | None => "NaN" end.

(** [gameApiParams] without [page]; [currentYear] is
    [new Date().getFullYear()]. *)
Definition gameApiParams (currentYear : Z) (st : DiscoverState) : list (string * option string) :=
  [("ordering", Some (gameOrdering (sortBy st)));
   ("genres", match selectedGenres st with [] => None | l => Some (join_ids l) end);
   ("dates",
      let yf := negb (String.eqb (yearFrom st) "") in
      let yt := negb (String.eqb (yearTo st) "") in
      if yf && yt then Some (yearFrom st ++ "-01-01," ++ yearTo st ++ "-12-31")%string
      else if yt then Some ("1900-01-01," ++ yearTo st ++ "-12-31")%string
      else if yf then Some (yearFrom st ++ "-01-01," ++ js_number_string currentYear ++ "-12-31")%string
      else None);
   ("metacritic",
      if String.eqb (minRating st) "0" then None
      else Some (js_num_or_nan ((fun n => n * 20)%Z <$> parseInt (minRating st)) ++ ",100")%string)].

(** The values of the minimum-rating select: "All", then 1-5 for games
    and 5-9 for movies and series. *)
Definition rating_options (t : DMediaType) : list string :=
  "0" :: match t with
         | DGames => ["1"; "2"; "3"; "4"; "5"]
         | DMovies | DSeries => ["5"; "6"; "7"; "8"; "9"]
         end.

(** ** Requests of the render *)

(** [useDiscoverMovies(apiParams)] and [useDiscoverTVShows(apiParams)]:
    always enabled; the hook hands the object to tmdb.ts. *)
Definition useDiscoverMovies (page : Z) (o : list (string * option string)) : option request :=
  Some (ReqTmdb (discoverMovies_endpoint (discover_read "primary_release_date" page o))).

Definition useDiscoverTVShows (page : Z) (o : list (string * option string)) : option request :=
  Some (ReqTmdb (discoverTVShows_endpoint (discover_read "first_air_date" page o))).

(** The defined fields of an object, as [searchParams] of a client keeps them. *)
Definition defined_fields (o : list (string * option string)) : list (string * string) :=
  omap (fun kv => (fun v => (kv.1, v)) <$> kv.2) o.

(** [useDiscoverGames(gameApiParams)] *)
Definition useDiscoverGames (page : Z) (o : list (string * option string)) : option request :=
  Some (ReqRawgDiscover (("page", js_number_string page) :: defined_fields o)).

(** [useSearchGames(query, page)]: [enabled: query.length > 0]. *)
Definition useSearchGames (query : string) (page : Z) : option request :=
  if (0 <? String.length query)%nat then Some (ReqRawgSearch query page) else None.

(** [useGameDetails(gameId)]: [enabled: gameId > 0]. *)
Definition useGameDetails (gameId : Z) : option request :=
  if (0 <? gameId)%Z then Some (ReqRawgDetails gameId) else None.

(** [isSearching = searchQuery.length > 0] *)
Definition isSearching (st : DiscoverState) : bool := (0 <? String.length (searchQuery st))%nat.

(** The request whose data becomes [currentResults]: [moviesData],
    [tvData] or [gamesResults] after the choice between search and
    discover. *)
Definition results_request (currentYear : Z) (st : DiscoverState) : option request :=
  match mediaType st with
  | DMovies => if isSearching st then useSearchMovies (searchQuery st) (page st) else useDiscoverMovies (page st) (apiParams st)
  | DSeries => if isSearching st then useSearchTVShows (searchQuery st) (page st) else useDiscoverTVShows (page st) (apiParams st)
  | DGames => if isSearching st then useSearchGames (searchQuery st) (page st)
              else useDiscoverGames (page st) (gameApiParams currentYear st)
  end.

(** The requests of the details modals: [useMovieDetails(selectedMovie || 0)],
    [useMovieCredits(selectedMovie || 0)], [useGameDetails(selectedGame || 0)]. *)
Definition details_requests (st : DiscoverState) : list request :=
  option_list (useMovieDetails (default 0%Z (selectedMovie st))) ++
  option_list (useMovieCredits (default 0%Z (selectedMovie st))) ++
  option_list (useGameDetails (default 0%Z (selectedGame st))).

(** A page of results: TMDB's [results] and [total_pages], RAWG's
    [results] and [count]. *)
Record ResultPage : Type := MkResultPage {
  rp_results : list Card;
  rp_total_pages : option Z;
  rp_count : option Z
}.

(** [Math.ceil(n / 20)] *)
Definition ceil_div20 (n : Z) : Z := (- ((- n) / 20))%Z.

(** [totalPages]: [data?.total_pages || 1] for TMDB,
    [count ? Math.ceil(count / 20) : 1] for RAWG. *)
Definition totalPages (t : DMediaType) (data : option ResultPage) : Z :=
  match t with
  | DGames =>
      match data ≫= rp_count with Some c => if Z.eqb c 0 then 1%Z else ceil_div20 c | None => 1%Z end
  | _ =>
      match data ≫= rp_total_pages with Some n => if Z.eqb n 0 then 1%Z else n | None => 1%Z end
  end.

(** [hasMore = page < totalPages] *)
Definition hasMore (st : DiscoverState) (data : option ResultPage) : bool :=
  (page st <? totalPages (mediaType st) data)%Z.

(** [currentResults] *)
Definition currentResults (data : option ResultPage) : list Card := default [] (rp_results <$> data).

(** ** Cards *)

(** [!!item.background_image || mediaType === 'games'] *)
Definition card_isGame (t : DMediaType) (c : Card) : bool :=
  match truthy_str (card_background_image c) with Some _ => true | None => bool_decide (t = DGames) end.

(** [item.title || item.name] *)
Definition card_title_of (c : Card) : string :=
  if String.eqb (card_title c) "" then card_name c else card_title c.

(** [x || d] on a number. *)
Definition num_or (o : option Z) (d : Z) : Z :=
  match o with Some z => if Z.eqb z 0 then d else z | None => d end.

(** [item.vote_average || item.rating || 0] *)
Definition card_rating_of (c : Card) : Z := num_or (card_vote_average c) (num_or (card_rating c) 0).

(** [currentItemType] *)
Definition card_item_type (t : DMediaType) (c : Card) : MediaType :=
  if card_isGame t c then Game else if bool_decide (t = DSeries) then Series else Movie.

(** The card's [image]. *)
Definition card_image (t : DMediaType) (c : Card) : option string :=
  discover_card_image (card_isGame t c) (card_poster_path c) (card_background_image c).

(** ** Events *)

(** [toggleGenre(genreId)]: [prev.includes(g) ? prev.filter(id => id !== g) : [...prev, g]]. *)
Definition toggleGenre (g : Z) (prev : list Z) : list Z :=
  if bool_decide (g ∈ prev) then List.filter (fun i => negb (Z.eqb i g)) prev else prev ++ [g].

Definition set_page (n : Z) (st : DiscoverState) : DiscoverState :=
  MkDiscoverState (mediaType st) (searchQuery st) (selectedGenres st) (sortBy st) (yearFrom st) (yearTo st)
    (minRating st) (selectedMovie st) (selectedGame st) n (allResults st) (reviewDialogOpen st) (reviewItem st)
    (isCollectionDialogOpen st) (selectedItemForCollection st).

Definition set_allResults (rs : list Card) (st : DiscoverState) : DiscoverState :=
  MkDiscoverState (mediaType st) (searchQuery st) (selectedGenres st) (sortBy st) (yearFrom st) (yearTo st)
    (minRating st) (selectedMovie st) (selectedGame st) (page st) rs (reviewDialogOpen st) (reviewItem st)
    (isCollectionDialogOpen st) (selectedItemForCollection st).

(** The filters of the page, set together. *)
Definition set_filters (q : string) (gs : list Z) (s yf yt r : string) (st : DiscoverState) : DiscoverState :=
  MkDiscoverState (mediaType st) q gs s yf yt r (selectedMovie st) (selectedGame st) (page st) (allResults st)
    (reviewDialogOpen st) (reviewItem st) (isCollectionDialogOpen st) (selectedItemForCollection st).

Definition set_details (m g : option Z) (st : DiscoverState) : DiscoverState :=
  MkDiscoverState (mediaType st) (searchQuery st) (selectedGenres st) (sortBy st) (yearFrom st) (yearTo st)
    (minRating st) m g (page st) (allResults st) (reviewDialogOpen st) (reviewItem st)
    (isCollectionDialogOpen st) (selectedItemForCollection st).

Definition set_collection_dialog (o : bool) (sel : option CollectionSel) (st : DiscoverState) : DiscoverState :=
  MkDiscoverState (mediaType st) (searchQuery st) (selectedGenres st) (sortBy st) (yearFrom st) (yearTo st)
    (minRating st) (selectedMovie st) (selectedGame st) (page st) (allResults st) (reviewDialogOpen st)
    (reviewItem st) o sel.

Definition set_review (o : bool) (ri : option ReviewItem) (st : DiscoverState) : DiscoverState :=
  MkDiscoverState (mediaType st) (searchQuery st) (selectedGenres st) (sortBy st) (yearFrom st) (yearTo st)
    (minRating st) (selectedMovie st) (selectedGame st) (page st) (allResults st) o ri
    (isCollectionDialogOpen st) (selectedItemForCollection st).

(** A change of the media type and the effect on [mediaType]: genres,
    years and rating are cleared and the page goes back to 1; the
    accumulated results stay. *)
Definition media_changed (t : DMediaType) (st : DiscoverState) : DiscoverState :=
  set_page 1 (set_filters (searchQuery st) [] (sortBy st) "" "" "0"
    (MkDiscoverState t (searchQuery st) (selectedGenres st) (sortBy st) (yearFrom st) (yearTo st)
       (minRating st) (selectedMovie st) (selectedGame st) (page st) (allResults st) (reviewDialogOpen st)
       (reviewItem st) (isCollectionDialogOpen st) (selectedItemForCollection st))).

(** The accumulation effect on [currentResults]: nothing for an empty
    page, the page itself on page 1, appended otherwise. *)
Definition accumulate (rs : list Card) (st : DiscoverState) : DiscoverState :=
  match rs with
  | [] => st
  | _ => set_allResults (if Z.eqb (page st) 1 then rs else allResults st ++ rs) st
  end.

(** What the user does and what arrives from the catalog.  A setter
    called with the value the state already has does not re-render, so
    its effect does not run. *)
Inductive discover_event : Type :=
  | EvSetMediaType (t : DMediaType)
  | EvSetSearch (q : string)
  | EvToggleGenre (g : Z)
  | EvSetSort (s : string)
  | EvSetYearFrom (y : string)
  | EvSetYearTo (y : string)
  | EvSetMinRating (r : string)
  | EvLoadMore
  | EvResults (rs : list Card)
  | EvCardClick (isGame : bool) (id : Z)
  | EvCloseMovie
  | EvCloseGame
  | EvCollectionDialogOpenChange (o : bool)
  | EvReviewDialogOpenChange (o : bool).

(** A filter setter followed by the effect that sets the page to 1. *)
Definition filter_changed (changed : bool) (st' st : DiscoverState) : DiscoverState :=
  if changed then set_page 1 st' else st.

Definition step (st : DiscoverState) (ev : discover_event) : DiscoverState :=
  match ev with
  | EvSetMediaType t => if bool_decide (t = mediaType st) then st else media_changed t st
  | EvSetSearch q =>
      filter_changed (negb (String.eqb q (searchQuery st)))
        (set_filters q (selectedGenres st) (sortBy st) (yearFrom st) (yearTo st) (minRating st) st) st
  | EvToggleGenre g =>
      filter_changed true
        (set_filters (searchQuery st) (toggleGenre g (selectedGenres st)) (sortBy st) (yearFrom st) (yearTo st) (minRating st) st) st
  | EvSetSort s =>
      filter_changed (negb (String.eqb s (sortBy st)))
        (set_filters (searchQuery st) (selectedGenres st) s (yearFrom st) (yearTo st) (minRating st) st) st
  | EvSetYearFrom y =>
      filter_changed (negb (String.eqb y (yearFrom st)))
        (set_filters (searchQuery st) (selectedGenres st) (sortBy st) y (yearTo st) (minRating st) st) st
  | EvSetYearTo y =>
      filter_changed (negb (String.eqb y (yearTo st)))
        (set_filters (searchQuery st) (selectedGenres st) (sortBy st) (yearFrom st) y (minRating st) st) st
  | EvSetMinRating r =>
      filter_changed (negb (String.eqb r (minRating st)))
        (set_filters (searchQuery st) (selectedGenres st) (sortBy st) (yearFrom st) (yearTo st) r st) st
  | EvLoadMore => set_page (page st + 1) st
  | EvResults rs => accumulate rs st
  | EvCardClick isGame id => if isGame then set_details (selectedMovie st) (Some id) st else set_details (Some id) (selectedGame st) st
  | EvCloseMovie => set_details None (selectedGame st) st
  | EvCloseGame => set_details (selectedMovie st) None st
  | EvCollectionDialogOpenChange o => set_collection_dialog o (selectedItemForCollection st) st
  | EvReviewDialogOpenChange o => set_review o (reviewItem st) st
  end.

Definition run (st : DiscoverState) (evs : list discover_event) : DiscoverState := foldl step st evs.

(** The Load More button: shown when the current query is not loading,
    there are results and [hasMore]. *)
Definition load_more_visible (isLoading : bool) (st : DiscoverState) (data : option ResultPage) : bool :=
  negb isLoading && negb (bool_decide (allResults st = [])) && hasMore st data.

(** A user who clicks Load More whenever it is shown, the catalog
    answering page [n] with [pages n]; [fuel] bounds the clicks. *)
Fixpoint load_all (fuel : nat) (pages : Z -> ResultPage) (st : DiscoverState) : DiscoverState :=
  match fuel with
  | O => st
  | S f =>
      if load_more_visible false st (Some (pages (page st)))
      then let st1 := step st EvLoadMore in load_all f pages (step st1 (EvResults (rp_results (pages (page st1)))))
      else st
  end.

(** ** Handlers *)

(** The first argument of [handleAddToCollection]: a React mouse event,
    or the empty object [{}] the details modals pass. *)
Inductive click_arg : Type := MouseEvent | EmptyObject.

(** [handleAddToCollection(e, itemType, itemId, title, poster)]:
    [e.stopPropagation()] throws a [TypeError] on [{}], before any state
    is set. *)
Definition handleAddToCollection (e : click_arg) (sel : CollectionSel) (st : DiscoverState)
    : result unit * DiscoverState :=
  match e with
  | EmptyObject => (Err (new_Error "e.stopPropagation is not a function"), st)
  | MouseEvent => (Ok (), set_collection_dialog true (Some sel) st)
  end.

(** The [+] button of a card. *)
Definition card_add_to_collection (st : DiscoverState) (c : Card) : result unit * DiscoverState :=
  handleAddToCollection MouseEvent
    (MkCollectionSel (media_name (card_item_type (mediaType st) c)) (card_id c) (card_title_of c)
       (card_image (mediaType st) c)) st.

(** The "add to collection" button of the movie and game modals:
    [handleAddToCollection({} as any, title)]. *)
Definition modal_add_to_collection (title : string) (st : DiscoverState) : result unit * DiscoverState :=
  handleAddToCollection EmptyObject (MkCollectionSel title 0 "" None) st.

(** The "rate" button of the movie modal: a series when the page shows
    series, a movie otherwise. *)
Definition movie_modal_rate (title name : string) (poster : option string) (st : DiscoverState) : DiscoverState :=
  match selectedMovie st with
  | Some id =>
      set_review true (Some (MkReviewItem (if bool_decide (mediaType st = DSeries) then Series else Movie) id
                               (if String.eqb title "" then name else title) poster)) st
  | None => st
  end.

(** The "rate" button of the game modal. *)
Definition game_modal_rate (name : string) (background_image : option string) (st : DiscoverState) : DiscoverState :=
  match selectedGame st with
  | Some id => set_review true (Some (MkReviewItem Game id name background_image)) st
  | None => st
  end.

Inductive discover_toast : Type := ToastAddedTo (title cname : string) | ToastAddFailedD.

(** A collection of the add-to-collection dialog, clicked. *)
Definition dialog_add_to_collection (cfg : store_config) (user : option nat) (collection : row)
    (st : DiscoverState) (d : db) : option discover_toast * DiscoverState * db :=
  match selectedItemForCollection st with
  | None => (None, st, d)
  | Some sel =>
      match useAddToCollection_mutationFn cfg user
              (MkCollectionAdd (Remote.col collection "id") (sel_type sel) (sel_id sel) (sel_title sel) (sel_poster sel)) d with
      | (Ok _, d') =>
          let cname := match collection !! "name" with Some (JStr s) => s | _ => EmptyString end in
          (Some (ToastAddedTo (sel_title sel) cname), set_collection_dialog false None st, d')
      | (Err _, d') => (Some ToastAddFailedD, st, d')
      end
  end.

(** ** Facts *)

(** [parseInt] reads back the decimal digits [String(n)] prints. *)
Lemma digit_char_value (d : N) :
  (d < 10)%N ->
  in_range 48 57 (nat_of_ascii (pretty_N_char d)) = true /\
  Z.of_nat (nat_of_ascii (pretty_N_char d) - 48) = Z.of_N d.
Proof.
  intros Hd. assert (d = 0 \/ d = 1 \/ d = 2 \/ d = 3 \/ d = 4 \/ d = 5 \/ d = 6 \/ d = 7 \/ d = 8 \/ d = 9)%N
    as H by lia. repeat destruct H as [->|H]; try (split; reflexivity). subst. split; reflexivity.
Qed.

Lemma digits_pretty_N_go (x : N) s :
  (0 < x)%N -> digits_value None (pretty_N_go x s) = digits_value (Some (Z.of_N x)) s.
Proof.
  revert s. induction (N.lt_wf_0 x) as [x _ IH]. intros s Hx.
  rewrite pretty_N_go_step by exact Hx.
  destruct (digit_char_value (x mod 10)) as [Hr Hv]; [apply N.mod_lt; lia|].
  assert (Hdm := N.div_mod x 10 ltac:(lia)). assert (Hlt := N.div_lt x 10 Hx ltac:(lia)).
  set (q := (x `div` 10)%N) in *. set (r := (x `mod` 10)%N) in *. clearbody q r.
  destruct (decide (q = 0)%N) as [->|H0].
  - rewrite pretty_N_go_0. cbn [digits_value]. rewrite Hr, Hv. cbn [default]. do 2 f_equal. lia.
  - rewrite IH by lia. cbn [digits_value]. rewrite Hr, Hv. cbn [default Datatypes.id]. do 2 f_equal. lia.
Qed.

Lemma parseInt_number (n : Z) : (0 <= n)%Z -> parseInt (js_number_string n) = Some n.
Proof.
  intros Hn. assert (H : digits_value None (js_number_string n) = Some n).
  { unfold js_number_string, pretty at 1, pretty_Z. destruct n as [|p|p]; [reflexivity| |lia].
    unfold pretty, pretty_positive, pretty, pretty_N. rewrite decide_False by done.
    by rewrite digits_pretty_N_go by lia. }
  unfold parseInt. by rewrite H.
Qed.

Lemma js_get_apiParams_absent st k :
  k <> "sort_by" -> k <> "with_genres" -> k <> "primary_release_date.gte" -> k <> "primary_release_date.lte" ->
  k <> "vote_average.gte" -> k <> "vote_count.gte" -> js_get (apiParams st) k = None.
Proof.
  intros H1 H2 H3 H4 H5 H6. unfold js_get, apiParams. cbn [List.find fst].
  repeat match goal with
  | |- context [String.eqb ?a k] => destruct (String.eqb_spec a k); [congruence|]
  end. reflexivity.
Qed.

Lemma in_option_list_key {B} (k : string) (o : option B) kv :
  In kv (option_list ((fun s => (k, s)) <$> o)) -> kv.1 = k.
Proof. destruct o; cbn; [intros [<-|[]]; reflexivity|intros []]. Qed.

Lemma truthy_str_app s t : t <> EmptyString -> truthy_str (Some (s ++ t)%string) = Some (s ++ t)%string.
Proof.
  intros Ht. cbn. destruct (String.eqb_spec (s ++ t) "") as [H|]; [|reflexivity].
  destruct s; [done|discriminate].
Qed.

(** [Math.ceil(c / 20)] pages hold [c] results: page [p] is not the last
    exactly when [20 p < c]. *)
Lemma lt_ceil_div20 p c : (p < ceil_div20 c)%Z <-> (p * 20 < c)%Z.
Proof.
  unfold ceil_div20. assert (Hd := Z.div_mod (- c) 20 ltac:(lia)).
  assert (Hm := Z.mod_pos_bound (- c) 20 ltac:(lia)).
  set (q := ((- c) / 20)%Z) in *. set (r := ((- c) mod 20)%Z) in *. clearbody q r. lia.
Qed.

Lemma toggle_absent g l : g ∉ l -> toggleGenre g l = l ++ [g].
Proof. intros H. unfold toggleGenre. by rewrite bool_decide_eq_false_2. Qed.

Lemma toggle_present g l : g ∈ l -> toggleGenre g l = List.filter (fun i => negb (Z.eqb i g)) l.
Proof. intros H. unfold toggleGenre. by rewrite bool_decide_eq_true_2. Qed.

Lemma not_in_filter_neq g l : g ∉ List.filter (fun i => negb (Z.eqb i g)) l.
Proof.
  intros Hin%list_elem_of_In%filter_In. destruct Hin as [_ H]. by rewrite Z.eqb_refl in H.
Qed.

Lemma filter_neq_absent g l : g ∉ l -> List.filter (fun i => negb (Z.eqb i g)) l = l.
Proof.
  induction l as [|x l IH]; intros H; [done|]. cbn.
  destruct (Z.eqb_spec x g) as [->|_]; [set_solver|]. cbn. rewrite IH; [done|set_solver].
Qed.

(** A permutation moves [g] from inside a duplicate-free list to its end. *)
Lemma perm_filter_neq_app g l :
  NoDup l -> g ∈ l -> List.filter (fun i => negb (Z.eqb i g)) l ++ [g] ≡ₚ l.
Proof.
  induction l as [|x l IH]; intros Hnd Hg; [by apply not_elem_of_nil in Hg|].
  apply NoDup_cons in Hnd as [Hx Hl]. cbn.
  destruct (Z.eqb_spec x g) as [->|Hne]; cbn.
  - rewrite filter_neq_absent by done. symmetry. apply Permutation_cons_append.
  - apply perm_skip, IH; [done|]. apply elem_of_cons in Hg as [->|Hg]; [congruence|exact Hg].
Qed.

(** ** Properties *)

Lemma load_more_round st rs :
  mediaType (step (step st EvLoadMore) (EvResults rs)) = mediaType st /\
  page (step (step st EvLoadMore) (EvResults rs)) = (page st + 1)%Z.
Proof. by destruct rs. Qed.

(** C30 The year filters of the page never reach the series request:
    [apiParams] names them [primary_release_date.gte/lte], the keys
    [discoverMovies] reads, while [discoverTVShows] reads
    [first_air_date.gte/lte], absent from the object.  The movie request
    carries them whenever a year is typed. *)
Theorem series_year_filter_dropped (st : DiscoverState) :
  let tv := discover_queryParams "first_air_date" (discover_read "first_air_date" (page st) (apiParams st)) in
  let mv := discover_queryParams "primary_release_date" (discover_read "primary_release_date" (page st) (apiParams st)) in
  (forall kv, In kv tv -> kv.1 <> "first_air_date.gte" /\ kv.1 <> "first_air_date.lte") /\
  (yearFrom st <> EmptyString -> In ("primary_release_date.gte", yearFrom st ++ "-01-01")%string mv) /\
  (yearTo st <> EmptyString -> In ("primary_release_date.lte", yearTo st ++ "-12-31")%string mv).
Proof.
  cbv zeta. split; [|split].
  - intros kv Hin. unfold discover_queryParams, discover_read in Hin. cbn [dp_date_gte dp_date_lte dp_with_genres dp_vote_average_gte dp_vote_count_gte] in Hin.
    rewrite (js_get_apiParams_absent st ("first_air_date" ++ ".gte")),
      (js_get_apiParams_absent st ("first_air_date" ++ ".lte")) in Hin by (cbn; discriminate).
    repeat (apply in_app_iff in Hin as [Hin|Hin]); try (apply in_option_list_key in Hin; rewrite Hin; split; discriminate).
    + destruct Hin as [<-|[<-|[<-|[]]]]; split; cbn; discriminate.
    + destruct Hin.
    + destruct Hin.
  - intros Hy. unfold discover_queryParams, discover_read. cbn [dp_date_gte].
    apply in_app_iff. right. apply in_app_iff. right. apply in_app_iff. left.
    change (js_get (apiParams st) ("primary_release_date" ++ ".gte")%string) with
      (if negb (String.eqb (yearFrom st) "") then Some (yearFrom st ++ "-01-01")%string
       else if negb (String.eqb (yearTo st) "") then Some "1900-01-01" else None).
    destruct (String.eqb_spec (yearFrom st) "") as [|_]; [congruence|]. cbn [negb].
    rewrite truthy_str_app by discriminate. left. reflexivity.
  - intros Hy. unfold discover_queryParams, discover_read. cbn [dp_date_lte].
    apply in_app_iff. right. apply in_app_iff. right. apply in_app_iff. right. apply in_app_iff. left.
    change (js_get (apiParams st) ("primary_release_date" ++ ".lte")%string) with
      (if negb (String.eqb (yearTo st) "") then Some (yearTo st ++ "-12-31")%string else None).
    destruct (String.eqb_spec (yearTo st) "") as [|_]; [congruence|]. cbn [negb].
    rewrite truthy_str_app by discriminate. left. reflexivity.
Qed.

(** The metacritic parameter of the game request, from the state's
    minimum rating. *)
Lemma metacritic_param (st st' : DiscoverState) (currentYear : Z) :
  minRating st = minRating st' ->
  js_get (gameApiParams currentYear st) "metacritic" = js_get (gameApiParams currentYear st') "metacritic".
Proof.
  intros H. unfold js_get, gameApiParams. cbn [List.find fst snd String.eqb Ascii.eqb Bool.eqb andb].
  by rewrite H.
Qed.

Lemma step_minRating (st : DiscoverState) (r : string) : minRating (step st (EvSetMinRating r)) = r.
Proof. cbn [step]. destruct (String.eqb_spec r (minRating st)) as [->|]; reflexivity. Qed.

(** C31 Choosing a minimum rating in the select sets the metacritic
    range [20 n,100] of the game request, which always runs: "All" sends
    none; each option for games (1-5) and the movie and series option 5
    give a range inside RAWG's 0-100, while the movie and series options
    6-9 give 120,100 to 180,100, an empty range. *)
Theorem metacritic_by_rating_select (st : DiscoverState) (currentYear : Z) (r : string) :
  In r (rating_options (mediaType st)) ->
  let st' := step st (EvSetMinRating r) in
  (r = "0" -> js_get (gameApiParams currentYear st') "metacritic" = None) /\
  (r <> "0" -> exists n, parseInt r = Some n /\
     js_get (gameApiParams currentYear st') "metacritic" = Some (js_number_string (20 * n) ++ ",100")%string /\
     ((20 * n <= 100)%Z <-> mediaType st = DGames \/ r = "5")).
Proof.
  intros Hin st'.
  rewrite (metacritic_param st' (set_filters "" [] "" "" "" r (initial_state None))) by apply step_minRating.
  destruct (mediaType st); cbn [rating_options] in Hin; repeat destruct Hin as [<-|Hin]; try contradiction;
    split; intros H0; try congruence; try reflexivity;
    (eexists; split; [reflexivity|split; [reflexivity|]]);
    match goal with |- (?x <= 100)%Z <-> _ => let v := eval vm_compute in x in change x with v end;
    first [ split; [intros; lia | intros [H|H]; discriminate]
          | split; [intros; first [left; reflexivity | right; reflexivity] | intros; lia] ].
Qed.

(** For games the page counts [Math.ceil(count / 20)] pages: the
    "load more" button is offered on page [p] exactly when [20 p] is less
    than the number of results RAWG reports. *)
Theorem games_has_more (st : DiscoverState) (data : ResultPage) (c : Z) :
  mediaType st = DGames -> rp_count data = Some c -> (0 < c)%Z ->
  hasMore st (Some data) = true <-> (page st * 20 < c)%Z.
Proof.
  intros Ht Hc Hpos. unfold hasMore, totalPages. rewrite Ht. cbn [mbind option_bind]. rewrite Hc.
  destruct (Z.eqb_spec c 0); [lia|]. rewrite Z.ltb_lt. apply lt_ceil_div20.
Qed.

(** C33 The accumulated results are not cleared when the query changes:
    switching from movies to series keeps the movie cards on screen
    until a non-empty series page arrives (an empty or still loading page
    changes nothing), and those cards are then labelled with the new
    media type, so their bookmark and [+] buttons file a movie id as a
    series. *)
Theorem stale_results_relabelled (st : DiscoverState) (c : Card) :
  mediaType st = DMovies -> In c (allResults st) -> card_background_image c = None ->
  let st' := run st [EvSetMediaType DSeries; EvResults []] in
  In c (allResults st') /\ page st' = 1%Z /\
  card_item_type (mediaType st) c = Movie /\ card_item_type (mediaType st') c = Series.
Proof.
  intros Ht Hin Hb. cbv zeta. unfold run. cbn [foldl step]. rewrite Ht. cbn.
  unfold card_item_type, card_isGame. rewrite Hb. cbn. auto.
Qed.

(** C34 The accumulation effect appends every non-empty delivery of a
    page after the first: when the query of page 2 delivers again (a
    refetch with new data), its results are appended a second time. *)
Theorem refetch_duplicates_page (q : option string) (rs1 rs2 : list Card) :
  rs1 <> [] -> rs2 <> [] ->
  allResults (run (initial_state q) [EvResults rs1; EvLoadMore; EvResults rs2; EvResults rs2]) = rs1 ++ rs2 ++ rs2.
Proof.
  intros H1 H2. destruct rs1 as [|x1 rs1]; [done|]. destruct rs2 as [|x2 rs2]; [done|].
  unfold run. cbn. change (1 + 1 =? 1)%Z with false. cbn. by rewrite <-app_assoc.
Qed.

(** The "add to collection" buttons of the movie and game modals
    never open the dialog: they pass [{}] as the event and
    [e.stopPropagation()] throws before any state is set, while the [+]
    of a card opens the dialog for that card. *)
Theorem modal_add_to_collection_fails (st : DiscoverState) (title : string) (c : Card) :
  (exists e, modal_add_to_collection title st = (Err e, st)) /\
  isCollectionDialogOpen (snd (card_add_to_collection st c)) = true /\
  selectedItemForCollection (snd (card_add_to_collection st c)) =
    Some (MkCollectionSel (media_name (card_item_type (mediaType st) c)) (card_id c) (card_title_of c)
            (card_image (mediaType st) c)).
Proof. split; [by eexists|]. split; reflexivity. Qed.

(** [toggleGenre] keeps the selected genres free of duplicates, and
    toggling a genre twice gives back the same selection up to order (a
    genre that was selected moves to the end); an unselected genre comes
    back exactly. *)
Theorem toggle_genre_set (g : Z) (l : list Z) :
  NoDup l ->
  NoDup (toggleGenre g l) /\ toggleGenre g (toggleGenre g l) ≡ₚ l /\
  (g ∉ l -> toggleGenre g (toggleGenre g l) = l).
Proof.
  intros Hnd. destruct (decide (g ∈ l)) as [Hg|Hg].
  - rewrite (toggle_present g l Hg), (toggle_absent g _ (not_in_filter_neq g l)).
    split; [rewrite <-(map_id (List.filter _ l)); apply NoDup_map_filter; by rewrite map_id|]. split; [by apply perm_filter_neq_app|done].
  - rewrite (toggle_absent g l Hg).
    rewrite (toggle_present g (l ++ [g])) by (apply elem_of_app; right; apply list_elem_of_singleton; reflexivity).
    rewrite List.filter_app, filter_neq_absent by done. cbn. rewrite Z.eqb_refl, app_nil_r.
    split; [|done]. apply NoDup_app. split; [done|]. split; [intros x Hx Hx'; apply list_elem_of_singleton in Hx'; subst; contradiction|]. apply NoDup_singleton.
Qed.

(** C37 A series card opens the movie modal: its click sets
    [selectedMovie], and the modal's detail and credit requests go to
    TMDB's [/movie/<id>] endpoints with the series id; no request of the
    page's details ever names [/tv/]. *)
Theorem series_details_use_movie_endpoint (st : DiscoverState) (c : Card) :
  mediaType st = DSeries -> card_background_image c = None -> (0 < card_id c)%Z ->
  let st' := step st (EvCardClick (card_isGame (mediaType st) c) (card_id c)) in
  In (ReqTmdb (getMovieDetails_endpoint (card_id c))) (details_requests st') /\
  forall e, In (ReqTmdb e) (details_requests st') -> String.prefix "/movie/" e = true.
Proof.
  intros Ht Hb Hid. cbv zeta. rewrite Ht. unfold card_isGame. rewrite Hb. cbn [truthy_str].
  rewrite bool_decide_eq_false_2 by discriminate. cbn [step set_details selectedMovie selectedGame].
  unfold details_requests, useMovieDetails, useMovieCredits, useGameDetails. unfold set_details. cbn [default selectedMovie selectedGame Datatypes.id].
  rewrite (proj2 (Z.ltb_lt 0 (card_id c)) Hid). split; [left; reflexivity|].
  intros e Hin. apply in_app_iff in Hin as [[[= <-]|[]]|Hin]; [apply Prelude.prefix_app|].
  apply in_app_iff in Hin as [[[= <-]|[]]|Hin]; [apply Prelude.prefix_app|].
  destruct (0 <? default 0 (selectedGame st))%Z; cbn in Hin; intuition discriminate.
Qed.

(** C8 Load More terminates: when every page of the catalog reports the
    same page count [T], a user clicking Load More whenever it is shown
    sees it disappear after at most [T - page] clicks, on a page between
    the starting page and [max page T]. *)
Theorem load_more_terminates (pages : Z -> ResultPage) (T : Z) (st : DiscoverState) (fuel : nat) :
  (forall n, totalPages (mediaType st) (Some (pages n)) = T) ->
  (Z.to_nat (T - page st) <= fuel)%nat ->
  let st' := load_all fuel pages st in
  load_more_visible false st' (Some (pages (page st'))) = false /\
  (page st <= page st' <= Z.max (page st) T)%Z.
Proof.
  revert st. induction fuel as [|f IH]; intros st HT Hf; cbn zeta.
  - cbn [load_all]. split; [|lia]. unfold load_more_visible, hasMore. rewrite HT.
    destruct (Z.ltb_spec (page st) T); [lia|]. by rewrite andb_false_r.
  - cbn [load_all]. destruct (load_more_visible false st (Some (pages (page st)))) eqn:Hv; [|split; [exact Hv|lia]].
    unfold load_more_visible, hasMore in Hv. rewrite HT in Hv. apply andb_prop in Hv as [_ Hlt%Z.ltb_lt].
    set (st2 := step (step st EvLoadMore) (EvResults (rp_results (pages (page (step st EvLoadMore)))))).
    destruct (load_more_round st (rp_results (pages (page (step st EvLoadMore))))) as [Hm Hp]. fold st2 in Hm, Hp.
    destruct (IH st2) as [Hv' Hb]; [by rewrite Hm|rewrite Hp; lia|]. split; [exact Hv'|lia].
Qed.

(** ** Witnesses *)

Definition dw_card : Card := MkCard 550 "Fight Club" "" (Some 8%Z) None (Some "/fc.jpg") None.
Definition dw_st : DiscoverState :=
  MkDiscoverState DMovies "" [28%Z] "popularity.desc" "2000" "2010" "7" None None 1 [dw_card] false None false None.
Definition dw_series : DiscoverState := media_changed DSeries dw_st.

Lemma series_year_filter_dropped_witness :
  let tv := discover_queryParams "first_air_date" (discover_read "first_air_date" (page dw_st) (apiParams dw_st)) in
  let mv := discover_queryParams "primary_release_date" (discover_read "primary_release_date" (page dw_st) (apiParams dw_st)) in
  (forall kv, In kv tv -> kv.1 <> "first_air_date.gte" /\ kv.1 <> "first_air_date.lte") /\
  (yearFrom dw_st <> EmptyString -> In ("primary_release_date.gte", yearFrom dw_st ++ "-01-01")%string mv) /\
  (yearTo dw_st <> EmptyString -> In ("primary_release_date.lte", yearTo dw_st ++ "-12-31")%string mv).
Proof. exact (series_year_filter_dropped dw_st). Defined.

Lemma metacritic_by_rating_select_witness :
  In "7" (rating_options (mediaType dw_st)) /\
  js_get (gameApiParams 2026 (step dw_st (EvSetMinRating "7"))) "metacritic" = Some "140,100"%string.
Proof.
  assert (Hin : In "7" (rating_options (mediaType dw_st))) by (cbn; tauto).
  split; [exact Hin|].
  destruct (proj2 (metacritic_by_rating_select dw_st 2026 "7" Hin) ltac:(discriminate)) as [n [Hn [E _]]].
  rewrite E. cbv in Hn. injection Hn as <-. reflexivity.
Defined.

Lemma games_has_more_witness :
  let st := media_changed DGames dw_st in
  mediaType st = DGames /\ rp_count (MkResultPage [] None (Some 45%Z)) = Some 45%Z /\ (0 < 45)%Z /\
  (hasMore st (Some (MkResultPage [] None (Some 45%Z))) = true <-> (page st * 20 < 45)%Z).
Proof.
  intros st. split; [reflexivity|]. split; [reflexivity|]. split; [lia|].
  apply (games_has_more st (MkResultPage [] None (Some 45%Z)) 45); [reflexivity|reflexivity|lia].
Defined.

Lemma stale_results_relabelled_witness :
  mediaType dw_st = DMovies /\ In dw_card (allResults dw_st) /\ card_background_image dw_card = None /\
  let st' := run dw_st [EvSetMediaType DSeries; EvResults []] in
  In dw_card (allResults st') /\ page st' = 1%Z /\
  card_item_type (mediaType dw_st) dw_card = Movie /\ card_item_type (mediaType st') dw_card = Series.
Proof.
  split; [reflexivity|]. split; [left; reflexivity|]. split; [reflexivity|].
  apply (stale_results_relabelled dw_st dw_card); [reflexivity|left; reflexivity|reflexivity].
Defined.

Lemma refetch_duplicates_page_witness :
  [dw_card] <> [] /\
  allResults (run (initial_state (Some "movies")) [EvResults [dw_card]; EvLoadMore; EvResults [dw_card]; EvResults [dw_card]])
    = [dw_card] ++ [dw_card] ++ [dw_card].
Proof. split; [discriminate|]. apply (refetch_duplicates_page (Some "movies") [dw_card] [dw_card]); discriminate. Defined.

Lemma toggle_genre_set_witness :
  NoDup [28%Z; 12%Z] /\
  NoDup (toggleGenre 28 [28%Z; 12%Z]) /\ toggleGenre 28 (toggleGenre 28 [28%Z; 12%Z]) ≡ₚ [28%Z; 12%Z] /\
  (28%Z ∉ [28%Z; 12%Z] -> toggleGenre 28 (toggleGenre 28 [28%Z; 12%Z]) = [28%Z; 12%Z]).
Proof.
  assert (H : NoDup [28%Z; 12%Z]) by (apply NoDup_cons; split; [rewrite list_elem_of_singleton; lia|apply NoDup_singleton]).
  split; [exact H|]. exact (toggle_genre_set 28 [28%Z; 12%Z] H).
Defined.

Lemma series_details_use_movie_endpoint_witness :
  mediaType dw_series = DSeries /\ card_background_image dw_card = None /\ (0 < card_id dw_card)%Z /\
  let st' := step dw_series (EvCardClick (card_isGame (mediaType dw_series) dw_card) (card_id dw_card)) in
  In (ReqTmdb (getMovieDetails_endpoint (card_id dw_card))) (details_requests st') /\
  forall e, In (ReqTmdb e) (details_requests st') -> String.prefix "/movie/" e = true.
Proof.
  split; [reflexivity|]. split; [reflexivity|]. split; [cbn; lia|].
  apply (series_details_use_movie_endpoint dw_series dw_card); [reflexivity|reflexivity|cbn; lia].
Defined.

Definition dw_pages (n : Z) : ResultPage := MkResultPage [dw_card] (Some 3%Z) None.

Lemma load_more_terminates_witness :
  (forall n, totalPages (mediaType dw_st) (Some (dw_pages n)) = 3%Z) /\ (Z.to_nat (3 - page dw_st) <= 2)%nat /\
  let st' := load_all 2 dw_pages dw_st in
  load_more_visible false st' (Some (dw_pages (page st'))) = false /\ (page dw_st <= page st' <= Z.max (page dw_st) 3)%Z.
Proof.
  assert (HT : forall n, totalPages (mediaType dw_st) (Some (dw_pages n)) = 3%Z) by reflexivity.
  assert (Hf : (Z.to_nat (3 - page dw_st) <= 2)%nat) by (cbn; lia).
  split; [exact HT|]. split; [exact Hf|]. exact (load_more_terminates dw_pages 3 dw_st 2 HT Hf).
Defined.
