(* ===== verification/Profile.v ===== *)
(** * Profile: src/src/hooks/useProfile.ts, useProfileUpdate.ts,
    pages/Profile.tsx and pages/FriendProfile.tsx

    The statistics of a user are counted from the rows of the three
    review tables, the watchlist and the collections; [useUserStats]
    computes them for the signed-in user, the FriendProfile page for any
    user.  The object [useUserStats] returns names [totalReviews], an
    identifier declared nowhere: evaluating it throws a [ReferenceError].
    [useUpdateProfile] looks the profile up and updates it or inserts it;
    [useProfile] reads it back.  The pages turn the query results into
    the four numbers they display and hold the edit dialog's state. *)

From S2P Require Import Prelude Remote Schema Reviews Collections.

(** ** Counting *)

(** [r.review_text && r.review_text.trim()] *)
Definition has_text (r : row) : bool :=
  match r !! "review_text" with Some (JStr s) => negb (String.eqb (js_trim s) "") | _ => false end.

(** [data || []] *)
Definition rows_of (r : response (list row)) : list row := default [] (data r).

(** [{ count: 'exact', head: true }]: the number of matching rows, or
    null on an error. *)
Definition count_of (r : response (list row)) : option Z :=
  match error r with Some _ => None | None => (fun l => Z.of_nat (length l)) <$> data r end.

(** [game.hours_played || 0] *)
Definition hours_of (r : row) : Z :=
  match r !! "hours_played" with Some (JNum z) => z | _ => 0%Z end.

(** [games.reduce((sum, game) => sum + (game.hours_played || 0), 0)] *)
Definition total_hours (games : list row) : Z := fold_left (fun s g => (s + hours_of g)%Z) games 0%Z.

(** The reads of a statistics query: [select(cols).eq('user_id', u)]. *)
Definition user_rows (cfg : store_config) (d : db) (t : string) (cols : option (list string)) (u : nat)
    : response (list row) :=
  select_rows cfg d t cols [FEq "user_id" (JUuid u)].

(** ** useProfile.ts *)

(** [UserStats] without [total_reviews], the field the code cannot build. *)
Record UserStats : Type := MkUserStats {
  total_items : Z;
  total_ratings : Z;
  total_text_reviews : Z;
  watchlist_count : Z;
  collections_count : Z;
  total_movies_watched : Z;
  total_games_played : Z;
  total_hours_gaming : Z
}.

(** The error of evaluating an identifier that is not declared. *)
Definition reference_error (x : string) : js_error := JsError (Some "ReferenceError") (x ++ " is not defined").

(** The object literal [useUserStats] returns; [totalReviews] is the
    binding of that identifier in scope, [None] when it has none (as in
    useProfile.ts, where evaluating it throws). *)
Definition stats_literal (movies series games : list row) (watchlist collections : option Z)
    (totalReviews : option Z) : result UserStats :=
  let allReviews := movies ++ series ++ games in
  let totalRatings := Z.of_nat (length allReviews) in
  let totalTextReviews := Z.of_nat (length (List.filter has_text allReviews)) in
  match totalReviews with
  | None => Err (reference_error "totalReviews")
  | Some _ =>
      Ok (MkUserStats totalRatings totalRatings totalTextReviews (default 0%Z watchlist) (default 0%Z collections)
            (Z.of_nat (length movies) + Z.of_nat (length series))%Z (Z.of_nat (length games)) (total_hours games))
  end.

Section profile_hooks.
Context (cfg : store_config).

(** [useUserStats] of useProfile.ts: the five reads of [Promise.all]
    read the same store. *)
Definition useUserStats_queryFn (DEMO_MODE : bool) (DEMO_STATS : UserStats) (user : option nat) : M db UserStats :=
  match user with
  | None => throw (new_Error "User not authenticated")
  | Some u =>
      if DEMO_MODE then mret DEMO_STATS
      else
        movies ← lift_read (fun d => user_rows cfg d "movie_reviews" (Some ["review_text"]) u);
        series ← lift_read (fun d => user_rows cfg d "series_reviews" (Some ["review_text"]) u);
        games ← lift_read (fun d => user_rows cfg d "game_reviews" (Some ["review_text"; "hours_played"]) u);
        watchlist ← lift_read (fun d => user_rows cfg d "watchlist" None u);
        collections ← lift_read (fun d => user_rows cfg d "collections" None u);
        match stats_literal (rows_of movies) (rows_of series) (rows_of games)
                (count_of watchlist) (count_of collections) None with
        | Ok s => mret s
        | Err e => throw e
        end
  end.

(** [useFavoriteMedia]: the three best rated movies and games; the
    errors of both reads are dropped. *)
Definition useFavoriteMedia_queryFn (DEMO_MODE : bool) (DEMO_MOVIES DEMO_GAMES : list row) (user : option nat)
    : M db (list row * list row) :=
  match user with
  | None => throw (new_Error "User not authenticated")
  | Some u =>
      if DEMO_MODE then mret (limit 6 DEMO_MOVIES, limit 4 DEMO_GAMES)
      else
        movies ← lift_read (fun d => limit 3 <$> data (order_resp "rating" false (user_rows cfg d "movie_reviews" None u)));
        games ← lift_read (fun d => limit 3 <$> data (order_resp "rating" false (user_rows cfg d "game_reviews" None u)));
        mret (default [] movies, default [] games)
  end.

(** ** useProfileUpdate.ts *)

(** [{ username: username || null, bio: bio || null, updated_at }] *)
Definition profile_update_payload (d : db) (username bio : option string) : row :=
  js_object [("username", or_null_str username); ("bio", or_null_str bio); ("updated_at", JNum (Z.of_nat (db_clock d)))].

(** [{ id: user.id, username: username || null, bio: bio || null }] *)
Definition profile_insert_payload (u : nat) (username bio : option string) : row :=
  js_object [("id", JUuid u); ("username", or_null_str username); ("bio", or_null_str bio)].

(** [.update(p).eq('id', user.id).select().single()] *)
Definition update_single (t : string) (p : row) (fs : list pfilter) (d : db) : response row * db :=
  let '(r, d') := update_rows cfg t p fs d in (single r, d').

(** [.insert(p).select().single()] *)
Definition insert_single (t : string) (p : row) (d : db) : response row * db := insert_row cfg t p d.

(** [useUpdateProfile]: the lookup's error is dropped; a profile that is
    found is updated, otherwise one is inserted. *)
Definition useUpdateProfile_mutationFn (user : option nat) (username bio : option string) : M db row :=
  match user with
  | None => throw (new_Error "User not authenticated")
  | Some u =>
      existing ← lift_read (fun d => single (select_rows cfg d "profiles" (Some ["id"]) [FEq "id" (JUuid u)]));
      resp ← (match data existing with
              | Some _ => lift_write (fun d => update_single "profiles" (profile_update_payload d username bio)
                                                 [FEq "id" (JUuid u)] d)
              | None => lift_write (insert_single "profiles" (profile_insert_payload u username bio))
              end);
      match error resp, data resp with
      | Some e, _ => throw e
      | None, Some x => mret x
      | None, None => throw err_pgrst116
      end
  end.

(** The profile [useProfile] reads: the row, or [{ username: null,
    bio: null }] when there is none. *)
Definition empty_profile : row := js_object [("username", JNull); ("bio", JNull)].

Definition useProfile_queryFn (user : option nat) : M db row :=
  match user with
  | None => throw (new_Error "User not authenticated")
  | Some u =>
      r ← lift_read (fun d => single (select_rows cfg d "profiles" None [FEq "id" (JUuid u)]));
      match error r with
      | Some e => if bool_decide (err_code e = Some "PGRST116") then mret empty_profile else throw e
      | None => match data r with Some x => mret x | None => throw err_pgrst116 end
      end
  end.

(** ** FriendProfile.tsx *)

(** The statistics object of the friend page. *)
Record FriendStats : Type := MkFriendStats {
  fs_total_items : Z;
  fs_watchlist_count : Z;
  fs_total_ratings : Z;
  fs_total_text_reviews : Z
}.

(** The [friendStats] query. *)
Definition friendStats_queryFn (userId : option nat) : M db (option FriendStats) :=
  match userId with
  | None => mret None
  | Some u =>
      movies ← lift_read (fun d => user_rows cfg d "movie_reviews" (Some ["review_text"]) u);
      series ← lift_read (fun d => user_rows cfg d "series_reviews" (Some ["review_text"]) u);
      games ← lift_read (fun d => user_rows cfg d "game_reviews" (Some ["review_text"]) u);
      watchlist ← lift_read (fun d => user_rows cfg d "watchlist" None u);
      let allReviews := rows_of movies ++ rows_of series ++ rows_of games in
      let totalRatings := Z.of_nat (length allReviews) in
      mret (Some (MkFriendStats totalRatings (default 0%Z (count_of watchlist)) totalRatings
                    (Z.of_nat (length (List.filter has_text allReviews)))))
  end.

(** The [friendProfile] query: [.single()], its error thrown. *)
Definition friendProfile_queryFn (userId : option nat) : M db (option row) :=
  match userId with
  | None => mret None
  | Some u =>
      r ← lift_read (fun d => single (select_rows cfg d "profiles" None [FEq "id" (JUuid u)]));
      match error r with Some e => throw e | None => mret (data r) end
  end.

(** The favourite movies (six) and games (four) of the friend page; an
    error gives the empty list. *)
Definition friendFavorites_queryFn (t : string) (n : nat) (userId : option nat) : M db (list row) :=
  match userId with
  | None => mret []
  | Some u =>
      r ← lift_read (fun d => order_resp "rating" false (user_rows cfg d t None u));
      match error r with Some _ => mret [] | None => mret (default [] (limit n <$> data r)) end
  end.
End profile_hooks.

(** ** The pages *)

(** [statsData] of Profile.tsx: [stats?.x || 0] for the four shown fields. *)
Definition profile_stat_values (stats : option UserStats) : list Z :=
  match stats with
  | Some s => [total_items s; total_ratings s; total_text_reviews s; watchlist_count s]
  | None => [0; 0; 0; 0]%Z
  end.

(** [statsData] of FriendProfile.tsx *)
Definition friend_stat_values (stats : option FriendStats) : list Z :=
  match stats with
  | Some s => [fs_total_items s; fs_total_ratings s; fs_total_text_reviews s; fs_watchlist_count s]
  | None => [0; 0; 0; 0]%Z
  end.

(** The signed-in user as the page reads it. *)
Record AuthUser : Type := MkAuthUser {
  au_full_name : string;
  au_name : string;
  au_email : string
}.

(** [str.split('@')[0]] *)
Fixpoint before_at (s : string) : string :=
  match s with
  | EmptyString => EmptyString
  | String c s' => if Ascii.eqb c "@" then EmptyString else String c (before_at s')
  end.

(** [userName]: the profile's username, then the metadata names, then
    the e-mail's local part, then ['User'] (empty strings are falsy). *)
Definition userName (profile : option row) (user : option AuthUser) : string :=
  let pick (s : string) (k : string) := if String.eqb s "" then k else s in
  let uname := match profile ≫= (fun p => p !! "username") with Some (JStr s) => s | _ => EmptyString end in
  pick uname (match user with
              | Some u => pick (au_full_name u) (pick (au_name u) (pick (before_at (au_email u)) "User"))
              | None => "User"
              end).

(** The edit dialog of Profile.tsx. *)
Record ProfilePage : Type := MkProfilePage {
  isEditDialogOpen : bool;
  editUsername : string;
  editBio : string
}.

Definition profile_field (profile : option row) (k : string) : string :=
  match profile ≫= (fun p => p !! k) with Some (JStr s) => s | _ => EmptyString end.

(** [handleEditProfile] *)
Definition handleEditProfile (profile : option row) (p : ProfilePage) : ProfilePage :=
  MkProfilePage true (profile_field profile "username") (profile_field profile "bio").

Inductive profile_toast : Type := ToastProfileSaved | ToastProfileFailed.

(** [handleSaveProfile]: the dialog's fields are sent as typed. *)
Definition handleSaveProfile (cfg : store_config) (user : option nat) (p : ProfilePage) (d : db)
    : profile_toast * ProfilePage * db :=
  match useUpdateProfile_mutationFn cfg user (Some (editUsername p)) (Some (editBio p)) d with
  | (Ok _, d') => (ToastProfileSaved, MkProfilePage false (editUsername p) (editBio p), d')
  | (Err _, d') => (ToastProfileFailed, p, d')
  end.

(** The [data] of a query: [undefined] when the query function threw. *)
Definition query_data {A S} (r : result A * S) : option A :=
  match fst r with Ok a => Some a | Err _ => None end.

(** ** Facts *)

(** The rows of table [t] that belong to user [u]. *)
Definition user_table_rows (d : db) (t : string) (u : nat) : list row :=
  List.filter (matches_all [FEq "user_id" (JUuid u)]) (table d t).

(** The reviews of user [u] in the three review tables. *)
Definition user_reviews (d : db) (u : nat) : list row :=
  user_table_rows d "movie_reviews" u ++ user_table_rows d "series_reviews" u ++ user_table_rows d "game_reviews" u.

(** The profile rows of user [u]. *)
Definition profile_rows (d : db) (u : nat) : list row :=
  List.filter (matches_all [FEq "id" (JUuid u)]) (table d "profiles").

Lemma has_text_project (r : row) : has_text (project (Some ["review_text"]) r) = has_text r.
Proof. unfold has_text. rewrite project_lookup; [reflexivity|]. cbn. set_solver. Qed.

Section profile_facts.
Context (uniq : string -> list (list string)).
Let cfg := popstack_cfg uniq.

Lemma user_rows_known (d : db) t sc cols u :
  popstack_schema t = Some sc ->
  user_rows cfg d t cols u = resp_ok (map (project cols) (user_table_rows d t u)).
Proof. intros H. apply (select_rows_known cfg d t sc cols). exact H. Qed.

Lemma profiles_select (d : db) cols u :
  select_rows cfg d "profiles" cols [FEq "id" (JUuid u)] = resp_ok (map (project cols) (profile_rows d u)).
Proof. by apply (select_rows_known cfg d "profiles" profiles_schema). Qed.

Lemma update_payload_fits (d : db) un bio :
  unknown_column profiles_schema (profile_update_payload d un bio) = None /\
  profile_update_payload d un bio !! "id" = None.
Proof. unfold profile_update_payload. vm_compute. split; reflexivity. Qed.

Lemma insert_payload_fits u un bio :
  unknown_column profiles_schema (profile_insert_payload u un bio) = None /\
  missing_required profiles_schema (profile_insert_payload u un bio) = None.
Proof. unfold profile_insert_payload. vm_compute. split; reflexivity. Qed.

(** Updating the profile rows of [u] with a payload without [id] keeps
    them the profile rows of [u]. *)
Lemma profile_rows_update (d : db) u (p : row) :
  p !! "id" = None ->
  profile_rows (set_table d "profiles"
     (map (fun r => if matches_all [FEq "id" (JUuid u)] r then p ∪ r else r) (table d "profiles"))) u =
  map (union p) (profile_rows d u).
Proof.
  intros Hp. unfold profile_rows. rewrite table_set_table_same.
  assert (Hm : forall r, matches_all [FEq "id" (JUuid u)] (p ∪ r) = matches_all [FEq "id" (JUuid u)] r).
  { intros r. rewrite !matches_all_one. cbn [filter_matches]. by rewrite lookup_union_r. }
  rewrite filter_map_comm.
  - apply map_ext_in. intros r Hr%filter_In. by rewrite (proj2 Hr).
  - intros r _. destruct (matches_all _ r) eqn:E; [by rewrite Hm|exact E].
Qed.

Lemma profile_after_insert (d : db) u un bio :
  let x := complete_row profiles_schema d (profile_insert_payload u un bio) in
  profile_rows d u = [] ->
  profile_rows (mkDb (<["profiles" := table d "profiles" ++ [x]]> (db_tables d)) (S (db_next_id d)) (S (db_clock d))) u = [x].
Proof.
  intros x H0. unfold profile_rows. rewrite table_insert_same, List.filter_app. fold (profile_rows d u). rewrite H0.
  cbn [app List.filter]. rewrite matches_all_one. cbn [filter_matches].
  unfold x. rewrite (complete_row_payload _ _ _ "id" (JUuid u)) by reflexivity. by rewrite bool_decide_eq_true_2.
Qed.

Lemma profile_read_one (d : db) u x :
  profile_rows d u = [x] -> useProfile_queryFn cfg (Some u) d = (Ok x, d).
Proof. intros H. unfold useProfile_queryFn. rewrite lift_read_bind, profiles_select, H. reflexivity. Qed.
End profile_facts.

Section profile_claims.
Context (uniq : string -> list (list string)).
Let cfg := popstack_cfg uniq.

(** C38 Outside demo mode the statistics query of the Profile page
    always fails: the object it returns names [totalReviews], which is
    declared nowhere, so every call throws a [ReferenceError] after the
    five reads, whatever the store holds; the page then shows 0 for all
    four statistics. *)
Theorem own_stats_always_zero (d : db) u (DEMO_STATS : UserStats) :
  useUserStats_queryFn cfg false DEMO_STATS (Some u) d = (Err (reference_error "totalReviews"), d) /\
  profile_stat_values (query_data (useUserStats_queryFn cfg false DEMO_STATS (Some u) d)) = [0; 0; 0; 0]%Z.
Proof.
  assert (H : useUserStats_queryFn cfg false DEMO_STATS (Some u) d = (Err (reference_error "totalReviews"), d))
    by reflexivity.
  split; [exact H|]. by rewrite H.
Qed.

(** C39 The FriendProfile page counts a user's statistics from the
    store: the items and the ratings are the user's rows of the three
    review tables, the reviews those whose text is not blank, the
    watchlist the user's watchlist rows. *)
Theorem friend_stats_counts (d : db) u :
  friend_stat_values (query_data (friendStats_queryFn cfg (Some u) d) ≫= id) =
    [Z.of_nat (length (user_reviews d u)); Z.of_nat (length (user_reviews d u));
     Z.of_nat (length (List.filter has_text (user_reviews d u)));
     Z.of_nat (length (user_table_rows d "watchlist" u))].
Proof.
  unfold friendStats_queryFn. rewrite !lift_read_bind.
  rewrite (user_rows_known uniq d "movie_reviews" movie_reviews_schema), (user_rows_known uniq d "series_reviews" series_reviews_schema),
    (user_rows_known uniq d "game_reviews" game_reviews_schema), (user_rows_known uniq d "watchlist" watchlist_schema)
    by reflexivity.
  cbn -[user_table_rows length List.filter].
  unfold user_reviews. rewrite !length_app, !length_map, !List.filter_app, !length_app.
  rewrite !filter_map_length by apply has_text_project. reflexivity.
Qed.

(** C40 Saving the profile round-trips: when the user has at most one
    profile row (and [profiles] declares no unique key), [useUpdateProfile]
    succeeds, leaves exactly one profile row for the user, [useProfile]
    then reads that row, and it holds the saved username and bio (empty
    ones as null). *)
Theorem update_profile_roundtrip (d : db) u un bio :
  uniq "profiles" = [] -> length (profile_rows d u) <= 1 ->
  exists x d', useUpdateProfile_mutationFn cfg (Some u) un bio d = (Ok x, d') /\
    profile_rows d' u = [x] /\ useProfile_queryFn cfg (Some u) d' = (Ok x, d') /\
    x !! "username" = Some (or_null_str un) /\ x !! "bio" = Some (or_null_str bio).
Proof.
  intros Hq Hl. unfold cfg.
  assert (Hrun : forall resp,
    single (select_rows (popstack_cfg uniq) d "profiles" (Some ["id"]) [FEq "id" (JUuid u)]) = resp ->
    useUpdateProfile_mutationFn (popstack_cfg uniq) (Some u) un bio d =
      ((r ← match data resp with
            | Some _ => lift_write (fun d => update_single (popstack_cfg uniq) "profiles" (profile_update_payload d un bio)
                                               [FEq "id" (JUuid u)] d)
            | None => lift_write (insert_single (popstack_cfg uniq) "profiles" (profile_insert_payload u un bio))
            end;
        match error r, data r with
        | Some e, _ => throw e
        | None, Some x => mret x
        | None, None => throw err_pgrst116
        end) d)).
  { intros resp <-. reflexivity. }
  rewrite (profiles_select uniq) in Hrun.
  destruct (profile_rows d u) as [|r [|r' rs]] eqn:Hp; [| |cbn in Hl; lia].
  - destruct (insert_payload_fits u un bio) as [Hu Hm].
    rewrite (Hrun _ eq_refl). cbn [map single resp_ok resp_err error data]. rewrite lift_write_bind.
    unfold insert_single.
    rewrite (insert_row_ok (popstack_cfg uniq) "profiles" profiles_schema _ d eq_refl Hu Hm)
      by (unfold violates_unique; change (cfg_unique (popstack_cfg uniq) "profiles") with (uniq "profiles"); by rewrite Hq).
    set (x := complete_row profiles_schema d (profile_insert_payload u un bio)).
    assert (Hx : profile_insert_payload u un bio ⊆ x) by apply map_union_subseteq_l.
    assert (H1 := profile_after_insert d u un bio Hp). fold x in H1.
    eexists x, _. split; [reflexivity|]. split; [exact H1|]. split; [by apply (profile_read_one uniq)|].
    split; (eapply lookup_weaken; [|exact Hx]); reflexivity.
  - destruct (update_payload_fits d un bio) as [Hu Hid].
    rewrite (Hrun _ eq_refl). cbn [map single resp_ok resp_err error data]. rewrite lift_write_bind.
    unfold update_single, update_rows.
    cbv beta. change (cfg_schema (popstack_cfg uniq) "profiles") with (Some profiles_schema). cbv iota beta. rewrite Hu.
    fold (profile_rows d u). rewrite Hp. cbn [map fst snd single resp_ok error data].
    set (p := profile_update_payload d un bio).
    assert (Hx : p ⊆ p ∪ r) by apply map_union_subseteq_l.
    assert (H1 : profile_rows (set_table d "profiles"
        (map (fun x => if matches_all [FEq "id" (JUuid u)] x then p ∪ x else x) (table d "profiles"))) u = [p ∪ r])
      by (rewrite profile_rows_update by exact Hid; by rewrite Hp).
    eexists (p ∪ r), _. split; [reflexivity|]. split; [exact H1|]. split; [by apply (profile_read_one uniq)|].
    split; (eapply lookup_weaken; [|exact Hx]); reflexivity.
Qed.
End profile_claims.

(** ** Witnesses *)

Definition pw_d1 : db := snd (useUpdateProfile_mutationFn rw_cfg (Some 1) (Some "ala") None rw_d0).

Lemma update_profile_roundtrip_witness :
  no_unique "profiles" = [] /\ length (profile_rows pw_d1 1) <= 1 /\
  exists x d', useUpdateProfile_mutationFn rw_cfg (Some 1) (Some "ola") (Some "hi") pw_d1 = (Ok x, d') /\
    profile_rows d' 1 = [x] /\ useProfile_queryFn rw_cfg (Some 1) d' = (Ok x, d') /\
    x !! "username" = Some (or_null_str (Some "ola")) /\ x !! "bio" = Some (or_null_str (Some "hi")).
Proof.
  assert (H : length (profile_rows pw_d1 1) <= 1) by (vm_compute; lia).
  split; [reflexivity|]. split; [exact H|].
  exact (update_profile_roundtrip no_unique pw_d1 1 (Some "ola") (Some "hi") eq_refl H).
Defined.
