(* ===== verification/Prefs.v ===== *)
(** * Preferences and settings: src/src/hooks/useTheme.ts,
    contexts/LanguageContext.tsx, pages/Settings.tsx,
    hooks/useUserStats.ts and src/scripts/toggle-demo.js

    The browser is a record of [localStorage] and the class list of the
    document root.  The theme and the language are read from
    [localStorage] without validation and written back on change.  The
    Settings page reads the username, saves it with an upsert on [id],
    and switches theme and language.  [useUserStats] of useUserStats.ts
    reads the [user_stats] row of the user and upserts it on the primary
    key.  toggle-demo.js flips [VITE_DEMO_MODE] in [.env.local], a file
    system being a map from paths to contents. *)

From S2P Require Import Prelude Remote Schema Reviews Tmdb Collections Discover Profile.

(** ** The browser *)

Record Browser : Type := MkBrowser {
  local_storage : gmap string string;
  root_classes : list string;
  prefers_dark : bool
}.

(** [classList.remove(c)] and [classList.add(c)] *)
Definition class_remove (c : string) (l : list string) : list string := List.filter (fun x => negb (String.eqb x c)) l.
Definition class_add (c : string) (l : list string) : list string := if bool_decide (c ∈ l) then l else l ++ [c].

Definition set_storage (k v : string) (b : Browser) : Browser :=
  MkBrowser (<[k := v]> (local_storage b)) (root_classes b) (prefers_dark b).

(** [(localStorage.getItem(k) as T) || dflt]: any non-empty string. *)
Definition stored_or (k dflt : string) (b : Browser) : string :=
  match local_storage b !! k with Some s => if String.eqb s "" then dflt else s | None => dflt end.

(** ** useTheme.ts *)

(** The initial theme. *)
Definition theme_init (b : Browser) : string := stored_or "theme" "dark" b.

(** The effect on [theme]: the root gets exactly one of [light] and
    [dark] ([system] follows [prefers-color-scheme]), and the theme is
    stored. *)
Definition theme_effect (theme : string) (b : Browser) : Browser :=
  let cls := class_remove "dark" (class_remove "light" (root_classes b)) in
  let c := if String.eqb theme "system" then (if prefers_dark b then "dark" else "light") else theme in
  set_storage "theme" theme (MkBrowser (local_storage b) (class_add c cls) (prefers_dark b)).

(** ** LanguageContext.tsx *)

(** The languages [translations] has. *)
Definition has_translations (lang : string) : bool := String.eqb lang "pl" || String.eqb lang "en".

(** The initial language. *)
Definition language_init (b : Browser) : string := stored_or "language" "pl" b.

(** [setLanguage(lang)]: the state and [localStorage]. *)
Definition setLanguage (lang : string) (b : Browser) : string * Browser := (lang, set_storage "language" lang b).

(** [useLanguage()] outside a provider throws. *)
Definition useLanguage (provided : option string) : result string :=
  match provided with
  | Some l => Ok l
  | None => Err (new_Error "useLanguage must be used within a LanguageProvider")
  end.

(** ** Settings.tsx *)

Record SettingsPage : Type := MkSettingsPage {
  profileUsername : string;
  isEditingUsername : bool;
  isSaving : bool
}.

Definition set_profileUsername (s : string) (p : SettingsPage) : SettingsPage :=
  MkSettingsPage s (isEditingUsername p) (isSaving p).

Section settings.
Context (cfg : store_config).

(** The effect fetching the username: set only when the read succeeds
    with a non-empty username. *)
Definition fetchProfile (user : option nat) (p : SettingsPage) (d : db) : SettingsPage :=
  match user with
  | None => p
  | Some u =>
      let r := single (select_rows cfg d "profiles" (Some ["username"]) [FEq "id" (JUuid u)]) in
      match error r, data r ≫= (fun x => x !! "username") with
      | None, Some (JStr s) => if String.eqb s "" then p else set_profileUsername s p
      | _, _ => p
      end
  end.

(** [profileData] of [handleSaveUsername] *)
Definition settings_profile_data (u : nat) (username : string) (d : db) : row :=
  js_object [("id", JUuid u); ("username", JStr (js_trim username)); ("updated_at", JNum (Z.of_nat (db_clock d)))].

Inductive settings_toast : Type := ToastUsernameSaved | ToastUsernameFailed | ToastLanguage (lang : string)
  | ToastTheme (theme : string).

(** [handleSaveUsername]: nothing for a blank name; otherwise an upsert
    on [id], and [isSaving] back to false in [finally]. *)
Definition handleSaveUsername (user : option nat) (p : SettingsPage) (d : db)
    : option settings_toast * SettingsPage * db :=
  match user with
  | None => (None, p, d)
  | Some u =>
      if String.eqb (js_trim (profileUsername p)) "" then (None, p, d)
      else
        let '(r, d') := upsert_row cfg "profiles" ["id"] (settings_profile_data u (profileUsername p) d) d in
        match error r with
        | None => (Some ToastUsernameSaved, MkSettingsPage (profileUsername p) false false, d')
        | Some _ => (Some ToastUsernameFailed, MkSettingsPage (profileUsername p) (isEditingUsername p) false, d')
        end
  end.
End settings.

(** [displayName]: like the Profile page's [userName], from the
    fetched username. *)
Definition displayName (profileUsername : string) (user : option AuthUser) : string :=
  let pick (s : string) (k : string) := if String.eqb s "" then k else s in
  pick profileUsername (match user with
                        | Some u => pick (au_full_name u) (pick (au_name u) (pick (before_at (au_email u)) "User"))
                        | None => "User"
                        end).

(** [handleLanguageChange] *)
Definition handleLanguageChange (lang : string) (b : Browser) : settings_toast * string * Browser :=
  let '(l, b') := setLanguage lang b in (ToastLanguage lang, l, b').

(** [handleThemeChange]: [setTheme] and then the effect on [theme]. *)
Definition handleThemeChange (theme : string) (b : Browser) : settings_toast * string * Browser :=
  (ToastTheme theme, theme, theme_effect theme b).

(** ** useUserStats.ts *)

Section user_stats.
Context (cfg : store_config).

(** The query: the row, or [null] on PGRST116 (no row, or several). *)
Definition useUserStats2_queryFn (user : option nat) : M db (option row) :=
  match user with
  | None => mret None
  | Some u =>
      r ← lift_read (fun d => single (select_rows cfg d "user_stats" None [FEq "user_id" (JUuid u)]));
      match error r with
      | Some e => if bool_decide (err_code e = Some "PGRST116") then mret (data r) else throw e
      | None => mret (data r)
      end
  end.

(** [{ user_id, ...updates, updated_at }] *)
Definition user_stats_payload (u : nat) (updates : list (string * jvalue)) (d : db) : row :=
  js_object ([("user_id", JUuid u)] ++ updates ++ [("updated_at", JNum (Z.of_nat (db_clock d)))]).

(** [updateStats]: an upsert on the primary key, which the payload
    does not carry. *)
Definition updateStats_mutationFn (user : option nat) (updates : list (string * jvalue)) : M db row :=
  match user with
  | None => throw (new_Error "User not authenticated")
  | Some u =>
      resp ← lift_write (fun d => upsert_row cfg "user_stats" ["id"] (user_stats_payload u updates d) d);
      match error resp, data resp with
      | Some e, _ => throw e
      | None, Some x => mret x
      | None, None => throw err_pgrst116
      end
  end.
End user_stats.

(** ** toggle-demo.js *)

(** The file system the script sees. *)
Definition fsys := gmap string string.

Inductive toggle_outcome : Type := ToggledToProduction | ToggledToDemo | ExampleMissing.

(** The script: [.env.local] is created from [.env.example] when
    missing (the script exits when both are missing); the first
    [VITE_DEMO_MODE=true] becomes [false] when there is one, otherwise
    the first [VITE_DEMO_MODE=false] becomes [true]. *)
Definition toggle_demo (root : string) (fs : fsys) : toggle_outcome * fsys :=
  let envPath := (root ++ "/.env.local")%string in
  let examplePath := (root ++ "/.env.example")%string in
  let fs1 := match fs !! envPath, fs !! examplePath with
             | Some _, _ => Some fs
             | None, Some ex => Some (<[envPath := ex]> fs)
             | None, None => None
             end in
  match fs1 with
  | None => (ExampleMissing, fs)
  | Some fs1 =>
      let envContent := default EmptyString (fs1 !! envPath) in
      if includes envContent "VITE_DEMO_MODE=true"
      then (ToggledToProduction, <[envPath := js_replace "VITE_DEMO_MODE=true" "VITE_DEMO_MODE=false" envContent]> fs1)
      else (ToggledToDemo, <[envPath := js_replace "VITE_DEMO_MODE=false" "VITE_DEMO_MODE=true" envContent]> fs1)
  end.

(** ** Facts *)

Lemma class_add_in c l : In c (class_add c l).
Proof.
  unfold class_add. case_bool_decide as H; [by apply list_elem_of_In|]. apply in_or_app. right. by left.
Qed.

Lemma class_remove_not_in c l : ~ In c (class_remove c l).
Proof. unfold class_remove. intros [_ H]%filter_In. by rewrite String.eqb_refl in H. Qed.

(** After the theme effect of a known theme the root carries exactly
    one of [light] and [dark]. *)
Lemma theme_effect_exclusive theme b :
  In theme ["light"; "dark"; "system"] ->
  let cls := root_classes (theme_effect theme b) in
  (In "light" cls /\ ~ In "dark" cls) \/ (In "dark" cls /\ ~ In "light" cls).
Proof.
  intros Ht. cbn zeta. unfold theme_effect, set_storage. cbn [root_classes].
  set (l := class_remove "dark" (class_remove "light" (root_classes b))).
  assert (Hl : ~ In "light" l /\ ~ In "dark" l).
  { split; unfold l; [intros Hin; apply filter_In in Hin as [Hin _]; exact (class_remove_not_in _ _ Hin)
                     |apply class_remove_not_in]. }
  assert (Hadd : forall c x, x <> c -> In x (class_add c l) -> In x l).
  { intros c x Hne. unfold class_add. case_bool_decide; [done|]. intros [Hx|[Hx|[]]]%in_app_iff; [done|congruence]. }
  destruct Ht as [<-|[<-|[<-|[]]]]; cbn -[class_add].
  - left. split; [apply class_add_in|]. intros H%Hadd; [tauto|discriminate].
  - right. split; [apply class_add_in|]. intros H%Hadd; [tauto|discriminate].
  - destruct (prefers_dark b); [right|left]; (split; [apply class_add_in|]); intros H%Hadd; (tauto || discriminate).
Qed.

(** The language set on the Settings page is the one read at the next
    start. *)
Lemma language_roundtrip lang b : lang <> EmptyString -> language_init (snd (setLanguage lang b)) = lang.
Proof.
  intros H. unfold language_init, stored_or, setLanguage, set_storage. cbn. rewrite lookup_insert_eq.
  by destruct (String.eqb_spec lang "").
Qed.

(** Any non-empty stored language is taken, also one [translations]
    does not have. *)
Lemma language_unvalidated b :
  local_storage b !! "language" = Some "de" -> language_init b = "de" /\ has_translations (language_init b) = false.
Proof. intros H. unfold language_init, stored_or. by rewrite H. Qed.

(** Two calls of [updateStats] for a user without a [user_stats] row
    insert two rows (the upsert conflicts on [id], which the payload does
    not carry), after which the query answers [null]. *)
Lemma update_stats_twice_lost :
  let d1 := snd (updateStats_mutationFn rw_cfg (Some 1) [("total_games_played", JNum 3)] rw_d0) in
  let d2 := snd (updateStats_mutationFn rw_cfg (Some 1) [("total_games_played", JNum 4)] d1) in
  length (table d2 "user_stats") = 2 /\ useUserStats2_queryFn rw_cfg (Some 1) d2 = (Ok None, d2).
Proof. vm_compute. split; reflexivity. Qed.
