(* ===== verification/Auth.v ===== *)
(** * Authentication: src/src/contexts/AuthContext.tsx

    The provider keeps [user], [session] and [loading] in React state.
    Outside demo mode it reads the server's session when it mounts and
    subscribes to [onAuthStateChange], and only that listener ever sets
    the user after a sign-in or sign-out; in demo mode it signs the demo
    user in at mount and [signIn] accepts the demo credentials.  The
    Supabase auth server is not in the repository; it is modelled from
    the spec as accounts by e-mail and a current session.  The actions
    of the context are the rules of [auth_step]. *)

From S2P Require Import Prelude.

(** ** The auth server *)

Record Account : Type := MkAccount {
  acc_password : string;
  acc_uid : nat;
  acc_confirmed : bool
}.

Record AuthServer : Type := MkAuthServer {
  accounts : gmap string Account;
  server_session : option nat;
  next_uid : nat
}.

Definition auth_error (msg : string) : js_error := JsError (Some "AuthError") msg.

(** [auth.signUp]: a new, unconfirmed account. *)
Definition server_signUp (email password : string) (s : AuthServer) : option js_error * AuthServer :=
  match accounts s !! email with
  | Some _ => (Some (auth_error "User already registered"), s)
  | None => (None, MkAuthServer (<[email := MkAccount password (next_uid s) false]> (accounts s))
                      (server_session s) (S (next_uid s)))
  end.

(** [auth.signInWithPassword] *)
Definition server_signIn (email password : string) (s : AuthServer) : option js_error * AuthServer :=
  match accounts s !! email with
  | Some a =>
      if negb (String.eqb (acc_password a) password) then (Some (auth_error "Invalid login credentials"), s)
      else if negb (acc_confirmed a) then (Some (auth_error "Email not confirmed"), s)
      else (None, MkAuthServer (accounts s) (Some (acc_uid a)) (next_uid s))
  | None => (Some (auth_error "Invalid login credentials"), s)
  end.

(** [auth.signOut] *)
Definition server_signOut (s : AuthServer) : AuthServer := MkAuthServer (accounts s) None (next_uid s).

(** ** The provider *)

Record AuthState : Type := MkAuthState {
  auth_user : option nat;
  auth_session : option nat;
  loading : bool;
  listening : bool
}.

Inductive auth_toast : Type :=
  | ToastAuthError (msg : string) | ToastCheckEmail | ToastWelcomeDemo | ToastDemoHint
  | ToastWelcomeBack | ToastSignedOut.

Section provider.
Context (DEMO_MODE : bool) (DEMO_USER : nat).

(** The mount effect: the demo user in demo mode, otherwise the
    server's session and a subscription to its changes. *)
Definition provider_mount (s : AuthServer) : AuthState :=
  if DEMO_MODE then MkAuthState (Some DEMO_USER) (Some DEMO_USER) false false
  else MkAuthState (server_session s) (server_session s) false true.

(** [onAuthStateChange]: the listener copies the server's session, when
    it is subscribed. *)
Definition notify (s : AuthServer) (st : AuthState) : AuthState :=
  if listening st then MkAuthState (server_session s) (server_session s) false true else st.

(** [signUp(email, password)]: never touches [user]. *)
Definition signUp (email password : string) (s : AuthServer) (st : AuthState)
    : option js_error * auth_toast * AuthServer * AuthState :=
  let '(e, s') := server_signUp email password s in
  match e with
  | Some err => (Some err, ToastAuthError (err_message err), s', st)
  | None => (None, ToastCheckEmail, s', notify s' st)
  end.

(** [signIn(email, password)] *)
Definition signIn (email password : string) (s : AuthServer) (st : AuthState)
    : option js_error * auth_toast * AuthServer * AuthState :=
  if DEMO_MODE then
    if String.eqb email "demo@popstack.app" && String.eqb password "demo123456"
    then (None, ToastWelcomeDemo, s, MkAuthState (Some DEMO_USER) (Some DEMO_USER) (loading st) (listening st))
    else (Some (auth_error "Invalid demo credentials"), ToastDemoHint, s, st)
  else
    let '(e, s') := server_signIn email password s in
    match e with
    | Some err => (Some err, ToastAuthError (err_message err), s', st)
    | None => (None, ToastWelcomeBack, s', notify s' st)
    end.

(** [signOut()]: the server's session ends; the state follows only
    through the listener. *)
Definition signOut (s : AuthServer) (st : AuthState) : auth_toast * AuthServer * AuthState :=
  let s' := server_signOut s in (ToastSignedOut, s', notify s' st).

(** [useAuth()] outside the provider throws. *)
Definition useAuth (provided : option AuthState) : result AuthState :=
  match provided with
  | Some st => Ok st
  | None => Err (new_Error "useAuth must be used within an AuthProvider")
  end.

(** The actions of the context. [signInWithGoogle] leaves the page for
    the provider's redirect and changes nothing here. *)
Inductive auth_step : AuthServer * AuthState -> AuthServer * AuthState -> Prop :=
  | StepSignUp email password s st e t s' st' :
      signUp email password s st = (e, t, s', st') -> auth_step (s, st) (s', st')
  | StepSignIn email password s st e t s' st' :
      signIn email password s st = (e, t, s', st') -> auth_step (s, st) (s', st')
  | StepSignOut s st t s' st' :
      signOut s st = (t, s', st') -> auth_step (s, st) (s', st')
  | StepGoogle s st : auth_step (s, st) (s, st).

(** The states reachable from the mount on server [s0]. *)
Definition auth_reachable (s0 : AuthServer) (c : AuthServer * AuthState) : Prop :=
  rtc auth_step (s0, provider_mount s0) c.

(** ** Facts *)

Lemma notify_silent s st : listening st = false -> notify s st = st.
Proof. intros H. unfold notify. by rewrite H. Qed.

Lemma notify_listening s st : listening st = true -> notify s st = MkAuthState (server_session s) (server_session s) false true.
Proof. intros H. unfold notify. by rewrite H. Qed.

(** In demo mode: no subscription, and the demo user signed in. *)
Definition demo_inv (c : AuthServer * AuthState) : Prop :=
  listening (snd c) = false /\ auth_user (snd c) = Some DEMO_USER.

Lemma demo_step_inv c c' : DEMO_MODE = true -> auth_step c c' -> demo_inv c -> demo_inv c'.
Proof.
  intros Hd Hs [Hl Hu]. destruct Hs as [email pw s st e t s' st' E|email pw s st e t s' st' E|s st t s' st' E|s st];
    cbn in Hl, Hu |- *.
  - revert E. unfold signUp. destruct (server_signUp email pw s) as [[err|] s1].
    + intros [= _ _ _ <-]. by split.
    + intros [= _ _ _ <-]. rewrite notify_silent by exact Hl. by split.
  - revert E. unfold signIn. rewrite Hd.
    destruct (String.eqb email "demo@popstack.app" && String.eqb pw "demo123456").
    + intros [= _ _ _ <-]. by split.
    + intros [= _ _ _ <-]. by split.
  - revert E. unfold signOut. intros [= _ _ <-]. rewrite ?notify_silent by exact Hl. by split.
  - by split.
Qed.

Lemma demo_reachable_inv s0 c : DEMO_MODE = true -> auth_reachable s0 c -> demo_inv c.
Proof.
  intros Hd Hr. unfold auth_reachable in Hr.
  assert (H0 : demo_inv (s0, provider_mount s0)) by (unfold demo_inv, provider_mount; rewrite Hd; by split).
  revert H0. induction Hr as [c|c1 c2 c3 Hs Hr IH]; [done|]. intros H1. apply IH, (demo_step_inv c1); assumption.
Qed.

(** Every action keeps the provider's subscription as it was at mount. *)
Lemma step_listening c c' : auth_step c c' -> listening (snd c') = listening (snd c).
Proof.
  assert (Hn : forall s st, listening (notify s st) = listening st)
    by (intros s st; unfold notify; by destruct (listening st) eqn:E).
  destruct 1 as [email pw s st e t s' st' E|email pw s st e t s' st' E|s st t s' st' E|s st]; cbn.
  - revert E. unfold signUp. destruct (server_signUp email pw s) as [[err|] s1]; intros [= _ _ _ <-]; [done|apply Hn].
  - revert E. unfold signIn. destruct DEMO_MODE.
    + destruct (_ && _); by intros [= _ _ _ <-].
    + destruct (server_signIn email pw s) as [[err|] s1]; intros [= _ _ _ <-]; [done|by rewrite ?Hn].
  - revert E. unfold signOut. intros [= _ _ <-]. by rewrite ?Hn.
  - done.
Qed.

Lemma reachable_listening s0 c : auth_reachable s0 c -> listening (snd c) = negb DEMO_MODE.
Proof.
  unfold auth_reachable. intros Hr.
  assert (H0 : listening (snd (s0, provider_mount s0)) = negb DEMO_MODE) by (unfold provider_mount; by destruct DEMO_MODE).
  revert H0. induction Hr as [c|c1 c2 c3 Hs Hr IH]; [done|]. intros H1. apply IH. by rewrite (step_listening c1 c2 Hs).
Qed.
End provider.

(** C35 [signOut] ends the server session in both modes, but the
    context's user follows only through the [onAuthStateChange]
    listener: outside demo mode every reachable state is signed out by
    it, while in demo mode, where the provider never subscribes, the demo
    user stays signed in after [signOut] whatever happened before. *)
Theorem sign_out_effect (DEMO_MODE : bool) (DEMO_USER : nat) (s0 : AuthServer) (c : AuthServer * AuthState) :
  auth_reachable DEMO_MODE DEMO_USER s0 c ->
  let '(_, s', st') := signOut (fst c) (snd c) in
  server_session s' = None /\ auth_user st' = (if DEMO_MODE then Some DEMO_USER else None).
Proof.
  intros Hr. unfold signOut. split; [reflexivity|].
  destruct DEMO_MODE eqn:Hd.
  - destruct (demo_reachable_inv true DEMO_USER s0 c eq_refl Hr) as [Hl Hu].
    by rewrite notify_silent by exact Hl.
  - rewrite notify_listening by (rewrite (reachable_listening false DEMO_USER s0 c Hr); reflexivity). reflexivity.
Qed.

(** C29 Outside demo mode a user with a confirmed account can always
    sign in: from every state reachable from the mount, [signIn] with the
    account's e-mail and password succeeds with "Welcome back!", the
    listener sets the context's user to the account, and the state it
    reaches is again reachable. *)
Theorem sign_in_reaches_user (DEMO_USER : nat) (s0 : AuthServer) (c : AuthServer * AuthState) (email : string) (a : Account) :
  auth_reachable false DEMO_USER s0 c ->
  accounts (fst c) !! email = Some a -> acc_confirmed a = true ->
  let '(e, t, s', st') := signIn false DEMO_USER email (acc_password a) (fst c) (snd c) in
  e = None /\ t = ToastWelcomeBack /\ auth_user st' = Some (acc_uid a) /\ auth_reachable false DEMO_USER s0 (s', st').
Proof.
  intros Hr Ha Hc. destruct c as [s st]. cbn [fst snd] in Ha |- *.
  assert (Hl : listening st = true) by exact (reachable_listening false DEMO_USER s0 (s, st) Hr).
  destruct (signIn false DEMO_USER email (acc_password a) s st) as [[[e t] s'] st'] eqn:E.
  pose proof E as E'. revert E'. unfold signIn, server_signIn. cbn [fst snd].
  rewrite Ha, String.eqb_refl, Hc. cbn. rewrite notify_listening by exact Hl.
  intros [= <- <- <- <-]. split; [done|]. split; [done|]. split; [done|].
  eapply rtc_r; [exact Hr|]. eapply StepSignIn. exact E.
Qed.

(** ** Witnesses *)

Definition aw_server : AuthServer :=
  MkAuthServer (<["ala@x.pl" := MkAccount "pw" 3 true]> ∅) None 4.

Lemma sign_out_effect_witness :
  let c := (aw_server, MkAuthState (Some 7) (Some 7) false false) in
  auth_reachable true 7 aw_server c /\
  let '(_, s', st') := signOut (fst c) (snd c) in
  server_session s' = None /\ auth_user st' = Some 7.
Proof.
  intros c. assert (Hr : auth_reachable true 7 aw_server c) by (unfold auth_reachable, provider_mount; apply rtc_refl).
  split; [exact Hr|]. exact (sign_out_effect true 7 aw_server c Hr).
Defined.

Lemma sign_in_reaches_user_witness :
  let c := (aw_server, provider_mount false 0 aw_server) in
  auth_reachable false 0 aw_server c /\
  accounts (fst c) !! "ala@x.pl" = Some (MkAccount "pw" 3 true) /\
  let '(e, t, s', st') := signIn false 0 "ala@x.pl" "pw" (fst c) (snd c) in
  e = None /\ t = ToastWelcomeBack /\ auth_user st' = Some 3 /\ auth_reachable false 0 aw_server (s', st').
Proof.
  intros c. assert (Hr : auth_reachable false 0 aw_server c) by apply rtc_refl.
  assert (Ha : accounts (fst c) !! "ala@x.pl" = Some (MkAccount "pw" 3 true)) by reflexivity.
  split; [exact Hr|]. split; [exact Ha|].
  exact (sign_in_reaches_user 0 aw_server c "ala@x.pl" (MkAccount "pw" 3 true) Hr Ha eq_refl).
Defined.
