(* ===== verification/Typing.v ===== *)
(** * The store's typing invariant across the mutation hooks

    Every write of the hooks goes through the PostgREST client, which
    refuses a payload naming a column that the table's [Row] type in
    src/src/types/database.ts does not declare.  [hook_call] lists the
    mutation hooks of src/src/hooks and the Settings page's save, with
    their arguments; [hook_effect] is the store after the call, whether
    it returned or threw.  The invariant [store_typed] of Remote is kept
    by every call, so by every sequence of calls.  Since the store refuses
    unknown columns, that invariant says nothing about the payloads; the
    last section checks each payload the hooks build against the columns
    of its table. *)

From S2P Require Import Prelude Remote Schema Friends Reviews Watchlist Collections Profile Prefs.

Inductive hook_call : Type :=
  | CallSendFriendRequest (user : option nat) (friendId : nat)
  | CallAcceptFriendRequest (friendshipId : nat)
  | CallRejectFriendRequest (friendshipId : nat)
  | CallRemoveFriend (friendshipId : nat)
  | CallAddOrUpdateReview (user : option nat) (rd : ReviewData)
  | CallDeleteReview (user : option nat) (it : MediaType) (itemId : Z)
  | CallMovieAddReview (user : option nat) (review : row)
  | CallMovieUpdateReview (id : jvalue) (updates : row)
  | CallMovieDeleteReview (id : jvalue)
  | CallGameAddReview (user : option nat) (review : row)
  | CallGameUpdateReview (id : jvalue) (updates : row)
  | CallGameDeleteReview (id : jvalue)
  | CallAddToWatchlist (user : option nat) (a : WatchlistAdd)
  | CallRemoveFromWatchlist (user : option nat) (itemType : string) (itemId : Z)
  | CallCreateCollection (user : option nat) (name : string) (description : option string) (isPublic : option bool)
  | CallDeleteCollection (user : option nat) (collectionId : jvalue)
  | CallAddToCollection (user : option nat) (a : CollectionAdd)
  | CallRemoveFromCollection (user : option nat) (collectionId itemId : jvalue)
  | CallUpdateProfile (user : option nat) (username bio : option string)
  | CallSaveUsername (user : option nat) (p : SettingsPage)
  | CallUpdateStats (user : option nat) (updates : list (string * jvalue)).

Section hooks.
Context (cfg : store_config).

(** A hook call's outcome: whether it returned (and [onSuccess] ran),
    and the store after it. *)
Definition outcome {A} (m : M db A) (d : db) : bool * db := let '(r, d') := m d in (is_ok r, d').

(** One call; the Settings page's save succeeds when it shows "saved". *)
Definition hook_run (h : hook_call) (d : db) : bool * db :=
  match h with
  | CallSendFriendRequest u f => outcome (useSendFriendRequest_mutationFn cfg u f) d
  | CallAcceptFriendRequest i => outcome (useAcceptFriendRequest_mutationFn cfg i) d
  | CallRejectFriendRequest i => outcome (useRejectFriendRequest_mutationFn cfg i) d
  | CallRemoveFriend i => outcome (useRemoveFriend_mutationFn cfg i) d
  | CallAddOrUpdateReview u rd => outcome (useAddOrUpdateReview_mutationFn cfg u rd) d
  | CallDeleteReview u it i => outcome (useDeleteReview_mutationFn cfg u it i) d
  | CallMovieAddReview u r => outcome (useMovieReviews_addReview cfg u r) d
  | CallMovieUpdateReview i r => outcome (useMovieReviews_updateReview cfg i r) d
  | CallMovieDeleteReview i => outcome (useMovieReviews_deleteReview cfg i) d
  | CallGameAddReview u r => outcome (useGameReviews_addReview cfg u r) d
  | CallGameUpdateReview i r => outcome (useGameReviews_updateReview cfg i r) d
  | CallGameDeleteReview i => outcome (useGameReviews_deleteReview cfg i) d
  | CallAddToWatchlist u a => outcome (useAddToWatchlist_mutationFn cfg u a) d
  | CallRemoveFromWatchlist u t i => outcome (useRemoveFromWatchlist_mutationFn cfg u t i) d
  | CallCreateCollection u n ds p => outcome (useCreateCollection_mutationFn cfg u n ds p) d
  | CallDeleteCollection u c => outcome (useDeleteCollection_mutationFn cfg u c) d
  | CallAddToCollection u a => outcome (useAddToCollection_mutationFn cfg u a) d
  | CallRemoveFromCollection u c i => outcome (useRemoveFromCollection_mutationFn cfg u c i) d
  | CallUpdateProfile u n b => outcome (useUpdateProfile_mutationFn cfg u n b) d
  | CallSaveUsername u p =>
      let '(t, _, d') := handleSaveUsername cfg u p d in
      (match t with Some ToastUsernameSaved => true | _ => false end, d')
  | CallUpdateStats u us => outcome (updateStats_mutationFn cfg u us) d
  end.


(** The store after one call. *)
Definition hook_effect (h : hook_call) (d : db) : db := snd (hook_run h d).

(** The store after a sequence of calls, one after another. *)
Definition run_hooks (hs : list hook_call) (d : db) : db := foldl (fun d h => hook_effect h d) d hs.

Lemma outcome_snd {A} (m : M db A) d : snd (outcome m d) = snd (m d).
Proof. unfold outcome. by destruct (m d). Qed.

Lemma hook_effect_typed h d : store_typed cfg d -> store_typed cfg (hook_effect h d).
Proof.
  unfold hook_effect. revert d. destruct h; cbn [hook_run]; intros d; rewrite ?outcome_snd; revert d;
    try match goal with |- forall d, _ -> store_typed cfg (snd (?m d)) => change (preserves (store_typed cfg) m) end.
  20: { intros d Hd. unfold handleSaveUsername. repeat case_match; simplify_eq/=; eauto with popstack. }
  all: unfold useSendFriendRequest_mutationFn, send_check, send_insert, useAcceptFriendRequest_mutationFn,
    useRejectFriendRequest_mutationFn, useRemoveFriend_mutationFn, delete_friendship,
    useAddOrUpdateReview_mutationFn, add_or_update_write, useDeleteReview_mutationFn,
    useMovieReviews_addReview, useMovieReviews_updateReview, useMovieReviews_deleteReview,
    useGameReviews_addReview, useGameReviews_updateReview, useGameReviews_deleteReview,
    table_addReview, table_updateReview, table_deleteReview,
    useAddToWatchlist_mutationFn, useRemoveFromWatchlist_mutationFn,
    useCreateCollection_mutationFn, useDeleteCollection_mutationFn, useAddToCollection_mutationFn,
    useRemoveFromCollection_mutationFn, useUpdateProfile_mutationFn, update_single, insert_single,
    updateStats_mutationFn.
  all: typed_solve.
Qed.
End hooks.

(** Whatever the store's configuration, every sequence of calls of
    the mutation hooks (friendships, reviews, watchlist, collections,
    profile, statistics, the Settings page's username), each returning or
    throwing, keeps every row of every table within the columns of its
    table's [Row] type, and leaves no rows in a table without a schema. *)
Theorem hooks_keep_store_typed (cfg : store_config) (hs : list hook_call) (d : db) :
  store_typed cfg d -> store_typed cfg (run_hooks cfg hs d).
Proof.
  unfold run_hooks. revert d. induction hs as [|h hs IH]; intros d Hd; [exact Hd|].
  cbn. apply IH, hook_effect_typed, Hd.
Qed.

(** ** The payloads against the schema

    Most payloads reach PostgREST through [// @ts-expect-error] or an
    untyped object, so TypeScript does not check their keys against
    database.ts; [unknown_columns] lists the keys of a payload that the
    table's [Row] type does not declare, the columns PostgREST refuses
    with PGRST204. *)
Definition unknown_columns (sc : table_schema) (p : row) : list string :=
  List.filter (fun c => negb (bool_decide (c ∈ ts_columns sc))) (map fst (map_to_list p)).

Definition table_unknown (t : string) (p : row) : option (list string) :=
  (fun sc => unknown_columns sc p) <$> popstack_schema t.

Lemma js_object_fmap (g : jvalue -> jvalue) kvs :
  g <$> js_object kvs = js_object (map (fun kv => (kv.1, g kv.2)) kvs).
Proof.
  unfold js_object.
  assert (H : forall m : row, g <$> foldl (fun m kv => <[kv.1 := kv.2]> m) m kvs =
                foldl (fun m kv => <[kv.1 := kv.2]> m) (g <$> m) (map (fun kv => (kv.1, g kv.2)) kvs)).
  { induction kvs as [|kv kvs IH]; intros m; [done|]. cbn [foldl map]. rewrite IH. by rewrite fmap_insert. }
  by rewrite H, fmap_empty.
Qed.

(** The unknown columns depend on the keys only: the values can be
    replaced by [null] before computing them. *)
Lemma table_unknown_skeleton t (p : row) : table_unknown t p = table_unknown t ((fun _ => JNull) <$> p).
Proof.
  unfold table_unknown. destruct (popstack_schema t) as [sc|]; [|done]. cbn [fmap option_fmap option_map].
  unfold unknown_columns. do 2 f_equal. rewrite map_to_list_fmap. induction (map_to_list p) as [|[k v] l IH]; [done|]. cbn. by rewrite IH.
Qed.

(** A payload without unknown columns passes the store's column check. *)
Lemma table_unknown_nil t p sc :
  table_unknown t p = Some [] -> popstack_schema t = Some sc -> unknown_column sc p = None.
Proof.
  unfold table_unknown, unknown_columns, unknown_column. intros H Hs. rewrite Hs in H. injection H as H.
  destruct (List.find _ _) as [c|] eqn:E; [|done]. apply List.find_some in E as [Hin Hc].
  assert (Hf : In c (List.filter (fun c => negb (bool_decide (c ∈ ts_columns sc))) (map fst (map_to_list p))))
    by (apply List.filter_In; split; assumption).
  rewrite H in Hf. destruct Hf.
Qed.

(** C6 Every payload the hooks build from their arguments names only
    columns that database.ts declares for the table they write: the
    friendship request and its acceptance, the movie and series reviews,
    the watchlist item, the collection and its item, the profile's
    update and insert, and the Settings page's username.  The one
    exception is the game review of [useAddOrUpdateReview], whose
    payload names exactly two undeclared columns, game_poster and
    watched_date. *)
Theorem hook_payloads_fit_schema :
  (forall u f, table_unknown "friendships" (friendship_payload u f) = Some []) /\
  table_unknown "friendships" accepted_patch = Some [] /\
  (forall uid rd, itemType rd <> Game -> table_unknown (tableName (itemType rd)) (reviewPayload uid rd) = Some []) /\
  (forall uid rd, itemType rd = Game -> exists l,
     table_unknown (tableName (itemType rd)) (reviewPayload uid rd) = Some l /\ l ≡ₚ ["game_poster"; "watched_date"]) /\
  (forall uid a, table_unknown "watchlist" (watchlist_payload uid a) = Some []) /\
  (forall uid name ds p, table_unknown "collections" (collection_payload uid name ds p) = Some []) /\
  (forall a, table_unknown "collection_items" (collection_item_payload a) = Some []) /\
  (forall d un bio, table_unknown "profiles" (profile_update_payload d un bio) = Some []) /\
  (forall u un bio, table_unknown "profiles" (profile_insert_payload u un bio) = Some []) /\
  (forall u un d, table_unknown "profiles" (settings_profile_data u un d) = Some []).
Proof.
  repeat split; intros; rewrite table_unknown_skeleton;
    try (destruct rd as [[] ? ? ? ? ? ? ? ?]; cbn [itemType] in *; try congruence);
    cbn [reviewPayload itemType tableName];
    unfold friendship_payload, accepted_patch, watchlist_payload, collection_payload, collection_item_payload,
      profile_update_payload, profile_insert_payload, settings_profile_data;
    rewrite ?fmap_insert, ?js_object_fmap, ?fmap_empty; try (vm_compute; reflexivity).
  eexists. split; [vm_compute; reflexivity|]. solve_Permutation.
Qed.

(** ** Witness *)

Definition tw_calls : list hook_call :=
  [CallCreateCollection (Some 1) "Favourites" None None;
   CallAddToWatchlist (Some 1) (MkWatchlistAdd Movie 550 "Fight Club" None None);
   CallUpdateStats (Some 1) [("total_games_played", JNum 3)];
   CallDeleteCollection (Some 1) (JUuid 1)].

Lemma hooks_keep_store_typed_witness :
  store_typed rw_cfg rw_d0 /\ store_typed rw_cfg (run_hooks rw_cfg tw_calls rw_d0).
Proof. split; [apply store_typed_empty|apply hooks_keep_store_typed, store_typed_empty]. Defined.

Definition tw_game : ReviewData := MkReviewData Game 3498 "GTA V" (Some "/gta.jpg") 9%Z None None (Some 40%Z) (Some "PC").
Definition tw_movie : ReviewData := MkReviewData Movie 550 "Fight Club" None 8 (Some "Great") None None None.

Lemma hook_payloads_fit_schema_witness :
  table_unknown (tableName (itemType tw_movie)) (reviewPayload 1 tw_movie) = Some [] /\
  exists l, table_unknown (tableName (itemType tw_game)) (reviewPayload 1 tw_game) = Some l /\
    l ≡ₚ ["game_poster"; "watched_date"].
Proof.
  destruct hook_payloads_fit_schema as (_ & _ & Hmv & Hgm & _).
  split; [apply Hmv; discriminate|apply Hgm; reflexivity].
Defined.
