(* ===== verification/ReviewDialog.v ===== *)
(** * The review dialog: src/src/components/ReviewDialog.tsx

    The dialog keeps its form in React state ([ReviewForm]): the rating,
    the hovered star, the text, the date and, for games, the hours and
    the platform.  An effect loads the user's existing review (read by
    [useUserReview]) into the form, or resets it; [handleSubmit] checks
    that a rating is chosen and calls [useAddOrUpdateReview] with the
    form's values, empty strings becoming [undefined]; [handleDelete]
    calls [useDeleteReview].  Each handler maps a form and a store to a
    toast, whether the dialog closes, and a store.  The star buttons and
    the inputs are the events of [form_event]. *)

From S2P Require Import Prelude Remote Schema Reviews Tmdb Watchlist Collections Discover.

(** ** State *)

Record ReviewForm : Type := MkReviewForm {
  form_rating : Z;
  hoverRating : Z;
  form_reviewText : string;
  form_watchedDate : string;
  form_hoursPlayed : string;
  form_platform : string
}.

(** The [useState] initial values. *)
Definition initial_form : ReviewForm := MkReviewForm 0 0 "" "" "" "".

(** The props the dialog passes to the hooks. *)
Record DialogProps : Type := MkDialogProps {
  dp_itemType : MediaType;
  dp_itemId : Z;
  dp_itemTitle : string;
  dp_itemPoster : option string
}.

(** ** The effect loading the existing review *)

(** [existingReview.c || '']: a string column, [''] for null. *)
Definition str_field (r : row) (c : string) : string :=
  match r !! c with Some (JStr s) => s | _ => "" end.

(** [existingReview.rating]: a number column ([not null] in the schema). *)
Definition num_field (r : row) (c : string) : Z :=
  match r !! c with Some (JNum z) => z | _ => 0 end.

(** [existingReview.hours_played?.toString() || ''] *)
Definition hours_field (r : row) : string :=
  match r !! "hours_played" with Some (JNum z) => js_number_string z | _ => "" end.

(** The effect on [existingReview], [itemType] and [open]: the review's
    values, the game fields only for a game (otherwise they keep what
    they held), or the reset of every field but the hovered star. *)
Definition load_effect (existingReview : option row) (it : MediaType) (f : ReviewForm) : ReviewForm :=
  match existingReview with
  | Some r =>
      let hp := if bool_decide (it = Game) then hours_field r else form_hoursPlayed f in
      let pf := if bool_decide (it = Game) then str_field r "platform" else form_platform f in
      MkReviewForm (num_field r "rating") (hoverRating f) (str_field r "review_text") (str_field r "watched_date") hp pf
  | None => MkReviewForm 0 (hoverRating f) "" "" "" ""
  end.

(** ** The form's inputs *)

Inductive form_event : Type :=
  | ClickStar (star : Z)
  | HoverStar (star : Z)
  | LeaveStar
  | SetWatchedDate (s : string)
  | SetHoursPlayed (s : string)
  | SetPlatform (s : string)
  | SetReviewText (s : string).

(** The ten star buttons. *)
Definition stars : list Z := [1; 2; 3; 4; 5; 6; 7; 8; 9; 10]%Z.

Definition form_step (f : ReviewForm) (ev : form_event) : ReviewForm :=
  match ev with
  | ClickStar s => MkReviewForm s (hoverRating f) (form_reviewText f) (form_watchedDate f) (form_hoursPlayed f) (form_platform f)
  | HoverStar s => MkReviewForm (form_rating f) s (form_reviewText f) (form_watchedDate f) (form_hoursPlayed f) (form_platform f)
  | LeaveStar => MkReviewForm (form_rating f) 0 (form_reviewText f) (form_watchedDate f) (form_hoursPlayed f) (form_platform f)
  | SetWatchedDate s => MkReviewForm (form_rating f) (hoverRating f) (form_reviewText f) s (form_hoursPlayed f) (form_platform f)
  | SetHoursPlayed s => MkReviewForm (form_rating f) (hoverRating f) (form_reviewText f) (form_watchedDate f) s (form_platform f)
  | SetPlatform s => MkReviewForm (form_rating f) (hoverRating f) (form_reviewText f) (form_watchedDate f) (form_hoursPlayed f) s
  | SetReviewText s => MkReviewForm (form_rating f) (hoverRating f) s (form_watchedDate f) (form_hoursPlayed f) (form_platform f)
  end.

(** The events the page can produce: a star is one of the ten buttons. *)
Definition event_ok (ev : form_event) : Prop :=
  match ev with ClickStar s | HoverStar s => s ∈ stars | _ => True end.

(** [star <= (hoverRating || rating)]: the star is drawn filled. *)
Definition star_filled (f : ReviewForm) (star : Z) : bool :=
  (star <=? (if Z.eqb (hoverRating f) 0 then form_rating f else hoverRating f))%Z.

(** ** Labels *)

Definition getTypeLabel (language : string) (it : MediaType) : string :=
  match it with
  | Movie => if String.eqb language "pl" then "filmu" else "movie"
  | Series => if String.eqb language "pl" then "serialu" else "series"
  | Game => if String.eqb language "pl" then "gry" else "game"
  end.

(** The label of the save button. *)
Definition submit_label (language : string) (isPending : bool) (existingReview : option row) : string :=
  if isPending then (if String.eqb language "pl" then "Zapisywanie..." else "Saving...")
  else if bool_decide (is_Some existingReview) then (if String.eqb language "pl" then "Zaktualizuj" else "Update")
  else if String.eqb language "pl" then "Zapisz" else "Save".

(** ** Handlers *)

(** [s || undefined] on a string. *)
Definition nonempty (s : string) : option string := if String.eqb s "" then None else Some s.

(** The argument of [mutateAsync]: [reviewText.trim() || undefined],
    [hoursPlayed ? parseInt(hoursPlayed) : undefined] (a [NaN] of
    [parseInt] is [None] too: [reviewPayload] turns both into [null]). *)
Definition form_review_data (p : DialogProps) (f : ReviewForm) : ReviewData :=
  MkReviewData (dp_itemType p) (dp_itemId p) (dp_itemTitle p) (dp_itemPoster p) (form_rating f)
    (nonempty (js_trim (form_reviewText f))) (nonempty (form_watchedDate f))
    (if String.eqb (form_hoursPlayed f) "" then None else parseInt (form_hoursPlayed f))
    (nonempty (form_platform f)).

Inductive dialog_toast : Type :=
  | ToastSelectRating | ToastSaved | ToastSaveFailed | ToastDeleted | ToastDeleteFailed.

Section dialog.
Context (cfg : store_config) (user : option nat) (p : DialogProps).

(** [handleSubmit]: the toast, whether [onOpenChange(false)] closed the
    dialog, and the store. *)
Definition handleSubmit (f : ReviewForm) (d : db) : dialog_toast * bool * db :=
  if Z.eqb (form_rating f) 0 then (ToastSelectRating, false, d)
  else match useAddOrUpdateReview_mutationFn cfg user (form_review_data p f) d with
       | (Ok _, d') => (ToastSaved, true, d')
       | (Err _, d') => (ToastSaveFailed, false, d')
       end.

(** [handleDelete] *)
Definition handleDelete (d : db) : dialog_toast * bool * db :=
  match useDeleteReview_mutationFn cfg user (dp_itemType p) (dp_itemId p) d with
  | (Ok _, d') => (ToastDeleted, true, d')
  | (Err _, d') => (ToastDeleteFailed, false, d')
  end.
End dialog.

(** ** Facts *)

Lemma payload_form_fields uid rd :
  reviewPayload uid rd !! "rating" = Some (JNum (rating rd)) /\
  reviewPayload uid rd !! "review_text" = Some (or_null_str (reviewText rd)) /\
  reviewPayload uid rd !! "watched_date" = Some (or_null_str (watchedDate rd)).
Proof. unfold reviewPayload. destruct (itemType rd); vm_compute; repeat split. Qed.

(** A string saved as [s || undefined], then [|| null], reads back as [s]. *)
Lemma str_field_nonempty (r : row) c s : r !! c = Some (or_null_str (nonempty s)) -> str_field r c = s.
Proof.
  unfold str_field, nonempty. intros ->. destruct (String.eqb_spec s "") as [->|Hs]; [reflexivity|].
  cbn. by rewrite (proj2 (String.eqb_neq s "") Hs).
Qed.

Lemma handleSubmit_saved cfg user p f d d' :
  handleSubmit cfg user p f d = (ToastSaved, true, d') ->
  exists r, useAddOrUpdateReview_mutationFn cfg user (form_review_data p f) d = (Ok r, d').
Proof. unfold handleSubmit. repeat case_match; intros Hs; simplify_eq; eauto. Qed.

Section dialog_facts.
Context (uniq : string -> list (list string)).
Let cfg := popstack_cfg uniq.

(** C32 Saving a review from the dialog is a round trip: when every
    (owner, media id) has at most one review and ids are distinct, a
    save that shows "Saved" and closes the dialog is followed, when the
    dialog opens again, by a [useUserReview] that returns the saved row,
    and the load effect puts back the chosen rating, the trimmed text
    and the date, whatever the form held before. *)
Theorem dialog_save_reopen uid (p : DialogProps) (f g : ReviewForm) (d d' : db) :
  review_inv d (dp_itemType p) ->
  handleSubmit cfg (Some uid) p f d = (ToastSaved, true, d') ->
  exists x, useUserReview_queryFn cfg (Some uid) (dp_itemType p) (dp_itemId p) d' = (Ok (Some x), d') /\
    form_rating (load_effect (Some x) (dp_itemType p) g) = form_rating f /\
    form_reviewText (load_effect (Some x) (dp_itemType p) g) = js_trim (form_reviewText f) /\
    form_watchedDate (load_effect (Some x) (dp_itemType p) g) = form_watchedDate f.
Proof.
  intros Hinv Hs. destruct (handleSubmit_saved cfg (Some uid) p f d d' Hs) as [r Hr].
  destruct (add_or_update_post uniq d uid (form_review_data p f) r d' Hinv Hr) as [_ [x [Hx Hsub]]].
  exists x. split; [exact (user_review_one uniq d' uid _ _ x Hx)|]. cbn [load_effect form_rating form_reviewText form_watchedDate].
  destruct (payload_form_fields uid (form_review_data p f)) as (H1 & H2 & H3).
  apply (lookup_weaken _ _ _ _ H1) in Hsub as Hr1. apply (lookup_weaken _ _ _ _ H2) in Hsub as Hr2.
  apply (lookup_weaken _ _ _ _ H3) in Hsub as Hr3.
  split; [unfold num_field; by rewrite Hr1|]. split; by apply str_field_nonempty.
Qed.

(** C36 The dialog never saves a game review and never saves without a
    rating: without a rating it shows "Please select a rating" and makes
    no request, and for a game (whose payload names [watched_date],
    which [game_reviews] lacks) it shows "Failed to save review"; in both
    cases the dialog stays open and the store is unchanged. *)
Theorem dialog_submit_errors uid (p : DialogProps) (f : ReviewForm) (d : db) :
  (form_rating f = 0%Z -> handleSubmit cfg (Some uid) p f d = (ToastSelectRating, false, d)) /\
  (dp_itemType p = Game -> form_rating f <> 0%Z -> handleSubmit cfg (Some uid) p f d = (ToastSaveFailed, false, d)).
Proof.
  unfold handleSubmit, cfg. split; [intros H; by rewrite H|]. intros Hg Hr.
  rewrite (proj2 (Z.eqb_neq _ _) Hr), (add_or_update_game_run uniq d uid (form_review_data p f) Hg). reflexivity.
Qed.

(** Deleting from the dialog closes it, and when it opens again the
    review is gone and the form is reset. *)
Lemma dialog_delete_reset uid (p : DialogProps) (g : ReviewForm) (d : db) :
  exists d', handleDelete cfg (Some uid) p d = (ToastDeleted, true, d') /\
    useUserReview_queryFn cfg (Some uid) (dp_itemType p) (dp_itemId p) d' = (Ok None, d') /\
    load_effect None (dp_itemType p) g = MkReviewForm 0 (hoverRating g) "" "" "" "".
Proof.
  eexists. unfold handleDelete, cfg. rewrite delete_review_run. split; [reflexivity|]. split; [|reflexivity].
  apply user_review_none, without_key_rows.
Qed.
End dialog_facts.

(** ** Witnesses *)

Definition rdw_props : DialogProps := MkDialogProps Movie 550 "Fight Club" None.
Definition rdw_form : ReviewForm := MkReviewForm 8 0 "  Great film " "2024-05-01" "" "".
Definition rdw_d1 : db := snd (handleSubmit rw_cfg (Some 1) rdw_props rdw_form rw_d0).

Lemma dialog_save_reopen_witness :
  review_inv rw_d0 (dp_itemType rdw_props) /\
  handleSubmit rw_cfg (Some 1) rdw_props rdw_form rw_d0 = (ToastSaved, true, rdw_d1) /\
  exists x, useUserReview_queryFn rw_cfg (Some 1) (dp_itemType rdw_props) (dp_itemId rdw_props) rdw_d1 = (Ok (Some x), rdw_d1) /\
    form_rating (load_effect (Some x) (dp_itemType rdw_props) initial_form) = form_rating rdw_form /\
    form_reviewText (load_effect (Some x) (dp_itemType rdw_props) initial_form) = js_trim (form_reviewText rdw_form) /\
    form_watchedDate (load_effect (Some x) (dp_itemType rdw_props) initial_form) = form_watchedDate rdw_form.
Proof.
  assert (Hinv : review_inv rw_d0 (dp_itemType rdw_props)) by exact rw_d0_inv.
  assert (Hs : handleSubmit rw_cfg (Some 1) rdw_props rdw_form rw_d0 = (ToastSaved, true, rdw_d1)) by (vm_compute; reflexivity).
  split; [exact Hinv|]. split; [exact Hs|].
  exact (dialog_save_reopen no_unique 1 rdw_props rdw_form initial_form rw_d0 rdw_d1 Hinv Hs).
Defined.

Lemma dialog_submit_errors_witness :
  form_rating (MkReviewForm 7 0 "" "" "12" "PC") <> 0%Z /\
  handleSubmit rw_cfg (Some 1) (MkDialogProps Game 3498 "GTA V" None) (MkReviewForm 7 0 "" "" "12" "PC") rw_d0
    = (ToastSaveFailed, false, rw_d0).
Proof.
  assert (Hr : form_rating (MkReviewForm 7 0 "" "" "12" "PC") <> 0%Z) by (cbn; lia).
  split; [exact Hr|].
  exact (proj2 (dialog_submit_errors no_unique 1 (MkDialogProps Game 3498 "GTA V" None) (MkReviewForm 7 0 "" "" "12" "PC") rw_d0)
           eq_refl Hr).
Defined.
