(* ===== verification/Cache.v ===== *)
(** * The react-query cache and the invalidations of the mutations

    Every read hook is a [useQuery({ queryKey, queryFn })]: the cache keeps
    the last result of [queryFn] under [queryKey], and the page shows it.
    Every mutation hook's [onSuccess] calls
    [queryClient.invalidateQueries({ queryKey: p })] for a few prefixes
    [p]; the queries mounted on the page whose key starts with [p] are
    fetched again ([refetchType: 'active'], the default), the others keep
    what they show.  [query_req] lists the read hooks the pages mount, with
    their keys ([qr_key]) and functions ([qr_fn]); [onSuccess_keys] gives
    each mutation of [Typing.hook_call] its prefixes.  A cache is
    [coherent] with a store when every entry shows what its query returns
    on that store; [mutate] runs a hook and its [onSuccess].  Coherence
    is proved page by page for the Discover page (by table-level
    frames), the friends sidebar (by row-level frames: each invalidation
    skips a list whose rows the mutation does not touch) and the Profile
    page.  The pages are modelled in production mode: the demo branches
    read no table. *)

From S2P Require Import Prelude Remote Schema Friends Reviews Watchlist Collections Profile Prefs Typing.

(** ** Query keys *)

(** A part of a key: a string, a value (ids and numbers), or [undefined]. *)
Inductive kpart : Type := KStr (s : string) | KVal (v : jvalue) | KUndef.

#[export] Instance kpart_eq_dec : EqDecision kpart.
Proof. solve_decision. Defined.

Definition query_key := list kpart.

(** [user?.id] *)
Definition kuid (user : option nat) : kpart := match user with Some u => KVal (JUuid u) | None => KUndef end.

(** react-query's partial matching: [p] is a prefix of the key, part by part. *)
Definition key_matches (p k : query_key) : bool := bool_decide (p `prefix_of` k).

Definition matched (ps : list query_key) (k : query_key) : bool := existsb (fun p => key_matches p k) ps.

(** ** The queries the pages mount *)

Inductive query_req : Type :=
  | QWatchlist (user : option nat) (itemType : option MediaType)
  | QIsInWatchlist (user : option nat) (itemType : string) (itemId : Z)
  | QCollections (user : option nat)
  | QCollection (user : option nat) (collectionId : jvalue)
  | QUserReview (user : option nat) (it : MediaType) (itemId : Z)
  | QUserStats (user : option nat)
  | QFavoriteMedia (user : option nat)
  | QProfile (user : option nat)
  | QFriends (user : option nat)
  | QPendingFriendRequests (user : option nat)
  | QSentFriendRequests (user : option nat).

(** [queryKey] of each [useQuery]. *)
Definition qr_key (q : query_req) : query_key :=
  match q with
  | QWatchlist u t => [KStr "watchlist"; kuid u; match t with Some t => KStr (media_name t) | None => KUndef end]
  | QIsInWatchlist u t i => [KStr "watchlist-check"; kuid u; KStr t; KVal (JNum i)]
  | QCollections u => [KStr "collections"; kuid u]
  | QCollection _ c => [KStr "collection"; KVal c]
  | QUserReview u it i => [KStr "userReview"; KStr (media_name it); KVal (JNum i); kuid u]
  | QUserStats u => [KStr "user-stats"; kuid u]
  | QFavoriteMedia u => [KStr "favorite-media"; kuid u]
  | QProfile u => [KStr "profile"; kuid u]
  | QFriends u => [KStr "friends"; kuid u]
  | QPendingFriendRequests u => [KStr "pendingFriendRequests"; kuid u]
  | QSentFriendRequests u => [KStr "sentFriendRequests"; kuid u]
  end.

Definition qr_type (q : query_req) : Type :=
  match q with
  | QWatchlist _ _ => option (list row)
  | QIsInWatchlist _ _ _ => bool
  | QCollections _ => list row
  | QCollection _ _ => option (row * list row)
  | QUserReview _ _ _ => option row
  | QUserStats _ => UserStats
  | QFavoriteMedia _ => list row * list row
  | QProfile _ => row
  | QFriends _ | QPendingFriendRequests _ | QSentFriendRequests _ => list joined
  end.

(** The tables each query reads. *)
Definition qr_reads (q : query_req) : list string :=
  match q with
  | QWatchlist _ _ | QIsInWatchlist _ _ _ => ["watchlist"]
  | QCollections _ | QCollection _ _ => ["collections"; "collection_items"]
  | QUserReview _ it _ => [tableName it]
  | QUserStats _ => ["movie_reviews"; "series_reviews"; "game_reviews"; "watchlist"; "collections"]
  | QFavoriteMedia _ => ["movie_reviews"; "game_reviews"]
  | QProfile _ => ["profiles"]
  | QFriends _ | QPendingFriendRequests _ | QSentFriendRequests _ => ["friendships"; "profiles"]
  end.

(** ** The invalidations of the mutations *)

(** The prefixes each mutation's [onSuccess] invalidates; the Settings
    page's save and [updateStats] as written. *)
Definition onSuccess_keys (h : hook_call) : list query_key :=
  match h with
  | CallSendFriendRequest _ _ => [[KStr "sentFriendRequests"]; [KStr "friends"]]
  | CallAcceptFriendRequest _ => [[KStr "friends"]; [KStr "pendingFriendRequests"]]
  | CallRejectFriendRequest _ => [[KStr "pendingFriendRequests"]]
  | CallRemoveFriend _ => [[KStr "friends"]]
  | CallAddOrUpdateReview _ rd =>
      [[KStr "userReview"; KStr (media_name (itemType rd)); KVal (JNum (itemId rd))]; [KStr "userReviews"]]
  | CallDeleteReview _ it i => [[KStr "userReview"; KStr (media_name it); KVal (JNum i)]; [KStr "userReviews"]]
  | CallMovieAddReview _ _ | CallMovieUpdateReview _ _ | CallMovieDeleteReview _ => [[KStr "movie-reviews"]]
  | CallGameAddReview _ _ | CallGameUpdateReview _ _ | CallGameDeleteReview _ => [[KStr "game-reviews"]]
  | CallAddToWatchlist _ _ | CallRemoveFromWatchlist _ _ _ => [[KStr "watchlist"]; [KStr "watchlist-check"]]
  | CallCreateCollection _ _ _ _ | CallDeleteCollection _ _ => [[KStr "collections"]]
  | CallAddToCollection _ a => [[KStr "collections"]; [KStr "collection"; KVal (ca_collectionId a)]]
  | CallRemoveFromCollection _ c _ => [[KStr "collections"]; [KStr "collection"; KVal c]]
  | CallUpdateProfile _ _ _ => [[KStr "profile"]]
  | CallSaveUsername _ _ => []
  | CallUpdateStats _ _ => [[KStr "user-stats"]]
  end.

(** The tables each mutation may change: the table it writes and, for a
    collection, the items the database deletes with it. *)
Definition hook_writes (h : hook_call) : list string :=
  match h with
  | CallSendFriendRequest _ _ | CallAcceptFriendRequest _ | CallRejectFriendRequest _ | CallRemoveFriend _ => ["friendships"]
  | CallAddOrUpdateReview _ rd => [tableName (itemType rd)]
  | CallDeleteReview _ it _ => [tableName it]
  | CallMovieAddReview _ _ | CallMovieUpdateReview _ _ | CallMovieDeleteReview _ => ["movie_reviews"]
  | CallGameAddReview _ _ | CallGameUpdateReview _ _ | CallGameDeleteReview _ => ["game_reviews"]
  | CallAddToWatchlist _ _ | CallRemoveFromWatchlist _ _ _ => ["watchlist"]
  | CallCreateCollection _ _ _ _ => ["collections"]
  | CallDeleteCollection _ _ => ["collections"; "collection_items"]
  | CallAddToCollection _ _ | CallRemoveFromCollection _ _ _ => ["collection_items"]
  | CallUpdateProfile _ _ _ | CallSaveUsername _ _ => ["profiles"]
  | CallUpdateStats _ _ => ["user_stats"]
  end.

Section cache.
Context (cfg : store_config) (DEMO_MODE : bool)
  (DEMO_WATCHLIST DEMO_COLLECTIONS DEMO_MOVIES DEMO_GAMES : list row) (DEMO_STATS : UserStats).

(** [queryFn] of each [useQuery]. *)
Definition qr_fn (q : query_req) : M db (qr_type q) :=
  match q with
  | QWatchlist u t => useWatchlist_queryFn cfg DEMO_MODE DEMO_WATCHLIST u t
  | QIsInWatchlist u t i => useIsInWatchlist_queryFn cfg u t i
  | QCollections u => useCollections_queryFn cfg DEMO_MODE DEMO_COLLECTIONS u
  | QCollection u c => useCollection_queryFn cfg DEMO_MODE DEMO_COLLECTIONS u c
  | QUserReview u it i => useUserReview_queryFn cfg u it i
  | QUserStats u => useUserStats_queryFn cfg DEMO_MODE DEMO_STATS u
  | QFavoriteMedia u => useFavoriteMedia_queryFn cfg DEMO_MODE DEMO_MOVIES DEMO_GAMES u
  | QProfile u => useProfile_queryFn cfg u
  | QFriends u => useFriends_queryFn cfg u
  | QPendingFriendRequests u => usePendingFriendRequests_queryFn cfg u
  | QSentFriendRequests u => useSentFriendRequests_queryFn cfg u
  end.

(** A cache entry: a mounted query and the result it shows. *)
Record entry : Type := Entry { e_query : query_req; e_data : result (qr_type e_query) }.

Definition cache := list entry.

(** [useQuery] fetching [q] on the store. *)
Definition fetch (q : query_req) (d : db) : entry := Entry q (fst (qr_fn q d)).

Definition coherent (d : db) (c : cache) : Prop := Forall (fun e => fst (qr_fn (e_query e) d) = e_data e) c.

(** [invalidateQueries] for the prefixes [ps]: the matching mounted
    queries are fetched again on the store [d]. *)
Definition invalidate (ps : list query_key) (d : db) (c : cache) : cache :=
  map (fun e => if matched ps (qr_key (e_query e)) then fetch (e_query e) d else e) c.

(** [mutateAsync]: the hook, then [onSuccess] when it returned. *)
Definition mutate (h : hook_call) (c : cache) (d : db) : cache * db :=
  let '(ok, d') := hook_run cfg h d in
  (if ok then invalidate (onSuccess_keys h) d' c else c, d').

(** ** Facts *)

(** Invalidating on the new store keeps a coherent cache coherent when
    every query left alone returns on the new store what it returned on
    the old one. *)
Lemma invalidate_coherent ps (d d' : db) (c : cache) :
  coherent d c ->
  (forall e, In e c -> matched ps (qr_key (e_query e)) = false -> fst (qr_fn (e_query e) d') = fst (qr_fn (e_query e) d)) ->
  coherent d' (invalidate ps d' c).
Proof.
  unfold invalidate, coherent. intros Hc Hs. induction c as [|e c IH]; [constructor|].
  apply Forall_cons in Hc as [He Hc]. cbn [map]. constructor.
  - destruct (matched _ _) eqn:Hm; [reflexivity|]. rewrite <-He. apply Hs; [by left|exact Hm].
  - apply IH; [exact Hc|]. intros e' He'. apply Hs. by right.
Qed.

(** The stores agree on the tables [R]. *)
Definition agree (R : list string) (d d' : db) : Prop := forall t, t ∈ R -> table d t = table d' t.

Ltac agree_rw Hag d :=
  repeat match goal with |- context [table d ?t] => rewrite (Hag t) by set_solver end.

(** A query's result depends only on the tables it reads. *)
Lemma query_frame q d d' : agree (qr_reads q) d d' -> fst (qr_fn q d) = fst (qr_fn q d').
Proof.
  intros Hag. destruct q; cbn [qr_fn qr_reads] in *;
    unfold useWatchlist_queryFn, useIsInWatchlist_queryFn, useCollections_queryFn, useCollection_queryFn,
      useUserReview_queryFn, useUserStats_queryFn, useFavoriteMedia_queryFn, useProfile_queryFn,
      useFriends_queryFn, usePendingFriendRequests_queryFn, useSentFriendRequests_queryFn, load_with_profiles;
    repeat first [ rewrite lift_read_bind | rewrite get_state_bind
                 | progress (unfold select_rows, items_of, with_items_count, user_rows)
                 | progress agree_rw Hag d | progress case_match ];
    reflexivity.
Qed.
End cache.

(** ** The tables a mutation changes *)

Lemma frame_of_preserves {A} (W : list string) (m : M db A) (d : db) :
  (forall d0, preserves (unchanged W d0) m) -> unchanged W d (snd (m d)).
Proof. intros H. apply (H d d). by intros t _. Qed.

Ltac frame_write :=
  intros ? ?; cbn beta; repeat case_match; cbn [snd];
  try lazymatch goal with |- unchanged _ _ (snd ?x) => let E := fresh "E" in destruct x eqn:E; cbn [snd] end;
  first [ match goal with |- unchanged _ _ ?x => is_var x; assumption end
        | eapply insert_row_unchanged_eq; [eassumption|by repeat constructor|assumption]
        | eapply update_rows_unchanged_eq; [eassumption|by repeat constructor|assumption]
        | eapply upsert_row_unchanged_eq; [eassumption|by repeat constructor|assumption]
        | eapply delete_rows_unchanged_eq; [eassumption|by repeat constructor|cbn; by repeat constructor|assumption] ].

Section frames.
Context (uniq : string -> list (list string)).

(** A mutation changes only the tables of [hook_writes]. *)
Lemma hook_frame h (d : db) : unchanged (hook_writes h) d (hook_effect (popstack_cfg uniq) h d).
Proof.
  unfold hook_effect. revert d. destruct h; cbn [hook_run hook_writes]; intros d; rewrite ?outcome_snd; revert d.
  20: { intros d. unfold handleSaveUsername. destruct user as [u|]; [|by intros t _].
        destruct (String.eqb _ _); [by intros t _|].
        destruct (upsert_row _ _ _ _ d) as [r d1] eqn:E.
        destruct (error r); cbn; (eapply upsert_row_unchanged_eq; [exact E|constructor|by intros t _]). }
  all: match goal with |- forall d, unchanged ?W d (snd (?m d)) => intros d; apply (frame_of_preserves W m d); intros d0 end.
  all: unfold useSendFriendRequest_mutationFn, send_check, send_insert, useAcceptFriendRequest_mutationFn,
    useRejectFriendRequest_mutationFn, useRemoveFriend_mutationFn, delete_friendship,
    useAddOrUpdateReview_mutationFn, add_or_update_write, useDeleteReview_mutationFn,
    useMovieReviews_addReview, useMovieReviews_updateReview, useMovieReviews_deleteReview,
    useGameReviews_addReview, useGameReviews_updateReview, useGameReviews_deleteReview,
    table_addReview, table_updateReview, table_deleteReview,
    useAddToWatchlist_mutationFn, useRemoveFromWatchlist_mutationFn,
    useCreateCollection_mutationFn, useDeleteCollection_mutationFn, useAddToCollection_mutationFn,
    useRemoveFromCollection_mutationFn, useUpdateProfile_mutationFn, update_single, insert_single,
    updateStats_mutationFn.
  all: try match goal with it : MediaType |- _ => destruct it end.
  all: preserves_solve.
  all: apply preserves_write; frame_write.
Qed.
End frames.

(** ** Keys and tables *)

(** Two lists of table names share no name. *)
Definition disjointb (R W : list string) : bool := forallb (fun t => negb (existsb (String.eqb t) W)) R.

Lemma disjointb_spec R W t : disjointb R W = true -> t ∈ R -> t ∉ W.
Proof.
  unfold disjointb. rewrite forallb_forall. intros H HR HW.
  apply list_elem_of_In in HR. specialize (H t HR). apply negb_true_iff in H.
  apply list_elem_of_In in HW. assert (Hx : existsb (String.eqb t) W = true) by (apply existsb_exists; exists t; split; [exact HW|apply String.eqb_refl]).
  congruence.
Qed.

(** A key extending one of the prefixes is matched. *)
Lemma matched_app ps p k : p ∈ ps -> matched ps (p ++ k) = true.
Proof.
  intros Hp. unfold matched. apply existsb_exists. exists p. split; [by apply list_elem_of_In|].
  unfold key_matches. apply bool_decide_eq_true_2. by exists k.
Qed.

(** ** Coherence *)

Section coherence.
Context (uniq : string -> list (list string)) (DEMO_MODE : bool)
  (DEMO_WATCHLIST DEMO_COLLECTIONS DEMO_MOVIES DEMO_GAMES : list row) (DEMO_STATS : UserStats).

Local Notation coh := (coherent (popstack_cfg uniq) DEMO_MODE DEMO_WATCHLIST DEMO_COLLECTIONS DEMO_MOVIES DEMO_GAMES DEMO_STATS).
Local Notation mut := (mutate (popstack_cfg uniq) DEMO_MODE DEMO_WATCHLIST DEMO_COLLECTIONS DEMO_MOVIES DEMO_GAMES DEMO_STATS).

(** The general frame rule of the invalidations: when a mutation
    succeeds, every mounted query either is fetched again because its
    key starts with one of the prefixes of [onSuccess], or reads no
    table the mutation changes, and so still shows what it would fetch
    from the new store. *)
Lemma mutation_keeps_cache_coherent (h : hook_call) (c : cache) (d : db) :
  coh d c ->
  (forall e, In e c -> matched (onSuccess_keys h) (qr_key (e_query e)) = false ->
     forall t, t ∈ qr_reads (e_query e) -> t ∉ hook_writes h) ->
  fst (hook_run (popstack_cfg uniq) h d) = true ->
  coh (hook_effect (popstack_cfg uniq) h d) (fst (mut h c d)).
Proof.
  intros Hc Hs Hok. pose proof (hook_frame uniq h d) as Hfr. unfold mutate, hook_effect in *.
  destruct (hook_run _ h d) as [ok d'] eqn:E. cbn in Hok, Hfr |- *. subst ok.
  eapply invalidate_coherent; [exact Hc|]. intros e He Hm. apply query_frame.
  intros t Ht. exact (Hfr t (Hs e He Hm t Ht)).
Qed.
End coherence.

(** ** The Discover page *)

(** The queries the Discover page mounts for the signed-in user: the
    bookmark check of each card, the collections of the add-to-collection
    dialog and, while the review dialog is open on [rev], its review. *)
Definition discover_query (user : option nat) (rev : option (MediaType * Z)) (q : query_req) : Prop :=
  match q with
  | QIsInWatchlist u _ _ | QCollections u => u = user
  | QUserReview u it i => u = user /\ rev = Some (it, i)
  | _ => False
  end.

(** The mutations of the page: the bookmark, the dialog adding to a
    collection, and the review dialog's save and delete. *)
Definition discover_mutation (user : option nat) (rev : option (MediaType * Z)) (h : hook_call) : Prop :=
  match h with
  | CallAddToWatchlist u _ | CallRemoveFromWatchlist u _ _ | CallAddToCollection u _ => u = user
  | CallAddOrUpdateReview u rd => u = user /\ rev = Some (itemType rd, itemId rd)
  | CallDeleteReview u it i => u = user /\ rev = Some (it, i)
  | _ => False
  end.

Section discover_page.
Context (uniq : string -> list (list string)) (DEMO_MODE : bool)
  (DEMO_WATCHLIST DEMO_COLLECTIONS DEMO_MOVIES DEMO_GAMES : list row) (DEMO_STATS : UserStats).

Local Notation coh := (coherent (popstack_cfg uniq) DEMO_MODE DEMO_WATCHLIST DEMO_COLLECTIONS DEMO_MOVIES DEMO_GAMES DEMO_STATS).
Local Notation mut := (mutate (popstack_cfg uniq) DEMO_MODE DEMO_WATCHLIST DEMO_COLLECTIONS DEMO_MOVIES DEMO_GAMES DEMO_STATS).

(** C21 On the Discover page the cache never shows stale data after the
    page's own mutations: after a successful bookmark, add to a
    collection, or save or delete in the review dialog, every query the
    page has mounted shows what it would fetch from the new store. *)
Theorem discover_page_coherent (user : option nat) (rev : option (MediaType * Z)) (h : hook_call) (c : cache) (d : db) :
  coh d c -> Forall (fun e => discover_query user rev (e_query e)) c -> discover_mutation user rev h ->
  fst (hook_run (popstack_cfg uniq) h d) = true ->
  coh (hook_effect (popstack_cfg uniq) h d) (fst (mut h c d)).
Proof.
  intros Hc Hq Hh Hok. apply mutation_keeps_cache_coherent; [exact Hc| |exact Hok].
  intros e He Hm t Ht. rewrite List.Forall_forall in Hq. pose proof (Hq e He) as Hqe.
  destruct (e_query e) as [| | | |u it i| | | | | |]; cbn in Hqe; try contradiction;
    destruct h; cbn in Hh; try contradiction.
  all: try (exfalso; vm_compute in Hm; discriminate).
  all: try (refine (disjointb_spec _ _ t _ Ht); cbn [qr_reads hook_writes];
      repeat match goal with |- context [tableName ?x] =>
        lazymatch x with Movie => fail | Series => fail | Game => fail | _ => destruct x end end; reflexivity).
  all: exfalso; destruct Hqe as [_ H1], Hh as [_ H2]; rewrite H2 in H1; injection H1 as E1 E2; subst;
    match type of Hm with matched ?ps (qr_key (QUserReview ?u ?it ?i)) = false =>
      assert (Hm' : matched ps ([KStr "userReview"; KStr (media_name it); KVal (JNum i)] ++ [kuid u]) = true)
        by (apply matched_app; cbn [onSuccess_keys]; by repeat constructor) end;
    cbn [qr_key app] in Hm, Hm'; congruence.
Qed.
End discover_page.

(** ** The Profile page *)

(** The queries pages/Profile.tsx mounts for the signed-in user: its
    statistics, its favourite movies and games, and its profile. *)
Definition profile_page_query (user : option nat) (q : query_req) : Prop :=
  match q with
  | QUserStats u | QFavoriteMedia u | QProfile u => u = user
  | _ => False
  end.

(** The page's one mutation: the edit dialog's save. *)
Definition profile_page_mutation (user : option nat) (h : hook_call) : Prop :=
  match h with
  | CallUpdateProfile u _ _ => u = user
  | _ => False
  end.

Section profile_page.
Context (uniq : string -> list (list string)) (DEMO_MODE : bool)
  (DEMO_WATCHLIST DEMO_COLLECTIONS DEMO_MOVIES DEMO_GAMES : list row) (DEMO_STATS : UserStats).

Local Notation coh := (coherent (popstack_cfg uniq) DEMO_MODE DEMO_WATCHLIST DEMO_COLLECTIONS DEMO_MOVIES DEMO_GAMES DEMO_STATS).
Local Notation mut := (mutate (popstack_cfg uniq) DEMO_MODE DEMO_WATCHLIST DEMO_COLLECTIONS DEMO_MOVIES DEMO_GAMES DEMO_STATS).

(** C15 On the Profile page the cache shows no stale data after the
    edit dialog's save: [useUpdateProfile] invalidates ['profile'],
    which refetches the profile, and writes only [profiles], which the
    statistics and the favourites do not read. *)
Theorem profile_page_coherent (user : option nat) (h : hook_call) (c : cache) (d : db) :
  coh d c -> Forall (fun e => profile_page_query user (e_query e)) c -> profile_page_mutation user h ->
  fst (hook_run (popstack_cfg uniq) h d) = true ->
  coh (hook_effect (popstack_cfg uniq) h d) (fst (mut h c d)).
Proof.
  intros Hc Hq Hh Hok. apply mutation_keeps_cache_coherent; [exact Hc| |exact Hok].
  intros e He Hm t Ht. rewrite List.Forall_forall in Hq. pose proof (Hq e He) as Hqe.
  destruct (e_query e); cbn in Hqe; try contradiction; destruct h; cbn in Hh; try contradiction.
  all: try (exfalso; vm_compute in Hm; discriminate).
  all: refine (disjointb_spec _ _ t _ Ht); reflexivity.
Qed.
End profile_page.

(** ** The friends sidebar *)

(** The queries FriendsSidebar.tsx mounts for the signed-in user [u]:
    its friends, the requests it received and the requests it sent. *)
Definition sidebar_query (u : nat) (q : query_req) : Prop :=
  match q with
  | QFriends v | QPendingFriendRequests v | QSentFriendRequests v => v = Some u
  | _ => False
  end.

(** A request [u] received: pending, addressed to [u], from someone else. *)
Definition incoming_request (u : nat) (r : row) : Prop :=
  r !! "friend_id" = Some (JUuid u) /\ r !! "status" = Some (JStr "pending") /\ r !! "user_id" <> Some (JUuid u).

(** The sidebar's mutations on the store [d] it shows: accept and reject
    of a request of the received list, remove of a friendship of the
    friends list, and a request to a search result, which is never the
    user (the search excludes it). *)
Definition sidebar_mutation (u : nat) (d : db) (h : hook_call) : Prop :=
  match h with
  | CallAcceptFriendRequest i | CallRejectFriendRequest i =>
      forall r, In r (table d F) -> r !! "id" = Some (JUuid i) -> incoming_request u r
  | CallRemoveFriend i =>
      forall r, In r (table d F) -> r !! "id" = Some (JUuid i) -> r !! "status" = Some (JStr "accepted")
  | CallSendFriendRequest v f => v = Some u /\ f <> u
  | _ => False
  end.

Ltac row_false c v :=
  apply (matches_all_feq_false _ c v); [simpl; tauto | rewrite ?lookup_union_r by reflexivity; congruence].

Section friends_sidebar.
Context (uniq : string -> list (list string)).
Local Notation cfg := (popstack_cfg uniq).

(** A list hook reads the same when the store keeps the friendships it
    selects and the profiles. *)
Lemma load_frame fs key (d d' : db) :
  List.filter (matches_all fs) (table d' F) = List.filter (matches_all fs) (table d F) ->
  table d' "profiles" = table d "profiles" ->
  fst (load_with_profiles cfg fs key d') = fst (load_with_profiles cfg fs key d).
Proof.
  intros Hf Hp. unfold load_with_profiles. rewrite !lift_read_bind.
  rewrite (select_rows_known cfg d' F friendships_schema), (select_rows_known cfg d F friendships_schema) by reflexivity.
  rewrite Hf. unfold resp_ok. cbn [error data default id]. rewrite map_project_none.
  destruct (List.filter (matches_all fs) (table d F)) as [|f0 fs']; [reflexivity|].
  cbv beta iota. rewrite !lift_read_bind.
  rewrite (select_rows_known cfg d' "profiles" profiles_schema), (select_rows_known cfg d "profiles" profiles_schema) by reflexivity.
  rewrite Hp. reflexivity.
Qed.

Lemma id_filter i (x : row) : matches_all [FEq "id" (JUuid i)] x = true -> x !! "id" = Some (JUuid i).
Proof. rewrite matches_all_one. intros H. by apply feq_spec in H as [-> _]. Qed.

(** Accepting request [i] changes only the rows of id [i]. *)
Lemma accept_frame i (d : db) fs key :
  (forall x, In x (table d F) -> x !! "id" = Some (JUuid i) ->
     matches_all fs (accepted_patch ∪ x) = false /\ matches_all fs x = false) ->
  fst (load_with_profiles cfg fs key (snd (useAcceptFriendRequest_mutationFn cfg i d))) =
  fst (load_with_profiles cfg fs key d).
Proof.
  intros H. unfold useAcceptFriendRequest_mutationFn. rewrite lift_write_bind.
  destruct (update_rows _ F _ _ d) as [r d1] eqn:E. cbn [fst snd].
  assert (Hs : snd (match error r with Some e => throw e | None => mret None end d1 : result (option (list row)) * db) = d1)
    by (by destruct (error r)).
  rewrite Hs. apply load_frame.
  all: destruct (update_rows_cases _ _ _ _ _ _ _ E) as [[-> _]|[_ [Ht Ho]]]; [done|].
  - rewrite Ht. apply filter_map_if. intros x Hx Hq. apply H; [exact Hx|by apply id_filter].
  - apply Ho. discriminate.
Qed.

(** Rejecting a request or removing a friend deletes only the rows of
    id [i]. *)
Lemma delete_frame i (d : db) fs key :
  (forall x, In x (table d F) -> x !! "id" = Some (JUuid i) -> matches_all fs x = false) ->
  fst (load_with_profiles cfg fs key (snd (delete_friendship cfg i d))) = fst (load_with_profiles cfg fs key d).
Proof.
  intros H. unfold delete_friendship. rewrite lift_write_bind.
  destruct (delete_rows _ F _ d) as [r d1] eqn:E. cbn [fst snd].
  assert (Hs : snd (match error r with Some e => throw e | None => mret (data r) end d1 : result (option unit) * db) = d1)
    by (by destruct (error r)).
  rewrite Hs. apply load_frame.
  all: destruct (delete_rows_cases cfg F _ _ _ _ eq_refl E) as [[-> _]|[_ [Ht Ho]]]; [done|].
  - rewrite Ht. apply filter_remove_disjoint. intros x Hx Hq. apply H; [exact Hx|by apply id_filter].
  - apply Ho. discriminate.
Qed.

Lemma send_check_state u f (d : db) : snd (send_check cfg u f d) = d.
Proof. unfold send_check. rewrite lift_read_bind. repeat case_match; reflexivity. Qed.

(** A request from [u] to [f] adds at most one row, a row of the pair. *)
Lemma send_frame u f (d : db) fs key :
  (forall x, links x u f -> matches_all fs x = false) ->
  fst (load_with_profiles cfg fs key (snd (useSendFriendRequest_mutationFn cfg (Some u) f d))) =
  fst (load_with_profiles cfg fs key d).
Proof.
  intros H. cbn [useSendFriendRequest_mutationFn]. pose proof (send_check_state u f d) as Hs.
  destruct (send_check _ u f d) as [[[]|e] d1] eqn:Ec; cbn [snd] in Hs; subst d1.
  - rewrite (bind_ok_run _ _ _ _ _ Ec). destruct (send_insert _ u f d) as [x d'] eqn:Ei. cbn [snd].
    destruct (send_insert_cases uniq d u f x d' Ei) as [[-> _]|[_ [r [Ht [Hl [_ Ho]]]]]]; [done|].
    apply load_frame; [rewrite Ht; apply filter_snoc_false, H, Hl|apply Ho; discriminate].
  - by rewrite (bind_err_run _ _ _ _ _ Ec).
Qed.

Context (DEMO_MODE : bool) (DEMO_WATCHLIST DEMO_COLLECTIONS DEMO_MOVIES DEMO_GAMES : list row)
  (DEMO_STATS : UserStats).

Local Notation coh := (coherent cfg DEMO_MODE DEMO_WATCHLIST DEMO_COLLECTIONS DEMO_MOVIES DEMO_GAMES DEMO_STATS).
Local Notation mut := (mutate cfg DEMO_MODE DEMO_WATCHLIST DEMO_COLLECTIONS DEMO_MOVIES DEMO_GAMES DEMO_STATS).

(** C17 The friends sidebar never shows a stale list after its own
    mutations, although each [onSuccess] invalidates only one or two of
    its three lists and the lists are not refetched on mount or focus
    ([staleTime] of five minutes): after a successful accept or reject
    of a received request, removal of a friend, or request to a search
    result, each of the friends, received and sent lists shows what it
    would fetch from the new store. *)
Theorem sidebar_cache_coherent (u : nat) (h : hook_call) (c : cache) (d : db) :
  coh d c -> Forall (fun e => sidebar_query u (e_query e)) c -> sidebar_mutation u d h ->
  fst (hook_run cfg h d) = true ->
  coh (hook_effect cfg h d) (fst (mut h c d)).
Proof.
  intros Hc Hq Hh Hok. unfold mutate, hook_effect in *.
  destruct (hook_run _ h d) as [ok d'] eqn:E. cbn in Hok |- *. subst ok.
  eapply invalidate_coherent; [exact Hc|]. intros e He Hm.
  rewrite List.Forall_forall in Hq. pose proof (Hq e He) as Hqe.
  assert (Hd' : d' = snd (hook_run cfg h d)) by (by rewrite E). rewrite Hd'. clear E Hd'.
  destruct (e_query e) as [| | | | | | | |v|v|v]; cbn in Hqe; try contradiction; subst v;
    destruct h; cbn in Hh; try contradiction; try (vm_compute in Hm; discriminate);
    cbn [hook_run qr_fn useFriends_queryFn usePendingFriendRequests_queryFn useSentFriendRequests_queryFn];
    rewrite outcome_snd.
  all: unfold useRejectFriendRequest_mutationFn, useRemoveFriend_mutationFn.
  all: lazymatch goal with
    | |- context [useAcceptFriendRequest_mutationFn] =>
        apply accept_frame; intros x Hx Hid; destruct (Hh x Hx Hid) as (Hf & Hs & Hu); split
    | |- context [useSendFriendRequest_mutationFn] =>
        destruct Hh as [-> Hne]; apply send_frame; intros x [Hu Hf]
    | |- context [delete_friendship] =>
        apply delete_frame; intros x Hx Hid; pose proof (Hh x Hx Hid) as Hx'; try destruct Hx' as (Hf & Hs & Hu)
    end.
  all: first [ row_false "user_id" (JUuid u) | row_false "status" (JStr "accepted")
             | row_false "status" (JStr "pending") | row_false "friend_id" (JUuid u) ].
Qed.
End friends_sidebar.

(** ** Witnesses *)

Definition cw_stats : UserStats := MkUserStats 0 0 0 0 0 0 0 0.
Definition cw_fetch (q : query_req) : entry := fetch rw_cfg false [] [] [] [] cw_stats q rw_d0.
Definition cw_cache : cache :=
  map cw_fetch [QIsInWatchlist (Some 1) (media_name Movie) 550; QCollections (Some 1); QUserReview (Some 1) Movie 550].
(** What an [isInWatchlist] entry shows. *)
Definition cw_shows (e : entry) : option bool :=
  match e with
  | Entry q r =>
      match q as q0 return result (qr_type q0) -> option bool with
      | QIsInWatchlist _ _ _ => fun r => match r with Ok b => Some b | Err _ => None end
      | _ => fun _ => None
      end r
  end.
Definition cw_add : WatchlistAdd := MkWatchlistAdd Movie 550 "Fight Club" None None.

Lemma mutation_keeps_cache_coherent_witness :
  let h := CallCreateCollection (Some 1) "Favourites" None None in
  coherent rw_cfg false [] [] [] [] cw_stats (hook_effect rw_cfg h rw_d0)
    (fst (mutate rw_cfg false [] [] [] [] cw_stats h cw_cache rw_d0)).
Proof.
  intros h. apply (mutation_keeps_cache_coherent no_unique).
  - repeat constructor.
  - intros e He Hm t Ht. cbn in He.
    destruct He as [<-|[<-|[<-|[]]]]; [| vm_compute in Hm; discriminate |];
      refine (disjointb_spec _ _ t _ Ht); reflexivity.
  - vm_compute. reflexivity.
Defined.

Lemma discover_page_coherent_witness :
  let h := CallAddToWatchlist (Some 1) cw_add in
  let c' := fst (mutate rw_cfg false [] [] [] [] cw_stats h cw_cache rw_d0) in
  coherent rw_cfg false [] [] [] [] cw_stats (hook_effect rw_cfg h rw_d0) c' /\
  map cw_shows cw_cache = [Some false; None; None] /\ map cw_shows c' = [Some true; None; None].
Proof.
  intros h c'. split.
  - apply (discover_page_coherent no_unique false [] [] [] [] cw_stats (Some 1) (Some (Movie, 550%Z))).
    + repeat constructor.
    + repeat constructor.
    + reflexivity.
    + vm_compute. reflexivity.
  - split; vm_compute; reflexivity.
Defined.

Definition sw_cache : cache :=
  map (fun q => fetch rw_cfg false [] [] [] [] cw_stats q w_d1')
    [QFriends (Some 1); QPendingFriendRequests (Some 1); QSentFriendRequests (Some 1)].

Lemma sidebar_cache_coherent_witness :
  sidebar_mutation 1 w_d1' (CallAcceptFriendRequest 10) /\
  coherent rw_cfg false [] [] [] [] cw_stats (hook_effect rw_cfg (CallAcceptFriendRequest 10) w_d1')
    (fst (mutate rw_cfg false [] [] [] [] cw_stats (CallAcceptFriendRequest 10) sw_cache w_d1')).
Proof.
  assert (Hm : sidebar_mutation 1 w_d1' (CallAcceptFriendRequest 10)).
  { intros r Hr Hid. vm_compute in Hr. destruct Hr as [<-|[]]. vm_compute.
    split; [reflexivity|split; [reflexivity|discriminate]]. }
  split; [exact Hm|].
  apply (sidebar_cache_coherent no_unique false [] [] [] [] cw_stats 1);
    [repeat constructor|repeat constructor|exact Hm|vm_compute; reflexivity].
Defined.

Lemma profile_page_coherent_witness :
  let h := CallUpdateProfile (Some 1) (Some "neo") None in
  let c := map cw_fetch [QUserStats (Some 1); QFavoriteMedia (Some 1); QProfile (Some 1)] in
  coherent rw_cfg false [] [] [] [] cw_stats (hook_effect rw_cfg h rw_d0)
    (fst (mutate rw_cfg false [] [] [] [] cw_stats h c rw_d0)).
Proof.
  intros h c. apply (profile_page_coherent no_unique false [] [] [] [] cw_stats (Some 1));
    [repeat constructor|repeat constructor|reflexivity|vm_compute; reflexivity].
Defined.
